(* ===== verification/_CoqProject ===== *)
-Q . S2P
Prelude.v
Sorting.v
Models.v
Presets.v
Schemas.v
Utils.v
FilterEngine.v
Classifier.v
Gemini.v
Cache.v
FocusEngine.v
ModesRouter.v
YouTube.v
Platform.v
Pipeline.v
Feed.v
Personalization.v
Analytics.v
Suggestions.v
DemoData.v
FeedDemo.v
Auth.v
Transport.v
Isolation.v
Confinement.v
Routes.v
Responses.v
App.v
Noninterference.v
