(* ===== verification/Prelude.v ===== *)
(** * FocusTube: a verification development for the backend
    (src/backend/app)

    ** The program

    FocusTube filters video metadata against the "focus mode" a user has
    active.  A signed-in user (routers/auth.py) keeps focus modes
    (routers/modes.py), one of them active and possibly locked
    (services/focus_engine.py).  A feed (routers/feed.py) asks the platform
    for videos (services/youtube_service.py), scores each one through a
    cache of 24 hours (services/ai_classifier.py) and keeps the ones the
    policy of the active mode admits (services/filter_engine.py); when the
    platform fails it serves demonstration videos
    (services/demo_data.py).  What the user watches and says is recorded
    (routers/analytics.py) and read by the re-ranker
    (services/personalization.py).  The files of this development, in the
    order they build, and the code each models:

    - [Prelude] (this file): the Python values the code computes with.
      Strings are byte strings ([string], the UTF-8 encoding of a Python
      [str]); [lower], [upper], [isupper] act on ASCII letters; [contains]
      is Python's [needle in haystack]; scores are IEEE binary64 numbers
      (Rocq's primitive [float], the format of a Python [float]) with
      Python's [max] and [min]; integers are [Z]; a dictionary read
      [d.get(k, default)] is the three-valued [field] (key missing, value
      [None], value present); exceptions are the values of [exn] carried by
      [result], with the bind of stdpp.  [fmt2f] is [format(x, ".2f")];
      [scalar_one_or_none] is the query of one row, with the lemmas on
      queries by a unique column.
    - [Sorting]: Python's stable [sorted] and [list.sort] with a key and
      [reverse], over an order given by the interface [StrictWeakOrder].
    - [Models]: the rows and payloads: [VideoClassification] of
      schemas/video.py with its validation, [FocusMode] of
      models/focus_mode.py, [ContentCache] of models/content_cache.py with
      [is_expired], [FilterRule], [WatchHistory], [UserFeedback], and the
      dictionary [Video] that services/youtube_service.py produces.
    - [Presets]: the table [PRESET_MODES] of routers/modes.py and the row a
      preset is seeded as.
    - [Schemas]: the request bodies of schemas/mode.py with the constraints
      of their fields ([create_valid], [update_valid], [lock_valid],
      [rule_valid]) and what a body does to a row ([created_mode],
      [apply_update]).
    - [Utils]: [format_duration] and [truncate_text] of utils/__init__.py.
    - [FilterEngine]: services/filter_engine.py: [check_video] as the
      sequence of its eight checks, each returning the blocked verdict of
      the code or passing on, and [get_filter_summary].
    - [Classifier]: services/ai_classifier.py: the keyword tables, the
      cascade [_fallback_classification] one stage per [if] of the code, and
      [_classify_with_ai], where the answer of the external model is an
      input ([ai_outcome]).
    - [Gemini]: the text side of [_classify_with_ai]: the template
      [CLASSIFICATION_PROMPT] as written and [str.format] on it, the cuts of
      the description, the tags and the transcript, and the answer stripped
      and taken out of its code fence ([str.strip], [str.split]) before it
      is decoded.  The call of the model and [json.loads] are parameters.
    - [Cache]: the cache of services/ai_classifier.py: [_get_cached] and
      [_cache_result] over a [gmap] keyed by video id, the interface
      [CacheGateway] they implement, and [classify_video] written against
      the interface.
    - [FocusEngine]: services/focus_engine.py: every method of the class
      over the table of modes (a list of rows) as a function returning a
      result and the table as committed; the requests a session is made of
      as a step relation, and its reachable tables.
    - [ModesRouter]: the handlers of routers/modes.py in [Module Router],
      over the tables focus_modes and filter_rules ([Db]), with the commit
      and rollback of database.py [get_db]; a step relation over requests.
      The handlers repeat the logic of [FocusEngine] inline, as the code
      does; the refinement theorems relate the two.
    - [YouTube]: [_parse_duration], [_is_short] and [_format_video] of
      services/youtube_service.py on the items of an answer of the platform.
    - [Platform]: the requests of services/youtube_service.py
      ([search_videos], [_get_videos_details], [get_recommended_videos],
      [get_channel_videos], [get_video_details]) over the two endpoints of
      the platform, which are parameters: an endpoint answers with a page,
      with the dictionary of an error, or raises.
    - [Pipeline]: [check_filter] of routers/filter.py, which composes the
      parts above, and the scenarios of the specification evaluated through
      it.
    - [Feed]: [get_feed], [search_feed] and [get_video] of routers/feed.py
      with the schemas of their answers; the loop of the endpoints is
      [collect] over the judgement of one video ([judge] through the
      classifier and the filter, [demo_judge] through the quick checks).
    - [Personalization]: services/personalization.py: the statistics of
      the history and the feedback of 30 days, the preferences drawn from
      them and the ranking by them.
    - [Analytics]: the five handlers of routers/analytics.py over the
      tables watch_history and user_feedback, with schemas/feedback.py.
    - [Suggestions]: [get_suggestions] of routers/suggestions.py.
    - [DemoData]: the table [DEMO_VIDEOS], [get_demo_videos] and
      [generate_dynamic_videos] of services/demo_data.py over the interface
      [Random] of the generator of random numbers.
    - [FeedDemo]: [get_feed] run over [DemoData], as the router runs it.
    - [Auth]: routers/auth.py with models/user.py, schemas/auth.py and
      config.py: the token of [create_access_token], the dependency
      [get_current_user], the logins [google_callback] and [demo_login]
      over the table of users, and the logins as a step relation.  The
      signing library and the identifiers are the interfaces [Jwt] and
      [Uuids]; the two requests of the OAuth exchange are parameters.
    - [Transport]: [_make_request] and [get_transcript] of
      services/youtube_service.py over the HTTP library and the transcript
      library, which are parameters: a request gives a status and the JSON
      of a body, or raises.  The endpoints [Platform] and [Feed] take as
      parameters are [_make_request] on the names [search] and [videos].
    - [Isolation]: what a user can reach of the tables ([modes_view],
      [analytics_view]) and the frame lemmas of the three kinds of edit the
      handlers make (a row appended, rows deleted, rows rewritten in
      place).
    - [Confinement]: the slice of the tables that holds the rows of one
      user ([own_db], [own_tables]), the equivalence of having the same
      slice, and what it is for a handler to be [confined] to a slice.
      These are notions of the specification, not of the code.
    - [Routes]: the route table of main.py: the routes of each router in
      the order of their decorators (method, path, status code, handler),
      [include_router] under the prefixes of main.py, and the resolution of
      a request to the first route whose template and method match.
    - [Responses]: the response models of schemas/mode.py and
      schemas/feedback.py a row is printed through, and the request bodies
      [SearchRequest] and [FilterCheckRequest] of schemas/video.py.
    - [App]: main.py with database.py: the application as one state
      machine over the tables of all the routers ([World]).  [dispatch]
      serves the health check and the public routes of authentication, and
      runs [get_current_user] before every other handler ([serve_call]);
      [init_world] is [init_db]; [api_step] is one request served.
    - [Noninterference]: what a user observes of a world (the view of
      [App] and the shared cache), and two runs of the application side by
      side ([session_step]): a call of the user served in both, or a call
      or a login of another served in one.

    ** What is proved

    - [Prelude]: [contains] is substring search, sound and complete; case
      folding is idempotent and keeps lengths; [clamp01] lands in [0,1] for
      every binary64 input, NaN and infinities included; a query by a
      unique column finds at most one row.
    - [Sorting]: the sort returns a sorted, stable permutation; its first
      [n] elements are the [n] smallest.
    - [Schemas]: rows created or updated from valid bodies stay within the
      declared bounds; an update never touches the session columns.
    - [FilterEngine]: [check_video] meets its specification [check_spec]
      (each verdict under its guard, in the order of the code); a verdict is
      blocked with a reason or passed without; the shorts check comes before
      the duration check; it returns on every input whose fields are
      present and raises [TypeError] on a [None] duration; an empty
      allow-list rejects nothing and a missing language never blocks.
    - [Classifier]: the scores of every classification lie in [0,1] and the
      category in the output set; the priority of the stages; the clickbait
      levels; the keywords an earlier stage shadows never decide; a failed
      model call falls back to the heuristic.
    - [Gemini]: [split] and [join] are a round trip; [format] in one pass
      returns what reading the template and then filling it returns; the
      prompt is built exactly when the description and the tags are not
      [None], and is bounded in the description and the transcript; a
      fenced answer is decoded from the body of its block; the text-level
      [classify_with_model] refines [_classify_with_ai].
    - [Cache]: write then read returns the classification; a row is served
      for 24 hours and not after; a hit returns the stored classification
      and writes nothing; [classify_video] keeps the cache well formed.
    - [FocusEngine]: the invariant [table_ok] (keys distinct, at most one
      active mode per user, a locked mode is active and has a deadline)
      holds of every reachable table, so the one-row queries never meet two
      rows; each method on each branch, errors included; a lock blocks
      switching until its deadline and is cleared at the first request
      after it; the accounting of the daily limit.
    - [ModesRouter]: the invariant [db_ok] (the table of modes is
      [table_ok] and within the schemas' bounds, every rule points at a
      mode that exists) holds after every sequence of
      requests; the handler [activate_mode] computes what
      [FocusEngine.activate_mode] computes; deleting and seeding; the rules
      of a mode are returned by priority, a stable sort.
    - [YouTube]: [_parse_duration] reads back every duration printed in
      the ISO form of the platform; [_is_short]; the dictionary
      [_format_video] builds.
    - [Platform]: what each request returns on each answer of the
      endpoints; an error of the details request is not seen, and an error
      of the popular videos is an empty page.
    - [Pipeline]: asking twice within 24 hours gives the same answer and
      writes nothing; an item without a channel title makes the endpoint
      raise; the scenarios.
    - [Feed]: every item of a feed is a video the filter admits under the
      active mode, in the order of the platform, at most [max_results] of
      them; the answer is well typed; the demonstration feed is the first
      admitted videos of its pool and depends on four fields of the mode
      only; the errors (no active mode, platform down) on every branch;
      [get_video] agrees with [check_filter]; the cache stays well formed.
    - [Personalization]: the preferred categories are the three most
      completed, the avoided ones the three most skipped and the disliked;
      the ranking is a stable permutation by descending score.
    - [Analytics]: the invariant [tables_ok] over every sequence of
      writes; the statistics agree with the rows and with
      [FocusEngine.check_time_limit]; the pages of the history.
    - [Suggestions]: the answer is made of distinct suggestions that hold
      the query, sorted by relevance, and no suggestion left out is more
      relevant than one returned.
    - [DemoData]: what [get_demo_videos] and [generate_dynamic_videos]
      return, for every generator; the categories with title templates.
    - [FeedDemo]: with the platform down [get_feed] always answers; the
      feed is full when the allowed categories have templates and empty
      when none has.
    - [Auth]: the token a login hands out is accepted for its lifetime and
      refused a second after it; every failure of [get_current_user] is
      the same 401; the invariant [users_ok] (identifiers, addresses and
      Google identifiers unique) holds of every reachable table; the demo
      login is idempotent; an address taken by another account fails the
      callback.
    - [Transport]: [_make_request] answers a status other than 200 with
      the dictionary of an error and lets the exceptions of the transport
      through; the message of an error of the platform never reaches the
      client of [search_feed], which is always told "Unknown error";
      [get_transcript] joins the lines of the library or gives [None].
    - [Isolation]: a request of one user to the modes router or to the
      analytics router leaves the view of every other user as it was.
    - [Confinement]: every handler of the two routers, run on the slice of
      its user, answers as on the whole tables and leaves the slice it
      leaves there (for the handlers that insert: on a well-formed database
      and with fresh identifiers); the handlers that read are [Proper] for
      the equivalence.
    - [Routes]: no route is shadowed by an earlier one: a path made from
      the template of a route resolves to that route, whatever the values
      of its parameters; each handler is registered once.
    - [Responses]: the response of a mode holds every column the filter
      reads: two modes printed alike are filtered alike.
    - [App]: the invariant [world_ok] (the invariants of the four tables
      and the foreign keys on the table of users) holds of every world
      reachable from [init_world]; a request without a valid token
      answers 401 and writes nothing; the token of a login is accepted by
      every route for its lifetime; a request of one user leaves what
      every other user can reach as it was.
    - [Noninterference]: in two well-formed worlds a user observes alike,
      every call of the user is answered alike and leaves worlds observed
      alike ([dispatch_noninterference]); over two runs in which the user
      makes the same calls and the others call and log in as they please, the user
      reaches the same rows at the end ([sessions_noninterfere]).  The
      cache of classifications is shared by the users, so it is part of
      what a user observes: the answers of the feed and of the filter are
      decided by the rows of the user and by the cache.

    ** Bounds

    - [str.format] is modelled for fields that hold a name only, and
      [str.split] for a separator that is not empty; [str.strip] strips the
      ASCII white space.
    - Text is exact for ASCII input.  Python's [str.lower] also folds
      non-ASCII cased letters, and [len] and slicing count code points where
      the model counts bytes; on ASCII text the two agree.
    - Time is an integer count of microseconds (a naive UTC [datetime]);
      every call reads the clock once, at the instant [now] it is given.  A
      date is the number of its day.
    - A table is the list of its rows in insertion order, the order the
      queries without ORDER BY are taken to return.  The primary key of a
      new row comes from a generator of identifiers that the step relation
      requires to be fresh, as uuid4 is taken to be.
    - A raised exception leaves the tables as last committed.
    - An update body can set [name], [description] and
      [daily_time_limit_minutes] to null; the other columns take a value or
      are left alone.
    - A Python dictionary is the association list of its items in the
      order of insertion; the order in which a Python set is listed is a
      parameter.
    - The parser of ISO dates of [_format_video], the reader of integers
      [int(text)] and the text of an exception are parameters of the
      sections that use them.
    - [Analytics.minutes_agree] compares [int(seconds / 60)] through
      binary64 with the integer quotient by evaluation, for every number of
      seconds below [checked_seconds] (262144, three days of watching).
    - Fuel is used in one place: [digits_fuel] prints a natural number
      with fuel one more than its binary logarithm, which exceeds the
      number of its decimal digits ([YouTube.str_N_spec] proves the text is
      the number).  Every other function is structurally recursive on the
      list or string it reads.

    ** Not modelled

    The engine and the session factory of database.py, of which the
    commit and rollback discipline of [get_db] and the creation of the
    tables by [init_db] are modelled; the CORS middleware, the
    documentation routes and the redirection of a path with a trailing
    slash, which the framework adds to the application of main.py; the
    server of its last lines.  The HTTP library behind [_make_request],
    the OAuth requests, the signing of tokens, the transcript library and
    the call of the external model in [_classify_with_ai] are libraries the
    sources only call: their answers are inputs or interfaces with laws.
    A login of the user is not a step of the two runs of
    [Noninterference]: what it answers depends on the addresses the other
    accounts hold, through the unique column.  The
    column [preferences] of [User] is read by no handler, and neither are
    the columns [created_at] and [updated_at] of a mode, which the row of
    [Models] leaves out; the [__repr__] methods of the models print rows
    for a debugger. *)

From Stdlib Require Import ZArith String Ascii List Floats.
From stdpp Require Import base option list strings.

Set Warnings "-inexact-float".

Declare Scope py_scope.
Delimit Scope py_scope with py.

(** ** Exceptions and results *)

(** The exceptions the modelled code raises, by their Python class.
    [ModeLocked] is the [ValueError] (the router's 403) whose message names
    the locked mode and the instant its lock ends; the two are kept as data
    instead of being printed into the message. *)
Inductive exn : Type :=
| AttributeError
| TypeError
| KeyError (key : string)
| ValueError (msg : string)
| IndexError
| MultipleResultsFound
| IntegrityError
| ValidationError
| ModeLocked (name : string) (lock_until : Z)
| HTTPException (status_code : Z) (detail : string).

(** A computation that returns or raises. *)
Inductive result (A : Type) : Type :=
| Ok (a : A)
| Raise (e : exn).
Arguments Ok {A} a.
Arguments Raise {A} e.

#[export] Instance exn_eq_dec : EqDecision exn.
Proof. solve_decision. Defined.

#[export] Instance result_ret : MRet result := λ A a, Ok a.
#[export] Instance result_bind : MBind result :=
  λ A B f m, match m with Ok a => f a | Raise e => Raise e end.
#[export] Instance result_fmap : FMap result :=
  λ A B f m, match m with Ok a => Ok (f a) | Raise e => Raise e end.

Definition is_ok {A} (r : result A) : bool :=
  match r with Ok _ => true | Raise _ => false end.

(** ** Dictionary fields *)

(** The value under a key of a Python dictionary: the key is missing, it
    holds [None], or it holds a value of the expected type. *)
Inductive field (A : Type) : Type :=
| Missing
| Null
| Val (a : A).
Arguments Missing {A}.
Arguments Null {A}.
Arguments Val {A} a.

(** [d.get(k, default)]: the default replaces a missing key only; a stored
    [None] is returned as it is ([None] here). *)
Definition get {A} (f : field A) (default : A) : option A :=
  match f with
  | Missing => Some default
  | Null => None
  | Val a => Some a
  end.

(** [d.get(k)]: [None] for a missing key too. *)
Definition get_none {A} (f : field A) : option A :=
  match f with Val a => Some a | _ => None end.

(** [d[k]]: a missing key raises [KeyError]. *)
Definition getitem {A} (key : string) (f : field A) : result (option A) :=
  match f with
  | Missing => Raise (KeyError key)
  | Null => Ok None
  | Val a => Ok (Some a)
  end.

(** Using [None] where a method or an operator needs a value. *)
Definition need {A} (e : exn) (o : option A) : result A :=
  match o with Some a => Ok a | None => Raise e end.

(** ** Text *)

(** [c.isupper()] on an ASCII letter. *)
Definition isupper (c : ascii) : bool :=
  let n := N_of_ascii c in (65 <=? n)%N && (n <=? 90)%N.

(** [c.islower()] on an ASCII letter. *)
Definition islower (c : ascii) : bool :=
  let n := N_of_ascii c in (97 <=? n)%N && (n <=? 122)%N.

Definition lower_ascii (c : ascii) : ascii :=
  if isupper c then ascii_of_N (N_of_ascii c + 32) else c.

Definition upper_ascii (c : ascii) : ascii :=
  if islower c then ascii_of_N (N_of_ascii c - 32) else c.

Fixpoint map_string (f : ascii → ascii) (s : string) : string :=
  match s with
  | EmptyString => EmptyString
  | String c s' => String (f c) (map_string f s')
  end.

(** [s.lower()] and [s.upper()]. *)
Definition lower (s : string) : string := map_string lower_ascii s.
Definition upper (s : string) : string := map_string upper_ascii s.

(** [needle in haystack] on strings. *)
Fixpoint contains (needle haystack : string) : bool :=
  String.prefix needle haystack ||
  match haystack with
  | EmptyString => false
  | String _ rest => contains needle rest
  end.

Notation "a 'in_str' b" := (contains a b) (at level 70, no associativity) : py_scope.

(** [s[:n]]. *)
Fixpoint take_str (n : nat) (s : string) : string :=
  match n, s with
  | O, _ => EmptyString
  | S n', String c s' => String c (take_str n' s')
  | S _, EmptyString => EmptyString
  end.

Arguments take_str : simpl never.

(** [sep.join(l)]. *)
Fixpoint join (sep : string) (l : list string) : string :=
  match l with
  | [] => EmptyString
  | [x] => x
  | x :: rest => x +:+ sep +:+ join sep rest
  end.

(** [sum(1 for c in s if p(c))]. *)
Fixpoint count_chars (p : ascii → bool) (s : string) : nat :=
  match s with
  | EmptyString => O
  | String c s' => (if p c then 1 else 0) + count_chars p s'
  end.

(** The string of the given bytes, for text that is not ASCII. *)
Definition bytes (l : list N) : string :=
  fold_right (λ n s, String (ascii_of_N n) s) EmptyString l.

(** [x in l] on a list of strings. *)
Definition in_list (x : string) (l : list string) : bool :=
  existsb (String.eqb x) l.

(** [x in l] for a value that may be [None], which no list of strings
    holds. *)
Definition option_in (x : option string) (l : list string) : bool :=
  match x with Some s => in_list s l | None => false end.

(** The first element that satisfies [p]: the element a [for ... break]
    loop stops at. *)
Definition first_match {A} (p : A → bool) (l : list A) : option A := List.find p l.

(** [result.scalar_one_or_none()]: the only row of a query, [None] when there
    is none, an exception when there are several. *)
Definition scalar_one_or_none {A} (rows : list A) : result (option A) :=
  match rows with
  | [] => Ok None
  | [row] => Ok (Some row)
  | _ => Raise MultipleResultsFound
  end.

(** A query that finds at most one row. *)
Definition at_most_one {A} (l : list A) : Prop := (length l ≤ 1)%nat.

(** ** Integers as text *)

Fixpoint digits_fuel (fuel : nat) (n : N) (acc : string) : string :=
  match fuel with
  | O => acc
  | S fuel' =>
      let d := String (ascii_of_N (48 + n mod 10)) acc in
      if (n <? 10)%N then d else digits_fuel fuel' (n / 10) d
  end.

(** [str(n)] for a natural number: its decimal digits. *)
Definition str_N (n : N) : string := digits_fuel (S (N.to_nat (N.log2 n))) n EmptyString.

(** [str(z)] for an integer. *)
Definition str_Z (z : Z) : string :=
  match z with
  | Z0 => "0"
  | Zpos p => str_N (Npos p)
  | Zneg p => "-" +:+ str_N (Npos p)
  end.

(** ** Scores: binary64 numbers *)

(** Python's [max(a, b)]: the first argument unless the second is greater. *)
Definition py_max (a b : float) : float := if PrimFloat.ltb a b then b else a.

(** Python's [min(a, b)]: the first argument unless the second is smaller. *)
Definition py_min (a b : float) : float := if PrimFloat.ltb b a then b else a.

(** [min(1.0, max(0.0, x))]. *)
Definition clamp01 (x : float) : float := py_min 1 (py_max 0 x).

(** A score of the closed unit interval. *)
Definition unit_score (x : float) : bool := PrimFloat.leb 0 x && PrimFloat.leb x 1.

(** [float(n)] for a small natural number (exact below 2^53). *)
Definition float_of_nat (n : nat) : float :=
  PrimFloat.of_uint63 (Uint63.of_Z (Z.of_nat n)).

(** [float(z)] for an integer (exact below 2^53 in absolute value). *)
Definition float_of_Z (z : Z) : float :=
  match z with
  | Z0 => 0%float
  | Zpos _ => PrimFloat.of_uint63 (Uint63.of_Z z)
  | Zneg p => PrimFloat.opp (PrimFloat.of_uint63 (Uint63.of_Z (Zpos p)))
  end.

(** [a / b] on integers: the true division, a float. *)
Definition py_truediv (a b : Z) : float := (float_of_Z a / float_of_Z b)%float.

(** [int(x)]: the truncation towards zero; NaN and the infinities have
    none ([int] raises). *)
Definition py_int (x : float) : option Z :=
  match Prim2SF x with
  | S754_zero _ => Some 0%Z
  | S754_finite s m e =>
      let v := if (0 <=? e)%Z then Z.shiftl (Zpos m) e else Z.shiftr (Zpos m) (- e) in
      Some (if s then (- v)%Z else v)
  | _ => None
  end.

(** [p] holds of every integer from [0] up to [n], checked one by one. *)
Definition all_below (n : N) (p : Z → bool) : bool :=
  snd (N.iter n (λ st, (st.1 + 1, st.2 && p st.1)%Z) (0%Z, true)).

(** ** Scores as text: [format(x, ".2f")] *)

(** The integer nearest to [num / den], ties to even. *)
Definition round_half_even (num : Z) (den : Z) : Z :=
  let q := (num / den)%Z in
  let r := (num mod den)%Z in
  match (2 * r ?= den)%Z with
  | Lt => q
  | Gt => (q + 1)%Z
  | Eq => if Z.even q then q else (q + 1)%Z
  end.

(** The nearest count of hundredths to [m * 2^e]. *)
Definition hundredths (m : positive) (e : Z) : Z :=
  if (0 <=? e)%Z then (Zpos m * 2 ^ e * 100)%Z
  else round_half_even (Zpos m * 100) (2 ^ (- e)).

Definition two_digits (n : Z) : string :=
  if (n <? 10)%Z then "0" +:+ str_Z n else str_Z n.

Definition fmt2f (x : float) : string :=
  match Prim2SF x with
  | S754_nan => "nan"
  | S754_infinity s => if s then "-inf" else "inf"
  | S754_zero s => if s then "-0.00" else "0.00"
  | S754_finite s m e =>
      let h := hundredths m e in
      (if s then "-" else EmptyString) +:+ str_Z (h / 100) +:+ "." +:+ two_digits (h mod 100)
  end.

(** ** Automation *)

Create HintDb py discriminated.
Create Rewrite HintDb py_rw.

(** Destructs the first [if] or [match] scrutinee of the goal. *)
Ltac case_head :=
  match goal with
  | |- context [if ?b then _ else _] => destruct b eqn:?
  | |- context [match ?x with _ => _ end] => destruct x eqn:?
  end.

(** Rewrites with every boolean equation of the context, then computes. *)
Ltac bool_rewrite :=
  repeat match goal with
         | H : ?b = true |- context [?b] => rewrite H
         | H : ?b = false |- context [?b] => rewrite H
         end; simpl.

(** Splits boolean conjunctions and disjunctions of the hypotheses. *)
Ltac bool_hyps :=
  repeat match goal with
         | H : _ && _ = true |- _ => apply andb_true_iff in H; destruct H
         | H : _ || _ = false |- _ => apply orb_false_iff in H; destruct H
         | H : negb _ = true |- _ => apply negb_true_iff in H
         | H : negb _ = false |- _ => apply negb_false_iff in H
         end.

(** A key read with [d.get(k)] holds a value exactly when it is there
    with one. *)
Lemma get_none_is_Some {A} (f : field A) : is_Some (get_none f) → ∃ a, f = Val a.
Proof. destruct f as [| |b]; intros [a Ha]; [done..|by exists b]. Qed.

(** ** Lemmas on results and fields *)

Lemma bind_Ok {A B} (f : A → result B) (a : A) : Ok a ≫= f = f a.
Proof. reflexivity. Qed.

Lemma bind_Raise {A B} (f : A → result B) (e : exn) : Raise e ≫= f = Raise e.
Proof. reflexivity. Qed.

Lemma bind_Ok_inv {A B} (f : A → result B) (m : result A) (b : B) :
  m ≫= f = Ok b → ∃ a, m = Ok a ∧ f a = Ok b.
Proof. destruct m as [a|e]; [eauto | discriminate]. Qed.

(** [Ok] is injective; the lemma keeps [injection] from evaluating the
    values. *)
Lemma Ok_inj {A} (a b : A) : Ok a = Ok b → a = b.
Proof. by intros [= ->]. Qed.

Lemma get_Val {A} (a d : A) : get (Val a) d = Some a.
Proof. reflexivity. Qed.

Lemma get_is_Some {A} (f : field A) (d : A) : f ≠ Null → is_Some (get f d).
Proof. destruct f; simpl; eauto; congruence. Qed.

#[export] Hint Rewrite @bind_Ok @bind_Raise @get_Val : py_rw.

(** ** Lemmas on text *)

Lemma str_app_nil_l (s : string) : EmptyString +:+ s = s.
Proof. reflexivity. Qed.
Lemma str_app_cons (c : ascii) (a b : string) : String c a +:+ b = String c (a +:+ b).
Proof. reflexivity. Qed.
Lemma prefix_nil (s : string) : String.prefix EmptyString s = true.
Proof. by destruct s. Qed.

Lemma prefix_spec (p s : string) :
  String.prefix p s = true ↔ ∃ rest, s = p +:+ rest.
Proof.
  revert s; induction p as [|c p IH]; intros s.
  - rewrite prefix_nil. split; [intros _; by exists s | done].
  - destruct s as [|d s]; simpl.
    { split; [done | by intros [? ?]]. }
    destruct (Ascii.ascii_dec c d) as [->|Hne].
    + rewrite IH. split; intros [r Hr]; exists r; rewrite str_app_cons in *; congruence.
    + split; [done | intros [r Hr]; rewrite str_app_cons in Hr; congruence].
Qed.

Lemma contains_nil (needle : string) :
  contains needle EmptyString = String.prefix needle EmptyString || false.
Proof. reflexivity. Qed.

Lemma contains_cons (needle : string) (c : ascii) (hay : string) :
  contains needle (String c hay) = String.prefix needle (String c hay) || contains needle hay.
Proof. reflexivity. Qed.

Lemma contains_spec (needle hay : string) :
  contains needle hay = true ↔ ∃ pre post, hay = pre +:+ needle +:+ post.
Proof.
  induction hay as [|c hay IH]; rewrite ?contains_nil, ?contains_cons, orb_true_iff, prefix_spec.
  - split.
    + intros [[r Hr]|?]; [|done]. by exists EmptyString, r.
    + intros (pre & post & H). left.
      destruct pre; [by exists post | done].
  - rewrite IH. split.
    + intros [[r Hr]|(pre & post & ->)]; [by exists EmptyString, r|].
      by exists (String c pre), post.
    + intros (pre & post & H). destruct pre as [|d pre].
      * left. by exists post.
      * right. exists pre, post. rewrite str_app_cons in H. congruence.
Qed.

Lemma contains_empty (s : string) : contains EmptyString s = true.
Proof. destruct s; reflexivity. Qed.

Lemma string_app_assoc (a b c : string) : (a +:+ b) +:+ c = a +:+ (b +:+ c).
Proof. induction a; rewrite ?str_app_nil_l, ?str_app_cons; congruence. Qed.

Lemma str_app_nil_r (s : string) : s +:+ EmptyString = s.
Proof. induction s as [|c s IH]; [done|]. by rewrite str_app_cons, IH. Qed.

Lemma str_app_length (a b : string) :
  String.length (a +:+ b) = (String.length a + String.length b)%nat.
Proof.
  induction a as [|c a IH]; [by rewrite str_app_nil_l|].
  rewrite str_app_cons. simpl. by rewrite IH.
Qed.

Lemma contains_app_l (needle a b : string) :
  contains needle a = true → contains needle (a +:+ b) = true.
Proof.
  rewrite !contains_spec. intros (pre & post & ->).
  exists pre, (post +:+ b). by rewrite !string_app_assoc.
Qed.

Lemma contains_app_r (needle a b : string) :
  contains needle b = true → contains needle (a +:+ b) = true.
Proof.
  rewrite !contains_spec. intros (pre & post & ->).
  exists (a +:+ pre), post. by rewrite !string_app_assoc.
Qed.

Lemma lower_ascii_not_upper (c : ascii) : isupper (lower_ascii c) = false.
Proof.
  destruct c as [[] [] [] [] [] [] [] []]; reflexivity.
Qed.

Lemma lower_ascii_idem (c : ascii) : lower_ascii (lower_ascii c) = lower_ascii c.
Proof. unfold lower_ascii at 1. by rewrite lower_ascii_not_upper. Qed.

Lemma lower_idem (s : string) : lower (lower s) = lower s.
Proof.
  unfold lower. induction s as [|c s IH]; simpl; [done|].
  by rewrite lower_ascii_idem, IH.
Qed.

Lemma map_string_length (f : ascii → ascii) (s : string) :
  String.length (map_string f s) = String.length s.
Proof. induction s; simpl; congruence. Qed.

Lemma map_string_app (f : ascii → ascii) (a b : string) :
  map_string f (a +:+ b) = map_string f a +:+ map_string f b.
Proof.
  induction a as [|c a IH]; [done|].
  rewrite str_app_cons. simpl. by rewrite IH.
Qed.

Lemma count_chars_lower (s : string) : count_chars isupper (lower s) = 0.
Proof.
  unfold lower. induction s as [|c s IH]; simpl; [done|].
  by rewrite lower_ascii_not_upper.
Qed.

Lemma count_chars_le (p : ascii → bool) (s : string) :
  count_chars p s ≤ String.length s.
Proof. induction s; simpl; [lia|]. destruct (p a); lia. Qed.

Lemma take_str_length (n : nat) (s : string) :
  String.length (take_str n s) = min n (String.length s).
Proof. revert s; induction n; intros [|c s]; cbv [take_str]; simpl; auto. Qed.

Lemma in_list_In (x : string) (l : list string) : in_list x l = true ↔ In x l.
Proof.
  unfold in_list. rewrite existsb_exists. split.
  - intros (y & Hy & Heq). apply String.eqb_eq in Heq. by subst.
  - intros H. exists x. split; [done | apply String.eqb_refl].
Qed.

Lemma in_list_nil (x : string) : in_list x [] = false.
Proof. reflexivity. Qed.

Lemma first_match_Some {A} (p : A → bool) (l : list A) (x : A) :
  first_match p l = Some x →
  ∃ l1 l2, l = l1 ++ x :: l2 ∧ p x = true ∧ Forall (λ y, p y = false) l1.
Proof.
  unfold first_match. induction l as [|y l IH]; simpl; [done|].
  destruct (p y) eqn:Hy.
  - intros [= ->]. by exists [], l.
  - intros (l1 & l2 & -> & Hx & Hl1)%IH.
    exists (y :: l1), l2. by repeat split; [|constructor].
Qed.

Lemma first_match_None {A} (p : A → bool) (l : list A) :
  first_match p l = None ↔ existsb p l = false.
Proof.
  unfold first_match. induction l as [|y l IH]; simpl; [done|].
  destruct (p y); simpl; [split; discriminate | done].
Qed.

#[export] Hint Resolve contains_empty contains_app_l contains_app_r : py.
#[export] Hint Rewrite lower_idem count_chars_lower in_list_nil : py_rw.

(** ** Checking a range *)

Lemma all_below_iter (n : N) (p : Z → bool) :
  let st := N.iter n (λ st, (st.1 + 1, st.2 && p st.1)%Z) (0%Z, true) in
  st.1 = Z.of_N n ∧ (st.2 = true ↔ ∀ i, (0 ≤ i < Z.of_N n)%Z → p i = true).
Proof.
  induction n as [|n [IH1 IH2]] using N.peano_ind; [split; [done|split; [lia|done]]|].
  rewrite N.iter_succ. cbn zeta in *. cbn [fst snd]. rewrite IH1. split; [lia|].
  rewrite andb_true_iff, IH2. split.
  - intros [Hlt Hn] i Hi. destruct (decide (i = Z.of_N n)) as [->|]; [done|].
    apply Hlt. lia.
  - intros Hall. split; [intros i Hi|]; apply Hall; lia.
Qed.

Lemma all_below_spec (n : N) (p : Z → bool) :
  all_below n p = true → ∀ i, (0 ≤ i < Z.of_N n)%Z → p i = true.
Proof. intros H. by apply (all_below_iter n p). Qed.

(** ** Lemmas on scores *)

Lemma ltb_leb (x y : float) : PrimFloat.ltb x y = true → PrimFloat.leb x y = true.
Proof.
  rewrite ltb_spec, leb_spec. unfold SFltb, SFleb.
  by destruct (SFcompare _ _) as [[]|].
Qed.

Lemma unit_score_intro (x : float) :
  PrimFloat.leb 0 x = true → PrimFloat.leb x 1 = true → unit_score x = true.
Proof. unfold unit_score. by intros -> ->. Qed.

Lemma leb_ltb_false (x y : float) :
  PrimFloat.ltb x y = false → PrimFloat.leb 0 x = true → PrimFloat.leb 0 y = true →
  PrimFloat.leb y x = true.
Proof.
  rewrite !ltb_spec, !leb_spec. unfold SFltb, SFleb.
  replace (Prim2SF 0) with (S754_zero false) by reflexivity.
  destruct (Prim2SF x) as [[]|[]| |[] ? ?], (Prim2SF y) as [[]|[]| |[] ? ?];
    simpl; try done.
  change (PosDef.Pos.compare_cont Eq ?a ?b) with (Pos.compare a b).
  destruct (Z.compare_spec e e0), (Z.compare_spec e0 e); try lia; try done.
  destruct (Pos.compare_spec m m0), (Pos.compare_spec m0 m); try lia; done.
Qed.

(** [clamp01] lands in the unit interval whatever the input: NaN and the
    negative numbers go to [0], numbers above [1] and [+inf] to [1]. *)
Lemma clamp01_unit (x : float) : unit_score (clamp01 x) = true.
Proof.
  unfold clamp01, py_max, py_min.
  destruct (PrimFloat.ltb 0 x) eqn:H0; [|reflexivity].
  destruct (PrimFloat.ltb x 1) eqn:H1; [|reflexivity].
  apply unit_score_intro; by apply ltb_leb.
Qed.

Lemma clamp01_fix (x : float) : unit_score x = true → clamp01 (clamp01 x) = clamp01 x.
Proof.
  intros _. unfold clamp01, py_max, py_min.
  destruct (PrimFloat.ltb 0 x) eqn:H0; [|reflexivity].
  destruct (PrimFloat.ltb x 1) eqn:H1; [|reflexivity].
  by rewrite H0, H1.
Qed.

#[export] Hint Resolve clamp01_unit ltb_leb : py.

Lemma contains_trans (a b c : string) :
  contains a b = true → contains b c = true → contains a c = true.
Proof.
  rewrite !contains_spec. intros (p1 & q1 & ->) (p2 & q2 & ->).
  exists (p2 +:+ p1), (q1 +:+ q2). by rewrite !string_app_assoc.
Qed.

Lemma contains_refl (s : string) : contains s s = true.
Proof.
  apply contains_spec. exists EmptyString, EmptyString.
  rewrite str_app_nil_l. induction s as [|c s IH]; [done|].
  rewrite str_app_cons. congruence.
Qed.

#[export] Hint Resolve contains_refl : py.

Lemma scalar_one_or_none_Ok {A} (rows : list A) :
  length rows ≤ 1 → ∃ o, scalar_one_or_none rows = Ok o ∧ rows = option_list o.
Proof.
  destruct rows as [|x [|y rows]]; simpl; intros Hl.
  - by exists None.
  - by exists (Some x).
  - lia.
Qed.

Lemma scalar_one_or_none_inv {A} (rows : list A) (o : option A) :
  scalar_one_or_none rows = Ok o → rows = option_list o.
Proof. destruct rows as [|x [|y rows]]; simpl; intros [= <-]; done. Qed.

(** ** Lemmas on queries *)

(** Rows of a table with a unique column are equal when they agree on
    it. *)
Lemma NoDup_key_inj {A K} (key : A → K) (l : list A) x y :
  List.NoDup (map key l) → In x l → In y l → key x = key y → x = y.
Proof.
  induction l as [|a l IH]; simpl; [done|].
  intros [Hn Hnd]%List.NoDup_cons_iff [->|H1] [->|H2] Hk; auto.
  - destruct Hn. rewrite Hk. by apply in_map.
  - destruct Hn. rewrite <- Hk. by apply in_map.
Qed.

(** A query whose rows are all the same row returns at most one row. *)
Lemma filter_at_most_one {A} (p : A → bool) (l : list A) :
  List.NoDup l → (∀ x y, In x l → In y l → p x = true → p y = true → x = y) →
  at_most_one (List.filter p l).
Proof.
  unfold at_most_one. induction l as [|a l IH]; simpl; [lia|].
  intros [Ha Hnd]%List.NoDup_cons_iff Huniq.
  assert (length (List.filter p l) ≤ 1)%nat as Hl by (apply IH; auto).
  destruct (p a) eqn:Hpa; [|done]. simpl.
  destruct (List.filter p l) as [|b rest] eqn:Hf; [simpl; lia|].
  assert (In b (List.filter p l)) as [Hb Hpb]%filter_In by (rewrite Hf; by left).
  destruct Ha. rewrite (Huniq a b) by auto. done.
Qed.

Lemma query_one {A} (p : A → bool) (l : list A) :
  at_most_one (List.filter p l) →
  ∃ o, scalar_one_or_none (List.filter p l) = Ok o ∧
       ∀ x, o = Some x ↔ In x l ∧ p x = true.
Proof.
  intros (o & Ho & Hrows)%scalar_one_or_none_Ok. exists o. split; [done|].
  intros x. rewrite <- filter_In, Hrows. destruct o; simpl; naive_solver.
Qed.

(** A query on a unique column finds at most one row. *)
Lemma unique_at_most_one {A K} (key : A → K) (p : A → bool) (l : list A) :
  List.NoDup (map key l) → (∀ x y, p x = true → p y = true → key x = key y) →
  at_most_one (List.filter p l).
Proof.
  intros Hnd Hp. apply filter_at_most_one; [by eapply NoDup_map_inv|].
  intros x y Hx Hy Hpx Hpy. eapply NoDup_key_inj; eauto.
Qed.
