(* ===== verification/Sorting.v ===== *)
(** * Sorting: Python's [sorted] and [list.sort]

    [sorted(l, key=k, reverse=r)] compares keys with [<] only and is stable:
    elements whose keys do not differ keep the order they had in [l], also
    with [reverse=True].  The model is the stable insertion sort [sort_by];
    every stable sort returns the same list as soon as [<] is a strict weak
    order on the keys that occur, which is what [StrictWeakOrder] states.
    The laws proved here are the ones the components use: the result is a
    permutation of the input, sorted, and stable; a sorted list is left as
    it is; the first [n] elements of the result are the [n] smallest. *)

From Stdlib Require Import ZArith List Sorted Permutation Floats.
From stdpp Require Import base option list sorting.
From S2P Require Import Prelude.

Set Warnings "-inexact-float".

(** ** The sort *)

Section SortBy.
Context {A K : Type} (lt : K → K → bool) (key : A → K).

(** [x] goes after the elements of smaller key and before the others: it
    came before them in the input. *)
Fixpoint insert_by (x : A) (sorted : list A) : list A :=
  match sorted with
  | [] => [x]
  | y :: rest => if lt (key y) (key x) then y :: insert_by x rest else x :: sorted
  end.

Definition sort_by (l : list A) : list A := fold_right insert_by [] l.

(** [a] may come before [b] in the result: [b]'s key is not smaller. *)
Definition in_order (a b : A) : Prop := lt (key b) (key a) = false.

(** The predicate [p] selects keys that do not differ. *)
Definition ties (p : A → bool) : Prop :=
  ∀ x y, p x = true → p y = true → lt (key x) (key y) = false.

(** The keys of the list are keys of [dom]. *)
Definition keys_in (dom : K → Prop) (l : list A) : Prop := Forall (λ a, dom (key a)) l.

End SortBy.

(** [sorted(l, key=key, reverse=reverse)]. *)
Definition py_sorted {A K} (lt : K → K → bool) (key : A → K) (reverse : bool)
    (l : list A) : list A :=
  sort_by (if reverse then flip lt else lt) key l.

(** ** Orders on keys *)

(** [<] is a strict weak order on the keys of [dom]: asymmetric, and not
    being smaller is transitive through a key of [dom]. *)
Class StrictWeakOrder {K : Type} (dom : K → Prop) (lt : K → K → bool) : Prop := {
  lt_asym x y : lt x y = true → lt y x = false;
  lt_negtrans x y z : dom y → lt x y = false → lt y z = false → lt x z = false;
}.

(** Every key. *)
Definition any_key {K : Type} (k : K) : Prop := True.

(** [<] on tuples of two: the first components decide unless they are
    equal. *)
Definition lex_lt {K1 K2} (eqb1 : K1 → K1 → bool) (lt1 : K1 → K1 → bool)
    (lt2 : K2 → K2 → bool) (a b : K1 * K2) : bool :=
  if eqb1 a.1 b.1 then lt2 a.2 b.2 else lt1 a.1 b.1.

(** A float that is a number. *)
Definition is_number (x : float) : bool := PrimFloat.eqb x x.

(** The place of a number in the order of the floats: its class (the
    infinities, the negative numbers, zero, the positive numbers), then its
    exponent and its mantissa, negated for a negative number. *)
Definition rank (f : spec_float) : Z * Z * Z :=
  match f with
  | S754_infinity true => (-2, 0, 0)
  | S754_finite true m e => (-1, - e, - Z.pos m)
  | S754_zero _ | S754_nan => (0, 0, 0)
  | S754_finite false m e => (1, e, Z.pos m)
  | S754_infinity false => (2, 0, 0)
  end%Z.

(** The lexicographic order of the ranks. *)
Definition rank_lt (a b : Z * Z * Z) : Prop :=
  (a.1.1 < b.1.1 ∨ a.1.1 = b.1.1 ∧ (a.1.2 < b.1.2 ∨ a.1.2 = b.1.2 ∧ a.2 < b.2))%Z.

(** * Theorems *)

#[export] Instance Z_ltb_order : StrictWeakOrder any_key Z.ltb.
Proof. split; intros *; rewrite ?Z.ltb_lt, ?Z.ltb_ge; unfold any_key; lia. Qed.

#[export] Instance nat_ltb_order : StrictWeakOrder any_key Nat.ltb.
Proof. split; intros *; rewrite ?Nat.ltb_lt, ?Nat.ltb_ge; unfold any_key; lia. Qed.

#[export] Instance flip_order {K} dom (lt : K → K → bool) `{!StrictWeakOrder dom lt} :
  StrictWeakOrder dom (flip lt).
Proof.
  split; unfold flip; intros x y.
  - apply lt_asym.
  - intros z Hy Hxy Hyz. by apply (lt_negtrans z y x).
Qed.

#[export] Instance lex_Z_nat_order :
  StrictWeakOrder any_key (lex_lt Z.eqb Z.ltb Nat.ltb).
Proof.
  split; unfold lex_lt; intros [a1 a2] [b1 b2]; [|intros [c1 c2] _]; simpl;
    repeat match goal with
           | |- context [Z.eqb ?a ?b] => destruct (Z.eqb_spec a b)
           end; rewrite ?Z.ltb_lt, ?Z.ltb_ge, ?Nat.ltb_lt, ?Nat.ltb_ge; lia.
Qed.

(** A sorted list stays sorted when it is cut, and when the relation is
    weakened. *)
Lemma StronglySorted_take {A} (R : A → A → Prop) n l :
  StronglySorted R l → StronglySorted R (take n l).
Proof.
  intros Hs. rewrite <- (take_drop n l) in Hs. by apply StronglySorted_app_1_l in Hs.
Qed.

Lemma StronglySorted_impl {A} (R Q : A → A → Prop) l :
  (∀ x y, R x y → Q x y) → StronglySorted R l → StronglySorted Q l.
Proof.
  intros HRQ. induction 1 as [|x l _ IH Hx]; constructor; [done|].
  eapply Forall_impl; [done|]. intros y. apply HRQ.
Qed.

Section SortByLaws.
Context {A K : Type} (lt : K → K → bool) (key : A → K).

Local Abbreviation insert_by := (insert_by lt key) (only parsing).
Local Abbreviation sort_by := (sort_by lt key) (only parsing).
Local Abbreviation in_order := (in_order lt key) (only parsing).
Local Abbreviation ties := (ties lt key) (only parsing).

Lemma sort_by_cons x l : sort_by (x :: l) = insert_by x (sort_by l).
Proof. done. Qed.

Lemma insert_by_Permutation x l : insert_by x l ≡ₚ x :: l.
Proof.
  induction l as [|y l IH]; simpl; [done|].
  destruct (lt (key y) (key x)); [|done]. rewrite IH. apply perm_swap.
Qed.

Lemma sort_by_Permutation l : sort_by l ≡ₚ l.
Proof.
  induction l as [|x l IH]; [done|].
  by rewrite sort_by_cons, insert_by_Permutation, IH.
Qed.

Lemma sort_by_length l : length (sort_by l) = length l.
Proof. by rewrite sort_by_Permutation. Qed.

Lemma sort_by_In x l : In x (sort_by l) ↔ In x l.
Proof. by rewrite <-!list_elem_of_In, sort_by_Permutation. Qed.

Lemma insert_by_filter p x l :
  ties p →
  List.filter p (insert_by x l) = List.filter p (x :: l).
Proof.
  intros Hp. induction l as [|y l IH]; [done|].
  cbn [Sorting.insert_by]. destruct (lt (key y) (key x)) eqn:Hlt; [|done].
  simpl in *. rewrite IH.
  destruct (p x) eqn:Hx, (p y) eqn:Hy; try done.
  by rewrite (Hp y x) in Hlt.
Qed.

(** Stability: the elements a predicate of ties selects come out in the
    order they went in. *)
Lemma sort_by_stable p l : ties p → List.filter p (sort_by l) = List.filter p l.
Proof.
  intros Hp. induction l as [|x l IH]; [done|].
  rewrite sort_by_cons, insert_by_filter by done.
  cbn [List.filter]. by rewrite IH.
Qed.

(** A list that is in order already is left alone. *)
Lemma insert_by_sorted x l : Forall (in_order x) l → insert_by x l = x :: l.
Proof. destruct 1 as [|y l Hy]; simpl; [done|]. by rewrite Hy. Qed.

Lemma sort_by_sorted l : StronglySorted in_order l → sort_by l = l.
Proof.
  induction 1 as [|x l _ IH Hx]; [done|].
  rewrite sort_by_cons, IH. by apply insert_by_sorted.
Qed.

Section Asymmetric.
Hypothesis asym : ∀ x y, lt x y = true → lt y x = false.

Lemma insert_by_HdRel a x l :
  in_order a x → HdRel in_order a l → HdRel in_order a (insert_by x l).
Proof.
  intros Hx [|y l' Hy]; simpl; [by constructor|].
  destruct (lt (key y) (key x)); by constructor.
Qed.

Lemma insert_by_Sorted x l : Sorted in_order l → Sorted in_order (insert_by x l).
Proof.
  induction 1 as [|y l Hs IH Hy]; simpl; [by repeat constructor|].
  destruct (lt (key y) (key x)) eqn:Hlt.
  - constructor; [done|]. apply insert_by_HdRel; [|done]. by apply asym.
  - by repeat constructor.
Qed.

(** Neighbours are in order as soon as [<] is asymmetric. *)
Lemma sort_by_Sorted l : Sorted in_order (sort_by l).
Proof.
  induction l as [|x l IH]; [constructor|].
  rewrite sort_by_cons. by apply insert_by_Sorted.
Qed.

End Asymmetric.

Section Ordered.
Context (dom : K → Prop) `{!StrictWeakOrder dom lt}.

Local Abbreviation keys_in := (keys_in key dom) (only parsing).

Lemma insert_by_StronglySorted x l :
  keys_in l → StronglySorted in_order l → StronglySorted in_order (insert_by x l).
Proof.
  intros Hdom. induction 1 as [|y l Hs IH Hy]; simpl; [by repeat constructor|].
  apply Forall_cons in Hdom as [Hdy Hdom]. destruct (lt (key y) (key x)) eqn:Hlt.
  - constructor; [by apply IH|]. rewrite insert_by_Permutation.
    constructor; [|done]. by apply lt_asym.
  - constructor; [by constructor|]. constructor; [done|].
    eapply Forall_impl; [done|]. intros z Hz. by eapply lt_negtrans.
Qed.

Lemma sort_by_StronglySorted l : keys_in l → StronglySorted in_order (sort_by l).
Proof.
  induction 1 as [|x l Hx Hl IH]; [constructor|].
  rewrite sort_by_cons. apply insert_by_StronglySorted; [|done].
  unfold Sorting.keys_in. by rewrite sort_by_Permutation.
Qed.

Lemma sort_by_idem l : keys_in l → sort_by (sort_by l) = sort_by l.
Proof. intros. by apply sort_by_sorted, sort_by_StronglySorted. Qed.

(** The head of the result: no element of the tail has a smaller key. *)
Lemma sort_by_take_drop n l x y :
  keys_in l →
  In x (take n (sort_by l)) → In y (drop n (sort_by l)) → in_order x y.
Proof.
  intros Hl Hx Hy. pose proof (sort_by_StronglySorted l Hl) as Hs.
  rewrite <-(take_drop n (sort_by l)) in Hs.
  apply list_elem_of_In in Hx, Hy.
  by eapply (StronglySorted_app_1_elem_of in_order).
Qed.

Lemma keys_in_any l : (∀ k, dom k) → keys_in l.
Proof. intros H. apply Forall_forall. intros; apply H. Qed.

End Ordered.

End SortByLaws.

(** ** [sorted] *)

Lemma py_sorted_Permutation {A K} (lt : K → K → bool) (key : A → K) reverse l :
  py_sorted lt key reverse l ≡ₚ l.
Proof. apply sort_by_Permutation. Qed.

Lemma py_sorted_In {A K} (lt : K → K → bool) (key : A → K) reverse l x :
  In x (py_sorted lt key reverse l) ↔ In x l.
Proof. apply sort_by_In. Qed.

Lemma py_sorted_length {A K} (lt : K → K → bool) (key : A → K) reverse l :
  length (py_sorted lt key reverse l) = length l.
Proof. apply sort_by_length. Qed.

(** Sorting in reverse: no element is followed by one of greater key. *)
Lemma py_sorted_reverse_in_order {A K} (lt : K → K → bool) (key : A → K) a b :
  in_order (flip lt) key a b ↔ lt (key a) (key b) = false.
Proof. done. Qed.

(** ** Floats as keys *)

Lemma float_ltb_irrefl (x : float) : PrimFloat.ltb x x = false.
Proof.
  rewrite ltb_spec. unfold SFltb.
  destruct (Prim2SF x) as [[]|[]| |[] m e]; simpl; try done;
    change (PosDef.Pos.compare_cont Eq ?a ?b) with (Pos.compare a b);
    by rewrite Z.compare_refl, ?Pos.compare_refl.
Qed.

Lemma float_ltb_asym (x y : float) :
  PrimFloat.ltb x y = true → PrimFloat.ltb y x = false.
Proof.
  rewrite !ltb_spec. unfold SFltb.
  destruct (Prim2SF x) as [[]|[]| |[] m e], (Prim2SF y) as [[]|[]| |[] m' e'];
    simpl; try done;
    change (PosDef.Pos.compare_cont Eq ?a ?b) with (Pos.compare a b);
    destruct (Z.compare_spec e e'), (Z.compare_spec e' e); try lia; try done;
    destruct (Pos.compare_spec m m'), (Pos.compare_spec m' m); try lia; done.
Qed.

(** [<] on numbers is the order of their ranks. *)
Lemma SFltb_rank (f g : spec_float) :
  f ≠ S754_nan → g ≠ S754_nan → SFltb f g = true ↔ rank_lt (rank f) (rank g).
Proof.
  unfold SFltb, rank_lt.
  destruct f as [[]|[]| |[] m e], g as [[]|[]| |[] m' e']; intros Hf Hg;
    try done; simpl; try (split; [lia|intros; exfalso; lia]);
    change (PosDef.Pos.compare_cont Eq ?a ?b) with (Pos.compare a b);
    repeat lazymatch goal with
           | |- context [Z.compare ?a ?b] => destruct (Z.compare_spec a b)
           | |- context [Pos.compare ?a ?b] => destruct (Pos.compare_spec a b)
           end; simpl; split; try done; lia.
Qed.

Lemma is_number_spec (x : float) : is_number x = true → Prim2SF x ≠ S754_nan.
Proof.
  unfold is_number. rewrite FloatAxioms.eqb_spec. intros H Hn. by rewrite Hn in H.
Qed.

(** Not being smaller is transitive through a number. *)
Lemma float_ltb_negtrans (x y z : float) :
  is_number y = true →
  PrimFloat.ltb x y = false → PrimFloat.ltb y z = false → PrimFloat.ltb x z = false.
Proof.
  intros Hy%is_number_spec. rewrite !ltb_spec.
  destruct (Prim2SF x) as [sx|sx| |sx mx ex] eqn:Hx; [| |done|];
    (destruct (Prim2SF z) as [sz|sz| |sz mz ez] eqn:Hz; [| |by destruct sx|]);
    rewrite <-!not_true_iff_false, !SFltb_rank by done; unfold rank_lt; lia.
Qed.

#[export] Instance float_ltb_order : StrictWeakOrder (λ x, is_number x = true) PrimFloat.ltb.
Proof. split; [apply float_ltb_asym|intros x y z; apply float_ltb_negtrans]. Qed.
