(* ===== verification/Models.v ===== *)
(** * Models: the records the services exchange

    The classification result of schemas/video.py with its validation, the
    dictionary-shaped video payload built by services/youtube_service.py,
    the rows of models/focus_mode.py, models/content_cache.py,
    models/watch_history.py and models/feedback.py with their column
    defaults, and time as the models use it. *)

From Stdlib Require Import ZArith String Ascii List Floats.
From stdpp Require Import base option list strings.
From S2P Require Import Prelude.

Set Warnings "-inexact-float".
Local Open Scope Z_scope.

(** ** Time *)

(** A naive UTC [datetime], in microseconds since the epoch. *)
Definition datetime : Type := Z.

(** [timedelta(hours=h)], [timedelta(minutes=m)] and [timedelta(days=d)]. *)
Definition timedelta_hours (h : Z) : Z := h * 3600 * 1000000.
Definition timedelta_minutes (m : Z) : Z := m * 60 * 1000000.
Definition timedelta_days (d : Z) : Z := d * 86400 * 1000000.

(** [t.replace(hour=0, minute=0, second=0, microsecond=0)]. *)
Definition start_of_day (t : datetime) : datetime := t - t mod timedelta_days 1.

(** An identifier of a row (a UUID in the tables). *)
Definition uuid : Type := Z.

(** ** schemas/video.py: VideoClassification *)

Record VideoClassification : Type := mkVideoClassification {
  category : string;
  confidence_score : float;
  entertainment_score : float;
  depth_score : float;
  clickbait_score : float;
}.

(** The four [Field(ge=0.0, le=1.0)] constraints. *)
Definition scores_valid (c : VideoClassification) : bool :=
  unit_score (confidence_score c) && unit_score (entertainment_score c) &&
  unit_score (depth_score c) && unit_score (clickbait_score c).

(** The constructor call [VideoClassification(category=..., ...)]: the model
    validates its fields and raises on a score outside [0, 1]. *)
Definition VideoClassification_new (cat : string) (conf ent depth cb : float) :
    result VideoClassification :=
  let c := mkVideoClassification cat conf ent depth cb in
  if scores_valid c then Ok c else Raise ValidationError.

(** ** The video payload

    A video is a dictionary; [_format_video] of services/youtube_service.py
    fills the keys below, the demo generator fills fewer and adds a category
    and scores.  A key may be missing, and several hold [None] when the
    platform's answer lacks them (channel title, language, thumbnail). *)
Record Video : Type := mkVideo {
  v_id : field string;
  v_title : field string;
  v_description : field string;
  v_channel_id : field string;
  v_channel_title : field string;
  v_thumbnail_url : field string;
  v_duration_seconds : field Z;
  v_is_short : field bool;
  v_language : field string;
  v_tags : field (list string);
  v_view_count : field Z;
  v_like_count : field Z;
  v_published_at : field datetime;
  v_transcript : field string;
  v_category : field string;
  v_depth_score : field float;
  v_clickbait_score : field float;
  v_entertainment_score : field float;
}.

(** The empty dictionary. *)
Definition empty_video : Video :=
  mkVideo Missing Missing Missing Missing Missing Missing Missing Missing Missing
          Missing Missing Missing Missing Missing Missing Missing Missing Missing.

(** An optional value as the value under a key: [None] is stored as it is. *)
Definition of_option {A} (o : option A) : field A :=
  match o with Some a => Val a | None => Null end.

(** The dictionary [_format_video] returns, for the keys the services read:
    the channel title and the language are [None] when the platform's answer
    lacks them; the keys of the demo generator are missing. *)
Definition video_payload (video_id title description : string)
    (channel_title : option string) (duration_seconds : Z) (is_short : bool)
    (language : option string) (tags : list string) : Video :=
  {| v_id := Val video_id; v_title := Val title; v_description := Val description;
     v_channel_id := Null; v_channel_title := of_option channel_title;
     v_thumbnail_url := Null; v_duration_seconds := Val duration_seconds;
     v_is_short := Val is_short; v_language := of_option language;
     v_tags := Val tags; v_view_count := Val 0; v_like_count := Val 0;
     v_published_at := Null; v_transcript := Missing; v_category := Missing;
     v_depth_score := Missing; v_clickbait_score := Missing;
     v_entertainment_score := Missing |}.

(** ** models/focus_mode.py: FocusMode *)

(** A row of [focus_modes].  The JSON list columns hold a list or NULL, and
    the code only reads them after a truth test, under which NULL and the
    empty list agree: both are the empty list here.  [lock_until] and
    [daily_time_limit_minutes] are nullable. *)
Record FocusMode : Type := mkFocusMode {
  id : uuid;
  user_id : uuid;
  name : string;
  description : option string;
  is_active : bool;
  is_locked : bool;
  lock_until : option datetime;
  allowed_categories : list string;
  blocked_categories : list string;
  min_duration_seconds : Z;
  allowed_languages : list string;
  max_clickbait_score : float;
  max_entertainment_score : float;
  block_shorts : bool;
  block_trending : bool;
  daily_time_limit_minutes : option Z;
  blocked_keywords : list string;
}.

(** [FocusMode(id=i, user_id=u, name=n)] with every other column at its
    default. *)
Definition FocusMode_default (i u : uuid) (n : string) : FocusMode :=
  {| id := i; user_id := u; name := n; description := None;
     is_active := false; is_locked := false; lock_until := None;
     allowed_categories := []; blocked_categories := [];
     min_duration_seconds := 0; allowed_languages := [];
     max_clickbait_score := 1; max_entertainment_score := 1;
     block_shorts := false; block_trending := false;
     daily_time_limit_minutes := None; blocked_keywords := [] |}.

(** Assignments to the session columns of a row. *)
Definition set_active (b : bool) (m : FocusMode) : FocusMode :=
  {| id := id m; user_id := user_id m; name := name m; description := description m;
     is_active := b; is_locked := is_locked m; lock_until := lock_until m;
     allowed_categories := allowed_categories m;
     blocked_categories := blocked_categories m;
     min_duration_seconds := min_duration_seconds m;
     allowed_languages := allowed_languages m;
     max_clickbait_score := max_clickbait_score m;
     max_entertainment_score := max_entertainment_score m;
     block_shorts := block_shorts m; block_trending := block_trending m;
     daily_time_limit_minutes := daily_time_limit_minutes m;
     blocked_keywords := blocked_keywords m |}.

Definition set_lock (locked : bool) (until : option datetime) (m : FocusMode) : FocusMode :=
  {| id := id m; user_id := user_id m; name := name m; description := description m;
     is_active := is_active m; is_locked := locked; lock_until := until;
     allowed_categories := allowed_categories m;
     blocked_categories := blocked_categories m;
     min_duration_seconds := min_duration_seconds m;
     allowed_languages := allowed_languages m;
     max_clickbait_score := max_clickbait_score m;
     max_entertainment_score := max_entertainment_score m;
     block_shorts := block_shorts m; block_trending := block_trending m;
     daily_time_limit_minutes := daily_time_limit_minutes m;
     blocked_keywords := blocked_keywords m |}.

(** ** models/content_cache.py: ContentCache *)

(** [default_expiry()]: 24 hours after the instant it is called at. *)
Definition default_expiry (now : datetime) : datetime := now + timedelta_hours 24.

(** A row of [content_cache]: the snapshot of the video, its classification
    and the instants of analysis and of expiry. *)
Record ContentCache : Type := mkContentCache {
  cc_video_id : string;
  cc_title : string;
  cc_description : option string;
  cc_channel_id : option string;
  cc_channel_title : option string;
  cc_tags : option (list string);
  cc_thumbnail_url : option string;
  cc_category : string;
  cc_confidence_score : float;
  cc_entertainment_score : float;
  cc_depth_score : float;
  cc_clickbait_score : float;
  cc_is_short : option bool;
  cc_duration_seconds : option Z;
  cc_language : option string;
  cc_view_count : option Z;
  cc_like_count : option Z;
  cc_published_at : option datetime;
  cc_analyzed_at : datetime;
  cc_expires_at : datetime;
}.

(** [ContentCache.is_expired]: strictly after the expiry instant. *)
Definition is_expired (now : datetime) (c : ContentCache) : bool :=
  cc_expires_at c <? now.

(** ** models/filter_rule.py: FilterRule *)

(** A row of [filter_rules]: a custom rule attached to a focus mode. *)
Record FilterRule : Type := mkFilterRule {
  fr_id : uuid;
  fr_mode_id : uuid;
  fr_rule_type : string;
  fr_condition : string;
  fr_action : string;
  fr_priority : Z;
  fr_is_active : bool;
}.

(** ** models/watch_history.py and models/feedback.py *)

Record WatchHistory : Type := mkWatchHistory {
  wh_id : uuid;
  wh_user_id : uuid;
  wh_video_id : string;
  wh_watch_duration_seconds : Z;
  wh_video_duration_seconds : Z;
  wh_watch_percentage : float;
  wh_was_skipped : bool;
  wh_skip_position_percent : option float;
  wh_completed : bool;
  wh_mode_id : option uuid;
  wh_watched_at : datetime;
}.

Record UserFeedback : Type := mkUserFeedback {
  fb_id : uuid;
  fb_user_id : uuid;
  fb_video_id : string;
  fb_feedback_type : string;
  fb_reason : option string;
  fb_suggested_category : option string;
  fb_created_at : datetime;
}.

(** ** Lemmas *)

Lemma VideoClassification_new_Ok cat conf ent depth cb c :
  VideoClassification_new cat conf ent depth cb = Ok c →
  c = mkVideoClassification cat conf ent depth cb ∧ scores_valid c = true.
Proof.
  unfold VideoClassification_new. case_head; [|done]. by intros [= <-].
Qed.

Lemma VideoClassification_new_valid cat conf ent depth cb :
  unit_score conf = true → unit_score ent = true →
  unit_score depth = true → unit_score cb = true →
  VideoClassification_new cat conf ent depth cb =
  Ok (mkVideoClassification cat conf ent depth cb).
Proof.
  intros Hc He Hd Hb. unfold VideoClassification_new, scores_valid; simpl.
  by rewrite Hc, He, Hd, Hb.
Qed.

Lemma scores_valid_fields c :
  scores_valid c = true ↔
  unit_score (confidence_score c) = true ∧ unit_score (entertainment_score c) = true ∧
  unit_score (depth_score c) = true ∧ unit_score (clickbait_score c) = true.
Proof. unfold scores_valid. rewrite !andb_true_iff. tauto. Qed.

Lemma set_active_lock b m :
  is_locked (set_active b m) = is_locked m ∧ lock_until (set_active b m) = lock_until m.
Proof. done. Qed.

Lemma start_of_day_le t : start_of_day t ≤ t.
Proof.
  unfold start_of_day, timedelta_days.
  pose proof (Z.mod_pos_bound t (1 * 86400 * 1000000)). lia.
Qed.

Lemma start_of_day_idem t : start_of_day (start_of_day t) = start_of_day t.
Proof.
  unfold start_of_day, timedelta_days.
  rewrite Zminus_mod_idemp_r, Z.sub_diag, Z.mod_0_l by lia. lia.
Qed.

Lemma is_expired_default_expiry now c :
  cc_expires_at c = default_expiry now → is_expired now c = false.
Proof.
  unfold is_expired, default_expiry, timedelta_hours. intros ->.
  apply Z.ltb_ge. lia.
Qed.

#[export] Hint Resolve start_of_day_le : py.
