(* ===== verification/Presets.v ===== *)
(** * Presets: the starter focus modes of routers/modes.py

    [PRESET_MODES] is the table the router seeds a user's modes from.  A
    preset fixes the policy columns it names; [preset_mode] builds the row
    [FocusMode(user_id=..., **preset_data)], every column the preset leaves
    out at its default. *)

From Stdlib Require Import ZArith String Ascii List Floats.
From stdpp Require Import base option list strings.
From S2P Require Import Prelude Models.

Set Warnings "-inexact-float".
Local Open Scope string_scope.
Local Open Scope Z_scope.

(** The keyword arguments of one preset. *)
Record Preset : Type := mkPreset {
  p_name : string;
  p_description : string;
  p_allowed_categories : list string;
  p_blocked_categories : list string;
  p_min_duration_seconds : Z;
  p_max_clickbait_score : float;
  p_max_entertainment_score : float;
  p_block_shorts : bool;
  p_block_trending : bool;
  p_daily_time_limit_minutes : option Z;
  p_blocked_keywords : list string;
}.

Definition preset_study : Preset :=
  {| p_name := "Study Mode";
     p_description := "Focus on educational content only";
     p_allowed_categories := ["EDUCATION"];
     p_blocked_categories :=
       ["ENTERTAINMENT"; "COMEDY"; "GAMING"; "MUSIC"; "SCIENCE_TECH"; "HOWTO_STYLE"];
     p_min_duration_seconds := 180;
     p_max_clickbait_score := 0.5;
     p_max_entertainment_score := 0.6;
     p_block_shorts := true;
     p_block_trending := false;
     p_daily_time_limit_minutes := None;
     p_blocked_keywords := ["prank"; "gone wrong"; "challenge"] |}.

Definition preset_deep_work : Preset :=
  {| p_name := "Deep Work";
     p_description := "Maximum focus with strict filtering";
     p_allowed_categories := ["EDUCATION"; "SCIENCE_TECH"];
     p_blocked_categories :=
       ["ENTERTAINMENT"; "COMEDY"; "GAMING"; "NEWS_POLITICS"; "MUSIC"; "SPORTS"];
     p_min_duration_seconds := 300;
     p_max_clickbait_score := 0.3;
     p_max_entertainment_score := 0.4;
     p_block_shorts := true;
     p_block_trending := true;
     p_daily_time_limit_minutes := Some 60;
     p_blocked_keywords := [] |}.

Definition preset_music : Preset :=
  {| p_name := "Music Mode";
     p_description := "Background music only";
     p_allowed_categories := ["MUSIC"];
     p_blocked_categories := [];
     p_min_duration_seconds := 0;
     p_max_clickbait_score := 1.0;
     p_max_entertainment_score := 1.0;
     p_block_shorts := false;
     p_block_trending := false;
     p_daily_time_limit_minutes := None;
     p_blocked_keywords := [] |}.

Definition preset_relax : Preset :=
  {| p_name := "Relax Mode";
     p_description := "Controlled leisure with time limits";
     p_allowed_categories := [];
     p_blocked_categories := ["NEWS_POLITICS"];
     p_min_duration_seconds := 0;
     p_max_clickbait_score := 0.5;
     p_max_entertainment_score := 0.8;
     p_block_shorts := true;
     p_block_trending := false;
     p_daily_time_limit_minutes := Some 60;
     p_blocked_keywords := [] |}.

Definition preset_gaming : Preset :=
  {| p_name := "Gaming Mode";
     p_description := "Gaming content only";
     p_allowed_categories := ["GAMING"; "ENTERTAINMENT"];
     p_blocked_categories := [];
     p_min_duration_seconds := 0;
     p_max_clickbait_score := 0.7;
     p_max_entertainment_score := 1.0;
     p_block_shorts := false;
     p_block_trending := false;
     p_daily_time_limit_minutes := None;
     p_blocked_keywords := [] |}.

Definition preset_news : Preset :=
  {| p_name := "News Mode";
     p_description := "Stay informed with news content";
     p_allowed_categories := ["NEWS_POLITICS"; "EDUCATION"];
     p_blocked_categories := ["ENTERTAINMENT"; "COMEDY"; "GAMING"];
     p_min_duration_seconds := 0;
     p_max_clickbait_score := 0.4;
     p_max_entertainment_score := 0.5;
     p_block_shorts := true;
     p_block_trending := false;
     p_daily_time_limit_minutes := None;
     p_blocked_keywords := [] |}.

Definition preset_fitness : Preset :=
  {| p_name := "Fitness Mode";
     p_description := "Sports and fitness content";
     p_allowed_categories := ["SPORTS"; "HOWTO_STYLE"; "PEOPLE_BLOGS"];
     p_blocked_categories := ["GAMING"; "COMEDY"];
     p_min_duration_seconds := 0;
     p_max_clickbait_score := 0.5;
     p_max_entertainment_score := 0.7;
     p_block_shorts := false;
     p_block_trending := false;
     p_daily_time_limit_minutes := None;
     p_blocked_keywords := [] |}.

Definition preset_travel : Preset :=
  {| p_name := "Travel Mode";
     p_description := "Travel and exploration content";
     p_allowed_categories := ["TRAVEL_EVENTS"; "PEOPLE_BLOGS"; "FILM_ANIMATION"];
     p_blocked_categories := ["GAMING"; "NEWS_POLITICS"];
     p_min_duration_seconds := 0;
     p_max_clickbait_score := 0.5;
     p_max_entertainment_score := 0.8;
     p_block_shorts := false;
     p_block_trending := false;
     p_daily_time_limit_minutes := None;
     p_blocked_keywords := [] |}.

Definition preset_tech : Preset :=
  {| p_name := "Tech Mode";
     p_description := "Technology and science content";
     p_allowed_categories := ["SCIENCE_TECH"; "EDUCATION"; "HOWTO_STYLE"];
     p_blocked_categories := ["ENTERTAINMENT"; "COMEDY"];
     p_min_duration_seconds := 300;
     p_max_clickbait_score := 0.4;
     p_max_entertainment_score := 0.5;
     p_block_shorts := true;
     p_block_trending := false;
     p_daily_time_limit_minutes := None;
     p_blocked_keywords := [] |}.

(** The table, in the insertion order of the dictionary. *)
Definition PRESET_MODES : list (string * Preset) :=
  [("study", preset_study); ("deep_work", preset_deep_work); ("music", preset_music);
   ("relax", preset_relax); ("gaming", preset_gaming); ("news", preset_news);
   ("fitness", preset_fitness); ("travel", preset_travel); ("tech", preset_tech)].

(** [FocusMode(user_id=user, is_active=active, **preset_data)] with the
    primary key [i] the table assigns. *)
Definition preset_mode (i user : uuid) (active : bool) (p : Preset) : FocusMode :=
  {| id := i; user_id := user; name := p_name p; description := Some (p_description p);
     is_active := active; is_locked := false; lock_until := None;
     allowed_categories := p_allowed_categories p;
     blocked_categories := p_blocked_categories p;
     min_duration_seconds := p_min_duration_seconds p;
     allowed_languages := [];
     max_clickbait_score := p_max_clickbait_score p;
     max_entertainment_score := p_max_entertainment_score p;
     block_shorts := p_block_shorts p;
     block_trending := p_block_trending p;
     daily_time_limit_minutes := p_daily_time_limit_minutes p;
     blocked_keywords := p_blocked_keywords p |}.

(** The categories a preset names, allow-list and block-list together. *)
Definition preset_categories (p : Preset) : list string :=
  p_allowed_categories p ++ p_blocked_categories p.

(** * Theorems *)

Lemma PRESET_MODES_keys_NoDup : NoDup (map fst PRESET_MODES).
Proof. apply (bool_decide_unpack _). by vm_compute. Qed.

Lemma preset_scores_valid key p :
  In (key, p) PRESET_MODES →
  unit_score (p_max_clickbait_score p) = true ∧
  unit_score (p_max_entertainment_score p) = true.
Proof.
  simpl. intros H. repeat (destruct H as [[= <- <-]|H]; [by vm_compute|]). done.
Qed.

Lemma preset_mode_unlocked i user active p :
  is_locked (preset_mode i user active p) = false ∧
  lock_until (preset_mode i user active p) = None.
Proof. done. Qed.
