(* ===== verification/Schemas.v ===== *)
(** * Schemas: the request bodies of schemas/mode.py

    The bodies the modes router accepts, with the constraints their fields
    declare.  A body that breaks a constraint is refused before the handler
    runs ([ValidationError], the router's 422).  An update names only the
    fields it sets: a field is unset, or set to a value, and [name],
    [description] and [daily_time_limit_minutes] can also be set to null. *)

From Stdlib Require Import ZArith String Ascii List Floats.
From stdpp Require Import base option list strings.
From S2P Require Import Prelude Models Presets.

Set Warnings "-inexact-float".
Local Open Scope string_scope.
Local Open Scope Z_scope.

(** ** Constraints *)

(** [Field(min_length=lo, max_length=hi)]. *)
Definition length_between (lo hi : nat) (s : string) : bool :=
  (lo <=? String.length s)%nat && (String.length s <=? hi)%nat.

(** A constraint on an optional field holds of [None]. *)
Definition option_all {A} (p : A → bool) (o : option A) : bool :=
  match o with Some a => p a | None => true end.

(** A constraint on a field of an update holds when the field is unset or
    null. *)
Definition field_all {A} (p : A → bool) (f : field A) : bool :=
  match f with Val a => p a | _ => true end.

(** ** FocusModeCreate *)

Record FocusModeCreate : Type := mkFocusModeCreate {
  c_name : string;
  c_description : option string;
  c_allowed_categories : list string;
  c_blocked_categories : list string;
  c_min_duration_seconds : Z;
  c_allowed_languages : list string;
  c_max_clickbait_score : float;
  c_max_entertainment_score : float;
  c_block_shorts : bool;
  c_block_trending : bool;
  c_daily_time_limit_minutes : option Z;
  c_blocked_keywords : list string;
}.

(** The body with every optional field at its default. *)
Definition FocusModeCreate_default (n : string) : FocusModeCreate :=
  {| c_name := n; c_description := None; c_allowed_categories := [];
     c_blocked_categories := []; c_min_duration_seconds := 0;
     c_allowed_languages := []; c_max_clickbait_score := 1;
     c_max_entertainment_score := 1; c_block_shorts := false;
     c_block_trending := false; c_daily_time_limit_minutes := None;
     c_blocked_keywords := [] |}.

Definition create_valid (d : FocusModeCreate) : bool :=
  length_between 1 100 (c_name d) &&
  option_all (length_between 0 500) (c_description d) &&
  (0 <=? c_min_duration_seconds d) &&
  unit_score (c_max_clickbait_score d) &&
  unit_score (c_max_entertainment_score d) &&
  option_all (Z.leb 1) (c_daily_time_limit_minutes d).

(** [FocusMode(user_id=user, **mode_data.model_dump())] with the primary key
    [i] the table assigns: the session columns at their defaults. *)
Definition created_mode (i user : uuid) (d : FocusModeCreate) : FocusMode :=
  {| id := i; user_id := user; name := c_name d; description := c_description d;
     is_active := false; is_locked := false; lock_until := None;
     allowed_categories := c_allowed_categories d;
     blocked_categories := c_blocked_categories d;
     min_duration_seconds := c_min_duration_seconds d;
     allowed_languages := c_allowed_languages d;
     max_clickbait_score := c_max_clickbait_score d;
     max_entertainment_score := c_max_entertainment_score d;
     block_shorts := c_block_shorts d;
     block_trending := c_block_trending d;
     daily_time_limit_minutes := c_daily_time_limit_minutes d;
     blocked_keywords := c_blocked_keywords d |}.

(** ** FocusModeUpdate *)

Record FocusModeUpdate : Type := mkFocusModeUpdate {
  u_name : field string;
  u_description : field string;
  u_allowed_categories : option (list string);
  u_blocked_categories : option (list string);
  u_min_duration_seconds : option Z;
  u_allowed_languages : option (list string);
  u_max_clickbait_score : option float;
  u_max_entertainment_score : option float;
  u_block_shorts : option bool;
  u_block_trending : option bool;
  u_daily_time_limit_minutes : field Z;
  u_blocked_keywords : option (list string);
}.

(** The body [{}]: no field is set. *)
Definition FocusModeUpdate_empty : FocusModeUpdate :=
  mkFocusModeUpdate Missing Missing None None None None None None None None
                    Missing None.

Definition update_valid (d : FocusModeUpdate) : bool :=
  field_all (length_between 1 100) (u_name d) &&
  field_all (length_between 0 500) (u_description d) &&
  option_all (Z.leb 0) (u_min_duration_seconds d) &&
  option_all unit_score (u_max_clickbait_score d) &&
  option_all unit_score (u_max_entertainment_score d) &&
  field_all (Z.leb 1) (u_daily_time_limit_minutes d).

(** [setattr] of a nullable column from a field of the update. *)
Definition set_nullable {A} (f : field A) (old : option A) : option A :=
  match f with Missing => old | Null => None | Val a => Some a end.

(** [for key, value in mode_data.model_dump(exclude_unset=True).items():
    setattr(mode, key, value)]: the fields set replace the columns, the
    others and the session columns stay. *)
Definition apply_update (d : FocusModeUpdate) (m : FocusMode) : FocusMode :=
  {| id := id m; user_id := user_id m;
     name := default (name m) (get_none (u_name d));
     description := set_nullable (u_description d) (description m);
     is_active := is_active m; is_locked := is_locked m; lock_until := lock_until m;
     allowed_categories := default (allowed_categories m) (u_allowed_categories d);
     blocked_categories := default (blocked_categories m) (u_blocked_categories d);
     min_duration_seconds := default (min_duration_seconds m) (u_min_duration_seconds d);
     allowed_languages := default (allowed_languages m) (u_allowed_languages d);
     max_clickbait_score := default (max_clickbait_score m) (u_max_clickbait_score d);
     max_entertainment_score :=
       default (max_entertainment_score m) (u_max_entertainment_score d);
     block_shorts := default (block_shorts m) (u_block_shorts d);
     block_trending := default (block_trending m) (u_block_trending d);
     daily_time_limit_minutes :=
       set_nullable (u_daily_time_limit_minutes d) (daily_time_limit_minutes m);
     blocked_keywords := default (blocked_keywords m) (u_blocked_keywords d) |}.

(** The name column is not nullable: an update that sets it to null fails
    at commit. *)
Definition nulls_name (d : FocusModeUpdate) : bool :=
  match u_name d with Null => true | _ => false end.

(** ** LockSessionRequest and FilterRuleCreate *)

(** [duration_minutes: int = Field(..., ge=1, le=480)]. *)
Definition lock_valid (duration_minutes : Z) : bool :=
  (1 <=? duration_minutes) && (duration_minutes <=? 480).

Record FilterRuleCreate : Type := mkFilterRuleCreate {
  r_rule_type : string;
  r_condition : string;
  r_action : string;
  r_priority : Z;
}.

Definition RULE_TYPES : list string :=
  ["keyword"; "channel"; "category"; "duration"; "score"].
Definition RULE_ACTIONS : list string := ["block"; "allow"; "delay"].

Definition rule_valid (d : FilterRuleCreate) : bool :=
  in_list (r_rule_type d) RULE_TYPES &&
  length_between 1 500 (r_condition d) &&
  in_list (r_action d) RULE_ACTIONS.

(** [FilterRule(mode_id=mode_id, **rule_data.model_dump())] with the primary
    key [i]; a new rule is active. *)
Definition created_rule (i mode_id : uuid) (d : FilterRuleCreate) : FilterRule :=
  {| fr_id := i; fr_mode_id := mode_id; fr_rule_type := r_rule_type d;
     fr_condition := r_condition d; fr_action := r_action d;
     fr_priority := r_priority d; fr_is_active := true |}.

(** A request body, validated: the handler runs on a valid body only. *)
Definition validated {A} (valid : A → bool) (body : A) : result A :=
  if valid body then Ok body else Raise ValidationError.

(** The policy columns of a row are within the bounds the schemas declare. *)
Definition policy_valid (m : FocusMode) : bool :=
  length_between 1 100 (name m) &&
  option_all (length_between 0 500) (description m) &&
  (0 <=? min_duration_seconds m) &&
  unit_score (max_clickbait_score m) &&
  unit_score (max_entertainment_score m) &&
  option_all (Z.leb 1) (daily_time_limit_minutes m).

(** * Theorems *)

Lemma validated_Ok {A} (valid : A → bool) body body' :
  validated valid body = Ok body' ↔ body' = body ∧ valid body = true.
Proof. unfold validated. destruct (valid body); naive_solver. Qed.

Lemma validated_Raise {A} (valid : A → bool) body e :
  validated valid body = Raise e → e = ValidationError ∧ valid body = false.
Proof. unfold validated. destruct (valid body); naive_solver. Qed.

(** The session columns and the keys are out of reach of an update. *)
Lemma apply_update_session d m :
  id (apply_update d m) = id m ∧ user_id (apply_update d m) = user_id m ∧
  is_active (apply_update d m) = is_active m ∧
  is_locked (apply_update d m) = is_locked m ∧
  lock_until (apply_update d m) = lock_until m.
Proof. done. Qed.

Lemma apply_update_empty m : apply_update FocusModeUpdate_empty m = m.
Proof. by destruct m. Qed.

Lemma created_mode_session i user d :
  id (created_mode i user d) = i ∧ user_id (created_mode i user d) = user ∧
  is_active (created_mode i user d) = false ∧
  is_locked (created_mode i user d) = false.
Proof. done. Qed.

(** A row created from a valid body is within the bounds. *)
Lemma created_mode_valid i user d :
  create_valid d = true → policy_valid (created_mode i user d) = true.
Proof. done. Qed.

(** A valid update that leaves the name alone or sets it keeps a row within
    the bounds. *)
Lemma apply_update_valid d m :
  update_valid d = true → nulls_name d = false → policy_valid m = true →
  policy_valid (apply_update d m) = true.
Proof.
  unfold update_valid, policy_valid, nulls_name. rewrite !andb_true_iff.
  intros (((((Hn&Hd)&Hm)&Hc)&He)&Hl) Hnull (((((Mn&Md)&Mm)&Mc)&Me)&Ml).
  cbn [apply_update name description min_duration_seconds max_clickbait_score
       max_entertainment_score daily_time_limit_minutes].
  split_and!.
  - by destruct (u_name d).
  - by destruct (u_description d).
  - by destruct (u_min_duration_seconds d).
  - by destruct (u_max_clickbait_score d).
  - by destruct (u_max_entertainment_score d).
  - by destruct (u_daily_time_limit_minutes d).
Qed.

Lemma preset_mode_valid i user active key p :
  In (key, p) PRESET_MODES →
  policy_valid (preset_mode i user active p) = true.
Proof.
  simpl. intros H. repeat (destruct H as [[= <- <-]|H]; [by vm_compute|]). done.
Qed.

Lemma lock_valid_spec minutes : lock_valid minutes = true ↔ 1 ≤ minutes ≤ 480.
Proof. unfold lock_valid. rewrite andb_true_iff, !Z.leb_le. done. Qed.
