(* ===== verification/Utils.v ===== *)
(** * Utils: utils/__init__.py

    [format_duration] and [truncate_text], the two helpers of the package
    [app.utils]. *)

From Stdlib Require Import ZArith String Ascii List.
From stdpp Require Import base option list strings.
From S2P Require Import Prelude.

Local Open Scope string_scope.
Local Open Scope Z_scope.

(** [format_duration]. *)
Definition format_duration (seconds : Z) : string :=
  if seconds <? 60 then str_Z seconds +:+ "s"
  else if seconds <? 3600 then
    let minutes := seconds / 60 in
    let remaining_seconds := seconds mod 60 in
    if negb (remaining_seconds =? 0) then
      str_Z minutes +:+ "m " +:+ str_Z remaining_seconds +:+ "s"
    else str_Z minutes +:+ "m"
  else
    let hours := seconds / 3600 in
    let minutes := (seconds mod 3600) / 60 in
    if negb (minutes =? 0) then str_Z hours +:+ "h " +:+ str_Z minutes +:+ "m"
    else str_Z hours +:+ "h".

(** [text[:stop]]: the first [stop] characters, or all but the last [-stop]
    when [stop] is negative. *)
Definition slice_to (stop : Z) (text : string) : string :=
  if 0 <=? stop then take_str (Z.to_nat stop) text
  else take_str (String.length text - Z.to_nat (- stop)) text.

(** [truncate_text]. *)
Definition truncate_text (text : string) (max_length : Z) : string :=
  if Z.of_nat (String.length text) <=? max_length then text
  else slice_to (max_length - 3) text +:+ "...".

(** * Theorems *)

Lemma slice_to_length (stop : Z) (text : string) :
  0 ≤ stop → Z.of_nat (String.length (slice_to stop text)) ≤ stop.
Proof.
  intros Hs. unfold slice_to. rewrite (proj2 (Z.leb_le _ _) Hs), take_str_length. lia.
Qed.

(** A text within the bound is returned as it is. *)
Lemma truncate_text_short (text : string) (max_length : Z) :
  Z.of_nat (String.length text) ≤ max_length → truncate_text text max_length = text.
Proof. intros Hl. unfold truncate_text. by rewrite (proj2 (Z.leb_le _ _) Hl). Qed.

(** With room for the ellipsis the result is within the bound, and a text
    that was cut ends in the ellipsis and has exactly the bound. *)
Lemma truncate_text_length (text : string) (max_length : Z) :
  3 ≤ max_length →
  Z.of_nat (String.length (truncate_text text max_length)) ≤ max_length ∧
  (max_length < Z.of_nat (String.length text) →
   Z.of_nat (String.length (truncate_text text max_length)) = max_length).
Proof.
  intros Hm. unfold truncate_text, slice_to.
  destruct (Z.leb_spec (Z.of_nat (String.length text)) max_length); [lia|].
  rewrite (proj2 (Z.leb_le 0 (max_length - 3))), str_app_length, take_str_length by lia.
  simpl String.length. lia.
Qed.

(** Without room for the ellipsis the result is longer than the bound: a
    bound of 2 turns six characters into eight. *)
Lemma truncate_text_small_bound : truncate_text "abcdef" 2 = "abcde...".
Proof. by vm_compute. Qed.

Lemma format_duration_samples :
  format_duration 45 = "45s" ∧ format_duration 60 = "1m" ∧
  format_duration 125 = "2m 5s" ∧ format_duration 3600 = "1h" ∧
  format_duration 3723 = "1h 2m" ∧ format_duration 3659 = "1h" ∧
  format_duration (-5) = "-5s".
Proof. by vm_compute. Qed.

(** Seconds are dropped from an hour on: every instant of a minute prints
    like its first second. *)
Lemma format_duration_hours (seconds : Z) :
  3600 ≤ seconds →
  format_duration seconds = format_duration (60 * (seconds / 60)).
Proof.
  intros Hs. unfold format_duration.
  assert (seconds / 3600 = 60 * (seconds / 60) / 3600 ∧
          seconds mod 3600 / 60 = (60 * (seconds / 60)) mod 3600 / 60 ∧
          3600 ≤ 60 * (seconds / 60)) as (<- & <- & Hge)
    by (Z.div_mod_to_equations; lia).
  by rewrite !(proj2 (Z.ltb_ge _ _)) by lia.
Qed.
