(* ===== verification/FilterEngine.v ===== *)
(** * FilterEngine: services/filter_engine.py

    [check_video] applies the hard checks of a focus mode to a video and its
    classification, in the order of the source, and stops at the first check
    that fails.  The verdict is the dictionary the code returns: [allowed]
    and, when blocked, the [reason] shown to the user.  [admits] is the
    declarative reading of the same policy; [check_video_admits] relates the
    two. *)

From Stdlib Require Import ZArith String Ascii List Floats.
From stdpp Require Import base option list strings.
From S2P Require Import Prelude Models Presets.

Set Warnings "-inexact-float".
Local Open Scope string_scope.
Local Open Scope Z_scope.

(** ** The verdict *)

(** The dictionary [check_video] returns: [{"allowed": True}] has no reason
    key, and the routers read it with [.get("reason")]. *)
Record FilterResult : Type := mkFilterResult {
  allowed : bool;
  reason : option string;
}.

Definition blocked (why : string) : FilterResult :=
  {| allowed := false; reason := Some why |}.

Definition passed : FilterResult := {| allowed := true; reason := None |}.

(** [if cond: return {"allowed": False, "reason": why}], then the rest. *)
Notation "'block_if' c 'because' why ';;' k" :=
  (if c then Ok (blocked why) else k)
  (at level 10, c at level 99, why at level 99, k at level 200,
   format "'[v' 'block_if'  c  'because'  why  ';;' '/' k ']'") : py_scope.

Local Open Scope py_scope.

(** ** The guards of the checks *)

(** The truth value of a list, of an optional string and of an optional
    flag, as [if x:] tests them. *)
Definition nonempty {A} (l : list A) : bool :=
  match l with [] => false | _ => true end.

Definition truthy_str (o : option string) : bool :=
  match o with
  | Some s => negb (String.eqb s EmptyString)
  | None => false
  end.

Definition truthy_flag (o : option bool) : bool := default false o.

(** A blocked keyword occurs in the lower-cased title or description. *)
Definition keyword_hits (title_lower description_lower keyword : string) : bool :=
  let keyword_lower := lower keyword in
  contains keyword_lower title_lower || contains keyword_lower description_lower.

(** The reasons, as the f-strings of the source build them. *)
Definition reason_shorts : string := "Shorts are blocked in this focus mode".
Definition reason_duration (mode : FocusMode) : string :=
  "Video too short (minimum " +:+ str_Z (min_duration_seconds mode / 60) +:+ " minutes required)".
Definition reason_blocked_category (c : string) : string :=
  "Category '" +:+ c +:+ "' is blocked in this focus mode".
Definition reason_not_allowed_category (c : string) : string :=
  "Category '" +:+ c +:+ "' is not allowed in this focus mode".
Definition reason_language (l : string) : string :=
  "Language '" +:+ l +:+ "' is not allowed in this focus mode".
Definition reason_clickbait (x : float) : string :=
  "Video detected as clickbait (score: " +:+ fmt2f x +:+ ")".
Definition reason_entertainment (x : float) : string :=
  "Video too entertaining for this focus mode (score: " +:+ fmt2f x +:+ ")".
Definition reason_keyword (k : string) : string :=
  "Video contains blocked keyword: '" +:+ k +:+ "'".

(** ** check_video *)

(** The conditions of the early returns, one per check. *)
Definition shorts_blocked (mode : FocusMode) (video : Video) : bool :=
  block_shorts mode && truthy_flag (get (v_is_short video) false).

Definition category_blocked (mode : FocusMode) (c : VideoClassification) : bool :=
  nonempty (blocked_categories mode) && in_list (category c) (blocked_categories mode).

Definition category_not_allowed (mode : FocusMode) (c : VideoClassification) : bool :=
  nonempty (allowed_categories mode) && negb (in_list (category c) (allowed_categories mode)).

(** [video.get("language", "")], with [None] read as the empty string it is
    as falsy as. *)
Definition video_lang (video : Video) : string :=
  default EmptyString (get (v_language video) EmptyString).

Definition language_blocked (mode : FocusMode) (video : Video) : bool :=
  nonempty (allowed_languages mode) &&
  truthy_str (get (v_language video) EmptyString) &&
  negb (in_list (video_lang video) (allowed_languages mode)).

Definition clickbait_blocked (mode : FocusMode) (c : VideoClassification) : bool :=
  PrimFloat.ltb (max_clickbait_score mode) (clickbait_score c).

Definition entertainment_blocked (mode : FocusMode) (c : VideoClassification) : bool :=
  PrimFloat.ltb (max_entertainment_score mode) (entertainment_score c).

(** Step 7 of [check_video]: the keyword scan.  The title and the
    description are lower-cased before the loop, so a [None] under either
    key raises even when no keyword would match. *)
Definition check_keywords (mode : FocusMode) (video : Video) : result FilterResult :=
  if nonempty (blocked_keywords mode) then
    title ← need AttributeError (get (v_title video) EmptyString);
    description ← need AttributeError (get (v_description video) EmptyString);
    match first_match (keyword_hits (lower title) (lower description))
                      (blocked_keywords mode) with
    | Some keyword => Ok (blocked (reason_keyword keyword))
    | None => Ok passed
    end
  else Ok passed.

(** Steps 3 to 6: category, language and the two score ceilings, then the
    rest of the checks. *)
Definition check_classification (mode : FocusMode) (video : Video)
    (classification : VideoClassification) (rest : result FilterResult) :
    result FilterResult :=
  block_if category_blocked mode classification
    because reason_blocked_category (category classification) ;;
  block_if category_not_allowed mode classification
    because reason_not_allowed_category (category classification) ;;
  block_if language_blocked mode video
    because reason_language (video_lang video) ;;
  block_if clickbait_blocked mode classification
    because reason_clickbait (clickbait_score classification) ;;
  block_if entertainment_blocked mode classification
    because reason_entertainment (entertainment_score classification) ;;
  rest.

(** [FilterEngine(mode).check_video(video, classification)]. *)
Definition check_video (mode : FocusMode) (video : Video)
    (classification : VideoClassification) : result FilterResult :=
  block_if shorts_blocked mode video because reason_shorts ;;
  duration ← need TypeError (get (v_duration_seconds video) 0);
  block_if duration <? min_duration_seconds mode because reason_duration mode ;;
  check_classification mode video classification (check_keywords mode video).

(** ** get_filter_summary *)

Record FilterSummary : Type := mkFilterSummary {
  fs_mode_name : string;
  fs_block_shorts : bool;
  fs_block_trending : bool;
  fs_min_duration_minutes : Z;
  fs_max_clickbait_score : float;
  fs_max_entertainment_score : float;
  fs_allowed_categories : list string;
  fs_blocked_categories : list string;
  fs_allowed_languages : list string;
  fs_blocked_keywords_count : nat;
  fs_daily_time_limit_minutes : option Z;
  fs_is_locked : bool;
}.

Definition get_filter_summary (mode : FocusMode) : FilterSummary :=
  {| fs_mode_name := name mode;
     fs_block_shorts := block_shorts mode;
     fs_block_trending := block_trending mode;
     fs_min_duration_minutes := min_duration_seconds mode / 60;
     fs_max_clickbait_score := max_clickbait_score mode;
     fs_max_entertainment_score := max_entertainment_score mode;
     fs_allowed_categories := allowed_categories mode;
     fs_blocked_categories := blocked_categories mode;
     fs_allowed_languages := allowed_languages mode;
     fs_blocked_keywords_count := length (blocked_keywords mode);
     fs_daily_time_limit_minutes := daily_time_limit_minutes mode;
     fs_is_locked := is_locked mode |}.

(** ** The policy, as a relation

    [check_spec mode video c r]: [r] is the outcome the policy prescribes.
    Each rule names the check that decides, under the premise that every
    earlier check passed; the exceptions are outcomes like the others. *)

Section Spec.
Context (mode : FocusMode) (video : Video) (c : VideoClassification).

(** The video got past the shorts and duration checks. *)
Definition past_duration : Prop :=
  shorts_blocked mode video = false ∧
  ∃ d, get (v_duration_seconds video) 0 = Some d ∧ min_duration_seconds mode ≤ d.

Definition past_category : Prop :=
  past_duration ∧ category_blocked mode c = false ∧ category_not_allowed mode c = false.

Definition past_scores : Prop :=
  past_category ∧ language_blocked mode video = false ∧
  clickbait_blocked mode c = false ∧ entertainment_blocked mode c = false.

Inductive check_spec : result FilterResult → Prop :=
| spec_shorts :
    shorts_blocked mode video = true →
    check_spec (Ok (blocked reason_shorts))
| spec_no_duration :
    shorts_blocked mode video = false →
    get (v_duration_seconds video) 0 = None →
    check_spec (Raise TypeError)
| spec_too_short d :
    shorts_blocked mode video = false →
    get (v_duration_seconds video) 0 = Some d → d < min_duration_seconds mode →
    check_spec (Ok (blocked (reason_duration mode)))
| spec_category_blocked :
    past_duration → category_blocked mode c = true →
    check_spec (Ok (blocked (reason_blocked_category (category c))))
| spec_category_not_allowed :
    past_duration → category_blocked mode c = false →
    category_not_allowed mode c = true →
    check_spec (Ok (blocked (reason_not_allowed_category (category c))))
| spec_language :
    past_category → language_blocked mode video = true →
    check_spec (Ok (blocked (reason_language (video_lang video))))
| spec_clickbait :
    past_category → language_blocked mode video = false →
    clickbait_blocked mode c = true →
    check_spec (Ok (blocked (reason_clickbait (clickbait_score c))))
| spec_entertainment :
    past_category → language_blocked mode video = false →
    clickbait_blocked mode c = false → entertainment_blocked mode c = true →
    check_spec (Ok (blocked (reason_entertainment (entertainment_score c))))
| spec_no_title :
    past_scores → blocked_keywords mode ≠ [] →
    get (v_title video) EmptyString = None →
    check_spec (Raise AttributeError)
| spec_no_description title :
    past_scores → blocked_keywords mode ≠ [] →
    get (v_title video) EmptyString = Some title →
    get (v_description video) EmptyString = None →
    check_spec (Raise AttributeError)
| spec_keyword title description before keyword after :
    past_scores →
    get (v_title video) EmptyString = Some title →
    get (v_description video) EmptyString = Some description →
    blocked_keywords mode = (before ++ keyword :: after)%list →
    Forall (λ k, keyword_hits (lower title) (lower description) k = false) before →
    keyword_hits (lower title) (lower description) keyword = true →
    check_spec (Ok (blocked (reason_keyword keyword)))
| spec_pass_no_keywords :
    past_scores → blocked_keywords mode = [] →
    check_spec (Ok passed)
| spec_pass title description :
    past_scores →
    get (v_title video) EmptyString = Some title →
    get (v_description video) EmptyString = Some description →
    Forall (λ k, keyword_hits (lower title) (lower description) k = false)
           (blocked_keywords mode) →
    check_spec (Ok passed).

End Spec.

(** Modes that agree on every column the filter reads. *)
Definition same_filters (m1 m2 : FocusMode) : Prop :=
  block_shorts m1 = block_shorts m2 ∧
  min_duration_seconds m1 = min_duration_seconds m2 ∧
  blocked_categories m1 = blocked_categories m2 ∧
  allowed_categories m1 = allowed_categories m2 ∧
  allowed_languages m1 = allowed_languages m2 ∧
  max_clickbait_score m1 = max_clickbait_score m2 ∧
  max_entertainment_score m1 = max_entertainment_score m2 ∧
  blocked_keywords m1 = blocked_keywords m2.

(** What a mode admits, as a conjunction: every check holds, in no
    particular order. *)
Record admits (mode : FocusMode) (duration : Z) (is_short : bool)
    (language title description : string) (c : VideoClassification) : Prop := {
  admits_shorts : ¬ (block_shorts mode = true ∧ is_short = true);
  admits_duration : min_duration_seconds mode ≤ duration;
  admits_not_blocked : ¬ In (category c) (blocked_categories mode);
  admits_allowed : allowed_categories mode = [] ∨ In (category c) (allowed_categories mode);
  admits_language :
    allowed_languages mode = [] ∨ language = EmptyString ∨
    In language (allowed_languages mode);
  admits_clickbait : clickbait_blocked mode c = false;
  admits_entertainment : entertainment_blocked mode c = false;
  admits_keywords :
    Forall (λ k, keyword_hits (lower title) (lower description) k = false)
           (blocked_keywords mode);
}.

(** A video whose duration, title and description are present. *)
Definition well_formed (video : Video) : Prop :=
  v_duration_seconds video ≠ Null ∧ v_title video ≠ Null ∧ v_description video ≠ Null.

(** ** Sample inputs *)

(** A payload with the keys of a formatted video that the filter reads. *)
Definition sample_video (title : string) (duration : Z) (short : bool) : Video :=
  video_payload "vid" title EmptyString None duration short None [].

Definition sample_classification (cat : string) (ent cb : float) : VideoClassification :=
  mkVideoClassification cat 0.6 ent 0.5 cb.

Definition relax_mode : FocusMode := preset_mode 4 1 true preset_relax.
Definition study_mode : FocusMode := preset_mode 1 1 true preset_study.

(** * Theorems *)

Lemma nonempty_nil {A} (l : list A) : nonempty l = false ↔ l = [].
Proof. by destruct l. Qed.

Lemma nonempty_true {A} (l : list A) : nonempty l = true ↔ l ≠ [].
Proof. by destruct l. Qed.

Lemma nonempty_middle {A} (l1 l2 : list A) (x : A) : nonempty (l1 ++ x :: l2) = true.
Proof. by destruct l1. Qed.

Lemma first_match_app {A} (p : A → bool) (l1 l2 : list A) (x : A) :
  Forall (λ y, p y = false) l1 → p x = true →
  first_match p (l1 ++ x :: l2) = Some x.
Proof.
  unfold first_match. induction 1 as [|y l1 Hy _ IH]; simpl; intros Hx.
  - by rewrite Hx.
  - rewrite Hy. by apply IH.
Qed.

Lemma first_match_miss {A} (p : A → bool) (l : list A) :
  Forall (λ y, p y = false) l ↔ first_match p l = None.
Proof.
  rewrite first_match_None. split.
  - induction 1 as [|y l Hy _ IH]; simpl; [done | by rewrite Hy].
  - induction l as [|y l IH]; simpl; [constructor|].
    intros [??]%orb_false_iff. constructor; auto.
Qed.

(** Unfolds the checks, turns the premises into the boolean tests of the
    code and rewrites with them. *)
Ltac run_checks :=
  unfold check_video, check_classification, check_keywords,
    past_scores, past_category, past_duration in *;
  repeat match goal with
         | H : _ ∧ _ |- _ => destruct H
         | H : ∃ _, _ |- _ => destruct H
         | H : (_ < _)%Z |- _ => apply Z.ltb_lt in H
         | H : (_ ≤ _)%Z |- _ => apply Z.ltb_ge in H
         | H : _ ≠ [] |- _ => apply nonempty_true in H
         | H : Forall _ (blocked_keywords _) |- _ => apply first_match_miss in H
         end;
  repeat (match goal with
          | H : ?b = _ |- context [?b] => rewrite H
          end; simpl).

Lemma check_spec_sound mode video c r :
  check_spec mode video c r → check_video mode video c = r.
Proof.
  destruct 1; run_checks; try done.
  - by rewrite nonempty_middle, first_match_app.
  - by destruct (nonempty _).
Qed.

Lemma check_spec_complete mode video c :
  check_spec mode video c (check_video mode video c).
Proof.
  unfold check_video.
  destruct (shorts_blocked mode video) eqn:Hs; [by constructor|].
  destruct (get (v_duration_seconds video) 0) as [d|] eqn:Hd; simpl; [|by constructor].
  destruct (Z.ltb_spec d (min_duration_seconds mode)) as [Hlt|Hge]; [by econstructor|].
  assert (Hpd : past_duration mode video) by (split; eauto).
  unfold check_classification.
  destruct (category_blocked mode c) eqn:Hcb; [by constructor|].
  destruct (category_not_allowed mode c) eqn:Hna; [by constructor|].
  assert (Hpc : past_category mode video c) by done.
  destruct (language_blocked mode video) eqn:Hl; [by constructor|].
  destruct (clickbait_blocked mode c) eqn:Hcl; [by constructor|].
  destruct (entertainment_blocked mode c) eqn:He; [by constructor|].
  assert (Hps : past_scores mode video c) by done.
  unfold check_keywords.
  destruct (nonempty (blocked_keywords mode)) eqn:Hk;
    [apply nonempty_true in Hk | apply nonempty_nil in Hk; by constructor].
  destruct (get (v_title video) EmptyString) as [t|] eqn:Ht; simpl;
    [|by eapply spec_no_title].
  destruct (get (v_description video) EmptyString) as [ds|] eqn:Hds; simpl;
    [|by eapply spec_no_description].
  destruct (first_match _ _) as [k|] eqn:Hf.
  - apply first_match_Some in Hf as (l1 & l2 & Heq & Hx & Hl1).
    by eapply spec_keyword.
  - eapply spec_pass; eauto. by apply first_match_miss.
Qed.

Lemma check_spec_of_eq mode video c r :
  check_video mode video c = r → check_spec mode video c r.
Proof. intros <-. apply check_spec_complete. Qed.

(** C1. [check_video] implements the policy: its outcome, verdict or
    exception, is the one the ordered rules of [check_spec] prescribe, and no
    other outcome satisfies them. *)
Theorem check_video_spec mode video c r :
  check_spec mode video c r ↔ check_video mode video c = r.
Proof.
  split; [apply check_spec_sound|apply check_spec_of_eq].
Qed.

(** The shorts check comes first: a short is blocked with the shorts
    reason in a mode that blocks shorts, whatever its duration (too short,
    or not even a number) and whatever its classification. *)
Theorem check_video_shorts_first mode video c :
  block_shorts mode = true → v_is_short video = Val true →
  check_video mode video c = Ok (blocked reason_shorts).
Proof.
  intros Hb Hs. apply check_spec_sound, spec_shorts.
  unfold shorts_blocked. by rewrite Hb, Hs.
Qed.

Lemma reason_nonempty mode video c s :
  check_video mode video c = Ok (blocked s) → s ≠ EmptyString.
Proof.
  intros H%check_spec_of_eq. by inversion H.
Qed.

(** A verdict is never ambiguous: it is either the plain admission,
    which carries no reason, or a refusal with a non-empty reason. *)
Theorem check_video_verdict_shape mode video c r :
  check_video mode video c = Ok r →
  r = passed ∨ ∃ why, r = blocked why ∧ why ≠ EmptyString.
Proof.
  intros H. pose proof H as Hs%check_spec_of_eq.
  inversion Hs; subst; eauto; right; eexists; split; eauto;
    eapply reason_nonempty; eauto.
Qed.

(** The filter reads only the policy columns of a mode: two modes that
    differ in [block_trending], in their name, owner or session state give
    the same outcome on every video. *)
Theorem check_video_same_filters m1 m2 video c :
  same_filters m1 m2 → check_video m1 video c = check_video m2 video c.
Proof.
  intros (Hs & Hd & Hb & Ha & Hl & Hc & He & Hk).
  unfold check_video, check_classification, check_keywords, shorts_blocked,
    category_blocked, category_not_allowed, language_blocked, clickbait_blocked,
    entertainment_blocked, reason_duration.
  by rewrite Hs, Hd, Hb, Ha, Hl, Hc, He, Hk.
Qed.

(** Empty category lists reject nothing: with no allow-list and no
    block-list the outcome does not depend on the category. *)
Theorem check_video_empty_category_lists mode video c cat :
  allowed_categories mode = [] → blocked_categories mode = [] →
  check_video mode video c =
  check_video mode video
    (mkVideoClassification cat (confidence_score c) (entertainment_score c)
                           (depth_score c) (clickbait_score c)).
Proof.
  intros Ha Hb.
  unfold check_video, check_classification, category_blocked, category_not_allowed,
    clickbait_blocked, entertainment_blocked.
  by rewrite Ha, Hb.
Qed.

(** A video without a language is never blocked for its language: a
    missing key, [None] and the empty string all skip the allow-list. *)
Theorem check_video_language_absent mode video c l :
  truthy_str (get (v_language video) EmptyString) = false →
  check_video mode video c ≠ Ok (blocked (reason_language l)).
Proof.
  intros Hl H%check_spec_of_eq. inversion H as [| | | | |Hp Hb| | | | | | |]; subst;
    try discriminate.
  unfold language_blocked in Hb. rewrite Hl, andb_false_r in Hb. done.
Qed.

(** ** The guards, reflected *)

Lemma shorts_blocked_false mode video :
  shorts_blocked mode video = false ↔
  ¬ (block_shorts mode = true ∧ truthy_flag (get (v_is_short video) false) = true).
Proof.
  unfold shorts_blocked. rewrite andb_false_iff.
  destruct (block_shorts mode), (truthy_flag _); naive_solver.
Qed.

Lemma category_blocked_false mode c :
  category_blocked mode c = false ↔ ¬ In (category c) (blocked_categories mode).
Proof.
  unfold category_blocked. rewrite <- in_list_In.
  destruct (blocked_categories mode); simpl; [naive_solver|].
  by destruct (_ || _).
Qed.

Lemma category_not_allowed_false mode c :
  category_not_allowed mode c = false ↔
  allowed_categories mode = [] ∨ In (category c) (allowed_categories mode).
Proof.
  unfold category_not_allowed. rewrite <- in_list_In.
  destruct (allowed_categories mode) as [|a l]; simpl; [naive_solver|].
  destruct (_ || _); naive_solver.
Qed.

Lemma truthy_str_video_lang video :
  truthy_str (get (v_language video) EmptyString) = true ↔ video_lang video ≠ EmptyString.
Proof.
  unfold video_lang. destruct (get _ _) as [s|]; simpl; [|done].
  rewrite negb_true_iff. split.
  - by intros ?%String.eqb_neq.
  - by intros ?%String.eqb_neq.
Qed.

Lemma language_blocked_false mode video :
  language_blocked mode video = false ↔
  allowed_languages mode = [] ∨ video_lang video = EmptyString ∨
  In (video_lang video) (allowed_languages mode).
Proof.
  unfold language_blocked. rewrite <- in_list_In.
  destruct (truthy_str _) eqn:Ht.
  - apply truthy_str_video_lang in Ht.
    destruct (allowed_languages mode) as [|a l]; simpl; [naive_solver|].
    destruct (_ || _); naive_solver.
  - rewrite andb_false_r. split; [intros _|done].
    right; left. destruct (decide (video_lang video = EmptyString)) as [|Hne]; [done|].
    apply truthy_str_video_lang in Hne. congruence.
Qed.

#[export] Hint Rewrite shorts_blocked_false category_blocked_false
  category_not_allowed_false language_blocked_false : py_rw.

(** On a well-formed video the filter always returns a verdict: the
    exceptions of [check_video] come only from a [None] under the duration,
    the title or the description. *)
Theorem check_video_total mode video c :
  well_formed video → ∃ r, check_video mode video c = Ok r.
Proof.
  intros (Hd & Ht & Hds).
  destruct (get_is_Some _ 0 Hd) as [d Hd'].
  destruct (get_is_Some _ EmptyString Ht) as [t Ht'].
  destruct (get_is_Some _ EmptyString Hds) as [ds Hds'].
  pose proof (check_spec_complete mode video c) as H.
  inversion H; eauto; congruence.
Qed.

(** A video that passes the shorts check and holds [None] under its
    duration makes the filter raise: the comparison with the minimum
    duration is a [TypeError]. *)
Theorem check_video_duration_none mode video c :
  shorts_blocked mode video = false → v_duration_seconds video = Null →
  check_video mode video c = Raise TypeError.
Proof.
  intros Hs Hd. apply check_spec_sound, spec_no_duration; [done|]. by rewrite Hd.
Qed.

(** Admission is the conjunction of the checks: on a video whose fields
    are present, [check_video] admits exactly when the mode [admits] it,
    whatever the order the checks are written in. *)
Theorem check_video_passed_iff mode video c d title desc :
  get (v_duration_seconds video) 0 = Some d →
  get (v_title video) EmptyString = Some title →
  get (v_description video) EmptyString = Some desc →
  check_video mode video c = Ok passed ↔
  admits mode d (truthy_flag (get (v_is_short video) false))
         (video_lang video) title desc c.
Proof.
  intros Hd Ht Hds. split.
  - intros H%check_spec_of_eq. inversion H as [| | | | | | | | | | |Hp Hk|t' d' Hp Ht' Hd' Hk];
      (destruct Hp as (((Hs & d0 & Hd0 & Hmin) & Hcb & Hna) & Hl & Hc & He));
      simplify_eq; autorewrite with py_rw in *; split; try done.
    by rewrite Hk.
  - intros [Hs Hmin Hcb Hna Hl Hc He Hk]. apply check_spec_sound.
    eapply spec_pass; eauto. unfold past_scores, past_category, past_duration.
    autorewrite with py_rw. eauto 10.
Qed.

(** ** Witnesses *)

Lemma check_video_shorts_first_witness :
  check_video relax_mode (sample_video "Clip" 45 true)
              (sample_classification "COMEDY" 0.9 0.7) = Ok (blocked reason_shorts).
Proof. apply check_video_shorts_first; reflexivity. Defined.

Lemma check_video_verdict_shape_witness :
  let r := blocked (reason_not_allowed_category "MUSIC") in
  r = passed ∨ ∃ why, r = blocked why ∧ why ≠ EmptyString.
Proof.
  apply (check_video_verdict_shape (preset_mode 3 1 true preset_gaming)
           (sample_video "Song" 240 false) (sample_classification "MUSIC" 0.8 0.1)).
  reflexivity.
Defined.

Lemma check_video_same_filters_witness :
  check_video relax_mode (sample_video "Clip" 45 true) (sample_classification "COMEDY" 0.9 0.7) =
  check_video (set_lock true (Some 5) relax_mode) (sample_video "Clip" 45 true)
              (sample_classification "COMEDY" 0.9 0.7).
Proof. apply check_video_same_filters. by repeat split. Defined.

Lemma check_video_empty_category_lists_witness :
  let mode := FocusMode_default 9 1 "Plain" in
  let video := sample_video "Anything" 100 false in
  check_video mode video (sample_classification "ENTERTAINMENT" 0.5 0.1) =
  check_video mode video (mkVideoClassification "MUSIC" 0.6 0.5 0.5 0.1).
Proof.
  apply (check_video_empty_category_lists (FocusMode_default 9 1 "Plain")); reflexivity.
Defined.

Lemma check_video_language_absent_witness :
  check_video study_mode (sample_video "Lecture" 600 false)
              (sample_classification "EDUCATION" 0.2 0.1) ≠ Ok (blocked (reason_language "fr")).
Proof. apply check_video_language_absent. reflexivity. Defined.

Lemma check_video_total_witness :
  ∃ r, check_video study_mode (sample_video "Lecture" 600 false)
                   (sample_classification "EDUCATION" 0.2 0.1) = Ok r.
Proof. apply check_video_total. by repeat split. Defined.

Lemma check_video_duration_none_witness :
  check_video study_mode
    (mkVideo Missing (Val "Lecture") Missing Missing Null Missing Null Missing Null
             Missing Missing Missing Missing Missing Missing Missing Missing Missing)
    (sample_classification "EDUCATION" 0.2 0.1) = Raise TypeError.
Proof. apply check_video_duration_none; reflexivity. Defined.

Lemma check_video_passed_iff_witness :
  admits study_mode 600 false EmptyString "Lecture" EmptyString
         (sample_classification "EDUCATION" 0.2 0.1).
Proof.
  apply (check_video_passed_iff study_mode (sample_video "Lecture" 600 false)
           (sample_classification "EDUCATION" 0.2 0.1) 600 "Lecture" EmptyString);
    reflexivity.
Defined.
