(* ===== verification/Classifier.v ===== *)
(** * Classifier: services/ai_classifier.py, the heuristic cascade

    [_fallback_classification] maps the metadata of a video to a category and
    four scores by an ordered cascade of keyword stages.  The keyword tables
    are the lists of the source, in their order; a stage is the [for ... if
    kw in text: ... break] loop of the source, whose body assigns constants,
    so the stage fires exactly when some keyword occurs.  [_classify_with_ai]
    normalises the answer of the external model, which is an input here
    ([ai_outcome]), and falls back on the cascade when the call fails. *)

From Stdlib Require Import ZArith String Ascii List Floats.
From stdpp Require Import base option list strings.
From S2P Require Import Prelude Models.

Set Warnings "-inexact-float".
Local Open Scope string_scope.
Local Open Scope Z_scope.

(** ** The keyword tables *)

(** [AIClassifier.CATEGORIES]: the categories accepted from the external model. *)
Definition CATEGORIES : list string :=
  ["EDUCATION"; "STUDY"; "TECH"; "MUSIC"; "PODCAST"; "NEWS"; "ENTERTAINMENT";
   "MEME"; "CLICKBAIT"; "GAMING"].

(** Priority 1: music. *)
Definition music_keywords : list string :=
  ["song"; "music"; "album"; "concert"; "lyrics"; "lyrical"; "audio";
   "official video"; "official audio"; "music video"; "full song";
   "video song"; "vedio song"; "lofi"; "lo-fi"; "hip hop"; "rap"; "rock";
   "pop"; "jazz"; "classical"; "edm"; "dubstep"; "remix"; "cover";
   "acoustic"; "instrumental"; "tollywood"; "bollywood"; "kollywood";
   "sandalwood"; "telugu"; "hindi"; "tamil"; "kannada"; "malayalam";
   "bhojpuri"; "item song"; "romantic song"; "melody"; "gaana"; "gana";
   "promo song"; "title song"; "theme song"; "trending song"; "singer";
   "vocalist"; "rapper"; "dj"; "producer"; "beats"; "track"; "playlist";
   "mixtape"; "live performance"; "stage"; "concert"; "mtv"; "spotify";
   "gaana"].

(** Channel names that indicate music. *)
Definition music_channel_indicators : list string :=
  ["music"; "records"; "audio"; "songs"; "entertainment"; "media"; "films";
   "pictures"; "studios"; "mangavaram"; "lahari"; "aditya"; "zee";
   "t-series"; "sony"; "tips"; "saregama"; "eros"].

(** Priority 2: gaming. *)
Definition gaming_keywords : list string :=
  ["gameplay"; "gaming"; "playthrough"; "stream"; "gamer"; "game";
   "walkthrough"; "let's play"; "esports"; "twitch"; "streamer"; "minecraft";
   "fortnite"; "valorant"; "gta"; "cod"; "pubg"; "elden ring"; "zelda";
   "pokemon"; "nintendo"; "playstation"; "xbox"; "speedrun"; "pro player";
   "rank"; "competitive"].

(** Priority 3: comedy. *)
Definition comedy_keywords : list string :=
  ["comedy"; "funny"; "laugh"; "humor"; "joke"; "stand up"; "skit"; "prank";
   "roast"; "meme"; "compilation"; "try not to laugh"; "fails"; "bloopers";
   "reaction"; "challenge"].

(** General entertainment: scores only. *)
Definition general_entertainment : list string :=
  ["movie"; "film"; "trailer"; "teaser"; "scenes"; "clips"; "vlog"; "day in";
   "haul"; "unboxing"; "reaction"; "celebrity"; "interview"; "talk show";
   "reality"; "drama"].

(** Priority 4: education. *)
Definition education_keywords : list string :=
  ["tutorial"; "course"; "lecture"; "lesson"; "learn"; "teaching";
   "education"; "educational"; "academy"; "university"; "college";
   "programming"; "coding"; "developer"; "software development"; "science";
   "physics"; "chemistry"; "mathematics"; "biology"; "history"; "geography";
   "economics"; "psychology"; "certification"; "exam prep"; "study with me";
   "study tips"].

(** Technology, apart from education. *)
Definition tech_keywords : list string :=
  ["technology"; "tech review"; "python"; "javascript"; "java";
   "machine learning"; "ai"; "artificial intelligence"; "data science";
   "cloud"; "devops"; "kubernetes"; "docker"; "programming tutorial"; "code";
   "developer"; "engineering"; "computer science"].

(** How-to and style. *)
Definition howto_keywords : list string :=
  ["how to"; "diy"; "tips"; "tricks"; "guide"; "step by step"; "recipe";
   "cooking"; "baking"; "makeup"; "fashion"; "style"; "workout"; "fitness";
   "yoga"; "meditation"; "self improvement"].

(** Clickbait phrases.  Two entries are not ASCII: the source file holds them as
    the byte sequences below. *)
Definition clickbait_patterns : list string :=
  ["you won't believe"; "gone wrong"; "shocking"; "exposed"; "prank";
   bytes [195; 176; 197; 184; 203; 156; 194; 177]%N;
   bytes [195; 176; 197; 184; 226; 128; 157; 194; 165]%N; "secret"; "revealed";
   "must see"; "insane"; "crazy"; "epic fail"; "best ever"; "unbelievable"].

(** The third punctuation mark of the clickbait test, as the bytes the source
    file holds. *)
Definition red_circle : string := bytes [195; 176; 197; 184; 226; 128; 157; 194; 180]%N.

(** The categories the cascade can produce. *)
Definition HEURISTIC_CATEGORIES : list string :=
  ["ENTERTAINMENT"; "MUSIC"; "GAMING"; "COMEDY"; "EDUCATION"; "SCIENCE_TECH";
   "HOWTO_STYLE"].

(** ** The cascade *)

(** The loop [for kw in keywords: if kw in text: ...; break] fires when some
    keyword occurs in the text. *)
Definition any_in (keywords : list string) (text : string) : bool :=
  existsb (λ kw, contains kw text) keywords.

(** The local variables the cascade assigns. *)
Record Heuristic : Type := mkHeuristic {
  h_category : string;
  h_clickbait_score : float;
  h_entertainment_score : float;
  h_depth_score : float;
}.

(** The defaults before the first stage. *)
Definition heuristic_defaults : Heuristic :=
  {| h_category := "ENTERTAINMENT"; h_clickbait_score := 0.1;
     h_entertainment_score := 0.5; h_depth_score := 0.5 |}.

(** The assignments of a stage that fires. *)
Definition assign (cat : string) (ent depth : float) (h : Heuristic) : Heuristic :=
  {| h_category := cat; h_clickbait_score := h_clickbait_score h;
     h_entertainment_score := ent; h_depth_score := depth |}.

Definition assign_clickbait (cb : float) (h : Heuristic) : Heuristic :=
  {| h_category := h_category h; h_clickbait_score := cb;
     h_entertainment_score := h_entertainment_score h;
     h_depth_score := h_depth_score h |}.

(** [category == "ENTERTAINMENT"]: no earlier stage has fired. *)
Definition still_default (h : Heuristic) : bool :=
  String.eqb (h_category h) "ENTERTAINMENT".

(** A stage behind the guard [if category == "ENTERTAINMENT":]; [fires] is
    the outcome of its keyword loop. *)
Definition guarded_stage (fires : bool) (cat : string) (ent depth : float)
    (h : Heuristic) : Heuristic :=
  if still_default h && fires then assign cat ent depth h else h.

(** Priority 1: the music keywords, unconditionally. *)
Definition music_stage (text : string) (h : Heuristic) : Heuristic :=
  if any_in music_keywords text then assign "MUSIC" 0.8 0.2 h else h.

(** Music by channel name, when the keywords did not fire. *)
Definition music_channel_stage (channel : string) (h : Heuristic) : Heuristic :=
  if negb (String.eqb (h_category h) "MUSIC") &&
     any_in music_channel_indicators channel
  then assign "MUSIC" 0.7 0.3 h else h.

Definition gaming_stage (text : string) : Heuristic → Heuristic :=
  guarded_stage (any_in gaming_keywords text) "GAMING" 0.8 0.3.

Definition comedy_stage (text : string) : Heuristic → Heuristic :=
  guarded_stage (any_in comedy_keywords text) "COMEDY" 0.9 0.1.

(** General entertainment changes the scores and keeps the category. *)
Definition general_entertainment_stage (text : string) : Heuristic → Heuristic :=
  guarded_stage (any_in general_entertainment text) "ENTERTAINMENT" 0.7 0.3.

Definition education_stage (text : string) : Heuristic → Heuristic :=
  guarded_stage (any_in education_keywords text) "EDUCATION" 0.2 0.8.

Definition tech_stage (text : string) : Heuristic → Heuristic :=
  guarded_stage (any_in tech_keywords text) "SCIENCE_TECH" 0.3 0.7.

Definition howto_stage (text : string) : Heuristic → Heuristic :=
  guarded_stage (any_in howto_keywords text) "HOWTO_STYLE" 0.4 0.6.

(** The duration adjustments. *)
Definition duration_stage (duration : Z) (h : Heuristic) : Heuristic :=
  if duration <? 60 then
    if negb (in_list (h_category h) ["MUSIC"]) then
      assign (h_category h) (py_max (h_entertainment_score h) 0.7)
             (py_min (h_depth_score h) 0.3) h
    else h
  else if 1200 <? duration then
    assign (h_category h) (h_entertainment_score h)
           (py_min (h_depth_score h + 0.2)%float 1.0) h
  else h.

(** [sum(1 for c in original_title if c.isupper()) / max(len(original_title), 1)]. *)
Definition caps_ratio (original_title : string) : float :=
  (float_of_nat (count_chars isupper original_title) /
   float_of_nat (Nat.max (String.length original_title) 1))%float.

(** The three clickbait signals, independent maxima. *)
Definition clickbait_stage (text original_title : string) (h : Heuristic) : Heuristic :=
  let h1 := if any_in clickbait_patterns text then assign_clickbait 0.7 h else h in
  let h2 := if PrimFloat.ltb 0.5 (caps_ratio original_title)
            then assign_clickbait (py_max (h_clickbait_score h1) 0.5) h1 else h1 in
  if contains "!!!" original_title || contains "???" original_title ||
     contains red_circle original_title
  then assign_clickbait (py_max (h_clickbait_score h2) 0.4) h2 else h2.

(** The category stages, in their priority order. *)
Definition category_stages (text channel : string) (h : Heuristic) : Heuristic :=
  howto_stage text (tech_stage text (education_stage text
    (general_entertainment_stage text (comedy_stage text (gaming_stage text
      (music_channel_stage channel (music_stage text h))))))).

(** The values read from the payload before the cascade runs. *)
Record Inputs : Type := mkInputs {
  in_title : string;
  in_original_title : string;
  in_description : string;
  in_tags : list string;
  in_channel : string;
  in_duration : option Z;
}.

(** Lines 184 to 189: the reads, in order.  A [None] under the title, the
    description or the channel has no [lower]; a [None] under the tags
    cannot be iterated. *)
Definition read_inputs (video : Video) : result Inputs :=
  title ← need AttributeError (get (v_title video) EmptyString);
  description ← need AttributeError (get (v_description video) EmptyString);
  tags ← need TypeError (get (v_tags video) []);
  channel ← need AttributeError (get (v_channel_title video) EmptyString);
  Ok {| in_title := lower title; in_original_title := title;
        in_description := take_str 500 (lower description);
        in_tags := map lower tags; in_channel := lower channel;
        in_duration := get (v_duration_seconds video) 0 |}.

(** The combined text the keywords are searched in. *)
Definition combined_text (i : Inputs) : string :=
  in_title i +:+ " " +:+ join " " (in_tags i) +:+ " " +:+ in_description i +:+
  " " +:+ in_channel i.

(** The cascade on the values read: the category stages, then the duration
    (a [None] there is a [TypeError]), then the clickbait signals. *)
Definition run_cascade (i : Inputs) : result Heuristic :=
  let text := combined_text i in
  let h := category_stages text (in_channel i) heuristic_defaults in
  duration ← need TypeError (in_duration i);
  Ok (clickbait_stage text (in_original_title i) (duration_stage duration h)).

(** [AIClassifier._fallback_classification]. *)
Definition _fallback_classification (video : Video) : result VideoClassification :=
  i ← read_inputs video;
  h ← run_cascade i;
  VideoClassification_new (h_category h) 0.6 (h_entertainment_score h)
                          (h_depth_score h) (h_clickbait_score h).

(** ** The external model *)

(** What the call to the external model came to: an exception (the call
    failed, or its text was not the JSON asked for), or a JSON object whose
    keys may be missing or null. *)
Inductive ai_outcome : Type :=
| AIFailed
| AIAnswer (category : field string)
           (confidence entertainment depth clickbait : field float).

(** [float(result.get(key, default))] clamped to [0, 1]; a null has no
    float. *)
Definition score_of (f : field float) (default : float) : result float :=
  x ← need TypeError (get f default);
  Ok (clamp01 x).

(** Lines 157 to 168: validation and normalisation of a parsed answer. *)
Definition normalise_answer (cat : field string)
    (conf ent depth cb : field float) : result VideoClassification :=
  c ← need AttributeError (get cat "ENTERTAINMENT");
  let category := upper c in
  let category := if in_list category CATEGORIES then category else "ENTERTAINMENT" in
  confidence ← score_of conf 0.5;
  entertainment ← score_of ent 0.5;
  depth_ ← score_of depth 0.5;
  clickbait ← score_of cb 0.0;
  VideoClassification_new category confidence entertainment depth_ clickbait.

(** Lines 125 to 141: the prompt is built before the [try]; slicing a [None]
    description or tag list raises there. *)
Definition build_prompt (video : Video) : result unit :=
  _ ← need TypeError (get (v_description video) EmptyString);
  _ ← need TypeError (get (v_tags video) []);
  Ok tt.

(** [AIClassifier._classify_with_ai]: any exception inside the [try] is
    answered by the cascade. *)
Definition _classify_with_ai (outcome : ai_outcome) (video : Video) :
    result VideoClassification :=
  _ ← build_prompt video;
  match outcome with
  | AIFailed => _fallback_classification video
  | AIAnswer cat conf ent depth cb =>
      match normalise_answer cat conf ent depth cb with
      | Ok c => Ok c
      | Raise _ => _fallback_classification video
      end
  end.

Arguments any_in : simpl never.

(** The states the category stages can end in. *)
Definition stage_outcomes : list Heuristic :=
  [ mkHeuristic "MUSIC" 0.1 0.8 0.2; mkHeuristic "MUSIC" 0.1 0.7 0.3;
    mkHeuristic "GAMING" 0.1 0.8 0.3; mkHeuristic "COMEDY" 0.1 0.9 0.1;
    mkHeuristic "EDUCATION" 0.1 0.2 0.8; mkHeuristic "SCIENCE_TECH" 0.1 0.3 0.7;
    mkHeuristic "HOWTO_STYLE" 0.1 0.4 0.6; mkHeuristic "ENTERTAINMENT" 0.1 0.7 0.3;
    mkHeuristic "ENTERTAINMENT" 0.1 0.5 0.5 ].

(** The scores of a state are in the unit interval and its category is one of
    the cascade's. *)
Definition heuristic_ok (h : Heuristic) : bool :=
  unit_score (h_entertainment_score h) && unit_score (h_depth_score h) &&
  unit_score (h_clickbait_score h) && in_list (h_category h) HEURISTIC_CATEGORIES.

(** The category, as the priority list of the stages: the first stage whose
    keywords occur decides; general entertainment decides nothing. *)
Definition expected_category (text channel : string) : string :=
  if any_in music_keywords text || any_in music_channel_indicators channel then "MUSIC"
  else if any_in gaming_keywords text then "GAMING"
  else if any_in comedy_keywords text then "COMEDY"
  else if any_in education_keywords text then "EDUCATION"
  else if any_in tech_keywords text then "SCIENCE_TECH"
  else if any_in howto_keywords text then "HOWTO_STYLE"
  else "ENTERTAINMENT".

(** The values the clickbait score can take. *)
Definition clickbait_levels : list float := [0.1; 0.4; 0.5; 0.7]%float.

(** The clickbait score, as a priority list: the three signals are maxima of
    decreasing constants, so the strongest signal present decides. *)
Definition expected_clickbait (text original_title : string) : float :=
  if any_in clickbait_patterns text then 0.7
  else if PrimFloat.ltb 0.5 (caps_ratio original_title) then 0.5
  else if contains "!!!" original_title || contains "???" original_title ||
          contains red_circle original_title then 0.4
  else 0.1.

(** A keyword is shadowed by a list when one of the list's keywords occurs
    inside it. *)
Definition shadowed (earlier : list string) (kw : string) : bool :=
  existsb (λ e, contains e kw) earlier.

(** The keywords of a stage that an earlier stage shadows, each with the
    category its stage would assign. *)
Definition dead_keywords : list (string * string) :=
  [("prank", "COMEDY"); ("coding", "EDUCATION"); ("geography", "EDUCATION");
   ("machine learning", "SCIENCE_TECH"); ("data science", "SCIENCE_TECH");
   ("programming tutorial", "SCIENCE_TECH"); ("code", "SCIENCE_TECH");
   ("developer", "SCIENCE_TECH"); ("computer science", "SCIENCE_TECH")].

(** A payload the cascade can read: no [None] under the keys it uses. *)
Definition classifiable (video : Video) : Prop :=
  v_title video ≠ Null ∧ v_description video ≠ Null ∧ v_tags video ≠ Null ∧
  v_channel_title video ≠ Null ∧ v_duration_seconds video ≠ Null.

(** ** Sample inputs *)

Definition music_video : Video :=
  video_payload "a1" "OFFICIAL MUSIC VIDEO - Song Name" EmptyString (Some "Label")
                240 false None [].

Definition tutorial_video : Video :=
  video_payload "b1" "Python Tutorial for Beginners" EmptyString (Some "Mosh")
                3600 false None ["python"; "programming"].

Definition prank_video : Video :=
  video_payload "c1" "YOU WON'T BELIEVE THIS SHOCKING PRANK!!!" EmptyString
                (Some "Pranksters") 45 true None [].

Definition code_video : Video :=
  video_payload "d1" "Learn to code" EmptyString (Some "Academy") 600 false None [].

(** * Theorems *)

(** Names the keyword tests of the goal as boolean variables. *)
Ltac name_keyword_tests :=
  repeat match goal with
         | |- context [any_in ?k ?t] => generalize (any_in k t); intro
         end.

(** Case analysis on every boolean variable of the context. *)
Ltac all_cases :=
  repeat match goal with b : bool |- _ => destruct b end.

(** Exposes the keyword tests of the category stages. *)
Ltac unfold_stages :=
  unfold category_stages, howto_stage, tech_stage, education_stage,
    general_entertainment_stage, comedy_stage, gaming_stage,
    music_channel_stage, music_stage in *.

Ltac in_table := repeat (first [left; reflexivity | right]).

Lemma category_stages_outcome text channel :
  In (category_stages text channel heuristic_defaults) stage_outcomes.
Proof. unfold_stages. name_keyword_tests. all_cases; vm_compute; in_table. Qed.

Lemma any_in_elem (kw : string) (keywords : list string) (text : string) :
  In kw keywords → contains kw text = true → any_in keywords text = true.
Proof.
  intros Hin Hc. unfold any_in. apply existsb_exists. eauto.
Qed.

(** A keyword that has a listed keyword inside it fires the list. *)
Lemma any_in_inside (kw inner : string) (keywords : list string) (text : string) :
  In inner keywords → contains inner kw = true → contains kw text = true →
  any_in keywords text = true.
Proof. intros Hin Hi Hk. eapply any_in_elem; eauto using contains_trans. Qed.

Lemma category_stages_category text channel :
  h_category (category_stages text channel heuristic_defaults) =
  expected_category text channel.
Proof.
  unfold expected_category. unfold_stages. name_keyword_tests. all_cases; reflexivity.
Qed.

Lemma duration_stage_category d h : h_category (duration_stage d h) = h_category h.
Proof. unfold duration_stage. by repeat case_head. Qed.

Lemma duration_stage_clickbait d h :
  h_clickbait_score (duration_stage d h) = h_clickbait_score h.
Proof. unfold duration_stage. by repeat case_head. Qed.

Lemma duration_stage_ok d h :
  In h stage_outcomes → heuristic_ok (duration_stage d h) = true.
Proof.
  intros Hin. unfold duration_stage.
  destruct (d <? 60), (1200 <? d); simpl in Hin;
    repeat (destruct Hin as [<-|Hin]; [by vm_compute|]); done.
Qed.

Lemma clickbait_stage_fields text title h :
  h_category (clickbait_stage text title h) = h_category h ∧
  h_entertainment_score (clickbait_stage text title h) = h_entertainment_score h ∧
  h_depth_score (clickbait_stage text title h) = h_depth_score h.
Proof. unfold clickbait_stage. by repeat case_head. Qed.

Lemma clickbait_stage_levels text title h :
  h_clickbait_score h = 0.1%float →
  In (h_clickbait_score (clickbait_stage text title h)) clickbait_levels.
Proof.
  intros Hcb. unfold clickbait_stage.
  repeat case_head; simpl; rewrite ?Hcb; vm_compute; tauto.
Qed.

Lemma clickbait_levels_unit x : In x clickbait_levels → unit_score x = true.
Proof. simpl. intros H. repeat (destruct H as [<-|H]; [by vm_compute|]). done. Qed.

Lemma stage_outcomes_clickbait h : In h stage_outcomes → h_clickbait_score h = 0.1%float.
Proof. simpl. intros H. repeat (destruct H as [<-|H]; [done|]). done. Qed.

Lemma heuristic_ok_fields h :
  heuristic_ok h = true ↔
  unit_score (h_entertainment_score h) = true ∧ unit_score (h_depth_score h) = true ∧
  unit_score (h_clickbait_score h) = true ∧ In (h_category h) HEURISTIC_CATEGORIES.
Proof. unfold heuristic_ok. rewrite !andb_true_iff, in_list_In. tauto. Qed.

(** The cascade ends in a state whose scores are in the unit interval and
    whose category is one of the seven the stages assign. *)
Lemma run_cascade_ok i h : run_cascade i = Ok h → heuristic_ok h = true.
Proof.
  unfold run_cascade. destruct (in_duration i) as [d|]; simpl; [|done].
  intros [= <-].
  set (text := combined_text i).
  pose proof (category_stages_outcome text (in_channel i)) as Hin.
  pose proof (duration_stage_ok d _ Hin) as Hok%heuristic_ok_fields.
  destruct (clickbait_stage_fields text (in_original_title i)
              (duration_stage d (category_stages text (in_channel i) heuristic_defaults)))
    as (Hc & He & Hd).
  apply heuristic_ok_fields. rewrite Hc, He, Hd.
  repeat split; try apply Hok.
  apply clickbait_levels_unit, clickbait_stage_levels.
  rewrite duration_stage_clickbait. by apply stage_outcomes_clickbait.
Qed.

Lemma run_cascade_category i h :
  run_cascade i = Ok h →
  h_category h = expected_category (combined_text i) (in_channel i).
Proof.
  unfold run_cascade. destruct (in_duration i) as [d|]; simpl; [|done].
  intros [= <-].
  destruct (clickbait_stage_fields (combined_text i) (in_original_title i)
              (duration_stage d (category_stages (combined_text i) (in_channel i)
                                                 heuristic_defaults))) as (-> & _).
  by rewrite duration_stage_category, category_stages_category.
Qed.

Lemma read_inputs_inv video i :
  read_inputs video = Ok i →
  ∃ title description tags channel,
    get (v_title video) EmptyString = Some title ∧
    get (v_description video) EmptyString = Some description ∧
    get (v_tags video) [] = Some tags ∧
    get (v_channel_title video) EmptyString = Some channel ∧
    i = mkInputs (lower title) title (take_str 500 (lower description))
                 (map lower tags) (lower channel)
                 (get (v_duration_seconds video) 0).
Proof.
  unfold read_inputs.
  destruct (get (v_title video) _) as [t|]; [|done].
  destruct (get (v_description video) _) as [ds|]; [|done].
  destruct (get (v_tags video) _) as [tg|]; [|done].
  destruct (get (v_channel_title video) _) as [ch|]; [|done].
  intros [= <-]. by exists t, ds, tg, ch.
Qed.

Lemma fallback_inv video c :
  _fallback_classification video = Ok c →
  ∃ i h, read_inputs video = Ok i ∧ run_cascade i = Ok h ∧
         c = mkVideoClassification (h_category h) 0.6 (h_entertainment_score h)
                                   (h_depth_score h) (h_clickbait_score h).
Proof.
  unfold _fallback_classification.
  intros (i & Hi & (h & Hh & Hc)%bind_Ok_inv)%bind_Ok_inv.
  apply VideoClassification_new_Ok in Hc as [-> _]. eauto.
Qed.

Lemma fallback_scores_valid video c :
  _fallback_classification video = Ok c → scores_valid c = true.
Proof.
  unfold _fallback_classification.
  intros (i & _ & (h & _ & Hc)%bind_Ok_inv)%bind_Ok_inv.
  by apply VideoClassification_new_Ok in Hc as [_ ?].
Qed.

(** C9. Every classification the cascade produces has its four scores in
    [0, 1], its confidence at 0.6 and its category among the seven the
    stages assign. *)
Theorem fallback_classification_valid video c :
  _fallback_classification video = Ok c →
  scores_valid c = true ∧ confidence_score c = 0.6%float ∧
  In (category c) HEURISTIC_CATEGORIES.
Proof.
  intros (i & h & _ & Hh%run_cascade_ok%heuristic_ok_fields & ->)%fallback_inv.
  destruct Hh as (He & Hd & Hcb & Hcat). repeat split; [|done].
  apply scores_valid_fields; simpl. by repeat split.
Qed.

(** The validation of the result never fails: whatever the payload,
    the cascade does not raise [ValidationError]. *)
Lemma fallback_never_invalid video :
  _fallback_classification video ≠ Raise ValidationError.
Proof.
  unfold _fallback_classification.
  destruct (read_inputs video) as [i|e] eqn:Hi; simpl.
  - destruct (run_cascade i) as [h|e] eqn:Hh; simpl.
    + apply run_cascade_ok, heuristic_ok_fields in Hh as (He & Hd & Hcb & _).
      by rewrite VideoClassification_new_valid.
    + unfold run_cascade in Hh. destruct (in_duration i); simpl in Hh; congruence.
  - unfold read_inputs in Hi.
    repeat (destruct (get _ _); simpl in Hi; try congruence).
Qed.

Lemma read_inputs_total video :
  v_title video ≠ Null → v_description video ≠ Null → v_tags video ≠ Null →
  v_channel_title video ≠ Null →
  ∃ i, read_inputs video = Ok i ∧ in_duration i = get (v_duration_seconds video) 0.
Proof.
  intros Ht Hd Hg Hc. unfold read_inputs.
  destruct (get_is_Some _ EmptyString Ht) as [? ->].
  destruct (get_is_Some _ EmptyString Hd) as [? ->].
  destruct (get_is_Some _ [] Hg) as [? ->].
  destruct (get_is_Some _ EmptyString Hc) as [? ->].
  eexists; split; reflexivity.
Qed.

(** C40. The cascade returns a classification for every payload that holds
    no [None] under the keys it reads. *)
Theorem fallback_total video :
  classifiable video → ∃ c, _fallback_classification video = Ok c.
Proof.
  intros (Ht & Hd & Hg & Hc & Hdur).
  destruct (read_inputs_total video Ht Hd Hg Hc) as (i & Hi & Hdi).
  destruct (get_is_Some _ 0 Hdur) as [d Hdv].
  pose proof (fallback_never_invalid video) as Hv.
  destruct (_fallback_classification video) as [c|e] eqn:Hf; [eauto|].
  unfold _fallback_classification, run_cascade in Hf.
  rewrite Hi in Hf. cbn [mbind result_bind] in Hf.
  rewrite Hdi, Hdv in Hf. cbn [mbind result_bind need] in Hf.
  unfold VideoClassification_new in Hf.
  destruct (scores_valid _); [done | congruence].
Qed.

(** A payload whose channel title is [None], as [_format_video] builds
    it when the platform's answer has no channel title, makes the cascade
    raise [AttributeError]. *)
Lemma fallback_channel_none video :
  v_title video ≠ Null → v_description video ≠ Null → v_tags video ≠ Null →
  v_channel_title video = Null →
  _fallback_classification video = Raise AttributeError.
Proof.
  intros Ht Hd Hg Hc. unfold _fallback_classification, read_inputs.
  destruct (get_is_Some _ EmptyString Ht) as [? ->].
  destruct (get_is_Some _ EmptyString Hd) as [? ->].
  destruct (get_is_Some _ [] Hg) as [? ->].
  by rewrite Hc.
Qed.


(** ** Shadowed keywords *)

Lemma shadowed_fires earlier kw text :
  shadowed earlier kw = true → contains kw text = true → any_in earlier text = true.
Proof.
  unfold shadowed. intros (e & He & Hc)%existsb_exists Hk.
  eapply any_in_inside; eauto.
Qed.

Lemma expected_not_comedy text channel :
  any_in music_keywords text || any_in gaming_keywords text = true →
  expected_category text channel ≠ "COMEDY".
Proof. unfold expected_category. name_keyword_tests. by all_cases. Qed.

Lemma expected_not_education text channel :
  any_in music_keywords text || any_in gaming_keywords text ||
  any_in comedy_keywords text = true →
  expected_category text channel ≠ "EDUCATION".
Proof. unfold expected_category. name_keyword_tests. by all_cases. Qed.

Lemma expected_not_tech text channel :
  any_in music_keywords text || any_in gaming_keywords text ||
  any_in comedy_keywords text || any_in education_keywords text = true →
  expected_category text channel ≠ "SCIENCE_TECH".
Proof. unfold expected_category. name_keyword_tests. by all_cases. Qed.

(** Closes [any_in l text = true] from a keyword of the text that is
    shadowed by [l]. *)
Ltac by_shadow l :=
  match goal with
  | H : contains ?kw ?text = true |- _ =>
      rewrite (shadowed_fires l kw text eq_refl H); rewrite ?orb_true_r; reflexivity
  end.

Lemma dead_keywords_expected kw cat text channel :
  In (kw, cat) dead_keywords → contains kw text = true →
  expected_category text channel ≠ cat.
Proof.
  simpl. intros Hin Hk.
  repeat (destruct Hin as [[= <- <-]|Hin]); try done.
  - apply expected_not_comedy. by_shadow gaming_keywords.
  - apply expected_not_education. by_shadow gaming_keywords.
  - apply expected_not_education. by_shadow music_keywords.
  - apply expected_not_tech. by_shadow education_keywords.
  - apply expected_not_tech. by_shadow education_keywords.
  - apply expected_not_tech. by_shadow education_keywords.
  - apply expected_not_tech. by_shadow gaming_keywords.
  - apply expected_not_tech. by_shadow education_keywords.
  - apply expected_not_tech. by_shadow education_keywords.
Qed.

(** C31. Nine listed keywords never decide the category: an earlier stage
    has a keyword that occurs inside each of them ("rank" in "prank", "cod"
    in "coding" and "code", "rap" in "geography", "learn" in "machine
    learning"), so a text with the keyword gets an earlier category. *)
Theorem dead_keywords_never_decide video c i kw cat :
  _fallback_classification video = Ok c → read_inputs video = Ok i →
  In (kw, cat) dead_keywords → contains kw (combined_text i) = true →
  category c ≠ cat.
Proof.
  intros (i' & h & Hi' & Hh%run_cascade_category & ->)%fallback_inv Hi Hin Hk.
  assert (i' = i) as -> by congruence. cbn [category]. rewrite Hh.
  by eapply dead_keywords_expected.
Qed.

(** ** Duration and clickbait *)

Lemma duration_stage_short d h :
  In h stage_outcomes → d < 60 → h_category h ≠ "MUSIC" →
  PrimFloat.leb 0.7 (h_entertainment_score (duration_stage d h)) = true ∧
  PrimFloat.leb (h_depth_score (duration_stage d h)) 0.3 = true.
Proof.
  intros Hin Hd%Z.ltb_lt Hm. unfold duration_stage. rewrite Hd. simpl in Hin.
  repeat (destruct Hin as [<-|Hin]; [by vm_compute|]). done.
Qed.

(** A video under a minute that is not music is scored as shallow
    entertainment: entertainment at least 0.7 and depth at most 0.3. *)
Theorem fallback_short_video video c d :
  _fallback_classification video = Ok c →
  v_duration_seconds video = Val d → d < 60 → category c ≠ "MUSIC" →
  PrimFloat.leb 0.7 (entertainment_score c) = true ∧
  PrimFloat.leb (depth_score c) 0.3 = true.
Proof.
  intros (i & h & Hi & Hh & ->)%fallback_inv Hd Hlt Hm. simpl in *.
  assert (in_duration i = Some d) as Hdi.
  { apply read_inputs_inv in Hi as (? & ? & ? & ? & _ & _ & _ & _ & ->).
    simpl. by rewrite Hd. }
  unfold run_cascade in Hh. rewrite Hdi in Hh. injection Hh as <-.
  destruct (clickbait_stage_fields (combined_text i) (in_original_title i)
              (duration_stage d (category_stages (combined_text i) (in_channel i)
                                                 heuristic_defaults))) as (Hc & -> & ->).
  rewrite Hc, duration_stage_category in Hm.
  apply duration_stage_short; auto using category_stages_outcome.
Qed.

Lemma clickbait_stage_expected text title h :
  h_clickbait_score h = 0.1%float →
  h_clickbait_score (clickbait_stage text title h) = expected_clickbait text title.
Proof.
  intros Hcb. unfold clickbait_stage, expected_clickbait.
  repeat case_head; simpl; rewrite ?Hcb; reflexivity.
Qed.

(** The clickbait score is the strongest signal present: 0.7 for a
    listed phrase, else 0.5 for a title mostly in capitals, else 0.4 for
    repeated punctuation, else 0.1; the category plays no part. *)
Theorem fallback_clickbait video c :
  _fallback_classification video = Ok c →
  ∃ i, read_inputs video = Ok i ∧
       clickbait_score c = expected_clickbait (combined_text i) (in_original_title i).
Proof.
  intros (i & h & Hi & Hh & ->)%fallback_inv. exists i. split; [done|]. simpl.
  unfold run_cascade in Hh. destruct (in_duration i) as [d|]; [|done].
  injection Hh as <-. apply clickbait_stage_expected.
  rewrite duration_stage_clickbait.
  apply stage_outcomes_clickbait, category_stages_outcome.
Qed.

(** ** The external model *)

Lemma score_of_unit f d x : score_of f d = Ok x → unit_score x = true.
Proof.
  unfold score_of. destruct (get f d); simpl; [|done].
  intros [= <-]. apply clamp01_unit.
Qed.

(** A normalised answer of the external model is a valid
    classification: its scores are clamped into [0, 1], infinities and NaN
    included, and its category is one of [CATEGORIES]. *)
Lemma normalise_answer_valid cat conf ent depth cb c :
  normalise_answer cat conf ent depth cb = Ok c →
  scores_valid c = true ∧ In (category c) CATEGORIES.
Proof.
  unfold normalise_answer.
  intros (c0 & _ & (x1 & _ & (x2 & _ & (x3 & _ & (x4 & _ & H)%bind_Ok_inv)
    %bind_Ok_inv)%bind_Ok_inv)%bind_Ok_inv)%bind_Ok_inv.
  apply VideoClassification_new_Ok in H as [-> Hv]. split; [done|].
  cbn [category]. destruct (in_list (upper c0) CATEGORIES) eqn:Hin.
  - by apply in_list_In.
  - apply in_list_In. reflexivity.
Qed.

(** A failure of the external model is recovered locally: whenever the
    cascade classifies a video, so does [_classify_with_ai], whatever the
    model answered, and with valid scores. *)
Theorem classify_with_ai_recovers outcome video c0 :
  _fallback_classification video = Ok c0 →
  ∃ c, _classify_with_ai outcome video = Ok c ∧ scores_valid c = true.
Proof.
  intros Hf. pose proof (fallback_scores_valid _ _ Hf) as Hv.
  pose proof Hf as (i & _ & Hi & _)%fallback_inv.
  apply read_inputs_inv in Hi as (? & ? & ? & ? & _ & Hd & Hg & _).
  unfold _classify_with_ai, build_prompt. rewrite Hd, Hg. simpl.
  destruct outcome as [|cat conf ent depth cb]; [eauto|].
  destruct (normalise_answer _ _ _ _ _) as [c|e] eqn:Hn; [|eauto].
  apply normalise_answer_valid in Hn as [? _]. eauto.
Qed.

(** ** Witnesses *)

Lemma fallback_classification_valid_witness :
  let c := mkVideoClassification "MUSIC" 0.6 0.8 0.2 0.5 in
  scores_valid c = true ∧ confidence_score c = 0.6%float ∧
  In (category c) HEURISTIC_CATEGORIES.
Proof. apply (fallback_classification_valid music_video). reflexivity. Defined.

Lemma fallback_total_witness : ∃ c, _fallback_classification tutorial_video = Ok c.
Proof. apply fallback_total. by repeat split. Defined.

Lemma fallback_channel_none_witness :
  _fallback_classification
    (video_payload "e1" "No channel" EmptyString None 100 false None []) =
  Raise AttributeError.
Proof. by apply fallback_channel_none. Defined.


Lemma dead_keywords_never_decide_witness :
  category (mkVideoClassification "GAMING" 0.6 0.8 0.3 0.1) ≠ "SCIENCE_TECH".
Proof.
  eapply (dead_keywords_never_decide code_video _ _ "code" "SCIENCE_TECH").
  - reflexivity.
  - reflexivity.
  - simpl; tauto.
  - reflexivity.
Defined.

Lemma fallback_short_video_witness :
  let c := mkVideoClassification "GAMING" 0.6 0.8 0.3 0.7 in
  PrimFloat.leb 0.7 (entertainment_score c) = true ∧
  PrimFloat.leb (depth_score c) 0.3 = true.
Proof.
  apply (fallback_short_video prank_video _ 45); [reflexivity | reflexivity | lia | done].
Defined.

Lemma fallback_clickbait_witness :
  ∃ i, read_inputs prank_video = Ok i ∧
       0.7%float = expected_clickbait (combined_text i) (in_original_title i).
Proof.
  apply (fallback_clickbait prank_video (mkVideoClassification "GAMING" 0.6 0.8 0.3 0.7)).
  reflexivity.
Defined.

Lemma normalise_answer_valid_witness :
  let c := mkVideoClassification "ENTERTAINMENT" 0.5 1 0 0 in
  scores_valid c = true ∧ In (category c) CATEGORIES.
Proof.
  apply (normalise_answer_valid (Val "something else") Missing (Val 7.5%float)
           (Val (-2)%float) (Val nan)).
  reflexivity.
Defined.

Lemma classify_with_ai_recovers_witness :
  ∃ c, _classify_with_ai (AIAnswer Null Missing Missing Missing Missing) music_video = Ok c ∧
       scores_valid c = true.
Proof.
  apply (classify_with_ai_recovers _ music_video
           (mkVideoClassification "MUSIC" 0.6 0.8 0.2 0.5)).
  reflexivity.
Defined.
