(* ===== verification/Gemini.v ===== *)
(** * Gemini: the prompt of the external model and the text of its answer

    The part of [AIClassifier._classify_with_ai] that [Classifier] takes as
    given: the prompt built from [CLASSIFICATION_PROMPT] by [str.format],
    and the text of the answer, stripped and taken out of its code fence
    before it is handed to the JSON decoder.  The call of the model and
    the decoder are parameters; [str.format], [str.strip], [str.split] and
    [str.startswith] are functions on strings.

    [str.format] is modelled for replacement fields that hold a name only
    (no conversion, no format specification, no attribute or index), which
    is what the template uses. *)

From Stdlib Require Import ZArith String Ascii List Floats Lia.
From stdpp Require Import base option list strings.
From S2P Require Import Prelude Models Classifier.

Local Open Scope string_scope.
Local Open Scope Z_scope.
Local Open Scope list_scope.

(** ** Text *)

(** The double quote and the line feed. *)
Definition dq : string := String (ascii_of_nat 34) EmptyString.
Definition nl : string := String (ascii_of_nat 10) EmptyString.

(** [c.isspace()] on an ASCII character: the space, the controls from tab
    to carriage return, and the four separators. *)
Definition isspace (c : ascii) : bool :=
  let n := N_of_ascii c in
  (n =? 32)%N || ((9 <=? n)%N && (n <=? 13)%N) || ((28 <=? n)%N && (n <=? 31)%N).

(** [s.lstrip()], [s.rstrip()] and [s.strip()]. *)
Fixpoint lstrip (s : string) : string :=
  match s with
  | String c rest => if isspace c then lstrip rest else s
  | EmptyString => EmptyString
  end.

Fixpoint rstrip (s : string) : string :=
  match s with
  | String c rest =>
      match rstrip rest with
      | EmptyString => if isspace c then EmptyString else String c EmptyString
      | kept => String c kept
      end
  | EmptyString => EmptyString
  end.

Definition strip (s : string) : string := rstrip (lstrip s).

(** [s[n:]]. *)
Fixpoint drop_str (n : nat) (s : string) : string :=
  match n, s with
  | S n', String _ rest => drop_str n' rest
  | _, _ => s
  end.

(** [s.split(sep)] for a separator that is not empty: the pieces between
    the occurrences of the separator, found from the left and not
    overlapping.  [skip] counts the characters of a separator just found
    that are still to be passed. *)
Fixpoint split_from (sep : string) (skip : nat) (s : string) : list string :=
  match s with
  | EmptyString => [EmptyString]
  | String c rest =>
      match skip with
      | S k => split_from sep k rest
      | O =>
          if String.prefix sep s then
            EmptyString :: split_from sep (String.length sep - 1) rest
          else
            match split_from sep 0 rest with
            | piece :: pieces => String c piece :: pieces
            | [] => [String c EmptyString]
            end
      end
  end.

Definition split (sep s : string) : list string := split_from sep 0 s.

(** ** str.format *)

(** Where the reader of a template stands: in the text, after a brace
    that may be the first of a pair, or in the name of a field. *)
Inductive format_state : Type :=
| InText
| AfterOpen
| AfterClose
| InField (name : string).

(** [kwargs[name]]. *)
Definition kwarg (name : string) (kwargs : list (string * string)) : result string :=
  match List.find (λ item, String.eqb item.1 name) kwargs with
  | Some item => Ok item.2
  | None => Raise (KeyError name)
  end.

(** The value of the field [name]; a field without a name is the next
    positional argument, and there is none. *)
Definition field_value (name : string) (kwargs : list (string * string)) : result string :=
  match name with
  | EmptyString => Raise IndexError
  | _ => kwarg name kwargs
  end.

(** [template.format] on keyword arguments, read from the left. *)
Fixpoint format_from (st : format_state) (template : string)
    (kwargs : list (string * string)) : result string :=
  match template with
  | EmptyString =>
      match st with
      | InText => Ok EmptyString
      | AfterOpen => Raise (ValueError "Single '{' encountered in format string")
      | AfterClose => Raise (ValueError "Single '}' encountered in format string")
      | InField _ => Raise (ValueError "expected '}' before end of string")
      end
  | String c rest =>
      match st with
      | InText =>
          if Ascii.eqb c "{" then format_from AfterOpen rest kwargs
          else if Ascii.eqb c "}" then format_from AfterClose rest kwargs
          else String c <$> format_from InText rest kwargs
      | AfterOpen =>
          if Ascii.eqb c "{" then String c <$> format_from InText rest kwargs
          else if Ascii.eqb c "}" then
            value ← field_value EmptyString kwargs;
            (λ rest, value +:+ rest) <$> format_from InText rest kwargs
          else format_from (InField (String c EmptyString)) rest kwargs
      | AfterClose =>
          if Ascii.eqb c "}" then String c <$> format_from InText rest kwargs
          else Raise (ValueError "Single '}' encountered in format string")
      | InField name =>
          if Ascii.eqb c "}" then
            value ← field_value name kwargs;
            (λ rest, value +:+ rest) <$> format_from InText rest kwargs
          else if Ascii.eqb c "{" then Raise (ValueError "unexpected '{' in field name")
          else format_from (InField (name +:+ String c EmptyString)) rest kwargs
      end
  end.

Definition format (template : string) (kwargs : list (string * string)) : result string :=
  format_from InText template kwargs.

(** *** The template read first, then filled

    The reference for [format]: the template is read into its literal
    characters and its fields, and the fields are looked up afterwards. *)
Inductive piece : Type :=
| Char (c : ascii)
| Field (name : string).

Fixpoint parse_from (st : format_state) (template : string) : result (list piece) :=
  match template with
  | EmptyString =>
      match st with
      | InText => Ok []
      | AfterOpen => Raise (ValueError "Single '{' encountered in format string")
      | AfterClose => Raise (ValueError "Single '}' encountered in format string")
      | InField _ => Raise (ValueError "expected '}' before end of string")
      end
  | String c rest =>
      match st with
      | InText =>
          if Ascii.eqb c "{" then parse_from AfterOpen rest
          else if Ascii.eqb c "}" then parse_from AfterClose rest
          else cons (Char c) <$> parse_from InText rest
      | AfterOpen =>
          if Ascii.eqb c "{" then cons (Char c) <$> parse_from InText rest
          else if Ascii.eqb c "}" then cons (Field EmptyString) <$> parse_from InText rest
          else parse_from (InField (String c EmptyString)) rest
      | AfterClose =>
          if Ascii.eqb c "}" then cons (Char c) <$> parse_from InText rest
          else Raise (ValueError "Single '}' encountered in format string")
      | InField name =>
          if Ascii.eqb c "}" then cons (Field name) <$> parse_from InText rest
          else if Ascii.eqb c "{" then Raise (ValueError "unexpected '{' in field name")
          else parse_from (InField (name +:+ String c EmptyString)) rest
      end
  end.

Fixpoint fill (kwargs : list (string * string)) (pieces : list piece) : result string :=
  match pieces with
  | [] => Ok EmptyString
  | Char c :: rest => String c <$> fill kwargs rest
  | Field name :: rest =>
      value ← field_value name kwargs;
      (λ rest, value +:+ rest) <$> fill kwargs rest
  end.

(** The fields of a template and the number of its literal characters. *)
Definition field_names (pieces : list piece) : list string :=
  omap (λ p, match p with Field name => Some name | Char _ => None end) pieces.

Definition literal_count (pieces : list piece) : nat :=
  length (List.filter (λ p, match p with Char _ => true | Field _ => false end) pieces).

(** The length of the value of a field. *)
Definition value_length (kwargs : list (string * string)) (name : string) : nat :=
  match field_value name kwargs with
  | Ok value => String.length value
  | Raise _ => 0
  end.

(** Every character of a text satisfies [p]. *)
Fixpoint every (p : ascii → bool) (s : string) : bool :=
  match s with
  | EmptyString => true
  | String c rest => p c && every p rest
  end.

(** ** The prompt *)

(** [AIClassifier.CLASSIFICATION_PROMPT], line by line. *)
Definition CLASSIFICATION_PROMPT : string :=
  join nl
  ["You are a video content classifier. Analyze the following video metadata and " +:+
     "classify it.";
   EmptyString;
   "VIDEO INFORMATION:";
   "Title: {title}";
   "Description: {description}";
   "Tags: {tags}";
   "Channel: {channel}";
   "Duration: {duration} seconds";
   "{transcript_section}";
   EmptyString;
   "TASK: Classify this video and provide scores. Respond ONLY with valid JSON in " +:+
     "this exact format:";
   "{{";
   "    " +:+ dq +:+ "category" +:+ dq +:+ ": " +:+ dq +:+
     "one of: EDUCATION, STUDY, TECH, MUSIC, PODCAST, NEWS, ENTERTAINMENT, MEME, " +:+
     "CLICKBAIT, GAMING" +:+ dq +:+ ",";
   "    " +:+ dq +:+ "confidence_score" +:+ dq +:+
     ": 0.0 to 1.0 (how confident you are in the classification),";
   "    " +:+ dq +:+ "entertainment_score" +:+ dq +:+
     ": 0.0 to 1.0 (0 = purely educational, 1 = purely entertainment),";
   "    " +:+ dq +:+ "depth_score" +:+ dq +:+
     ": 0.0 to 1.0 (0 = shallow/superficial, 1 = deep/informative),";
   "    " +:+ dq +:+ "clickbait_score" +:+ dq +:+
     ": 0.0 to 1.0 (0 = no clickbait, 1 = extreme clickbait)";
   "}}";
   EmptyString;
   "CLASSIFICATION GUIDELINES:";
   "- EDUCATION: Formal courses, tutorials, lectures from educational channels";
   "- STUDY: Academic content, research, study techniques";
   "- TECH: Technology reviews, coding tutorials, tech news";
   "- MUSIC: Songs, albums, concerts, music videos";
   "- PODCAST: Long-form discussions, interviews (usually 20+ minutes)";
   "- NEWS: Current events, news analysis";
   "- ENTERTAINMENT: General entertainment, vlogs, comedy (not meme)";
   "- MEME: Short viral content, memes, compilations";
   "- CLICKBAIT: Sensationalized titles, misleading thumbnails, low value";
   "- GAMING: Game streams, reviews, gameplay";
   EmptyString;
   "Clickbait indicators:";
   "- ALL CAPS words in title";
   "- Excessive punctuation (!!!, ???)";
   "- Phrases like " +:+ dq +:+ "You won't believe" +:+ dq +:+ ", " +:+ dq +:+ "Gone wrong" +:+
     dq +:+ ", " +:+ dq +:+ "SHOCKING" +:+ dq;
   "- Misleading or sensationalized claims";
   EmptyString;
   "Respond with ONLY the JSON, no other text."].

(** What [str.format] prints for [video.get(key, default)]: the text, the
    default of a missing key, or [None]. *)
Definition shown (f : field string) (default : string) : string :=
  match f with
  | Missing => default
  | Null => "None"
  | Val s => s
  end.

Definition shown_int (f : field Z) (default : Z) : string :=
  match f with
  | Missing => str_Z default
  | Null => "None"
  | Val z => str_Z z
  end.

(** Lines 126 to 131: the first 2000 characters of the transcript under
    their heading, when there is a transcript. *)
Definition transcript_section (video : Video) : string :=
  match get (v_transcript video) EmptyString with
  | Some (String _ _ as transcript) =>
      nl +:+ "Transcript Preview (first 2000 chars):" +:+ nl +:+ take_str 2000 transcript
  | _ => EmptyString
  end.

(** The keyword arguments of the call of [format], in the order they are
    evaluated: slicing a description or a list of tags that is [None]
    raises. *)
Definition prompt_kwargs (video : Video) : result (list (string * string)) :=
  description ← need TypeError (get (v_description video) EmptyString);
  tags ← need TypeError (get (v_tags video) []);
  Ok [("title", shown (v_title video) EmptyString);
      ("description", take_str 500 description);
      ("tags", join ", " (take 20 tags));
      ("channel", shown (v_channel_title video) "Unknown");
      ("duration", shown_int (v_duration_seconds video) 0);
      ("transcript_section", transcript_section video)].

(** Lines 125 to 141: the prompt. *)
Definition prompt (video : Video) : result string :=
  kwargs ← prompt_kwargs video;
  format CLASSIFICATION_PROMPT kwargs.

(** The template as [format] reads it. *)
Definition prompt_pieces : list piece :=
  Eval vm_compute in
    match parse_from InText CLASSIFICATION_PROMPT with Ok pieces => pieces | Raise _ => [] end.

(** ** The answer *)

(** The fence of a code block. *)
Definition fence : string := "```".

(** Lines 145 to 153: the text of the answer without the white space
    around it, and without its fence and the word [json] after it when it
    starts with a fence. *)
Definition unfenced (text : string) : result string :=
  let text := strip text in
  if String.prefix fence text then
    match split fence text with
    | _ :: text :: _ =>
        let text := if String.prefix "json" text then drop_str 4 text else text in
        Ok (strip text)
    | _ => Raise IndexError
    end
  else Ok text.

Section Model.

(** [self.model.generate_content(prompt).text], and [json.loads] with the
    five reads of the answer: what the decoder returns for a text is an
    object whose keys may be missing or null, or a failure when the text
    is not JSON or not an object. *)
Variable generate_content : string → result string.
Variable json_loads : string → ai_outcome.

(** Lines 143 to 155: the answer of the model as [Classifier] reads
    it. *)
Definition answer_of (prompt : string) : ai_outcome :=
  match generate_content prompt ≫= unfenced with
  | Ok text => json_loads text
  | Raise _ => AIFailed
  end.

(** [AIClassifier._classify_with_ai] from the prompt to the
    classification. *)
Definition classify_with_model (video : Video) : result VideoClassification :=
  prompt ← prompt video;
  _classify_with_ai (answer_of prompt) video.

End Model.

(** ** Samples *)

(** A model that answers in a fenced block, and a decoder that knows that
    answer. *)
Definition fenced_answer : string :=
  "```json" +:+ nl +:+ "{" +:+ dq +:+ "category" +:+ dq +:+ ": " +:+ dq +:+ "music" +:+ dq +:+
  "}" +:+ nl +:+ "```" +:+ nl.

Definition plain_answer : string :=
  "{" +:+ dq +:+ "category" +:+ dq +:+ ": " +:+ dq +:+ "music" +:+ dq +:+ "}".

Definition sample_loads (text : string) : ai_outcome :=
  if String.eqb text plain_answer then AIAnswer (Val "music") Missing Missing Missing Missing
  else AIFailed.

(** * Theorems *)

(** ** Text *)


Lemma drop_str_app p r : drop_str (String.length p) (p +:+ r) = r.
Proof. induction p as [|c p IH]; [by destruct r|done]. Qed.

Lemma every_app p a b : every p (a +:+ b) = every p a && every p b.
Proof.
  induction a as [|c a IH]; [done|]. rewrite str_app_cons. simpl. by rewrite IH, andb_assoc.
Qed.

(** A text is never split into no piece. *)
Lemma split_from_cons sep k s : ∃ piece pieces, split_from sep k s = piece :: pieces.
Proof.
  revert k. induction s as [|c s IH]; intros k; [by eexists _, _|].
  destruct k as [|k]; [|apply IH]. cbn [split_from].
  destruct (String.prefix sep (String c s)); [by eexists _, _|].
  destruct (IH 0%nat) as (piece & pieces & ->). by eexists _, _.
Qed.



Lemma split_from_skip sep p s :
  split_from sep (String.length p) (p +:+ s) = split_from sep 0 s.
Proof. induction p as [|c p IH]; [done|apply IH]. Qed.

(** The first piece ends at the first separator: a text whose characters
    differ from the first of the separator is a piece of its own. *)
Lemma split_first d sep a b :
  every (λ c, negb (Ascii.eqb c d)) a = true →
  split (String d sep) (a +:+ String d sep +:+ b) = a :: split (String d sep) b.
Proof.
  unfold split. induction a as [|c a IH]; intros Ha.
  - rewrite str_app_nil_l, str_app_cons. cbn [split_from].
    replace (String.prefix _ _) with true
      by (symmetry; apply prefix_spec; exists b; by rewrite str_app_cons).
    f_equal. replace (String.length (String d sep) - 1)%nat with (String.length sep)
      by (simpl; lia).
    apply split_from_skip.
  - simpl in Ha. apply andb_true_iff in Ha as [Hc Ha]. rewrite str_app_cons. cbn [split_from].
    destruct (String.prefix _ _) eqn:Hp.
    + apply prefix_spec in Hp as [rest Hr]. rewrite str_app_cons in Hr. injection Hr as -> _.
      by rewrite Ascii.eqb_refl in Hc.
    + by rewrite IH.
Qed.

(** A text that starts with the separator has an empty first piece and a
    piece behind it. *)
Lemma split_prefix sep s :
  sep ≠ EmptyString → String.prefix sep s = true →
  ∃ piece pieces, split sep s = EmptyString :: piece :: pieces.
Proof.
  intros Hsep Hp. destruct s as [|c s]; [by destruct sep|]. unfold split.
  change (split_from sep 0 (String c s)) with
    (if String.prefix sep (String c s)
     then EmptyString :: split_from sep (String.length sep - 1) s
     else match split_from sep 0 s with
          | piece :: pieces => String c piece :: pieces
          | [] => [String c EmptyString]
          end).
  rewrite Hp. destruct (split_from_cons sep (String.length sep - 1) s) as (piece & pieces & ->).
  by eexists _, _.
Qed.

(** *** Stripping *)

Lemma lstrip_spaces ws s : every isspace ws = true → lstrip (ws +:+ s) = lstrip s.
Proof.
  induction ws as [|c ws IH]; [done|]. simpl. intros [Hc Hws]%andb_true_iff.
  rewrite Hc. by apply IH.
Qed.

Lemma rstrip_cons c s : isspace c = false → rstrip (String c s) = String c (rstrip s).
Proof. intros Hc. simpl. destruct (rstrip s); by rewrite ?Hc. Qed.

Lemma rstrip_spaces ws : every isspace ws = true → rstrip ws = EmptyString.
Proof.
  induction ws as [|c ws IH]; [done|]. simpl. intros [Hc Hws]%andb_true_iff.
  by rewrite IH, Hc.
Qed.

Lemma rstrip_app a b : rstrip b ≠ EmptyString → rstrip (a +:+ b) = a +:+ rstrip b.
Proof.
  intros Hb. induction a as [|c a IH]; [done|]. rewrite !str_app_cons. simpl. rewrite IH.
  destruct a; simpl; [by destruct (rstrip b)|done].
Qed.

Lemma rstrip_idem s : rstrip (rstrip s) = rstrip s.
Proof.
  induction s as [|c s IH]; [done|]. simpl. destruct (rstrip s) as [|d kept] eqn:Hs.
  - destruct (isspace c) eqn:Hc; simpl; by rewrite ?Hc.
  - change (rstrip (String c (String d kept)) = String c (String d kept)).
    simpl rstrip at 1. cbn [rstrip] in IH. by rewrite IH.
Qed.

(** What [strip] returns has no white space at either end, so stripping
    it again changes nothing. *)
Lemma strip_idem s : strip (strip s) = strip s.
Proof.
  unfold strip. assert (lstrip (rstrip (lstrip s)) = rstrip (lstrip s)) as ->; [|apply rstrip_idem].
  induction s as [|c s IH]; [done|]. simpl. destruct (isspace c) eqn:Hc; [done|].
  rewrite rstrip_cons by done. simpl. by rewrite Hc.
Qed.

(** ** The answer *)

(** The text around a fence: white space before it is stripped, and the
    text behind it is stripped at its end. *)
Lemma rstrip_fence s : rstrip (fence +:+ s) = fence +:+ rstrip s.
Proof.
  change (fence +:+ ?s) with (String "`" (String "`" (String "`" s))).
  by rewrite !rstrip_cons.
Qed.

Lemma strip_fenced ws inner tail :
  every isspace ws = true →
  strip (ws +:+ fence +:+ inner +:+ fence +:+ tail) =
    fence +:+ inner +:+ fence +:+ rstrip tail.
Proof.
  intros Hws. unfold strip. rewrite lstrip_spaces by done.
  change (lstrip (fence +:+ ?s)) with (fence +:+ s).
  rewrite rstrip_fence, rstrip_app; by rewrite rstrip_fence.
Qed.

(** The pieces of a text around a fence. *)
Lemma split_fence a b :
  every (λ c, negb (Ascii.eqb c "`")) a = true →
  split fence (a +:+ fence +:+ b) = a :: split fence b.
Proof. apply (split_first "`" "``"). Qed.

Lemma split_fence_first b : split fence (fence +:+ b) = EmptyString :: split fence b.
Proof. by apply (split_fence EmptyString). Qed.

(** [unfenced] never raises: a text that starts with a fence has a piece
    behind it. *)
Lemma unfenced_total text : ∃ inner, unfenced text = Ok inner.
Proof.
  unfold unfenced. destruct (String.prefix fence (strip text)) eqn:Hp; [|by eexists].
  destruct (split_prefix fence (strip text)) as (piece & pieces & ->); [done..|by eexists].
Qed.

(** A block between two fences, with white space before it and anything
    behind it, is read as its body, stripped. *)
Lemma unfenced_fenced ws lang body tail :
  every isspace ws = true →
  every (λ c, negb (Ascii.eqb c "`")) body = true →
  lang = "json" ∨ lang = EmptyString ∧ String.prefix "json" body = false →
  unfenced (ws +:+ fence +:+ (lang +:+ body) +:+ fence +:+ tail) = Ok (strip body).
Proof.
  intros Hws Hbody Hlang. unfold unfenced. rewrite strip_fenced by done.
  replace (String.prefix fence _) with true by (symmetry; apply prefix_spec; by eexists).
  rewrite split_fence_first, split_fence.
  - destruct Hlang as [->|[-> Hp]]; [|by rewrite str_app_nil_l, Hp].
    replace (String.prefix "json" _) with true by (symmetry; apply prefix_spec; by eexists).
    by rewrite (drop_str_app "json").
  - rewrite every_app, Hbody. by destruct Hlang as [->|[-> _]].
Qed.

(** ** str.format *)

(** [format] reads the template and fills it in one pass: on a template
    that is well formed, it returns what filling its fields returns. *)
Lemma format_parse st template kwargs pieces :
  parse_from st template = Ok pieces → format_from st template kwargs = fill kwargs pieces.
Proof.
  revert st pieces. induction template as [|c t IH]; intros st pieces.
  - destruct st; simpl; try done. by intros [= <-].
  - destruct st; simpl; destruct (Ascii.eqb c "{"), (Ascii.eqb c "}"); try done; try apply IH;
      (destruct (parse_from _ t) as [ps|] eqn:Hp; [|done]); intros [= <-]; simpl;
      try destruct (field_value _ kwargs); simpl; by rewrite ?(IH _ _ Hp).
Qed.

(** A template whose fields are all given is filled. *)
Lemma fill_ok kwargs pieces :
  Forall (λ name, is_ok (field_value name kwargs) = true) (field_names pieces) →
  ∃ p, fill kwargs pieces = Ok p.
Proof.
  induction pieces as [|[c|name] pieces IH]; simpl; intros Hf; [by eexists|..].
  - destruct (IH Hf) as [p ->]. by eexists.
  - apply Forall_cons in Hf as [Hn Hf]. destruct (IH Hf) as [p ->].
    destruct (field_value name kwargs); [by eexists|done].
Qed.

(** The length of a filled template: its literal characters and the
    values of its fields. *)
Lemma fill_length kwargs pieces p :
  fill kwargs pieces = Ok p →
  String.length p =
    (literal_count pieces + sum_list_with (value_length kwargs) (field_names pieces))%nat.
Proof.
  revert p. induction pieces as [|[c|name] pieces IH]; intros p; simpl.
  - by intros [= <-].
  - destruct (fill kwargs pieces) as [rest|]; [|done]. intros [= <-]. simpl.
    by rewrite (IH rest).
  - unfold value_length at 1. destruct (field_value name kwargs) as [value|]; [|done]. simpl.
    destruct (fill kwargs pieces) as [rest|]; [|done]. intros [= <-].
    rewrite str_app_length, (IH rest) by done.
    change (literal_count (Field name :: pieces)) with (literal_count pieces). lia.
Qed.

(** ** The prompt *)

(** The template is well formed; it has six fields and 1528 literal
    characters. *)
Lemma prompt_parse : parse_from InText CLASSIFICATION_PROMPT = Ok prompt_pieces.
Proof. by vm_compute. Qed.

Lemma prompt_fields :
  field_names prompt_pieces =
    ["title"; "description"; "tags"; "channel"; "duration"; "transcript_section"] ∧
  literal_count prompt_pieces = 1528%nat.
Proof. by vm_compute. Qed.

Lemma prompt_kwargs_inv video kwargs :
  prompt_kwargs video = Ok kwargs →
  ∃ description tags,
    get (v_description video) EmptyString = Some description ∧
    get (v_tags video) [] = Some tags ∧
    kwargs = [("title", shown (v_title video) EmptyString);
              ("description", take_str 500 description);
              ("tags", join ", " (take 20 tags));
              ("channel", shown (v_channel_title video) "Unknown");
              ("duration", shown_int (v_duration_seconds video) 0);
              ("transcript_section", transcript_section video)].
Proof.
  unfold prompt_kwargs. destruct (get (v_description video) _) as [description|]; [|done].
  destruct (get (v_tags video) _) as [tags|]; [|done]. intros [= <-]. by eexists _, _.
Qed.

(** The prompt is the template filled with the keyword arguments. *)
Lemma prompt_fill video kwargs :
  prompt_kwargs video = Ok kwargs → prompt video = fill kwargs prompt_pieces.
Proof. intros Hk. unfold prompt, format. rewrite Hk. apply format_parse, prompt_parse. Qed.

(** The prompt is built exactly when [Classifier.build_prompt] says
    so: [format] finds every field of the template among its keyword
    arguments and never raises, so the only exception is the [TypeError]
    of slicing a description or a list of tags that is [None]. *)
Theorem build_prompt_prompt video : build_prompt video = (λ _, tt) <$> prompt video.
Proof.
  unfold build_prompt. destruct (prompt_kwargs video) as [kwargs|e] eqn:Hk.
  - rewrite (prompt_fill _ _ Hk).
    apply prompt_kwargs_inv in Hk as (description & tags & -> & -> & ->).
    match goal with |- context [fill ?kwargs _] =>
      destruct (fill_ok kwargs prompt_pieces) as [p ->] end;
      [rewrite (proj1 prompt_fields); by repeat constructor|done].
  - unfold prompt. rewrite Hk. unfold prompt_kwargs in Hk.
    destruct (get (v_description video) _); [|by injection Hk as <-].
    destruct (get (v_tags video) _); [done|by injection Hk as <-].
Qed.

Lemma transcript_section_length video :
  (String.length (transcript_section video) ≤ 2040)%nat.
Proof.
  unfold transcript_section. destruct (get _ _) as [[|c transcript]|]; [simpl; lia| |simpl; lia].
  rewrite !str_app_length, take_str_length. simpl String.length. lia.
Qed.

(** The prompt is bounded in the description and in the transcript:
    its length is that of the 1528 literal characters of the template, of
    the title, the channel and the duration as they are, of at most twenty
    tags, of at most 500 characters of the description and of at most
    2040 characters for the transcript and its heading. *)
Theorem prompt_length video p :
  prompt video = Ok p →
  (String.length p ≤
     4068 + String.length (shown (v_title video) EmptyString) +
     String.length (join ", " (take 20 (default [] (get (v_tags video) [])))) +
     String.length (shown (v_channel_title video) "Unknown") +
     String.length (shown_int (v_duration_seconds video) 0))%nat.
Proof.
  intros Hp. destruct (prompt_kwargs video) as [kwargs|e] eqn:Hk;
    [|by unfold prompt in Hp; rewrite Hk in Hp].
  rewrite (prompt_fill _ _ Hk) in Hp. apply fill_length in Hp as ->.
  apply prompt_kwargs_inv in Hk as (description & tags & _ & -> & ->).
  destruct prompt_fields as [-> ->]. pose proof (transcript_section_length video).
  assert (String.length (take_str 500 description) ≤ 500)%nat
    by (rewrite take_str_length; lia).
  change (sum_list_with _ _) with
    (String.length (shown (v_title video) EmptyString) +
     (String.length (take_str 500 description) +
      (String.length (join ", " (take 20 tags)) +
       (String.length (shown (v_channel_title video) "Unknown") +
        (String.length (shown_int (v_duration_seconds video) 0) +
         (String.length (transcript_section video) + 0))))))%nat.
  simpl default. lia.
Qed.

(** ** The call *)

Section ModelTheorems.
Variable generate_content : string → result string.
Variable json_loads : string → ai_outcome.

Local Abbreviation answer_of := (answer_of generate_content json_loads) (only parsing).
Local Abbreviation classify_with_model :=
  (classify_with_model generate_content json_loads) (only parsing).

(** C36. The call of the model refines [Classifier._classify_with_ai].
    With the template, [str.format], the text of the answer and the
    decoder written out: the prompt is built exactly when the abstract
    step [build_prompt] succeeds, since [format] finds every field of the
    template and the only exception is the [TypeError] of a description
    or a list of tags that is [None]; and the classification is the one
    [_classify_with_ai] gives for the outcome that is the decoded answer,
    or a failure when the model raised or answered no text. *)
Theorem classify_with_model_refines video :
  build_prompt video = (λ _, tt) <$> prompt video ∧
  classify_with_model video =
    _classify_with_ai
      (match prompt video with Ok p => answer_of p | Raise _ => AIFailed end) video.
Proof.
  split; [apply build_prompt_prompt|].
  unfold Gemini.classify_with_model, _classify_with_ai. rewrite build_prompt_prompt.
  by destruct (prompt video).
Qed.

(** C37. An answer in a code block is decoded without its fence.  When
    the text of the model is a block between two fences, with white space
    before it, anything behind it, and either the word [json] after the
    opening fence or a body that does not start with that word, the
    decoder is handed the body of the block, stripped, and the answer is
    what the decoder makes of it. *)
Theorem answer_of_fenced prompt ws lang body tail :
  generate_content prompt = Ok (ws +:+ fence +:+ (lang +:+ body) +:+ fence +:+ tail) →
  every isspace ws = true →
  every (λ c, negb (Ascii.eqb c "`")) body = true →
  lang = "json" ∨ lang = EmptyString ∧ String.prefix "json" body = false →
  answer_of prompt = json_loads (strip body).
Proof.
  intros Hg Hws Hbody Hlang. unfold Gemini.answer_of. rewrite Hg. simpl.
  by rewrite unfenced_fenced.
Qed.

(** An answer that is not fenced is decoded as it is, stripped; a model
    that raises is an answer that failed. *)
Lemma answer_of_plain prompt text :
  generate_content prompt = Ok text → String.prefix fence (strip text) = false →
  answer_of prompt = json_loads (strip text).
Proof. intros Hg Hp. unfold Gemini.answer_of, unfenced. rewrite Hg. simpl. by rewrite Hp. Qed.

End ModelTheorems.

(** ** Witnesses *)


Lemma unfenced_fenced_witness : unfenced fenced_answer = Ok plain_answer.
Proof.
  by apply (unfenced_fenced EmptyString "json" (nl +:+ plain_answer +:+ nl) nl);
    [vm_compute..|left].
Defined.

Lemma answer_of_fenced_witness :
  answer_of (λ _, Ok fenced_answer) sample_loads "prompt" =
    AIAnswer (Val "music") Missing Missing Missing Missing.
Proof.
  by rewrite (answer_of_fenced (λ _, Ok fenced_answer) sample_loads "prompt" EmptyString "json"
                (nl +:+ plain_answer +:+ nl) nl);
    [vm_compute|vm_compute|vm_compute|vm_compute|left].
Defined.

Lemma prompt_length_witness :
  ∃ p, prompt music_video = Ok p ∧ (String.length p ≤ 4068 + 32 + 0 + 5 + 3)%nat.
Proof.
  destruct (prompt music_video) as [p|e] eqn:Hp; [|by vm_compute in Hp].
  exists p. split; [done|]. apply (prompt_length music_video p Hp).
Defined.

Lemma sample_classify_with_model :
  category <$> classify_with_model (λ _, Ok fenced_answer) sample_loads music_video =
    Ok "MUSIC" ∧
  confidence_score <$> classify_with_model (λ _, Ok fenced_answer) sample_loads music_video =
    Ok 0.5%float ∧
  confidence_score <$> classify_with_model (λ _, Raise TypeError) sample_loads music_video =
    Ok 0.6%float ∧
  classify_with_model (λ _, Ok fenced_answer) sample_loads
    (mkVideo Missing Missing Null Missing Missing Missing Missing Missing Missing Missing
       Missing Missing Missing Missing Missing Missing Missing Missing) = Raise TypeError.
Proof. by vm_compute. Qed.
