(* ===== verification/Cache.v ===== *)
(** * Cache: the score cache of services/ai_classifier.py

    [classify_video] looks a video up in the [content_cache] table before it
    classifies, and writes the classification through afterwards.  The table
    is a finite map from the primary key [video_id] to its row.  What
    [classify_video] needs of the table is the interface [CacheGateway]; the
    methods [_get_cached] and [_cache_result] over the map implement it. *)

From Stdlib Require Import ZArith String Ascii List Floats.
From stdpp Require Import base option list strings gmap.
From S2P Require Import Prelude Models Classifier.

Set Warnings "-inexact-float".
Local Open Scope string_scope.
Local Open Scope Z_scope.

(** ** Rows *)

(** The classification a row holds, as the hit path rebuilds it: the
    constructor validates the stored scores. *)
Definition stored_classification (cached : ContentCache) : VideoClassification :=
  mkVideoClassification (cc_category cached) (cc_confidence_score cached)
    (cc_entertainment_score cached) (cc_depth_score cached)
    (cc_clickbait_score cached).

Definition classification_of (cached : ContentCache) : result VideoClassification :=
  VideoClassification_new (cc_category cached) (cc_confidence_score cached)
    (cc_entertainment_score cached) (cc_depth_score cached)
    (cc_clickbait_score cached).

(** The update of an existing row: the classification and the two instants
    are replaced, the snapshot of the video is kept. *)
Definition update_entry (existing : ContentCache) (c : VideoClassification)
    (now : datetime) : ContentCache :=
  {| cc_video_id := cc_video_id existing; cc_title := cc_title existing;
     cc_description := cc_description existing;
     cc_channel_id := cc_channel_id existing;
     cc_channel_title := cc_channel_title existing; cc_tags := cc_tags existing;
     cc_thumbnail_url := cc_thumbnail_url existing;
     cc_category := category c; cc_confidence_score := confidence_score c;
     cc_entertainment_score := entertainment_score c;
     cc_depth_score := depth_score c; cc_clickbait_score := clickbait_score c;
     cc_is_short := cc_is_short existing;
     cc_duration_seconds := cc_duration_seconds existing;
     cc_language := cc_language existing; cc_view_count := cc_view_count existing;
     cc_like_count := cc_like_count existing;
     cc_published_at := cc_published_at existing;
     cc_analyzed_at := now; cc_expires_at := now + timedelta_hours 24 |}.

(** The new row of a video seen for the first time. *)
Definition new_entry (video_id title : string) (video : Video)
    (c : VideoClassification) (now : datetime) : ContentCache :=
  {| cc_video_id := video_id; cc_title := title;
     cc_description := get (v_description video) EmptyString;
     cc_channel_id := get_none (v_channel_id video);
     cc_channel_title := get_none (v_channel_title video);
     cc_tags := get (v_tags video) [];
     cc_thumbnail_url := get_none (v_thumbnail_url video);
     cc_category := category c; cc_confidence_score := confidence_score c;
     cc_entertainment_score := entertainment_score c;
     cc_depth_score := depth_score c; cc_clickbait_score := clickbait_score c;
     cc_is_short := get (v_is_short video) false;
     cc_duration_seconds := get (v_duration_seconds video) 0;
     cc_language := get_none (v_language video);
     cc_view_count := get (v_view_count video) 0;
     cc_like_count := get (v_like_count video) 0;
     cc_published_at := get_none (v_published_at video);
     cc_analyzed_at := now; cc_expires_at := default_expiry now |}.

(** ** The table and its two methods *)

(** [AIClassifier._get_cached]: the row of the video, unless it has
    expired.  A video without an identifier has no row. *)
Definition _get_cached (video_id : option string) (db : gmap string ContentCache)
    (now : datetime) : option ContentCache :=
  cached ← video_id ≫= (db !!.);
  if negb (is_expired now cached) then Some cached else None.

(** [AIClassifier._cache_result]: update the row the video's identifier
    selects, or insert a new one.  The insert violates the table's
    constraints when the video has no identifier or no title. *)
Definition _cache_result (video : Video) (c : VideoClassification)
    (db : gmap string ContentCache) (now : datetime) :
    result (gmap string ContentCache) :=
  match get_none (v_id video) with
  | None => Raise IntegrityError
  | Some key =>
      match db !! key with
      | Some existing => Ok (<[key := update_entry existing c now]> db)
      | None =>
          title ← need IntegrityError (get (v_title video) EmptyString);
          Ok (<[key := new_entry key title video c now]> db)
      end
  end.

(** ** The gateway *)

(** What [classify_video] asks of a cache: a lookup that never returns an
    expired row, and a write after which the video is found, with the
    classification written, until the time to live has passed. *)
Class CacheGateway (S : Type) : Type := {
  gw_lookup : option string → S → datetime → option ContentCache;
  gw_store : Video → VideoClassification → S → datetime → result S;
  gw_lookup_fresh video_id s now cached :
    gw_lookup video_id s now = Some cached → is_expired now cached = false;
  gw_lookup_store video c s now s' key later :
    gw_store video c s now = Ok s' → v_id video = Val key →
    later ≤ now + timedelta_hours 24 →
    ∃ cached, gw_lookup (Some key) s' later = Some cached ∧
              stored_classification cached = c;
  gw_lookup_expired video c s now s' key later :
    gw_store video c s now = Ok s' → v_id video = Val key →
    now + timedelta_hours 24 < later →
    gw_lookup (Some key) s' later = None;
}.

Section Classify.
Context {S : Type} `{CacheGateway S}.

(** [AIClassifier.classify_video]: the cache first, unless a refresh is
    forced; then the cascade, or the external model when asked for; then the
    write-through.  The result is the classification and the table. *)
Definition classify_video (outcome : ai_outcome) (video : Video) (db : S)
    (now : datetime) (force_refresh use_ai : bool) :
    result (VideoClassification * S) :=
  let video_id := get_none (v_id video) in
  match (if force_refresh then None else gw_lookup video_id db now) with
  | Some cached =>
      c ← classification_of cached; Ok (c, db)
  | None =>
      classification ←
        (if use_ai then _classify_with_ai outcome video
         else _fallback_classification video);
      db' ← gw_store video classification db now;
      Ok (classification, db')
  end.

End Classify.

(** The table's invariant: a row sits under its own key and holds valid
    scores. *)
Definition cache_ok (db : gmap string ContentCache) : Prop :=
  ∀ key cached, db !! key = Some cached →
    cc_video_id cached = key ∧ scores_valid (stored_classification cached) = true.

(** * Theorems *)

Lemma stored_update_entry existing c now :
  stored_classification (update_entry existing c now) = c.
Proof. by destruct c. Qed.

Lemma stored_new_entry key title video c now :
  stored_classification (new_entry key title video c now) = c.
Proof. by destruct c. Qed.

Lemma classification_of_valid cached :
  scores_valid (stored_classification cached) = true →
  classification_of cached = Ok (stored_classification cached).
Proof.
  intros Hv. unfold classification_of, VideoClassification_new.
  fold (stored_classification cached). by rewrite Hv.
Qed.

(** What a successful write did: it put a row under the video's key whose
    classification is the one written and whose expiry is a day away. *)
Lemma cache_result_inv video c db now db' :
  _cache_result video c db now = Ok db' →
  ∃ key row, v_id video = Val key ∧ db' = <[key := row]> db ∧
             stored_classification row = c ∧
             cc_expires_at row = now + timedelta_hours 24 ∧
             (cc_video_id row = key ∨
              ∃ existing, db !! key = Some existing ∧
                          cc_video_id row = cc_video_id existing).
Proof.
  unfold _cache_result.
  destruct (v_id video) as [| |key] eqn:Hid; simpl; try done.
  destruct (db !! key) as [existing|] eqn:Hk; simpl.
  - intros [= <-]. exists key, (update_entry existing c now).
    rewrite stored_update_entry. eauto 10.
  - destruct (get (v_title video) _) as [title|]; simpl; [|done]. intros [= <-].
    exists key, (new_entry key title video c now). by rewrite stored_new_entry; eauto 10.
Qed.

Lemma get_cached_fresh video_id db now cached :
  _get_cached video_id db now = Some cached → is_expired now cached = false.
Proof.
  unfold _get_cached. destruct (video_id ≫= _) as [e|]; simpl; [|done].
  destruct (is_expired now e) eqn:He; simpl; [done|]. by intros [= <-].
Qed.

Lemma get_cached_insert key row db now :
  _get_cached (Some key) (<[key := row]> db) now =
  if negb (is_expired now row) then Some row else None.
Proof. unfold _get_cached. simpl. by rewrite lookup_insert_eq. Qed.

Lemma get_cached_insert_ne key key' row db now :
  key ≠ key' →
  _get_cached (Some key') (<[key := row]> db) now = _get_cached (Some key') db now.
Proof. intros Hne. unfold _get_cached. simpl. by rewrite lookup_insert_ne. Qed.

Lemma cache_ok_insert key row db :
  cache_ok db → cc_video_id row = key →
  scores_valid (stored_classification row) = true →
  cache_ok (<[key := row]> db).
Proof.
  intros Hok Hk Hv k e. destruct (decide (key = k)) as [<-|Hne].
  - rewrite lookup_insert_eq. by intros [= <-].
  - rewrite lookup_insert_ne by done. apply Hok.
Qed.

Lemma cache_ok_empty : cache_ok ∅.
Proof. intros k e. by rewrite lookup_empty. Qed.

#[export] Hint Resolve cache_ok_empty cache_ok_insert : py.

(** The map with [_get_cached] and [_cache_result] is a cache gateway. *)
#[export, refine] Instance table_gateway : CacheGateway (gmap string ContentCache) := {
  gw_lookup := _get_cached;
  gw_store := _cache_result;
}.
Proof.
  - apply get_cached_fresh.
  - intros video c s now s' key later (k & row & Hid & -> & Hc & He & _)%cache_result_inv
      Hid' Hle.
    assert (k = key) as -> by congruence.
    exists row. split; [|done]. rewrite get_cached_insert.
    unfold is_expired. rewrite He.
    by destruct (Z.ltb_spec (now + timedelta_hours 24) later); [lia|].
  - intros video c s now s' key later (k & row & Hid & -> & Hc & He & _)%cache_result_inv
      Hid' Hlt.
    assert (k = key) as -> by congruence.
    rewrite get_cached_insert. unfold is_expired. rewrite He.
    by destruct (Z.ltb_spec (now + timedelta_hours 24) later); [|lia].
Defined.

(** ** classify_video against the interface *)

Lemma classify_with_ai_valid outcome video c :
  _classify_with_ai outcome video = Ok c → scores_valid c = true.
Proof.
  unfold _classify_with_ai. destruct (build_prompt video); simpl; [|done].
  destruct outcome as [|cat conf ent depth cb].
  - apply fallback_scores_valid.
  - destruct (normalise_answer _ _ _ _ _) as [c'|e] eqn:Hn.
    + intros [= <-]. by apply normalise_answer_valid in Hn as [? _].
    + apply fallback_scores_valid.
Qed.

Section ClassifyTheorems.
Context {S : Type} `{CacheGateway S}.

Lemma classify_video_hit outcome video (db : S) now use_ai cached :
  gw_lookup (get_none (v_id video)) db now = Some cached →
  scores_valid (stored_classification cached) = true →
  classify_video outcome video db now false use_ai =
  Ok (stored_classification cached, db).
Proof.
  intros Hl Hv. unfold classify_video. rewrite Hl.
  by rewrite classification_of_valid.
Qed.

Lemma classify_video_forced outcome video (db : S) now use_ai c db' :
  classify_video outcome video db now true use_ai = Ok (c, db') →
  (if use_ai then _classify_with_ai outcome video
   else _fallback_classification video) = Ok c ∧
  gw_store video c db now = Ok db'.
Proof.
  unfold classify_video.
  intros (c0 & Hc & (d0 & Hd & [= <- <-])%bind_Ok_inv)%bind_Ok_inv. done.
Qed.

(** Whatever path produced it, a classification returned by
    [classify_video] has valid scores. *)
Lemma classify_video_valid outcome video (db : S) now force use_ai c db' :
  classify_video outcome video db now force use_ai = Ok (c, db') →
  scores_valid c = true.
Proof.
  unfold classify_video.
  destruct (if force then None else gw_lookup _ db now) as [cached|].
  - intros (c0 & Hc & [= <- <-])%bind_Ok_inv.
    unfold classification_of in Hc. by apply VideoClassification_new_Ok in Hc as [_ ?].
  - intros (c0 & Hc & (d0 & Hd & [= <- <-])%bind_Ok_inv)%bind_Ok_inv.
    destruct use_ai; [by eapply classify_with_ai_valid|].
    by eapply fallback_scores_valid.
Qed.

(** C4. After a classification was computed and written, every later call
    for the same video within the time to live is a cache hit: it returns
    the identical classification and leaves the table as it is, whatever the
    payload and the external model say by then. *)
Theorem classify_video_then_hit outcome video (db : S) now use_ai c db'
    key later outcome' video' use_ai' :
  classify_video outcome video db now true use_ai = Ok (c, db') →
  v_id video = Val key → v_id video' = Val key →
  later ≤ now + timedelta_hours 24 →
  classify_video outcome' video' db' later false use_ai' = Ok (c, db').
Proof.
  intros Hc Hid Hid' Hle. pose proof (classify_video_valid _ _ _ _ _ _ _ _ Hc) as Hv.
  apply classify_video_forced in Hc as [_ Hs].
  destruct (gw_lookup_store _ _ _ _ _ _ _ Hs Hid Hle) as (cached & Hl & <-).
  apply classify_video_hit; [|done]. by rewrite Hid'.
Qed.

(** Once the time to live has passed the stored row is not trusted:
    the call classifies again, exactly as a forced refresh does. *)
Theorem classify_video_after_expiry outcome video (db : S) now use_ai c db'
    key later outcome' video' use_ai' :
  classify_video outcome video db now true use_ai = Ok (c, db') →
  v_id video = Val key → v_id video' = Val key →
  now + timedelta_hours 24 < later →
  classify_video outcome' video' db' later false use_ai' =
  classify_video outcome' video' db' later true use_ai'.
Proof.
  intros [_ Hs]%classify_video_forced Hid Hid' Hlt.
  unfold classify_video. rewrite Hid'. simpl.
  by rewrite (gw_lookup_expired _ _ _ _ _ _ _ Hs Hid Hlt).
Qed.

(** Classification by the cascade is deterministic: with the cache out
    of the way, the classification of a payload is the same in every table
    and at every instant. *)
Theorem classify_video_deterministic outcome video (db1 db2 : S) now1 now2
    c1 c2 db1' db2' :
  classify_video outcome video db1 now1 true false = Ok (c1, db1') →
  classify_video outcome video db2 now2 true false = Ok (c2, db2') →
  c1 = c2.
Proof.
  intros [H1 _]%classify_video_forced [H2 _]%classify_video_forced. congruence.
Qed.

End ClassifyTheorems.

(** ** The table *)

(** Cache round trip: a classification written for a video is read
    back identical at every instant up to 24 hours later. *)
Theorem cache_round_trip video c db now db' key later :
  _cache_result video c db now = Ok db' → v_id video = Val key →
  later ≤ now + timedelta_hours 24 →
  ∃ cached, _get_cached (Some key) db' later = Some cached ∧
            stored_classification cached = c.
Proof. apply (gw_lookup_store (CacheGateway := table_gateway)). Qed.

(** C10. Expiry: from the first instant after the 24 hours, the row is
    treated as absent. *)
Theorem cache_expiry video c db now db' key later :
  _cache_result video c db now = Ok db' → v_id video = Val key →
  now + timedelta_hours 24 < later →
  _get_cached (Some key) db' later = None.
Proof. apply (gw_lookup_expired (CacheGateway := table_gateway)). Qed.

Lemma cache_result_ok video c db now db' :
  cache_ok db → scores_valid c = true →
  _cache_result video c db now = Ok db' → cache_ok db'.
Proof.
  intros Hok Hv (key & row & Hid & -> & Hc & _ & Hk)%cache_result_inv.
  apply cache_ok_insert; [done| |by rewrite Hc].
  destruct Hk as [|(existing & He & ->)]; [done|]. by apply Hok in He as [? _].
Qed.

(** [classify_video] keeps the table well formed: every row stays
    under its own key with scores in [0, 1], so a later hit can always be
    rebuilt into a classification. *)
Theorem classify_video_cache_ok outcome video db now force use_ai c db' :
  cache_ok db →
  classify_video outcome video db now force use_ai = Ok (c, db') →
  cache_ok db'.
Proof.
  intros Hok Hc. pose proof (classify_video_valid _ _ _ _ _ _ _ _ Hc) as Hv.
  unfold classify_video in Hc.
  destruct (if force then None else gw_lookup _ db now) as [cached|].
  - by apply bind_Ok_inv in Hc as (c0 & _ & [= <- <-]).
  - apply bind_Ok_inv in Hc as (c0 & _ & (d0 & Hd & [= <- <-])%bind_Ok_inv).
    by eapply cache_result_ok.
Qed.

(** A video without an identifier cannot be cached: when its lookup
    misses, the classification is computed and then lost, the write raises
    [IntegrityError]. *)
Theorem classify_video_no_id video (db : gmap string ContentCache) now c :
  get_none (v_id video) = None → _fallback_classification video = Ok c →
  classify_video AIFailed video db now false false = Raise IntegrityError.
Proof.
  intros Hid Hf. unfold classify_video. simpl. rewrite Hid. simpl. rewrite Hf. simpl.
  unfold _cache_result. by rewrite Hid.
Qed.

(** ** Witnesses *)

Definition sample_table : gmap string ContentCache :=
  <["a1" := new_entry "a1" "Old title" music_video
              (mkVideoClassification "MUSIC" 0.6 0.8 0.2 0.1) 1000]> ∅.

Definition music_classification : VideoClassification :=
  mkVideoClassification "MUSIC" 0.6 0.8 0.2 0.5.

Lemma classify_video_then_hit_witness :
  classify_video (AIAnswer (Val "gaming") Missing Missing Missing Missing)
    tutorial_video
    (<["b1" := new_entry "b1" "Python Tutorial for Beginners" tutorial_video
                 (mkVideoClassification "EDUCATION" 0.6 0.2 1 0.1) 5000]> sample_table)
    6000 false true =
  Ok (mkVideoClassification "EDUCATION" 0.6 0.2 1 0.1,
      <["b1" := new_entry "b1" "Python Tutorial for Beginners" tutorial_video
                  (mkVideoClassification "EDUCATION" 0.6 0.2 1 0.1) 5000]> sample_table).
Proof.
  apply (classify_video_then_hit AIFailed tutorial_video sample_table 5000 false _ _ "b1");
    [reflexivity | reflexivity | reflexivity | by vm_compute].
Defined.

Lemma classify_video_after_expiry_witness :
  let db' := <["b1" := new_entry "b1" "Python Tutorial for Beginners" tutorial_video
                (mkVideoClassification "EDUCATION" 0.6 0.2 1 0.1) 5000]> sample_table in
  classify_video AIFailed tutorial_video db' 86400005001 false false =
  classify_video AIFailed tutorial_video db' 86400005001 true false.
Proof.
  apply (classify_video_after_expiry AIFailed tutorial_video sample_table 5000 false
           (mkVideoClassification "EDUCATION" 0.6 0.2 1 0.1) _ "b1");
    [reflexivity | reflexivity | reflexivity | by vm_compute].
Defined.

Lemma classify_video_deterministic_witness :
  music_classification = music_classification.
Proof.
  apply (classify_video_deterministic AIFailed music_video sample_table
           (∅ : gmap string ContentCache) 2000 777
           music_classification music_classification
           (<["a1" := update_entry
                        (new_entry "a1" "Old title" music_video
                           (mkVideoClassification "MUSIC" 0.6 0.8 0.2 0.1) 1000)
                        music_classification 2000]> sample_table)
           (<["a1" := new_entry "a1" "OFFICIAL MUSIC VIDEO - Song Name" music_video
                        music_classification 777]> ∅));
    reflexivity.
Defined.

Lemma cache_round_trip_witness :
  ∃ cached,
    _get_cached (Some "a1")
      (<["a1" := update_entry
                   (new_entry "a1" "Old title" music_video
                      (mkVideoClassification "MUSIC" 0.6 0.8 0.2 0.1) 1000)
                   music_classification 2000]> sample_table)
      (2000 + timedelta_hours 24) = Some cached ∧
    stored_classification cached = music_classification.
Proof.
  apply (cache_round_trip music_video music_classification sample_table 2000);
    [reflexivity | reflexivity | lia].
Defined.

Lemma cache_expiry_witness :
  _get_cached (Some "a1")
    (<["a1" := update_entry
                 (new_entry "a1" "Old title" music_video
                    (mkVideoClassification "MUSIC" 0.6 0.8 0.2 0.1) 1000)
                 music_classification 2000]> sample_table)
    (2001 + timedelta_hours 24) = None.
Proof.
  apply (cache_expiry music_video music_classification sample_table 2000);
    [reflexivity | reflexivity | lia].
Defined.

Lemma classify_video_cache_ok_witness :
  cache_ok (<["a1" := new_entry "a1" "OFFICIAL MUSIC VIDEO - Song Name" music_video
                        music_classification 777]> ∅).
Proof.
  apply (classify_video_cache_ok AIFailed music_video ∅ 777 false false
           music_classification);
    [apply cache_ok_empty | reflexivity].
Defined.

Lemma classify_video_no_id_witness :
  classify_video AIFailed
    (mkVideo Missing (Val "Song") Missing Missing (Val "Label") Missing (Val 100)
             Missing Missing Missing Missing Missing Missing Missing Missing
             Missing Missing Missing)
    sample_table 5 false false = Raise IntegrityError.
Proof.
  apply (classify_video_no_id _ _ _ (mkVideoClassification "MUSIC" 0.6 0.8 0.2 0.1));
    reflexivity.
Defined.
