(* ===== verification/FocusEngine.v ===== *)
(** * FocusEngine: services/focus_engine.py

    The session supervisor of a user: which focus mode is active, whether it
    is locked and until when, and how much of the daily time limit is used.
    The state is the table [focus_modes] (the rows of every user, in table
    order) and the table [watch_history].  An operation of
    [FocusEngine(db, user)] takes the user, the table and the instant [now],
    and returns its result with the table as last committed: an exception
    raised before [commit] leaves the table as it was. *)

From Stdlib Require Import ZArith String Ascii List Floats.
From stdpp Require Import base option list strings.
From S2P Require Import Prelude Models.

Set Warnings "-inexact-float".
Local Open Scope string_scope.
Local Open Scope Z_scope.

(** ** Queries *)

(** [FocusMode.user_id == self.user.id]. *)
Definition owned_by (user : uuid) (m : FocusMode) : bool := user_id m =? user.

(** [select(FocusMode).where(FocusMode.user_id == user, ...)]. *)
Definition modes_of (user : uuid) (modes : list FocusMode) : list FocusMode :=
  List.filter (owned_by user) modes.

(** The assignment [f] to the row with primary key [i]. *)
Definition update_row (i : uuid) (f : FocusMode → FocusMode)
    (modes : list FocusMode) : list FocusMode :=
  map (λ m, if id m =? i then f m else m) modes.

(** The row with primary key [mode_id], if the user owns it. *)
Definition find_mode (user mode_id : uuid) (modes : list FocusMode) :
    result (option FocusMode) :=
  scalar_one_or_none (List.filter (λ m, (id m =? mode_id) && owned_by user m) modes).

(** [FocusEngine.get_active_mode]. *)
Definition get_active_mode (user : uuid) (modes : list FocusMode) :
    result (option FocusMode) :=
  scalar_one_or_none (List.filter (λ m, owned_by user m && is_active m) modes).

(** ** Operations *)

(** The result of an operation and the table as committed. *)
Definition outcome (A : Type) : Type := result A * list FocusMode.

(** [FocusEngine._get_locked_mode]: the user's locked mode while its lock
    runs.  A lock whose deadline has passed is cleared and the change
    committed; a lock without a deadline is neither reported nor cleared. *)
Definition _get_locked_mode (user : uuid) (modes : list FocusMode)
    (now : datetime) : outcome (option FocusMode) :=
  match scalar_one_or_none
          (List.filter (λ m, owned_by user m && is_locked m) modes) with
  | Raise e => (Raise e, modes)
  | Ok None => (Ok None, modes)
  | Ok (Some mode) =>
      match lock_until mode with
      | None => (Ok None, modes)
      | Some deadline =>
          if now <? deadline then (Ok (Some mode), modes)
          else (Ok None, update_row (id mode) (set_lock false None) modes)
      end
  end.

(** The three assignments of the loop that deactivates a mode. *)
Definition clear_session (m : FocusMode) : FocusMode :=
  set_lock false None (set_active false m).

(** The loop of [activate_mode] over the modes of the user: each is
    deactivated and unlocked. *)
Definition deactivate_all (user : uuid) (modes : list FocusMode) : list FocusMode :=
  map (λ m, if owned_by user m then clear_session m else m) modes.

(** The second half of [activate_mode], once no lock is running: the modes
    of the user are cleared, then the first of them with the requested key
    is activated and the session committed.  Without such a mode the
    function raises before [commit] and the table stays as it was. *)
Definition switch_mode (user mode_id : uuid) (committed : list FocusMode) :
    outcome FocusMode :=
  let cleared := deactivate_all user committed in
  match List.find (λ m, id m =? mode_id) (modes_of user cleared) with
  | Some target =>
      (Ok (set_active true target),
       update_row (id target) (set_active true) cleared)
  | None => (Raise (ValueError "Focus mode not found"), committed)
  end.

(** [FocusEngine.activate_mode]. *)
Definition activate_mode (user mode_id : uuid) (modes : list FocusMode)
    (now : datetime) : outcome FocusMode :=
  match _get_locked_mode user modes now with
  | (Raise e, committed) => (Raise e, committed)
  | (Ok (Some locked), committed) =>
      (Raise (ModeLocked (name locked) (default 0 (lock_until locked))), committed)
  | (Ok None, committed) => switch_mode user mode_id committed
  end.

(** [FocusEngine.lock_session]. *)
Definition lock_session (user mode_id : uuid) (duration_minutes : Z)
    (modes : list FocusMode) (now : datetime) : outcome FocusMode :=
  match find_mode user mode_id modes with
  | Raise e => (Raise e, modes)
  | Ok None => (Raise (ValueError "Focus mode not found"), modes)
  | Ok (Some mode) =>
      if negb (is_active mode) then
        (Raise (ValueError "Can only lock an active focus mode"), modes)
      else
        let until := Some (now + timedelta_minutes duration_minutes) in
        (Ok (set_lock true until mode),
         update_row (id mode) (set_lock true until) modes)
  end.

(** [FocusEngine.unlock_session]. *)
Definition unlock_session (user mode_id : uuid) (modes : list FocusMode) :
    outcome FocusMode :=
  match find_mode user mode_id modes with
  | Raise e => (Raise e, modes)
  | Ok None => (Raise (ValueError "Focus mode not found"), modes)
  | Ok (Some mode) =>
      (Ok (set_lock false None mode), update_row (id mode) (set_lock false None) modes)
  end.

(** ** The daily time limit *)

(** The dictionary [check_time_limit] returns. *)
Record TimeLimit : Type := mkTimeLimit {
  has_limit : bool;
  exceeded : bool;
  used_minutes : Z;
  limit_minutes : option Z;
  remaining_minutes : option Z;
}.

(** [select(func.sum(WatchHistory.watch_duration_seconds)).where(...)]:
    the seconds watched by the user since [since]; the sum of no row is
    NULL, read as 0. *)
Definition watched_seconds (user : uuid) (since : datetime)
    (history : list WatchHistory) : Z :=
  fold_right Z.add 0
    (map wh_watch_duration_seconds
       (List.filter (λ w, (wh_user_id w =? user) && (since <=? wh_watched_at w))
                    history)).

(** [FocusEngine.check_time_limit]. *)
Definition check_time_limit (user : uuid) (mode : FocusMode)
    (history : list WatchHistory) (now : datetime) : TimeLimit :=
  match daily_time_limit_minutes mode with
  | None | Some 0 =>
      {| has_limit := false; exceeded := false; used_minutes := 0;
         limit_minutes := None; remaining_minutes := None |}
  | Some limit =>
      let today_start := start_of_day now in
      let total_seconds := watched_seconds user today_start history in
      let used := total_seconds / 60 in
      {| has_limit := true; exceeded := limit <=? used; used_minutes := used;
         limit_minutes := Some limit;
         remaining_minutes := Some (Z.max 0 (limit - used)) |}
  end.

(** The lock status of [get_session_stats]. *)
Record LockStatus : Type := mkLockStatus {
  ls_is_locked : bool;
  ls_remaining_minutes : Z;
  ls_unlock_at : datetime;
}.

Record SessionStats : Type := mkSessionStats {
  has_active_mode : bool;
  ss_mode : option (uuid * string * option string);
  ss_time_limit : option TimeLimit;
  ss_lock_status : option LockStatus;
}.

(** The lock status of an active mode: reported while the lock has time
    left, in whole minutes. *)
Definition lock_status (mode : FocusMode) (now : datetime) : option LockStatus :=
  match is_locked mode, lock_until mode with
  | true, Some deadline =>
      if 0 <? deadline - now then
        Some {| ls_is_locked := true;
                ls_remaining_minutes := (deadline - now) / timedelta_minutes 1;
                ls_unlock_at := deadline |}
      else None
  | _, _ => None
  end.

(** [FocusEngine.get_session_stats]. *)
Definition get_session_stats (user : uuid) (modes : list FocusMode)
    (history : list WatchHistory) (now : datetime) : result SessionStats :=
  active ← get_active_mode user modes;
  match active with
  | None =>
      Ok {| has_active_mode := false; ss_mode := None; ss_time_limit := None;
            ss_lock_status := None |}
  | Some mode =>
      Ok {| has_active_mode := true;
            ss_mode := Some (id mode, name mode, description mode);
            ss_time_limit := Some (check_time_limit user mode history now);
            ss_lock_status := lock_status mode now |}
  end.

(** ** The session state machine *)

(** The requests a user can make of the engine. *)
Inductive request : Type :=
| Activate (mode_id : uuid)
| Lock (mode_id : uuid) (duration_minutes : Z)
| Unlock (mode_id : uuid)
| Observe.

(** The table after a request of [user] at [now]. *)
Definition handle (user : uuid) (now : datetime) (r : request)
    (modes : list FocusMode) : list FocusMode :=
  match r with
  | Activate mode_id => snd (activate_mode user mode_id modes now)
  | Lock mode_id minutes => snd (lock_session user mode_id minutes modes now)
  | Unlock mode_id => snd (unlock_session user mode_id modes)
  | Observe => snd (_get_locked_mode user modes now)
  end.

(** One request of some user at some instant. *)
Inductive step : list FocusMode → list FocusMode → Prop :=
| step_request user now r modes : step modes (handle user now r modes).

(** The tables the engine can reach from [init]. *)
Inductive reachable (init : list FocusMode) : list FocusMode → Prop :=
| reachable_init : reachable init init
| reachable_step modes modes' :
    reachable init modes → step modes modes' → reachable init modes'.

(** ** The invariant *)

(** The session columns of a row agree: a locked row is active and has a
    deadline. *)
Definition row_ok (m : FocusMode) : Prop :=
  is_locked m = true → is_active m = true ∧ lock_until m ≠ None.

(** The table is well formed: primary keys are unique, a user has at most
    one active mode, and every row is [row_ok]. *)
Record table_ok (modes : list FocusMode) : Prop := {
  ok_keys : List.NoDup (map id modes);
  ok_one_active m1 m2 :
    In m1 modes → In m2 modes → user_id m1 = user_id m2 →
    is_active m1 = true → is_active m2 = true → m1 = m2;
  ok_rows : Forall row_ok modes;
}.

(** What [_get_locked_mode] does in a well-formed table: it reports the
    running lock of the user, or clears the lock that has run out, or finds
    no locked mode of the user. *)
Inductive locked_view (user : uuid) (modes : list FocusMode) (now : datetime) :
    outcome (option FocusMode) → Prop :=
| view_running m deadline :
    In m modes → user_id m = user → is_locked m = true →
    lock_until m = Some deadline → now < deadline →
    locked_view user modes now (Ok (Some m), modes)
| view_expired m deadline :
    In m modes → user_id m = user → is_locked m = true →
    lock_until m = Some deadline → deadline ≤ now →
    locked_view user modes now
      (Ok None, update_row (id m) (set_lock false None) modes)
| view_free :
    (∀ m, In m modes → user_id m = user → is_locked m = false) →
    locked_view user modes now (Ok None, modes).

(** The user has no lock that still runs at [now]. *)
Definition no_running_lock (user : uuid) (modes : list FocusMode)
    (now : datetime) : Prop :=
  ∀ m deadline, In m modes → user_id m = user → is_locked m = true →
                lock_until m = Some deadline → deadline ≤ now.

(** The invariant as a test. *)
Fixpoint distinct (keys : list uuid) : bool :=
  match keys with
  | [] => true
  | k :: rest => negb (existsb (Z.eqb k) rest) && distinct rest
  end.

Definition row_okb (m : FocusMode) : bool :=
  implb (is_locked m) (is_active m && bool_decide (is_Some (lock_until m))).

Definition one_activeb (modes : list FocusMode) : bool :=
  forallb (λ m1, forallb (λ m2,
    implb ((user_id m1 =? user_id m2) && is_active m1 && is_active m2)
          (id m1 =? id m2)) modes) modes.

Definition table_okb (modes : list FocusMode) : bool :=
  distinct (map id modes) && one_activeb modes && forallb row_okb modes.

(** ** A sample table *)

(** Two modes of user 1 (study active, relax idle) and one of user 2. *)
Definition study_row : FocusMode :=
  set_active true (FocusMode_default 10 1 "Study Mode").
Definition relax_row : FocusMode := FocusMode_default 11 1 "Relax Mode".
Definition other_row : FocusMode :=
  set_active true (FocusMode_default 20 2 "Deep Work").
Definition sample_modes : list FocusMode := [study_row; relax_row; other_row].

(** 09:00 of some day, in microseconds. *)
Definition nine_am : datetime := timedelta_days 19000 + timedelta_hours 9.

(** The study mode locked at 09:00 for half an hour, and the table then. *)
Definition locked_row : FocusMode :=
  set_lock true (Some (nine_am + timedelta_minutes 30)) study_row.
Definition locked_modes : list FocusMode :=
  snd (lock_session 1 10 30 sample_modes nine_am).

(** A mode with a limit of one hour a day, and 70 minutes watched today by
    user 1 (and 10 minutes the day before, and 30 by user 2). *)
Definition limited_row : FocusMode :=
  {| id := 12; user_id := 1; name := "Study Mode"; description := None;
     is_active := true; is_locked := false; lock_until := None;
     allowed_categories := []; blocked_categories := [];
     min_duration_seconds := 0; allowed_languages := [];
     max_clickbait_score := 1; max_entertainment_score := 1;
     block_shorts := false; block_trending := false;
     daily_time_limit_minutes := Some 60; blocked_keywords := [] |}.
Definition watched (user : uuid) (at_ : datetime) (seconds : Z) : WatchHistory :=
  {| wh_id := at_; wh_user_id := user; wh_video_id := "v";
     wh_watch_duration_seconds := seconds;
     wh_video_duration_seconds := seconds; wh_watch_percentage := 100;
     wh_was_skipped := false; wh_skip_position_percent := None;
     wh_completed := true; wh_mode_id := None;
     wh_watched_at := at_ |}.
Definition sample_history : list WatchHistory :=
  [watched 1 (nine_am - timedelta_hours 2) 3000;
   watched 1 (nine_am - timedelta_hours 1) 1200;
   watched 1 (nine_am - timedelta_hours 12) 600;
   watched 2 (nine_am - timedelta_hours 1) 1800].

(** * Theorems *)

(** ** Rows and tables *)

Lemma set_lock_fields locked until m :
  id (set_lock locked until m) = id m ∧ user_id (set_lock locked until m) = user_id m ∧
  is_active (set_lock locked until m) = is_active m.
Proof. done. Qed.

Lemma set_active_fields b m :
  id (set_active b m) = id m ∧ user_id (set_active b m) = user_id m ∧
  is_locked (set_active b m) = is_locked m.
Proof. done. Qed.

Lemma owned_by_spec user m : owned_by user m = true ↔ user_id m = user.
Proof. apply Z.eqb_eq. Qed.

Lemma same_key modes m1 m2 :
  List.NoDup (map id modes) → In m1 modes → In m2 modes → id m1 = id m2 → m1 = m2.
Proof. apply NoDup_key_inj. Qed.

Lemma NoDup_of_keys modes : List.NoDup (map id modes) → List.NoDup modes.
Proof. apply NoDup_map_inv. Qed.

(** The shape every operation gives the table: each row is rewritten in
    place by a function that keeps its key and its owner. *)
Lemma table_ok_map (g : FocusMode → FocusMode) modes :
  table_ok modes →
  (∀ m, id (g m) = id m ∧ user_id (g m) = user_id m) →
  (∀ m, In m modes → row_ok (g m)) →
  (∀ m1 m2, In m1 modes → In m2 modes → user_id m1 = user_id m2 →
            is_active (g m1) = true → is_active (g m2) = true → id m1 = id m2) →
  table_ok (map g modes).
Proof.
  intros [Hk Ha Hr] Hg Hrow Hact. split.
  - rewrite map_map. erewrite map_ext; [done|]. intros m. apply Hg.
  - intros ? ? (m1 & <- & H1)%in_map_iff (m2 & <- & H2)%in_map_iff Hu A1 A2.
    f_equal. apply (same_key modes); auto.
    apply Hact; auto. destruct (Hg m1) as [_ <-], (Hg m2) as [_ <-]. done.
  - apply List.Forall_forall. intros ? (m & <- & Hm)%in_map_iff. auto.
Qed.

Lemma table_ok_row modes m : table_ok modes → In m modes → row_ok m.
Proof. intros [_ _ Hr] Hm. by eapply List.Forall_forall in Hr. Qed.

(** In a well-formed table the one-row queries of the engine find at most
    one row. *)
Lemma locked_at_most_one user modes :
  table_ok modes →
  at_most_one (List.filter (λ m, owned_by user m && is_locked m) modes).
Proof.
  intros Hok. apply filter_at_most_one; [apply NoDup_of_keys, Hok|].
  intros x y Hx Hy [Hux Hlx]%andb_true_iff [Huy Hly]%andb_true_iff.
  apply owned_by_spec in Hux, Huy.
  apply (ok_one_active _ Hok); auto; [congruence| |].
  - by apply (table_ok_row _ _ Hok Hx).
  - by apply (table_ok_row _ _ Hok Hy).
Qed.

Lemma active_at_most_one user modes :
  table_ok modes →
  at_most_one (List.filter (λ m, owned_by user m && is_active m) modes).
Proof.
  intros Hok. apply filter_at_most_one; [apply NoDup_of_keys, Hok|].
  intros x y Hx Hy [Hux Hlx]%andb_true_iff [Huy Hly]%andb_true_iff.
  apply owned_by_spec in Hux, Huy.
  apply (ok_one_active _ Hok); auto; congruence.
Qed.

Lemma key_at_most_one user mode_id modes :
  table_ok modes →
  at_most_one (List.filter (λ m, (id m =? mode_id) && owned_by user m) modes).
Proof.
  intros Hok. apply filter_at_most_one; [apply NoDup_of_keys, Hok|].
  intros x y Hx Hy [Hix _]%andb_true_iff [Hiy _]%andb_true_iff.
  apply Z.eqb_eq in Hix, Hiy. apply (same_key modes); auto; [apply Hok | congruence].
Qed.

Lemma locked_unique modes m1 m2 :
  table_ok modes → In m1 modes → In m2 modes → user_id m1 = user_id m2 →
  is_locked m1 = true → is_locked m2 = true → m1 = m2.
Proof.
  intros Hok H1 H2 Hu L1 L2. apply (ok_one_active _ Hok); auto.
  - by apply (table_ok_row _ _ Hok H1).
  - by apply (table_ok_row _ _ Hok H2).
Qed.

Lemma find_mode_found user modes m :
  table_ok modes → In m modes → user_id m = user →
  find_mode user (id m) modes = Ok (Some m).
Proof.
  intros Hok Hm Hu. unfold find_mode.
  destruct (query_one _ modes (key_at_most_one user (id m) modes Hok))
    as (o & -> & Ho).
  f_equal. apply Ho. split; [done|].
  by rewrite andb_true_iff, Z.eqb_eq, owned_by_spec.
Qed.

Lemma find_mode_missing user mode_id modes :
  (∀ m, In m modes → user_id m = user → id m ≠ mode_id) →
  find_mode user mode_id modes = Ok None.
Proof.
  intros Hno. unfold find_mode.
  replace (List.filter _ modes) with (@nil FocusMode); [done|].
  symmetry. induction modes as [|m modes IH]; simpl; [done|].
  destruct (id m =? mode_id) eqn:Hi, (owned_by user m) eqn:Hu; simpl;
    try (apply IH; intros ? ? ?; apply Hno; [by right|done]).
  apply Z.eqb_eq in Hi. apply owned_by_spec in Hu.
  destruct (Hno m); auto. by left.
Qed.

(** ** Updates keep the table well formed *)

Lemma update_row_In i f modes m :
  In m (update_row i f modes) ↔
  ∃ m0, In m0 modes ∧ m = if id m0 =? i then f m0 else m0.
Proof. unfold update_row. rewrite in_map_iff. naive_solver. Qed.

Lemma table_ok_set_lock i locked until modes :
  table_ok modes →
  (locked = true →
   until ≠ None ∧ ∀ m, In m modes → id m = i → is_active m = true) →
  table_ok (update_row i (set_lock locked until) modes).
Proof.
  intros Hok Hl. apply table_ok_map; [done| | |].
  - intros m. by destruct (id m =? i).
  - intros m Hm. destruct (id m =? i) eqn:Hi; [|by eapply table_ok_row].
    intros Hlocked. simpl in Hlocked. apply Z.eqb_eq in Hi. naive_solver.
  - intros m1 m2 H1 H2 Hu A1 A2. f_equal.
    apply (ok_one_active _ Hok); auto.
    + by destruct (id m1 =? i).
    + by destruct (id m2 =? i).
Qed.

Lemma table_ok_set_active user i modes :
  table_ok modes →
  (∀ m, In m modes → id m = i → user_id m = user) →
  (∀ m, In m modes → user_id m = user → is_active m = false) →
  table_ok (update_row i (set_active true) modes).
Proof.
  intros Hok Hown Hidle. apply table_ok_map; [done| | |].
  - intros m. by destruct (id m =? i).
  - intros m Hm. pose proof (table_ok_row _ _ Hok Hm) as Hr.
    destruct (id m =? i); [|done]. intros Hl. split; [done|]. by apply Hr.
  - intros m1 m2 H1 H2 Hu A1 A2.
    destruct (Z.eqb_spec (id m1) i) as [E1|E1], (Z.eqb_spec (id m2) i) as [E2|E2].
    + congruence.
    + rewrite (Hidle m2) in A2; [done..|]. rewrite <- Hu. by apply Hown.
    + rewrite (Hidle m1) in A1; [done..|]. rewrite Hu. by apply Hown.
    + f_equal. by apply (ok_one_active _ Hok).
Qed.

Lemma table_ok_cleared user modes :
  table_ok modes → table_ok (deactivate_all user modes).
Proof.
  intros Hok. apply table_ok_map; [done| | |].
  - intros m. by destruct (owned_by user m).
  - intros m Hm. destruct (owned_by user m); [done|by eapply table_ok_row].
  - intros m1 m2 H1 H2 Hu A1 A2. f_equal.
    destruct (owned_by user m1), (owned_by user m2); try done.
    by apply (ok_one_active _ Hok).
Qed.

(** ** The lock check *)

Lemma get_locked_mode_view user modes now :
  table_ok modes → locked_view user modes now (_get_locked_mode user modes now).
Proof.
  intros Hok. unfold _get_locked_mode.
  destruct (query_one _ modes (locked_at_most_one user modes Hok))
    as (o & -> & Ho).
  destruct o as [m|].
  - destruct (Ho m) as [[Hin [Hu Hl]%andb_true_iff] _]; [done|].
    apply owned_by_spec in Hu. destruct (lock_until m) as [d|] eqn:Hd.
    + destruct (Z.ltb_spec now d); [by eapply view_running|by eapply view_expired].
    + by destruct (table_ok_row _ _ Hok Hin Hl).
  - apply view_free. intros m Hin Hu. destruct (is_locked m) eqn:Hl; [|done].
    assert (None = Some m) as [=]. apply Ho.
    by rewrite andb_true_iff, owned_by_spec.
Qed.

Lemma get_locked_mode_table_ok user modes now :
  table_ok modes → table_ok (snd (_get_locked_mode user modes now)).
Proof.
  intros Hok. destruct (get_locked_mode_view user modes now Hok); simpl; try done.
  by apply table_ok_set_lock.
Qed.

Lemma get_locked_mode_running user modes now locked deadline :
  table_ok modes → In locked modes → user_id locked = user →
  is_locked locked = true → lock_until locked = Some deadline → now < deadline →
  _get_locked_mode user modes now = (Ok (Some locked), modes).
Proof.
  intros Hok Hin Hu Hl Hd Hlt.
  destruct (get_locked_mode_view user modes now Hok)
    as [m d Hm Hu' Hl' Hd' Hlt'|m d Hm Hu' Hl' Hd' Hle|Hnone].
  - by rewrite (locked_unique modes m locked) by (auto; congruence).
  - rewrite (locked_unique modes m locked) in Hd' by (auto; congruence).
    simplify_eq. lia.
  - rewrite (Hnone locked) in Hl; done.
Qed.

Lemma get_locked_mode_expired user modes now locked deadline :
  table_ok modes → In locked modes → user_id locked = user →
  is_locked locked = true → lock_until locked = Some deadline → deadline ≤ now →
  _get_locked_mode user modes now =
    (Ok None, update_row (id locked) (set_lock false None) modes).
Proof.
  intros Hok Hin Hu Hl Hd Hle.
  destruct (get_locked_mode_view user modes now Hok)
    as [m d Hm Hu' Hl' Hd' Hlt'|m d Hm Hu' Hl' Hd' Hle'|Hnone].
  - rewrite (locked_unique modes m locked) in Hd' by (auto; congruence).
    simplify_eq. lia.
  - by rewrite (locked_unique modes m locked) by (auto; congruence).
  - rewrite (Hnone locked) in Hl; done.
Qed.

(** Without a running lock the check reports none, and the table it leaves
    has no locked mode of the user; its rows are those of [modes], up to
    the lock columns. *)
Lemma get_locked_mode_free user modes now :
  table_ok modes → no_running_lock user modes now →
  ∃ committed, _get_locked_mode user modes now = (Ok None, committed) ∧
    table_ok committed ∧
    (∀ m, In m committed → user_id m = user → is_locked m = false) ∧
    (∀ m, In m modes →
          ∃ m', In m' committed ∧ set_lock false None m' = set_lock false None m) ∧
    (∀ m', In m' committed →
          ∃ m, In m modes ∧ set_lock false None m' = set_lock false None m).
Proof.
  intros Hok Hfree. pose proof (get_locked_mode_table_ok user modes now Hok) as Hok'.
  destruct (get_locked_mode_view user modes now Hok)
    as [m d Hm Hu Hl Hd Hlt|m d Hm Hu Hl Hd Hle|Hnone]; simpl in Hok'.
  - specialize (Hfree m d Hm Hu Hl Hd). lia.
  - eexists. split_and!; [done..| | |].
    + intros m' (m0 & H0 & ->)%update_row_In Hu'.
      destruct (id m0 =? id m) eqn:Hi; [done|].
      destruct (is_locked m0) eqn:Hl0; [|done].
      rewrite (locked_unique modes m0 m) in Hi; auto; [|congruence].
      by rewrite Z.eqb_refl in Hi.
    + intros a Ha. exists (if id a =? id m then set_lock false None a else a).
      split; [apply update_row_In; eauto|]. by destruct (id a =? id m).
    + intros m' (m0 & H0 & ->)%update_row_In. exists m0.
      split; [done|]. by destruct (id m0 =? id m).
  - exists modes. split_and!; eauto.
Qed.

(** ** Switching the active mode *)

Lemma find_key (l : list FocusMode) t :
  List.NoDup (map id l) → In t l → List.find (λ m, id m =? id t) l = Some t.
Proof.
  induction l as [|a l IH]; simpl; [done|].
  intros [Ha Hnd]%List.NoDup_cons_iff [->|Ht]; [by rewrite Z.eqb_refl|].
  destruct (Z.eqb_spec (id a) (id t)) as [E|_]; [|auto].
  destruct Ha. rewrite E. by apply in_map.
Qed.

Lemma NoDup_keys_filter (p : FocusMode → bool) l :
  List.NoDup (map id l) → List.NoDup (map id (List.filter p l)).
Proof.
  induction l as [|a l IH]; simpl; [done|].
  intros [Ha Hnd]%List.NoDup_cons_iff. destruct (p a); simpl; auto.
  constructor; auto. intros (b & Hb & [Hin _]%filter_In)%in_map_iff.
  apply Ha. rewrite <- Hb. by apply in_map.
Qed.

Lemma deactivate_all_In user modes m :
  In m (deactivate_all user modes) ↔
  ∃ m0, In m0 modes ∧ m = if owned_by user m0 then clear_session m0 else m0.
Proof. unfold deactivate_all. rewrite in_map_iff. naive_solver. Qed.

Lemma deactivate_all_idle user modes m :
  In m (deactivate_all user modes) → user_id m = user → is_active m = false.
Proof.
  intros (m0 & _ & ->)%deactivate_all_In Hu.
  destruct (owned_by user m0) eqn:Ho; [done|].
  apply owned_by_spec in Hu. congruence.
Qed.

Lemma switch_mode_found user target committed :
  table_ok committed → In target committed → user_id target = user →
  switch_mode user (id target) committed =
    (Ok (set_active true (clear_session target)),
     update_row (id target) (set_active true) (deactivate_all user committed)).
Proof.
  intros Hok Hin Hu. unfold switch_mode.
  rewrite (find_key _ (clear_session target)); [done| |].
  - apply NoDup_keys_filter, table_ok_cleared, Hok.
  - apply filter_In. split; [|by apply owned_by_spec].
    apply deactivate_all_In. exists target.
    by rewrite (proj2 (owned_by_spec user target) Hu).
Qed.

Lemma switch_mode_missing user mode_id committed :
  (∀ m, In m committed → user_id m = user → id m ≠ mode_id) →
  switch_mode user mode_id committed =
    (Raise (ValueError "Focus mode not found"), committed).
Proof.
  intros Hno. unfold switch_mode.
  destruct (List.find _ _) as [t|] eqn:Hf; [|done].
  apply find_some in Hf as [[(m0 & H0 & ->)%deactivate_all_In Hu]%filter_In Hi].
  apply owned_by_spec in Hu. apply Z.eqb_eq in Hi.
  destruct (Hno m0 H0); by destruct (owned_by user m0).
Qed.

Lemma switch_mode_table_ok user mode_id committed :
  table_ok committed → table_ok (snd (switch_mode user mode_id committed)).
Proof.
  intros Hok. pose proof (table_ok_cleared user committed Hok) as Hc.
  unfold switch_mode. destruct (List.find _ _) as [t|] eqn:Hf; [simpl|done].
  apply find_some in Hf as [[Ht Hu%owned_by_spec]%filter_In _].
  apply (table_ok_set_active user); [done| |].
  - intros m Hm Hi. by rewrite (same_key _ m t (ok_keys _ Hc)).
  - apply deactivate_all_idle.
Qed.

Lemma get_active_mode_is user modes m :
  table_ok modes → In m modes → user_id m = user → is_active m = true →
  get_active_mode user modes = Ok (Some m).
Proof.
  intros Hok Hm Hu Ha. unfold get_active_mode.
  destruct (query_one _ modes (active_at_most_one user modes Hok))
    as (o & -> & Ho).
  f_equal. apply Ho. split; [done|]. by rewrite andb_true_iff, owned_by_spec.
Qed.

Lemma find_mode_inv user mode_id modes m :
  find_mode user mode_id modes = Ok (Some m) →
  In m modes ∧ id m = mode_id ∧ user_id m = user.
Proof.
  intros Hq%scalar_one_or_none_inv.
  assert (In m (List.filter (λ m, (id m =? mode_id) && owned_by user m) modes))
    as [Hm [Hi Hu]%andb_true_iff]%filter_In by (rewrite Hq; by left).
  by rewrite Z.eqb_eq in Hi; rewrite owned_by_spec in Hu.
Qed.

(** ** The invariant of the session table *)

Lemma activate_mode_table_ok user mode_id modes now :
  table_ok modes → table_ok (snd (activate_mode user mode_id modes now)).
Proof.
  intros Hok. pose proof (get_locked_mode_table_ok user modes now Hok) as Hok'.
  unfold activate_mode.
  destruct (_get_locked_mode user modes now) as [[[m|]|e] committed]; simpl in *;
    auto using switch_mode_table_ok.
Qed.

Lemma lock_session_table_ok user mode_id minutes modes now :
  table_ok modes → table_ok (snd (lock_session user mode_id minutes modes now)).
Proof.
  intros Hok. unfold lock_session.
  destruct (find_mode user mode_id modes) as [[m|]|e] eqn:Hf; [|done..].
  apply find_mode_inv in Hf as (Hm & _ & _).
  destruct (is_active m) eqn:Ha; [simpl|done].
  apply table_ok_set_lock; [done|]. intros _. split; [done|].
  intros m' Hm' Hi. by rewrite (same_key modes m' m (ok_keys _ Hok)).
Qed.

Lemma unlock_session_table_ok user mode_id modes :
  table_ok modes → table_ok (snd (unlock_session user mode_id modes)).
Proof.
  intros Hok. unfold unlock_session.
  destruct (find_mode user mode_id modes) as [[m|]|e]; [simpl|done..].
  by apply table_ok_set_lock.
Qed.

Lemma handle_table_ok user now r modes :
  table_ok modes → table_ok (handle user now r modes).
Proof.
  destruct r; simpl;
    auto using activate_mode_table_ok, lock_session_table_ok,
               unlock_session_table_ok, get_locked_mode_table_ok.
Qed.

(** C2. whatever the users, the instants and the requests (activate, lock,
    unlock, or the lock check alone), every table the engine reaches from a
    well-formed table of focus modes is well formed: keys stay unique, a
    user keeps at most one active mode, and a locked mode is active and has
    a deadline. *)
Theorem reachable_table_ok init modes :
  table_ok init → reachable init modes → table_ok modes.
Proof.
  intros Hinit Hreach. induction Hreach as [|modes modes' _ IH Hstep]; [done|].
  destruct Hstep. by apply handle_table_ok.
Qed.

(** In a well-formed table (so, by the invariant, in every reachable
    one) [get_active_mode] returns and never raises [MultipleResultsFound]:
    it answers the one active mode of the user, or [None] when the user has
    none. *)
Theorem get_active_mode_unique modes user :
  table_ok modes →
  ∃ o, get_active_mode user modes = Ok o ∧
       ∀ m, o = Some m ↔ In m modes ∧ user_id m = user ∧ is_active m = true.
Proof.
  intros Hok.
  destruct (query_one _ modes (active_at_most_one user modes Hok)) as (o & Ho & Hx).
  exists o. split; [done|]. intros m. rewrite Hx, andb_true_iff, owned_by_spec.
  naive_solver.
Qed.

(** ** Activation *)

(** While a mode of the user is locked and its deadline is ahead,
    [activate_mode] raises the lock error naming that mode and its deadline,
    for every requested mode, and changes nothing in the table. *)
Theorem activate_mode_locked user mode_id modes now locked deadline :
  table_ok modes → In locked modes → user_id locked = user →
  is_locked locked = true → lock_until locked = Some deadline → now < deadline →
  activate_mode user mode_id modes now =
    (Raise (ModeLocked (name locked) deadline), modes).
Proof.
  intros Hok Hin Hu Hl Hd Hlt. unfold activate_mode.
  rewrite (get_locked_mode_running user modes now locked deadline) by done.
  by rewrite Hd.
Qed.

(** When no lock of the user is running, [activate_mode] of a mode the
    user owns returns that mode, activated and unlocked; the table it
    commits is well formed and [get_active_mode] then answers exactly that
    mode. *)
Theorem activate_mode_ok user modes now target :
  table_ok modes → no_running_lock user modes now →
  In target modes → user_id target = user →
  ∃ modes',
    activate_mode user (id target) modes now =
      (Ok (set_active true (clear_session target)), modes') ∧
    table_ok modes' ∧
    get_active_mode user modes' = Ok (Some (set_active true (clear_session target))).
Proof.
  intros Hok Hfree Hin Hu.
  unfold activate_mode.
  destruct (get_locked_mode_free user modes now Hok Hfree)
    as (committed & -> & Hc & _ & Hrows & _).
  destruct (Hrows target Hin) as (t & Ht & Heq).
  pose proof (f_equal id Heq) as Hi. pose proof (f_equal user_id Heq) as Hu'.
  pose proof (f_equal (set_active false) Heq) as Hcl.
  change (clear_session t = clear_session target) in Hcl. simpl in Hi, Hu'.
  rewrite Hu in Hu'.
  pose proof (switch_mode_table_ok user (id t) committed Hc) as Hok'.
  rewrite <- Hi, switch_mode_found, Hcl in * by done.
  eexists. split_and!; [done..|].
  apply get_active_mode_is; [done| |done..].
  apply update_row_In. exists (clear_session t). rewrite <- Hcl.
  split; [|simpl; by rewrite Z.eqb_refl].
  apply deactivate_all_In. exists t.
  by rewrite (proj2 (owned_by_spec user t) Hu').
Qed.

(** When no lock is running and the user owns no mode with the requested
    key, [activate_mode] raises "Focus mode not found" before it commits:
    the deactivation of the user's modes is not written, and the table is
    the one the lock check left. *)
Theorem activate_mode_not_found user mode_id modes now :
  table_ok modes → no_running_lock user modes now →
  (∀ m, In m modes → user_id m = user → id m ≠ mode_id) →
  activate_mode user mode_id modes now =
    (Raise (ValueError "Focus mode not found"),
     snd (_get_locked_mode user modes now)).
Proof.
  intros Hok Hfree Hno. unfold activate_mode.
  destruct (get_locked_mode_free user modes now Hok Hfree)
    as (committed & -> & _ & _ & _ & Hrows).
  apply switch_mode_missing. intros m' Hm' Hu'.
  destruct (Hrows m' Hm') as (m & Hm & Heq).
  pose proof (f_equal id Heq) as Hi. pose proof (f_equal user_id Heq) as Hu.
  simpl in Hi, Hu. rewrite Hi. apply Hno; congruence.
Qed.

(** ** Locking and unlocking *)

(** C6. a lock taken by [lock_session] on the active mode of the user for
    [minutes] minutes blocks every change of mode until its deadline:
    [lock_session] returns the mode locked until [now + minutes], and
    [activate_mode] at any instant before the deadline raises the lock
    error with that mode and deadline and leaves the table as it is. *)
Theorem lock_session_blocks_switch user modes now minutes m now' other :
  table_ok modes → In m modes → user_id m = user → is_active m = true →
  now' < now + timedelta_minutes minutes →
  ∃ modes',
    lock_session user (id m) minutes modes now =
      (Ok (set_lock true (Some (now + timedelta_minutes minutes)) m), modes') ∧
    activate_mode user other modes' now' =
      (Raise (ModeLocked (name m) (now + timedelta_minutes minutes)), modes').
Proof.
  intros Hok Hm Hu Ha Hlt.
  pose proof (lock_session_table_ok user (id m) minutes modes now Hok) as Hok'.
  unfold lock_session, activate_mode in *.
  rewrite find_mode_found, Ha in * by done. simpl in *.
  eexists. split; [done|]. set (deadline := now + timedelta_minutes minutes) in *.
  rewrite (get_locked_mode_running user _ now' (set_lock true (Some deadline) m)
             deadline); [done|done| |done..].
  apply update_row_In. exists m. by rewrite Z.eqb_refl.
Qed.

(** [lock_session] refuses a mode that is not active: it raises "Can
    only lock an active focus mode" and writes nothing. *)
Theorem lock_session_inactive user modes now minutes m :
  table_ok modes → In m modes → user_id m = user → is_active m = false →
  lock_session user (id m) minutes modes now =
    (Raise (ValueError "Can only lock an active focus mode"), modes).
Proof.
  intros Hok Hm Hu Ha. unfold lock_session.
  by rewrite find_mode_found, Ha by done.
Qed.

(** C39. a lock whose deadline has passed is cleared by the next lock check:
    [_get_locked_mode] reports no lock, commits the row unlocked, and the
    user then has no running lock, so that the activation goes through. *)
Theorem lock_expiry user modes now locked deadline :
  table_ok modes → In locked modes → user_id locked = user →
  is_locked locked = true → lock_until locked = Some deadline → deadline ≤ now →
  _get_locked_mode user modes now =
    (Ok None, update_row (id locked) (set_lock false None) modes) ∧
  no_running_lock user modes now ∧
  ∀ m, In m (update_row (id locked) (set_lock false None) modes) →
       user_id m = user → is_locked m = false.
Proof.
  intros Hok Hin Hu Hl Hd Hle. split_and!.
  - by eapply get_locked_mode_expired.
  - intros m d Hm Hu' Hl' Hd'.
    rewrite (locked_unique modes m locked) in Hd' by (auto; congruence).
    by simplify_eq.
  - intros m' (m0 & H0 & ->)%update_row_In Hu'.
    destruct (Z.eqb_spec (id m0) (id locked)) as [_|Hne]; [done|].
    destruct (is_locked m0) eqn:Hl0; [|done].
    destruct Hne. f_equal. apply (locked_unique modes); auto; congruence.
Qed.

(** [unlock_session] does not look at the deadline: it unlocks the
    locked mode of the user while the lock still runs, and from then on the
    lock check finds no lock at any instant and writes nothing. *)
Theorem unlock_session_ok user modes m :
  table_ok modes → In m modes → user_id m = user → is_locked m = true →
  ∃ modes',
    unlock_session user (id m) modes = (Ok (set_lock false None m), modes') ∧
    ∀ now, _get_locked_mode user modes' now = (Ok None, modes').
Proof.
  intros Hok Hm Hu Hl.
  pose proof (unlock_session_table_ok user (id m) modes Hok) as Hok'.
  unfold unlock_session in *. rewrite find_mode_found in * by done.
  eexists. split; [done|]. intros now. simpl in Hok'.
  destruct (get_locked_mode_view user _ now Hok')
    as [m' d (m0 & H0 & ->)%update_row_In Hu' Hl' _ _
       |m' d (m0 & H0 & ->)%update_row_In Hu' Hl' _ _|]; [| |done];
    (destruct (Z.eqb_spec (id m0) (id m)) as [_|Hne]; [done|]);
    destruct Hne; f_equal; apply (locked_unique modes); auto; congruence.
Qed.

(** ** The daily time limit *)

Lemma watched_seconds_cons user since w history :
  watched_seconds user since (w :: history) =
    (if (wh_user_id w =? user) && (since <=? wh_watched_at w)
     then wh_watch_duration_seconds w else 0)
    + watched_seconds user since history.
Proof. unfold watched_seconds. simpl. by destruct (_ && _). Qed.

Lemma watched_seconds_nonneg user since history :
  Forall (λ w, 0 ≤ wh_watch_duration_seconds w) history →
  0 ≤ watched_seconds user since history.
Proof.
  induction 1 as [|w history Hw _ IH]; [done|].
  rewrite watched_seconds_cons. destruct (_ && _); lia.
Qed.

(** With a daily limit of [limit] minutes, [check_time_limit] reports the
    whole minutes watched today, [exceeded] exactly when they reach the
    limit, and the minutes that remain: 0 exactly when the limit is
    exceeded, the difference otherwise. *)
Theorem check_time_limit_exceeded user mode history now limit :
  daily_time_limit_minutes mode = Some limit → limit ≠ 0 →
  let r := check_time_limit user mode history now in
  has_limit r = true ∧ limit_minutes r = Some limit ∧
  used_minutes r = watched_seconds user (start_of_day now) history / 60 ∧
  (exceeded r = true ↔ limit ≤ used_minutes r) ∧
  (exceeded r = true ↔ remaining_minutes r = Some 0) ∧
  (exceeded r = false → remaining_minutes r = Some (limit - used_minutes r)).
Proof.
  intros Hlimit Hne. unfold check_time_limit. rewrite Hlimit.
  generalize (watched_seconds user (start_of_day now) history / 60). intros used.
  destruct limit as [|p|p]; [done|..]; simpl; rewrite Z.leb_le, Z.leb_gt;
    (split_and!; [done..| |]; [split; [|intros [=]]|]; intros; try f_equal; lia).
Qed.

(** Only the rows of the user watched since midnight count against the
    limit: a row of another user, or of an earlier day, changes nothing in
    what [check_time_limit] reports. *)
Theorem check_time_limit_other_rows user mode history now w :
  wh_user_id w ≠ user ∨ wh_watched_at w < start_of_day now →
  check_time_limit user mode (w :: history) now =
    check_time_limit user mode history now.
Proof.
  intros Hw. unfold check_time_limit. rewrite watched_seconds_cons.
  replace ((wh_user_id w =? user) && _) with false; [done|].
  symmetry. apply andb_false_iff. rewrite Z.eqb_neq, Z.leb_gt. tauto.
Qed.

(** The lock status of the statistics agrees with the lock check: it is
    reported exactly while the lock runs. *)
Lemma lock_status_running mode now :
  is_Some (lock_status mode now) ↔
  is_locked mode = true ∧ ∃ deadline, lock_until mode = Some deadline ∧ now < deadline.
Proof.
  unfold lock_status. destruct (is_locked mode), (lock_until mode) as [d|];
    try (split; [intros [? [=]]|naive_solver]).
  destruct (Z.ltb_spec 0 (d - now)); split; try by intros [? [=]].
  - intros _. split; [done|]. exists d. split; [done|lia].
  - intros _. eauto.
  - intros [_ (? & [= <-] & ?)]. lia.
Qed.

Lemma get_session_stats_total user modes history now :
  table_ok modes → is_ok (get_session_stats user modes history now) = true.
Proof.
  intros Hok. unfold get_session_stats, get_active_mode.
  destruct (query_one _ modes (active_at_most_one user modes Hok)) as (o & -> & _).
  by destruct o.
Qed.

(** ** The invariant as a test *)

Lemma distinct_NoDup keys : distinct keys = true → List.NoDup keys.
Proof.
  induction keys as [|k keys IH]; simpl; [constructor|].
  intros [Hk Hd]%andb_true_iff. constructor; [|auto].
  intros Hin. apply negb_true_iff in Hk.
  assert (existsb (Z.eqb k) keys = true) as Hex; [|congruence].
  apply existsb_exists. exists k. by rewrite Z.eqb_refl.
Qed.

Lemma row_okb_spec m : row_okb m = true → row_ok m.
Proof.
  unfold row_okb, row_ok. intros H Hl. rewrite Hl in H. simpl in H.
  apply andb_true_iff in H as [? [d Hd]%bool_decide_eq_true]. by rewrite Hd.
Qed.

Lemma table_okb_spec modes : table_okb modes = true → table_ok modes.
Proof.
  intros [[Hk%distinct_NoDup Ha]%andb_true_iff Hr]%andb_true_iff. split; [done| |].
  - intros m1 m2 H1 H2 Hu A1 A2. apply (same_key modes); [done..|].
    unfold one_activeb in Ha. rewrite forallb_forall in Ha.
    specialize (Ha m1 H1). rewrite forallb_forall in Ha. specialize (Ha m2 H2).
    rewrite Hu, Z.eqb_refl, A1, A2 in Ha. by apply Z.eqb_eq.
  - apply List.Forall_forall. intros m Hm. apply row_okb_spec.
    by apply (proj1 (forallb_forall _ _) Hr).
Qed.

(** ** The theorems at the sample table *)

Lemma sample_modes_ok : table_ok sample_modes.
Proof. by apply table_okb_spec. Qed.

Lemma locked_modes_ok : table_ok locked_modes.
Proof. by apply table_okb_spec. Qed.

Lemma reachable_table_ok_witness :
  table_ok (handle 1 (nine_am + timedelta_hours 1) (Activate 11)
              (handle 1 nine_am (Lock 10 30) sample_modes)).
Proof.
  apply (reachable_table_ok sample_modes); [apply sample_modes_ok|].
  do 2 (eapply reachable_step; [|apply step_request]). apply reachable_init.
Defined.

Lemma get_active_mode_unique_witness :
  ∃ o, get_active_mode 1 sample_modes = Ok o ∧
       ∀ m, o = Some m ↔ In m sample_modes ∧ user_id m = 1 ∧ is_active m = true.
Proof. apply (get_active_mode_unique sample_modes 1 sample_modes_ok). Defined.

Lemma activate_mode_locked_witness :
  activate_mode 1 11 locked_modes (nine_am + timedelta_minutes 10) =
    (Raise (ModeLocked "Study Mode" (nine_am + timedelta_minutes 30)), locked_modes).
Proof.
  apply (activate_mode_locked 1 11 locked_modes _ locked_row);
    [apply locked_modes_ok|by left|done..].
Defined.

Lemma activate_mode_ok_witness :
  ∃ modes',
    activate_mode 1 11 locked_modes (nine_am + timedelta_minutes 30) =
      (Ok (set_active true (clear_session relax_row)), modes') ∧
    table_ok modes' ∧
    get_active_mode 1 modes' = Ok (Some (set_active true (clear_session relax_row))).
Proof.
  apply (activate_mode_ok 1 locked_modes _ relax_row);
    [apply locked_modes_ok| |right; by left|done].
  intros m d [<-|[<-|[<-|[]]]]; try done. by intros _ _ [= <-].
Defined.

Lemma activate_mode_not_found_witness :
  activate_mode 1 20 sample_modes nine_am =
    (Raise (ValueError "Focus mode not found"),
     snd (_get_locked_mode 1 sample_modes nine_am)).
Proof.
  apply activate_mode_not_found; [apply sample_modes_ok| |].
  - by intros m d [<-|[<-|[<-|[]]]].
  - by intros m [<-|[<-|[<-|[]]]].
Defined.

Lemma lock_session_blocks_switch_witness :
  ∃ modes',
    lock_session 1 (id study_row) 30 sample_modes nine_am =
      (Ok (set_lock true (Some (nine_am + timedelta_minutes 30)) study_row), modes') ∧
    activate_mode 1 11 modes' (nine_am + timedelta_minutes 29) =
      (Raise (ModeLocked (name study_row) (nine_am + timedelta_minutes 30)), modes').
Proof.
  apply lock_session_blocks_switch; [apply sample_modes_ok|by left|done..].
Defined.

Lemma lock_session_inactive_witness :
  lock_session 1 (id relax_row) 30 sample_modes nine_am =
    (Raise (ValueError "Can only lock an active focus mode"), sample_modes).
Proof.
  apply lock_session_inactive; [apply sample_modes_ok|right; by left|done..].
Defined.

Lemma lock_expiry_witness :
  _get_locked_mode 1 locked_modes (nine_am + timedelta_minutes 30) =
    (Ok None, update_row (id locked_row) (set_lock false None) locked_modes) ∧
  no_running_lock 1 locked_modes (nine_am + timedelta_minutes 30) ∧
  ∀ m, In m (update_row (id locked_row) (set_lock false None) locked_modes) →
       user_id m = 1 → is_locked m = false.
Proof.
  apply (lock_expiry 1 locked_modes _ locked_row (nine_am + timedelta_minutes 30));
    [apply locked_modes_ok|by left|done..].
Defined.

Lemma unlock_session_ok_witness :
  ∃ modes',
    unlock_session 1 (id locked_row) locked_modes =
      (Ok (set_lock false None locked_row), modes') ∧
    ∀ now, _get_locked_mode 1 modes' now = (Ok None, modes').
Proof.
  apply unlock_session_ok; [apply locked_modes_ok|by left|done..].
Defined.

Lemma check_time_limit_exceeded_witness :
  let r := check_time_limit 1 limited_row sample_history nine_am in
  has_limit r = true ∧ limit_minutes r = Some 60 ∧
  used_minutes r = watched_seconds 1 (start_of_day nine_am) sample_history / 60 ∧
  (exceeded r = true ↔ 60 ≤ used_minutes r) ∧
  (exceeded r = true ↔ remaining_minutes r = Some 0) ∧
  (exceeded r = false → remaining_minutes r = Some (60 - used_minutes r)).
Proof. by apply (check_time_limit_exceeded 1 limited_row sample_history nine_am 60). Defined.

Lemma check_time_limit_other_rows_witness :
  check_time_limit 1 limited_row (watched 2 nine_am 1800 :: sample_history) nine_am =
    check_time_limit 1 limited_row sample_history nine_am.
Proof. apply check_time_limit_other_rows. by left. Defined.

(** The day of the sample: 70 minutes watched against a limit of 60. *)
Lemma sample_day :
  check_time_limit 1 limited_row sample_history nine_am =
    {| has_limit := true; exceeded := true; used_minutes := 70;
       limit_minutes := Some 60; remaining_minutes := Some 0 |}.
Proof. by vm_compute. Qed.
