(* ===== verification/ModesRouter.v ===== *)
(** * ModesRouter: routers/modes.py

    The handlers of the modes router over the database: the table
    [focus_modes] and the table [filter_rules] of the rules attached to
    modes.  A handler takes the user of the request, its parameters, the
    database and (where it reads the clock) the instant, and returns its
    answer with the database as committed: an [HTTPException] raised before
    [commit] rolls the session back.  The primary keys the table assigns to
    new rows come from [fresh], the generator of identifiers. *)

From Stdlib Require Import ZArith String Ascii List Floats FinFun Sorted Permutation.
From stdpp Require Import base option list strings relations.
From S2P Require Import Prelude Models Presets Schemas FocusEngine.

Set Warnings "-inexact-float".
Local Open Scope string_scope.
Local Open Scope Z_scope.

(** ** The database *)

Record Db : Type := mkDb {
  focus_modes : list FocusMode;
  filter_rules : list FilterRule;
}.

(** The answer of a handler and the database as committed. *)
Definition response (A : Type) : Type := result A * Db.

Definition with_modes (modes : list FocusMode) (db : Db) : Db :=
  {| focus_modes := modes; filter_rules := filter_rules db |}.

(** [await db.delete(mode)] for the modes that satisfy [p]: the rows go, and
    with them the rules attached to them (the relationship cascades). *)
Definition delete_modes (p : FocusMode → bool) (db : Db) : Db :=
  {| focus_modes := List.filter (λ m, negb (p m)) (focus_modes db);
     filter_rules :=
       List.filter
         (λ r, negb (existsb (λ m, p m && (id m =? fr_mode_id r)) (focus_modes db)))
         (filter_rules db) |}.

(** The rows [FocusMode(user_id=user.id, is_active=..., **preset_data)] of
    the nine presets, in the order of the table; [first_active] activates
    the first. *)
Definition seed_presets (user : uuid) (fresh : nat → uuid) (first_active : bool) :
    list FocusMode :=
  imap (λ k entry, preset_mode (fresh k) user (first_active && Nat.eqb k 0) entry.2)
       PRESET_MODES.

(** [insert] of a sorted insertion by descending priority; rules of equal
    priority keep the order of the table. *)
Fixpoint insert_by_priority (r : FilterRule) (sorted : list FilterRule) :
    list FilterRule :=
  match sorted with
  | [] => [r]
  | r' :: rest =>
      if fr_priority r' <=? fr_priority r then r :: sorted
      else r' :: insert_by_priority r rest
  end.

(** [order_by(FilterRule.priority.desc())]. *)
Definition order_by_priority_desc (rules : list FilterRule) : list FilterRule :=
  fold_right insert_by_priority [] rules.

Module Router.

Definition mode_not_found : exn := HTTPException 404 "Focus mode not found".

(** The query every handler of one mode starts with: the mode with the key
    [mode_id] that the user owns, or the 404. *)
Definition owned_mode (user mode_id : uuid) (db : Db) : result FocusMode :=
  found ← find_mode user mode_id (focus_modes db);
  match found with
  | Some mode => Ok mode
  | None => Raise mode_not_found
  end.

(** [list_modes]: the modes of the user; a user without any is given the
    nine presets first, none of them active. *)
Definition list_modes (user : uuid) (fresh : nat → uuid) (db : Db) :
    response (list FocusMode) :=
  match modes_of user (focus_modes db) with
  | [] =>
      let db' := with_modes (focus_modes db ++ seed_presets user fresh false) db in
      (Ok (modes_of user (focus_modes db')), db')
  | modes => (Ok modes, db)
  end.

(** [reset_modes]: every mode of the user is deleted, locked or not, and the
    nine presets are created afresh with the first one active. *)
Definition reset_modes (user : uuid) (fresh : nat → uuid) (db : Db) :
    response (list FocusMode) :=
  let emptied := delete_modes (owned_by user) db in
  let db' := with_modes (focus_modes emptied ++ seed_presets user fresh true) emptied in
  (Ok (modes_of user (focus_modes db')), db').

(** [create_mode]: a new mode from a valid body, inactive and unlocked. *)
Definition create_mode (user : uuid) (fresh : nat → uuid)
    (mode_data : FocusModeCreate) (db : Db) : response FocusMode :=
  match validated create_valid mode_data with
  | Raise e => (Raise e, db)
  | Ok body =>
      let mode := created_mode (fresh 0%nat) user body in
      (Ok mode, with_modes (focus_modes db ++ [mode]) db)
  end.

(** [get_active_mode]: the active mode of the user, or the 404. *)
Definition get_active_mode (user : uuid) (db : Db) : result FocusMode :=
  active ← FocusEngine.get_active_mode user (focus_modes db);
  match active with
  | Some mode => Ok mode
  | None => Raise (HTTPException 404 "No active focus mode")
  end.

(** [get_mode]. *)
Definition get_mode (user mode_id : uuid) (db : Db) : result FocusMode :=
  owned_mode user mode_id db.

(** [mode.lock_until and mode.lock_until > datetime.utcnow()]. *)
Definition deadline_ahead (mode : FocusMode) (now : datetime) : bool :=
  match lock_until mode with Some deadline => now <? deadline | None => false end.

(** The lock of a mode is running at [now]. *)
Definition lock_running (mode : FocusMode) (now : datetime) : bool :=
  is_locked mode && deadline_ahead mode now.

(** [update_mode]: the fields the body sets are written to the mode, unless
    its lock is running. *)
Definition update_mode (user mode_id : uuid) (mode_data : FocusModeUpdate)
    (db : Db) (now : datetime) : response FocusMode :=
  match validated update_valid mode_data with
  | Raise e => (Raise e, db)
  | Ok body =>
      match owned_mode user mode_id db with
      | Raise e => (Raise e, db)
      | Ok mode =>
          if lock_running mode now then
            (Raise (HTTPException 403 "Cannot modify locked focus mode"), db)
          else if nulls_name body then (Raise IntegrityError, db)
          else
            (Ok (apply_update body mode),
             with_modes (update_row (id mode) (apply_update body) (focus_modes db)) db)
      end
  end.

(** [delete_mode]: the mode goes, with its rules; its lock is not looked
    at. *)
Definition delete_mode (user mode_id : uuid) (db : Db) : response unit :=
  match owned_mode user mode_id db with
  | Raise e => (Raise e, db)
  | Ok mode => (Ok tt, delete_modes (λ m, id m =? id mode) db)
  end.

(** The second half of [activate_mode]: every mode of the user is
    deactivated and unlocked in the session, the requested one is looked up
    and activated, and the session committed.  The 404 comes before the
    commit. *)
Definition activate_unlocked (user mode_id : uuid) (db : Db) : response FocusMode :=
  let cleared := with_modes (deactivate_all user (focus_modes db)) db in
  match owned_mode user mode_id cleared with
  | Raise e => (Raise e, db)
  | Ok mode =>
      (Ok (set_active true mode),
       with_modes (update_row (id mode) (set_active true) (focus_modes cleared)) db)
  end.

(** [activate_mode]: refused while a lock of the user is running. *)
Definition activate_mode (user mode_id : uuid) (db : Db) (now : datetime) :
    response FocusMode :=
  match scalar_one_or_none
          (List.filter (λ m, owned_by user m && is_locked m) (focus_modes db)) with
  | Raise e => (Raise e, db)
  | Ok (Some locked) =>
      if deadline_ahead locked now then
        (Raise (ModeLocked (name locked) (default 0 (lock_until locked))), db)
      else activate_unlocked user mode_id db
  | Ok None => activate_unlocked user mode_id db
  end.

(** [lock_session]: the active mode is locked for the minutes of a valid
    request. *)
Definition lock_session (user mode_id : uuid) (duration_minutes : Z) (db : Db)
    (now : datetime) : response FocusMode :=
  match validated lock_valid duration_minutes with
  | Raise e => (Raise e, db)
  | Ok minutes =>
      match owned_mode user mode_id db with
      | Raise e => (Raise e, db)
      | Ok mode =>
          if negb (is_active mode) then
            (Raise (HTTPException 400 "Can only lock an active focus mode"), db)
          else
            let until := Some (now + timedelta_minutes minutes) in
            (Ok (set_lock true until mode),
             with_modes (update_row (id mode) (set_lock true until) (focus_modes db)) db)
      end
  end.

(** [list_mode_rules]: the rules of a mode of the user, the highest
    priority first. *)
Definition list_mode_rules (user mode_id : uuid) (db : Db) :
    result (list FilterRule) :=
  _ ← owned_mode user mode_id db;
  Ok (order_by_priority_desc
        (List.filter (λ r, fr_mode_id r =? mode_id) (filter_rules db))).

(** [create_rule]: a new rule of a mode of the user, from a valid body. *)
Definition create_rule (user mode_id : uuid) (fresh : nat → uuid)
    (rule_data : FilterRuleCreate) (db : Db) : response FilterRule :=
  match validated rule_valid rule_data with
  | Raise e => (Raise e, db)
  | Ok body =>
      match owned_mode user mode_id db with
      | Raise e => (Raise e, db)
      | Ok _ =>
          let rule := created_rule (fresh 0%nat) mode_id body in
          (Ok rule, {| focus_modes := focus_modes db;
                       filter_rules := filter_rules db ++ [rule] |})
      end
  end.

(** ** The router as a state machine *)

(** The requests that can write, with the identifiers the table hands out
    while it serves them. *)
Inductive request : Type :=
| ListModes (fresh : nat → uuid)
| ResetModes (fresh : nat → uuid)
| CreateMode (fresh : nat → uuid) (mode_data : FocusModeCreate)
| UpdateMode (mode_id : uuid) (mode_data : FocusModeUpdate)
| DeleteMode (mode_id : uuid)
| ActivateMode (mode_id : uuid)
| LockSession (mode_id : uuid) (duration_minutes : Z)
| CreateRule (mode_id : uuid) (fresh : nat → uuid) (rule_data : FilterRuleCreate).

(** The database after a request of [user] at [now]. *)
Definition handle (user : uuid) (now : datetime) (r : request) (db : Db) : Db :=
  match r with
  | ListModes fresh => snd (list_modes user fresh db)
  | ResetModes fresh => snd (reset_modes user fresh db)
  | CreateMode fresh mode_data => snd (create_mode user fresh mode_data db)
  | UpdateMode mode_id mode_data => snd (update_mode user mode_id mode_data db now)
  | DeleteMode mode_id => snd (delete_mode user mode_id db)
  | ActivateMode mode_id => snd (activate_mode user mode_id db now)
  | LockSession mode_id minutes => snd (lock_session user mode_id minutes db now)
  | CreateRule mode_id fresh rule_data =>
      snd (create_rule user mode_id fresh rule_data db)
  end.

(** The identifiers of a generator are new to the table and distinct. *)
Definition fresh_for (fresh : nat → uuid) (db : Db) : Prop :=
  Injective fresh ∧ ∀ k, ¬ In (fresh k) (map id (focus_modes db)).

Definition request_fresh (r : request) (db : Db) : Prop :=
  match r with
  | ListModes fresh | ResetModes fresh | CreateMode fresh _ => fresh_for fresh db
  | _ => True
  end.

(** One request of some user at some instant. *)
Inductive step : Db → Db → Prop :=
| step_request user now r db :
    request_fresh r db → step db (handle user now r db).

End Router.

(** ** The invariant of the database *)

(** The table of modes is well formed, every rule belongs to a mode of the
    table, and the policy columns are within the bounds of the schemas. *)
Record db_ok (db : Db) : Prop := {
  db_modes : table_ok (focus_modes db);
  db_rules : ∀ r, In r (filter_rules db) → In (fr_mode_id r) (map id (focus_modes db));
  db_policy : Forall (λ m, policy_valid m = true) (focus_modes db);
}.

(** The columns of a row that belong to the session and not to the policy. *)
Definition session_of (m : FocusMode) : uuid * uuid * bool * bool * option datetime :=
  (id m, user_id m, is_active m, is_locked m, lock_until m).

(** The order of [list_mode_rules]: no rule comes before one of higher
    priority. *)
Definition by_priority_desc (r1 r2 : FilterRule) : Prop :=
  fr_priority r2 ≤ fr_priority r1.

(** ** A sample database *)

Definition sample_db : Db :=
  {| focus_modes := sample_modes;
     filter_rules := [created_rule 100 10 (mkFilterRuleCreate "keyword" "contains:prank" "block" 5);
                      created_rule 101 10 (mkFilterRuleCreate "channel" "channel_id:UCx" "allow" 9);
                      created_rule 102 11 (mkFilterRuleCreate "score" "clickbait:>0.5" "block" 0)] |}.

(** The study mode of the sample locked at 09:00 for half an hour. *)
Definition locked_db : Db := with_modes locked_modes sample_db.

(** Identifiers from 1000 on. *)
Definition fresh_from_1000 (k : nat) : uuid := 1000 + Z.of_nat k.

(** * Theorems *)

(** ** Tables under deletion and insertion *)

Lemma table_ok_filter (p : FocusMode → bool) modes :
  table_ok modes → table_ok (List.filter p modes).
Proof.
  intros Hok. split.
  - apply NoDup_keys_filter, Hok.
  - intros m1 m2 [H1 _]%filter_In [H2 _]%filter_In. by apply (ok_one_active _ Hok).
  - apply List.Forall_forall. intros m [Hm _]%filter_In. by eapply table_ok_row.
Qed.

Lemma table_ok_app modes extra :
  table_ok modes → table_ok extra →
  (∀ m e, In m modes → In e extra → id m ≠ id e) →
  (∀ m e, In m modes → In e extra → user_id m = user_id e →
          is_active m = true → is_active e = true → False) →
  table_ok (modes ++ extra).
Proof.
  intros Hm He Hkeys Hact. split.
  - rewrite map_app. apply List.NoDup_app; [apply Hm|apply He|].
    intros k (m & <- & H1)%in_map_iff (e & Hid & H2)%in_map_iff.
    by destruct (Hkeys m e).
  - intros m1 m2 [H1|H1]%in_app_iff [H2|H2]%in_app_iff Hu A1 A2.
    + by apply (ok_one_active _ Hm).
    + by destruct (Hact m1 m2).
    + by destruct (Hact m2 m1).
    + by apply (ok_one_active _ He).
  - apply Forall_app. split; [apply Hm|apply He].
Qed.

Lemma table_ok_singleton m : row_ok m → table_ok [m].
Proof.
  intros Hr. split.
  - repeat constructor. by intros [].
  - by intros m1 m2 [<-|[]] [<-|[]].
  - by constructor.
Qed.

(** The rows of the presets, by their place in the table. *)
Lemma seed_presets_In user fresh first m :
  In m (seed_presets user fresh first) →
  ∃ k entry, PRESET_MODES !! k = Some entry ∧
             m = preset_mode (fresh k) user (first && Nat.eqb k 0) entry.2.
Proof.
  intros (k & Hk)%list_elem_of_In%list_elem_of_lookup_1.
  unfold seed_presets in Hk. rewrite list_lookup_imap in Hk.
  destruct (PRESET_MODES !! k) as [entry|] eqn:He; simplify_eq/=. eauto.
Qed.

Lemma seed_presets_keys user fresh first :
  map id (seed_presets user fresh first) = map fresh (seq 0 9).
Proof. done. Qed.

Lemma table_ok_seed user fresh first :
  Injective fresh → table_ok (seed_presets user fresh first).
Proof.
  intros Hinj. split.
  - rewrite seed_presets_keys. apply Injective_map_NoDup, seq_NoDup. done.
  - intros m1 m2 (k1 & e1 & H1 & ->)%seed_presets_In (k2 & e2 & H2 & ->)%seed_presets_In
      _ A1 A2; simpl in A1, A2.
    apply andb_true_iff in A1 as [_ ->%Nat.eqb_eq], A2 as [_ ->%Nat.eqb_eq].
    by simplify_eq.
  - apply List.Forall_forall. by intros m (k & e & _ & ->)%seed_presets_In.
Qed.

Lemma seed_presets_fresh user fresh first modes m e :
  (∀ k, ¬ In (fresh k) (map id modes)) →
  In m modes → In e (seed_presets user fresh first) → id m ≠ id e.
Proof.
  intros Hfresh Hm (k & entry & _ & ->)%seed_presets_In Hid. simpl in Hid.
  apply (Hfresh k). rewrite <- Hid. by apply in_map.
Qed.

Lemma seed_presets_valid user fresh first :
  Forall (λ m, policy_valid m = true) (seed_presets user fresh first).
Proof.
  apply List.Forall_forall. intros m (k & [key p] & Hk & ->)%seed_presets_In.
  apply (preset_mode_valid _ _ _ key), list_elem_of_In.
  by eapply list_elem_of_lookup_2.
Qed.

(** ** The query of one mode *)

Lemma owned_mode_inv user mode_id db m :
  Router.owned_mode user mode_id db = Ok m →
  In m (focus_modes db) ∧ id m = mode_id ∧ user_id m = user.
Proof.
  unfold Router.owned_mode. intros (o & Hf & Ho)%bind_Ok_inv.
  destruct o as [m'|]; simplify_eq. by apply find_mode_inv in Hf.
Qed.

Lemma owned_mode_found user db m :
  table_ok (focus_modes db) → In m (focus_modes db) → user_id m = user →
  Router.owned_mode user (id m) db = Ok m.
Proof. intros. unfold Router.owned_mode. by rewrite find_mode_found. Qed.

Lemma owned_mode_missing user mode_id db :
  (∀ m, In m (focus_modes db) → user_id m = user → id m ≠ mode_id) →
  Router.owned_mode user mode_id db = Raise Router.mode_not_found.
Proof. intros. unfold Router.owned_mode. by rewrite find_mode_missing. Qed.

(** ** Keys and policy columns under the updates *)

Lemma keys_update_row i f modes :
  (∀ m, id (f m) = id m) → map id (update_row i f modes) = map id modes.
Proof.
  intros Hf. unfold update_row. rewrite map_map. apply map_ext.
  intros m. destruct (id m =? i); auto.
Qed.

Lemma keys_deactivate_all user modes :
  map id (deactivate_all user modes) = map id modes.
Proof.
  unfold deactivate_all. rewrite map_map. apply map_ext.
  intros m. by destruct (owned_by user m).
Qed.

Lemma policy_update_row i f modes :
  (∀ m, policy_valid m = true → policy_valid (f m) = true) →
  Forall (λ m, policy_valid m = true) modes →
  Forall (λ m, policy_valid m = true) (update_row i f modes).
Proof.
  intros Hf Hall. unfold update_row. apply Forall_map.
  eapply Forall_impl; [done|]. intros m Hm. simpl. destruct (id m =? i); auto.
Qed.

Lemma policy_deactivate_all user modes :
  Forall (λ m, policy_valid m = true) modes →
  Forall (λ m, policy_valid m = true) (deactivate_all user modes).
Proof.
  intros Hall. unfold deactivate_all. apply Forall_map.
  eapply Forall_impl; [done|]. intros m Hm. simpl. by destruct (owned_by user m).
Qed.

(** A rewriting of the rows that keeps the keys keeps the database well
    formed, when the table it leaves is well formed and within bounds. *)
Lemma db_ok_with_modes modes db :
  db_ok db → table_ok modes → map id modes = map id (focus_modes db) →
  Forall (λ m, policy_valid m = true) modes → db_ok (with_modes modes db).
Proof.
  intros [_ Hr _] Hok Hkeys Hp. split; simpl; [done| |done].
  intros r Hin. rewrite Hkeys. auto.
Qed.

(** New rows with new keys, none of them active next to an active row of
    the same user, keep the database well formed. *)
Lemma db_ok_app extra db :
  db_ok db → table_ok extra → Forall (λ m, policy_valid m = true) extra →
  (∀ m e, In m (focus_modes db) → In e extra → id m ≠ id e) →
  (∀ m e, In m (focus_modes db) → In e extra → user_id m = user_id e →
          is_active m = true → is_active e = true → False) →
  db_ok (with_modes (focus_modes db ++ extra) db).
Proof.
  intros [Hm Hr Hp] He Hpe Hkeys Hact. split; simpl.
  - by apply table_ok_app.
  - intros r Hin. rewrite map_app. apply in_or_app. auto.
  - apply Forall_app. done.
Qed.

Lemma db_ok_delete (p : FocusMode → bool) db :
  db_ok db → db_ok (delete_modes p db).
Proof.
  intros [Hm Hr Hp]. split; simpl.
  - by apply table_ok_filter.
  - intros r [Hin Hkeep%negb_true_iff]%filter_In.
    destruct (proj1 (in_map_iff _ _ _) (Hr r Hin)) as (m & Hid & Hm').
    apply in_map_iff. exists m. split; [done|]. apply filter_In. split; [done|].
    destruct (p m) eqn:Hpm; [|done].
    rewrite (proj2 (existsb_exists _ _)) in Hkeep; [done|].
    exists m. by rewrite Hpm, Hid, Z.eqb_refl.
  - apply List.Forall_forall. intros m [Hin _]%filter_In.
    by apply (proj1 (List.Forall_forall _ _) Hp).
Qed.

(** ** Every handler keeps the database well formed *)

Lemma list_modes_db_ok user fresh db :
  db_ok db → Router.fresh_for fresh db → db_ok (snd (Router.list_modes user fresh db)).
Proof.
  intros Hok [Hinj Hnew]. unfold Router.list_modes.
  destruct (modes_of user (focus_modes db)); [simpl|done].
  apply db_ok_app; auto using table_ok_seed, seed_presets_valid.
  - intros m e. by apply (seed_presets_fresh _ _ _ (focus_modes db)).
  - by intros m e _ (k & entry & _ & ->)%seed_presets_In.
Qed.

Lemma reset_modes_db_ok user fresh db :
  db_ok db → Router.fresh_for fresh db → db_ok (snd (Router.reset_modes user fresh db)).
Proof.
  intros Hok [Hinj Hnew]. unfold Router.reset_modes. simpl.
  apply (db_ok_app _ (delete_modes (owned_by user) db));
    auto using table_ok_seed, seed_presets_valid, db_ok_delete.
  - intros m e [Hm _]%filter_In. by apply (seed_presets_fresh _ _ _ (focus_modes db)).
  - intros m e [_ Hm%negb_true_iff]%filter_In (k & entry & _ & ->)%seed_presets_In Hu.
    simpl in Hu. by rewrite (proj2 (owned_by_spec user m) Hu) in Hm.
Qed.

Lemma create_mode_db_ok user fresh mode_data db :
  db_ok db → Router.fresh_for fresh db →
  db_ok (snd (Router.create_mode user fresh mode_data db)).
Proof.
  intros Hok [Hinj Hnew]. unfold Router.create_mode.
  destruct (validated create_valid mode_data) as [body|e] eqn:Hv; [simpl|done].
  apply validated_Ok in Hv as [-> Hv].
  apply db_ok_app; [done|by apply table_ok_singleton| | |].
  - constructor; [by apply created_mode_valid|done].
  - intros m e Hm [<-|[]] Hid. apply (Hnew 0%nat). simpl in Hid.
    rewrite <- Hid. by apply in_map.
  - by intros m e _ [<-|[]].
Qed.

Lemma update_mode_db_ok user mode_id mode_data db now :
  db_ok db → db_ok (snd (Router.update_mode user mode_id mode_data db now)).
Proof.
  intros Hok. unfold Router.update_mode.
  destruct (validated update_valid mode_data) as [body|e] eqn:Hv; [|done].
  apply validated_Ok in Hv as [-> Hv].
  destruct (Router.owned_mode user mode_id db) as [mode|e]; [|done].
  destruct (Router.lock_running mode now); [done|].
  destruct (nulls_name mode_data) eqn:Hn; [done|simpl].
  apply db_ok_with_modes; [done| |by apply keys_update_row|].
  - apply table_ok_map; [apply Hok| | |].
    + intros m. by destruct (id m =? id mode).
    + intros m Hm. pose proof (table_ok_row _ _ (db_modes _ Hok) Hm).
      by destruct (id m =? id mode).
    + intros m1 m2 H1 H2 Hu A1 A2. f_equal.
      apply (ok_one_active _ (db_modes _ Hok)); auto.
      * by destruct (id m1 =? id mode).
      * by destruct (id m2 =? id mode).
  - apply policy_update_row; [|apply Hok]. intros m. by apply apply_update_valid.
Qed.

Lemma delete_mode_db_ok user mode_id db :
  db_ok db → db_ok (snd (Router.delete_mode user mode_id db)).
Proof.
  intros Hok. unfold Router.delete_mode.
  destruct (Router.owned_mode user mode_id db); [simpl|done]. by apply db_ok_delete.
Qed.

Lemma activate_unlocked_db_ok user mode_id db :
  db_ok db → db_ok (snd (Router.activate_unlocked user mode_id db)).
Proof.
  intros Hok. pose proof (table_ok_cleared user _ (db_modes _ Hok)) as Hc.
  unfold Router.activate_unlocked.
  destruct (Router.owned_mode _ _ _) as [mode|e] eqn:Hm; [simpl|done].
  apply owned_mode_inv in Hm as (Hin & _ & Hu). simpl in Hin.
  apply db_ok_with_modes; [done| | |].
  - apply (table_ok_set_active user); [done| |apply deactivate_all_idle].
    intros m Hm Hi. by rewrite (same_key _ m mode (ok_keys _ Hc)).
  - rewrite keys_update_row by done. apply keys_deactivate_all.
  - apply policy_update_row; [done|]. apply policy_deactivate_all, Hok.
Qed.

Lemma activate_mode_db_ok user mode_id db now :
  db_ok db → db_ok (snd (Router.activate_mode user mode_id db now)).
Proof.
  intros Hok. unfold Router.activate_mode.
  destruct (scalar_one_or_none _) as [[locked|]|e];
    [destruct (Router.deadline_ahead locked now)|..];
    auto using activate_unlocked_db_ok.
Qed.

Lemma lock_session_db_ok user mode_id minutes db now :
  db_ok db → db_ok (snd (Router.lock_session user mode_id minutes db now)).
Proof.
  intros Hok. unfold Router.lock_session.
  destruct (validated lock_valid minutes) as [body|e]; [|done].
  destruct (Router.owned_mode user mode_id db) as [mode|e] eqn:Hm; [|done].
  apply owned_mode_inv in Hm as (Hin & _ & _).
  destruct (is_active mode) eqn:Ha; [simpl|done].
  apply db_ok_with_modes; [done| |by apply keys_update_row|].
  - apply table_ok_set_lock; [apply Hok|]. intros _. split; [done|].
    intros m' Hm' Hi. by rewrite (same_key _ m' mode (ok_keys _ (db_modes _ Hok))).
  - apply policy_update_row; [done|apply Hok].
Qed.

Lemma create_rule_db_ok user mode_id fresh rule_data db :
  db_ok db → db_ok (snd (Router.create_rule user mode_id fresh rule_data db)).
Proof.
  intros Hok. unfold Router.create_rule.
  destruct (validated rule_valid rule_data) as [body|e]; [|done].
  destruct (Router.owned_mode user mode_id db) as [mode|e] eqn:Hm; [simpl|done].
  apply owned_mode_inv in Hm as (Hin & <- & _).
  destruct Hok as [Ht Hr Hp]. split; simpl; [done| |done].
  intros r [Hr'|[<-|[]]]%in_app_iff; [auto|]. simpl. by apply in_map.
Qed.

Lemma handle_db_ok user now r db :
  db_ok db → Router.request_fresh r db → db_ok (Router.handle user now r db).
Proof.
  intros Hok Hfresh. destruct r; simpl.
  - by apply list_modes_db_ok.
  - by apply reset_modes_db_ok.
  - by apply create_mode_db_ok.
  - by apply update_mode_db_ok.
  - by apply delete_mode_db_ok.
  - by apply activate_mode_db_ok.
  - by apply lock_session_db_ok.
  - by apply create_rule_db_ok.
Qed.

(** C5. Whatever the users, the instants and the requests, every database
    the router reaches from a well-formed one is well formed: the keys of
    the modes are unique, a user has at most one active mode, a locked mode
    is active and has a deadline, every rule belongs to a mode of the
    table, and the policy columns are within the bounds of the schemas. *)
Theorem router_db_ok init db :
  db_ok init → rtc Router.step init db → db_ok db.
Proof.
  intros Hinit Hsteps. induction Hsteps as [|db1 db2 db3 Hstep _ IH]; [done|].
  apply IH. destruct Hstep. by apply handle_db_ok.
Qed.

(** ** The router and the engine *)

(** In a well-formed table the query by key and owner finds the row the
    loop of the engine finds. *)
Lemma find_mode_find user mode_id modes :
  table_ok modes →
  find_mode user mode_id modes =
    Ok (List.find (λ m, id m =? mode_id) (modes_of user modes)).
Proof.
  intros Hok. destruct (List.find _ _) as [t|] eqn:Hf.
  - apply find_some in Hf as [[Hin Hu%owned_by_spec]%filter_In <-%Z.eqb_eq].
    by apply find_mode_found.
  - apply find_mode_missing. intros m Hm Hu Hi.
    eapply find_none in Hf; [|apply filter_In; split; [done|by apply owned_by_spec]].
    simpl in Hf. apply Z.eqb_neq in Hf. done.
Qed.

(** The second half of the two activations is the same function of the
    cleared table. *)
Lemma activate_unlocked_switch user mode_id db modes :
  table_ok modes →
  deactivate_all user modes = deactivate_all user (focus_modes db) →
  match switch_mode user mode_id modes with
  | (Ok mode, modes') =>
      Router.activate_unlocked user mode_id db = (Ok mode, with_modes modes' db)
  | (Raise e, _) =>
      e = ValueError "Focus mode not found" ∧
      Router.activate_unlocked user mode_id db = (Raise Router.mode_not_found, db)
  end.
Proof.
  intros Hok Heq. pose proof (table_ok_cleared user modes Hok) as Hc.
  unfold switch_mode, Router.activate_unlocked, Router.owned_mode. simpl.
  rewrite <- Heq, find_mode_find by done.
  by destruct (List.find _ _).
Qed.

Ltac by_switch H :=
  let Hs := fresh in
  pose proof H as Hs;
  destruct (switch_mode _ _ _) as [[?|?] ?]; [done|by destruct Hs as [-> ?]].

(** Clearing the lock that ran out first changes nothing in what the
    deactivation leaves. *)
Lemma deactivate_all_unlock user modes locked :
  table_ok modes → In locked modes → user_id locked = user →
  deactivate_all user (update_row (id locked) (set_lock false None) modes) =
  deactivate_all user modes.
Proof.
  intros Hok Hin Hu. unfold deactivate_all, update_row. rewrite map_map.
  apply map_ext_in. intros m Hm.
  destruct (Z.eqb_spec (id m) (id locked)) as [Hi|_]; [|done].
  rewrite (same_key modes m locked (ok_keys _ Hok)) by done.
  change (owned_by user (set_lock false None locked)) with (owned_by user locked).
  by rewrite (proj2 (owned_by_spec user locked) Hu).
Qed.

(** C7. The handler [activate_mode] of the router and the method
    [activate_mode] of the engine are the same operation on a well-formed
    table: when the engine returns a mode and a table the router returns
    them; when the engine raises the lock error the router raises it, with
    the same mode and deadline; and when the engine finds no such mode the
    router answers 404.  The router writes nothing when it fails. *)
Theorem activate_mode_refines user mode_id db now :
  table_ok (focus_modes db) →
  match FocusEngine.activate_mode user mode_id (focus_modes db) now with
  | (Ok mode, modes') =>
      Router.activate_mode user mode_id db now = (Ok mode, with_modes modes' db)
  | (Raise (ModeLocked n deadline), _) =>
      Router.activate_mode user mode_id db now = (Raise (ModeLocked n deadline), db)
  | (Raise _, _) =>
      Router.activate_mode user mode_id db now = (Raise Router.mode_not_found, db)
  end.
Proof.
  intros Hok. unfold FocusEngine.activate_mode, _get_locked_mode, Router.activate_mode.
  destruct (query_one _ _ (locked_at_most_one user _ Hok)) as (o & -> & Ho).
  destruct o as [locked|];
    [|by_switch (activate_unlocked_switch user mode_id db _ Hok eq_refl)].
  destruct (Ho locked) as [[Hin [Hu%owned_by_spec Hl]%andb_true_iff] _]; [done|].
  destruct (table_ok_row _ _ Hok Hin Hl) as [_ Hd].
  unfold Router.deadline_ahead.
  destruct (lock_until locked) as [d|] eqn:Hdl; [|done].
  destruct (now <? d); [simpl; by rewrite Hdl|].
  by_switch (activate_unlocked_switch user mode_id db _
               (table_ok_set_lock (id locked) false None _ Hok (λ H, ltac:(done)))
               (deactivate_all_unlock user _ locked Hok Hin Hu)).
Qed.

(** The handler [lock_session] and the method of the engine agree on a
    valid duration; the router refuses the others before it reads the
    table. *)
Lemma lock_session_refines user mode_id minutes db now :
  table_ok (focus_modes db) →
  if lock_valid minutes then
    match FocusEngine.lock_session user mode_id minutes (focus_modes db) now with
    | (Ok mode, modes') =>
        Router.lock_session user mode_id minutes db now = (Ok mode, with_modes modes' db)
    | (Raise _, _) =>
        ∃ status detail,
          Router.lock_session user mode_id minutes db now =
            (Raise (HTTPException status detail), db)
    end
  else Router.lock_session user mode_id minutes db now = (Raise ValidationError, db).
Proof.
  intros Hok. unfold Router.lock_session, validated, FocusEngine.lock_session,
    Router.owned_mode.
  destruct (lock_valid minutes); [|done]. rewrite find_mode_find by done.
  destruct (List.find _ _) as [mode|]; simpl; [|by eexists _, _].
  destruct (is_active mode); simpl; [done|by eexists _, _].
Qed.

(** ** Deleting a locked mode *)

Lemma activate_unlocked_found user db target :
  table_ok (focus_modes db) → In target (focus_modes db) → user_id target = user →
  Router.activate_unlocked user (id target) db =
    (Ok (set_active true (clear_session target)),
     with_modes (update_row (id target) (set_active true)
                   (deactivate_all user (focus_modes db))) db).
Proof.
  intros Hok Hin Hu.
  pose proof (activate_unlocked_switch user (id target) db _ Hok eq_refl) as Hs.
  by rewrite switch_mode_found in Hs.
Qed.

(** C33. The lock does not protect a mode from deletion: [delete_mode]
    deletes the locked mode of the user while its lock is running, and
    [activate_mode] of another mode of the user then succeeds before the
    deadline. *)
Theorem delete_mode_unlocks user db now locked deadline target :
  table_ok (focus_modes db) →
  In locked (focus_modes db) → user_id locked = user → is_locked locked = true →
  lock_until locked = Some deadline → now < deadline →
  In target (focus_modes db) → user_id target = user → id target ≠ id locked →
  ∃ db' db'',
    Router.delete_mode user (id locked) db = (Ok tt, db') ∧
    Router.activate_mode user (id target) db' now =
      (Ok (set_active true (clear_session target)), db'').
Proof.
  intros Hok Hin Hu Hl Hd Hlt Hint Hut Hne. unfold Router.delete_mode.
  rewrite owned_mode_found by done. eexists _, _. split; [done|].
  pose proof (table_ok_filter (λ m, negb (id m =? id locked)) _ Hok) as Hok'.
  unfold Router.activate_mode. simpl.
  destruct (query_one _ _ (locked_at_most_one user _ Hok')) as (o & -> & Ho).
  destruct o as [x|].
  - destruct (Ho x) as [[[Hx Hi%negb_true_iff]%filter_In
                           [Hux%owned_by_spec Hlx]%andb_true_iff] _]; [done|].
    rewrite (locked_unique _ x locked Hok) in Hi by (auto; congruence).
    by rewrite Z.eqb_refl in Hi.
  - apply (activate_unlocked_found user (delete_modes _ db)); [done| |done].
    apply filter_In. split; [done|]. by apply negb_true_iff, Z.eqb_neq.
Qed.

(** ** Seeding and resetting the presets *)

Lemma filter_none {A} (p : A → bool) (l : list A) :
  (∀ x, In x l → p x = false) → List.filter p l = [].
Proof.
  induction l as [|a l IH]; simpl; [done|]. intros H.
  rewrite (H a) by auto. auto.
Qed.

Lemma filter_all {A} (p : A → bool) (l : list A) :
  (∀ x, In x l → p x = true) → List.filter p l = l.
Proof.
  induction l as [|a l IH]; simpl; [done|]. intros H.
  rewrite (H a) by auto. f_equal. auto.
Qed.

Lemma filter_nil_inv {A} (p : A → bool) (l : list A) x :
  List.filter p l = [] → In x l → p x = false.
Proof.
  intros Hf Hx. destruct (p x) eqn:Hp; [|done].
  assert (In x (List.filter p l)) as Hin; [by apply filter_In|]. by rewrite Hf in Hin.
Qed.

Lemma modes_of_seed user fresh first :
  modes_of user (seed_presets user fresh first) = seed_presets user fresh first.
Proof.
  apply filter_all. intros m (k & e & _ & ->)%seed_presets_In.
  by apply owned_by_spec.
Qed.

Lemma modes_of_app user l1 l2 :
  modes_of user (l1 ++ l2)%list = (modes_of user l1 ++ modes_of user l2)%list.
Proof. apply List.filter_app. Qed.

(** A user without modes is given the nine presets by [list_modes],
    none of them active, so that [get_active_mode] answers 404 until a mode
    is activated; and listing again returns the same modes and creates
    nothing. *)
Theorem list_modes_seeds user fresh db :
  modes_of user (focus_modes db) = [] →
  ∃ db',
    Router.list_modes user fresh db = (Ok (seed_presets user fresh false), db') ∧
    Router.get_active_mode user db' = Raise (HTTPException 404 "No active focus mode") ∧
    ∀ fresh', Router.list_modes user fresh' db' = (Ok (seed_presets user fresh false), db').
Proof.
  intros Hnone. unfold Router.list_modes at 1. rewrite Hnone. simpl.
  assert (modes_of user (focus_modes db ++ seed_presets user fresh false)%list =
          seed_presets user fresh false) as Hseed.
  { by rewrite modes_of_app, Hnone, modes_of_seed. }
  eexists. split_and!.
  - by rewrite Hseed.
  - unfold Router.get_active_mode, get_active_mode. simpl.
    rewrite filter_none; [done|]. intros m [Hm|Hm]%in_app_iff.
    + by rewrite (filter_nil_inv _ _ m Hnone).
    + apply seed_presets_In in Hm as (k & e & _ & ->). apply andb_false_r.
  - intros fresh'. unfold Router.list_modes. simpl. by rewrite Hseed.
Qed.

(** [reset_modes] answers the nine presets with the first one active,
    leaves no lock of the user behind, and does not touch the modes of
    other users. *)
Lemma reset_modes_spec user fresh db :
  ∃ db',
    Router.reset_modes user fresh db = (Ok (seed_presets user fresh true), db') ∧
    (∀ m, In m (focus_modes db') → user_id m = user → is_locked m = false) ∧
    ∀ other, other ≠ user →
             modes_of other (focus_modes db') = modes_of other (focus_modes db).
Proof.
  unfold Router.reset_modes. cbn [focus_modes with_modes delete_modes snd].
  eexists. split_and!.
  - rewrite modes_of_app, modes_of_seed. unfold modes_of at 1.
    rewrite filter_none; [done|]. by intros m [_ ->%negb_true_iff]%filter_In.
  - intros m [[_ Hm%negb_true_iff]%filter_In|Hm]%in_app_iff Hu.
    + apply owned_by_spec in Hu. congruence.
    + by apply seed_presets_In in Hm as (k & e & _ & ->).
  - intros other Hne. cbn [focus_modes with_modes].
    rewrite modes_of_app. unfold modes_of.
    rewrite (filter_none _ (seed_presets _ _ _)), app_nil_r.
    + induction (focus_modes db) as [|a l IH]; simpl; [done|].
      destruct (owned_by user a) eqn:Hu, (owned_by other a) eqn:Ho; simpl;
        rewrite ?Ho, ?IH; try done.
      apply owned_by_spec in Hu, Ho. congruence.
    + intros m (k & e & _ & ->)%seed_presets_In. by apply Z.eqb_neq.
Qed.

(** An update never writes a session column, a key or a rule. *)
Lemma update_mode_session user mode_id mode_data db now :
  map session_of (focus_modes (snd (Router.update_mode user mode_id mode_data db now))) =
    map session_of (focus_modes db) ∧
  filter_rules (snd (Router.update_mode user mode_id mode_data db now)) = filter_rules db.
Proof.
  unfold Router.update_mode. repeat case_match; simpl; try done.
  split; [|done]. unfold update_row. rewrite map_map. apply map_ext.
  intros m. by destruct (id m =? _).
Qed.

(** ** The rules of a mode, by priority *)

Lemma insert_by_priority_perm r l : Permutation (insert_by_priority r l) (r :: l).
Proof.
  induction l as [|r' l IH]; simpl; [done|].
  destruct (fr_priority r' <=? fr_priority r); [done|].
  rewrite IH. apply perm_swap.
Qed.

Lemma insert_by_priority_sorted r l :
  StronglySorted by_priority_desc l →
  StronglySorted by_priority_desc (insert_by_priority r l).
Proof.
  induction 1 as [|r' l Hs IH Hall]; simpl; [by repeat constructor|].
  destruct (Z.leb_spec (fr_priority r') (fr_priority r)).
  - constructor; [by constructor|]. constructor; [done|].
    eapply Forall_impl; [done|]. unfold by_priority_desc. simpl. lia.
  - constructor; [done|]. rewrite insert_by_priority_perm.
    constructor; [|done]. unfold by_priority_desc. lia.
Qed.

Lemma order_by_priority_desc_spec rules :
  StronglySorted by_priority_desc (order_by_priority_desc rules) ∧
  Permutation (order_by_priority_desc rules) rules.
Proof.
  unfold order_by_priority_desc. induction rules as [|r l [IHs IHp]]; simpl.
  - split; constructor.
  - split; [by apply insert_by_priority_sorted|].
    by rewrite insert_by_priority_perm, IHp.
Qed.

(** [list_mode_rules] answers exactly the rules of the mode, the highest
    priority first; it answers 404 for a mode of another user. *)
Lemma list_mode_rules_sorted user db m :
  table_ok (focus_modes db) → In m (focus_modes db) → user_id m = user →
  ∃ rules,
    Router.list_mode_rules user (id m) db = Ok rules ∧
    StronglySorted by_priority_desc rules ∧
    Permutation rules (List.filter (λ r, fr_mode_id r =? id m) (filter_rules db)).
Proof.
  intros Hok Hin Hu. unfold Router.list_mode_rules.
  rewrite owned_mode_found by done. eexists. split; [done|].
  apply order_by_priority_desc_spec.
Qed.

(** ** The theorems at the sample database *)

Lemma sample_db_ok : db_ok sample_db.
Proof.
  split; [apply sample_modes_ok| |by repeat constructor].
  simpl. intros r [<-|[<-|[<-|[]]]]; simpl; tauto.
Qed.

Lemma fresh_from_1000_fresh : Router.fresh_for fresh_from_1000 sample_db.
Proof.
  split; [intros j k; unfold fresh_from_1000; lia|].
  intros k. unfold fresh_from_1000. simpl. lia.
Qed.

Lemma router_db_ok_witness :
  db_ok (Router.handle 1 nine_am (Router.ActivateMode 1001)
           (Router.handle 1 nine_am (Router.ResetModes fresh_from_1000) sample_db)).
Proof.
  apply (router_db_ok sample_db); [apply sample_db_ok|].
  eapply rtc_l.
  { apply (Router.step_request 1 nine_am (Router.ResetModes fresh_from_1000)),
      fresh_from_1000_fresh. }
  apply rtc_once. by apply (Router.step_request 1 nine_am (Router.ActivateMode 1001)).
Defined.

Lemma activate_mode_refines_witness :
  Router.activate_mode 1 11 sample_db nine_am =
    (Ok (set_active true (clear_session relax_row)),
     with_modes (snd (FocusEngine.activate_mode 1 11 sample_modes nine_am)) sample_db).
Proof. apply (activate_mode_refines 1 11 sample_db nine_am), sample_modes_ok. Defined.

Lemma delete_mode_unlocks_witness :
  ∃ db' db'',
    Router.delete_mode 1 (id locked_row) locked_db = (Ok tt, db') ∧
    Router.activate_mode 1 (id relax_row) db' (nine_am + timedelta_minutes 10) =
      (Ok (set_active true (clear_session relax_row)), db'').
Proof.
  apply (delete_mode_unlocks 1 locked_db _ locked_row (nine_am + timedelta_minutes 30));
    [apply locked_modes_ok|by left|done..|right; by left|done|done].
Defined.

Lemma list_modes_seeds_witness :
  ∃ db',
    Router.list_modes 3 fresh_from_1000 sample_db =
      (Ok (seed_presets 3 fresh_from_1000 false), db') ∧
    Router.get_active_mode 3 db' = Raise (HTTPException 404 "No active focus mode") ∧
    ∀ fresh', Router.list_modes 3 fresh' db' =
                (Ok (seed_presets 3 fresh_from_1000 false), db').
Proof. by apply list_modes_seeds. Defined.
