(* ===== verification/YouTube.v ===== *)
(** * YouTube: the formatting functions of services/youtube_service.py

    [_parse_duration], [_is_short] and [_format_video]: the functions that
    turn an item of the platform's answer into the dictionary the
    classifier and the filter read.  The answer itself comes from the HTTP
    client, which is not modelled: an item is an input.  The counts of the
    statistics are taken as numbers already, and the parser of ISO dates is
    a parameter ([None] when it raises). *)

From Stdlib Require Import ZArith String Ascii List Floats.
From stdpp Require Import base option list strings.
From S2P Require Import Prelude Models.

Set Warnings "-inexact-float".
Local Open Scope string_scope.
Local Open Scope Z_scope.

(** ** _parse_duration *)

(** [\d] on ASCII text. *)
Definition isdigit (c : ascii) : bool :=
  let n := N_of_ascii c in (48 <=? n)%N && (n <=? 57)%N.

Definition digit_value (c : ascii) : Z := Z.of_N (N_of_ascii c) - 48.

(** [int(s)] for a string of digits, after the digits read so far. *)
Fixpoint int_digits (s : string) (acc : Z) : Z :=
  match s with
  | EmptyString => acc
  | String c s' => int_digits s' (acc * 10 + digit_value c)
  end.

(** The longest prefix of digits and what follows it: the greedy [\d+]. *)
Fixpoint span_digits (s : string) : string * string :=
  match s with
  | EmptyString => (EmptyString, EmptyString)
  | String c s' =>
      if isdigit c then
        let (ds, rest) := span_digits s' in (String c ds, rest)
      else (EmptyString, s)
  end.

(** One optional group [(?:(\d+)X)?] at the head of [s]: the digits and the
    text after the letter, or no match and the text as it was. *)
Definition group (letter : ascii) (s : string) : option string * string :=
  match span_digits s with
  | (String d ds, String c rest) =>
      if Ascii.eqb c letter then (Some (String d ds), rest) else (None, s)
  | _ => (None, s)
  end.

(** [int(match.group(i) or 0)]. *)
Definition int_or_0 (g : option string) : Z :=
  match g with Some ds => int_digits ds 0 | None => 0 end.

(** [YouTubeService._parse_duration]: the seconds of [PT#H#M#S]; 0 when the
    text does not start with [PT]. *)
Definition _parse_duration (duration : string) : Z :=
  match duration with
  | String "P" (String "T" s) =>
      let (hours, s1) := group "H" s in
      let (minutes, s2) := group "M" s1 in
      let (seconds, _) := group "S" s2 in
      int_or_0 hours * 3600 + int_or_0 minutes * 60 + int_or_0 seconds
  | _ => 0
  end.

(** The text [PT#H#M#S] of a duration, a part left out when it is [None]. *)
Definition part (letter : string) (n : option N) : string :=
  match n with Some n => str_N n +:+ letter | None => EmptyString end.

Definition iso_duration (hours minutes seconds : option N) : string :=
  "PT" +:+ part "H" hours +:+ part "M" minutes +:+ part "S" seconds.

(** ** _is_short *)

(** [YouTubeService._is_short]. *)
Definition _is_short (duration_seconds : Z) (title : string) : bool :=
  if duration_seconds <=? 60 then true
  else if contains "#shorts" (lower title) || contains "#short" (lower title) then true
  else false.

(** ** _format_video *)

(** The keys of [snippet] that [_format_video] reads. *)
Record Snippet : Type := mkSnippet {
  sn_title : field string;
  sn_description : field string;
  sn_channelId : field string;
  sn_channelTitle : field string;
  sn_defaultLanguage : field string;
  sn_defaultAudioLanguage : field string;
  sn_tags : field (list string);
  sn_publishedAt : field string;
  sn_thumbnails : field (list (string * field (field string)));
}.

(** The value under ["id"]: a dictionary with a [videoId] (from a search), a
    string, [None], or nothing. *)
Inductive ItemId : Type :=
| IdOfSearch (videoId : field string)
| IdString (i : string)
| IdNone
| IdMissing.

(** [statistics] and [contentDetails] of the details of a video. *)
Record Details : Type := mkDetails {
  d_viewCount : field Z;
  d_likeCount : field Z;
  d_commentCount : field Z;
  d_duration : field string;
}.

(** The details [{}]. *)
Definition no_details : Details := mkDetails Missing Missing Missing Missing.

(** [thumbnails.get(size, {}).get("url")]: [None] without the size or the
    url; a size that holds [None] has no [get]. *)
Definition thumbnail (size : string)
    (thumbnails : list (string * field (field string))) : result (option string) :=
  match snd <$> List.find (λ e, String.eqb (fst e) size) thumbnails with
  | None | Some Missing => Ok None
  | Some Null => Raise AttributeError
  | Some (Val url) => Ok (get_none url)
  end.

(** [a or b] on optional strings: [a] when it is a non-empty string. *)
Definition or_else (a : option string) (b : result (option string)) :
    result (option string) :=
  match a with
  | Some (String c s) => Ok a
  | _ => b
  end.

(** The best thumbnail: the first size with a non-empty url. *)
Definition best_thumbnail (thumbnails : list (string * field (field string))) :
    result (option string) :=
  a ← thumbnail "maxres" thumbnails;
  or_else a (b ← thumbnail "high" thumbnails;
  or_else b (c ← thumbnail "medium" thumbnails;
  or_else c (thumbnail "default" thumbnails))).

(** [int(statistics.get(key, 0))]. *)
Definition count (f : field Z) : result Z := need TypeError (get f 0).

Section Format.

(** [datetime.fromisoformat(text.replace("Z", "+00:00"))], [None] when it
    raises. *)
Variable fromisoformat : string → option datetime.

(** [published_at]: parsed when the snippet holds a non-empty date. *)
Definition published (publishedAt : field string) : option datetime :=
  match get_none publishedAt with
  | Some (String c s) => fromisoformat (String c s)
  | _ => None
  end.

(** [video_id]. *)
Definition video_id_of (i : ItemId) : field string :=
  match i with
  | IdOfSearch videoId => of_option (get videoId EmptyString)
  | IdString s => Val s
  | IdNone => Null
  | IdMissing => Val EmptyString
  end.

(** [snippet.get("defaultLanguage") or snippet.get("defaultAudioLanguage")]. *)
Definition language_of (snippet : Snippet) : option string :=
  match get_none (sn_defaultLanguage snippet) with
  | Some (String c s) => Some (String c s)
  | _ => get_none (sn_defaultAudioLanguage snippet)
  end.

(** [YouTubeService._format_video]. *)
Definition _format_video (item_id : ItemId) (snippet : Snippet)
    (details : option Details) : result Video :=
  let details := default no_details details in
  duration ← need TypeError (get (d_duration details) "PT0S");
  let duration_seconds := _parse_duration duration in
  let title := get (sn_title snippet) EmptyString in
  thumbnails ← need AttributeError (get (sn_thumbnails snippet) []);
  thumbnail_url ← best_thumbnail thumbnails;
  let published_at := published (sn_publishedAt snippet) in
  is_short ←
    (if duration_seconds <=? 60 then Ok true
     else _is_short duration_seconds <$> need AttributeError title);
  view_count ← count (d_viewCount details);
  like_count ← count (d_likeCount details);
  _ ← count (d_commentCount details);
  Ok {| v_id := video_id_of item_id; v_title := of_option title;
        v_description := of_option (get (sn_description snippet) EmptyString);
        v_channel_id := of_option (get_none (sn_channelId snippet));
        v_channel_title := of_option (get_none (sn_channelTitle snippet));
        v_thumbnail_url := of_option thumbnail_url;
        v_duration_seconds := Val duration_seconds;
        v_is_short := Val is_short;
        v_language := of_option (language_of snippet);
        v_tags := of_option (get (sn_tags snippet) []);
        v_view_count := Val view_count; v_like_count := Val like_count;
        v_published_at := of_option published_at;
        v_transcript := Missing; v_category := Missing; v_depth_score := Missing;
        v_clickbait_score := Missing; v_entertainment_score := Missing |}.

End Format.

(** A string of digits. *)
Fixpoint all_digits (s : string) : bool :=
  match s with
  | EmptyString => true
  | String c s' => isdigit c && all_digits s'
  end.

(** ** Samples *)

(** A snippet with a title only. *)
Definition snippet_of (title : string) : Snippet :=
  mkSnippet (Val title) Missing Missing Missing Missing Missing Missing Missing Missing.

(** The details of a video of the given duration. *)
Definition details_of (duration : string) : Details :=
  mkDetails (Val 10) (Val 1) (Val 0) (Val duration).

(** * Theorems *)

(** ** Digits *)

Lemma int_digits_app (a b : string) (acc : Z) :
  int_digits (a +:+ b) acc = int_digits b (int_digits a acc).
Proof.
  revert acc. induction a as [|c a IH]; intros acc; [by rewrite str_app_nil_l|].
  rewrite str_app_cons. simpl. apply IH.
Qed.

Lemma span_digits_app (ds : string) (c : ascii) (rest : string) :
  all_digits ds = true → isdigit c = false →
  span_digits (ds +:+ String c rest) = (ds, String c rest).
Proof.
  intros Hds Hc. induction ds as [|d ds IH].
  - rewrite str_app_nil_l. simpl. by rewrite Hc.
  - rewrite str_app_cons. simpl in *. apply andb_true_iff in Hds as [-> Hds].
    by rewrite IH.
Qed.

Lemma span_digits_all (ds : string) :
  all_digits ds = true → span_digits ds = (ds, EmptyString).
Proof.
  induction ds as [|d ds IH]; simpl; [done|].
  intros [-> Hds]%andb_true_iff. by rewrite IH.
Qed.

Lemma digit_of_N (n : N) :
  (n < 10)%N →
  isdigit (ascii_of_N (48 + n)) = true ∧ digit_value (ascii_of_N (48 + n)) = Z.of_N n.
Proof.
  intros Hn. unfold isdigit, digit_value. rewrite N_ascii_embedding by lia.
  split; [|lia]. apply andb_true_iff. rewrite !N.leb_le. lia.
Qed.

Lemma all_digits_app (a b : string) :
  all_digits (a +:+ b) = all_digits a && all_digits b.
Proof.
  induction a as [|c a IH]; [by rewrite str_app_nil_l|].
  rewrite str_app_cons. simpl. by rewrite IH, andb_assoc.
Qed.

(** What the printing loop builds: digits in front of the accumulator,
    which read back as the number. *)
Lemma digits_fuel_spec (fuel : nat) (n : N) (acc : string) :
  (N.to_nat (N.log2 n) < fuel)%nat →
  ∃ ds, digits_fuel fuel n acc = ds +:+ acc ∧
        all_digits ds = true ∧ ds ≠ EmptyString ∧
        ∀ a, int_digits ds a = a * 10 ^ Z.of_nat (String.length ds) + Z.of_N n.
Proof.
  revert n acc. induction fuel as [|fuel IH]; intros n acc Hfuel; [lia|].
  pose proof (N.mod_upper_bound n 10 ltac:(lia)) as Hmod.
  destruct (digit_of_N (n mod 10) Hmod) as [Hd Hv].
  cbn [digits_fuel]. set (c := ascii_of_N (48 + n mod 10)) in *.
  destruct (N.ltb_spec n 10) as [Hlt|Hge].
  - exists (String c EmptyString). rewrite str_app_cons, str_app_nil_l.
    split_and!; [done|by cbn; rewrite Hd|done|].
    intros a. cbn. rewrite Hv, N.mod_small by done. lia.
  - destruct (IH (n / 10)%N (String c acc)) as (ds & -> & Hall & Hne & Hint).
    { assert (N.log2 (n / 10) < N.log2 n)%N; [|lia].
      apply (N.lt_le_trans _ (N.log2 (2 * (n / 10)))).
      - rewrite N.log2_double; [lia|]. apply N.div_str_pos. lia.
      - apply N.log2_le_mono. pose proof (N.Div0.mul_div_le n 10). lia. }
    exists (ds +:+ String c EmptyString). split_and!.
    + by rewrite string_app_assoc, str_app_cons, str_app_nil_l.
    + rewrite all_digits_app, Hall. cbn. by rewrite Hd.
    + destruct ds; [done|]. by rewrite str_app_cons.
    + intros a. rewrite int_digits_app, Hint. cbn [int_digits].
      rewrite Hv, str_app_length. cbn [String.length].
      rewrite Nat2Z.inj_add, Z.pow_add_r, N2Z.inj_mod, N2Z.inj_div by lia.
      pose proof (Z.div_mod (Z.of_N n) 10 ltac:(lia)).
      change (Z.of_N 10) with 10 in *. change (10 ^ Z.of_nat (0 + 1)) with 10. lia.
Qed.

Lemma str_N_spec (n : N) :
  all_digits (str_N n) = true ∧ str_N n ≠ EmptyString ∧
  int_digits (str_N n) 0 = Z.of_N n.
Proof.
  destruct (digits_fuel_spec (S (N.to_nat (N.log2 n))) n EmptyString)
    as (ds & Heq & Hall & Hne & Hint); [lia|].
  unfold str_N. rewrite Heq.
  rewrite str_app_nil_r.
  split_and!; [done..|]. rewrite Hint. lia.
Qed.

(** ** The groups of the pattern *)

Lemma group_hit (letter : ascii) (n : N) (rest : string) :
  isdigit letter = false →
  group letter (str_N n +:+ String letter rest) = (Some (str_N n), rest).
Proof.
  intros Hl. destruct (str_N_spec n) as (Hall & Hne & _). unfold group.
  rewrite span_digits_app by done. destruct (str_N n); [done|].
  by rewrite Ascii.eqb_refl.
Qed.

Lemma group_miss (letter other : ascii) (n : N) (rest : string) :
  isdigit other = false → other ≠ letter →
  group letter (str_N n +:+ String other rest) =
    (None, str_N n +:+ String other rest).
Proof.
  intros Hl Hne. destruct (str_N_spec n) as (Hall & Hnil & _). unfold group.
  rewrite span_digits_app by done. destruct (str_N n); [done|].
  by rewrite (proj2 (Ascii.eqb_neq _ _) Hne).
Qed.

Lemma part_app (letter : ascii) (n : N) (rest : string) :
  part (String letter EmptyString) (Some n) +:+ rest = str_N n +:+ String letter rest.
Proof. unfold part. by rewrite string_app_assoc, str_app_cons, str_app_nil_l. Qed.

(** C24. [_parse_duration] reads back what the platform prints: the text
    [PT#H#M#S] of hours, minutes and seconds, each part present or left
    out, parses to [3600 * hours + 60 * minutes + seconds]. *)
Theorem parse_duration_iso (hours minutes seconds : option N) :
  _parse_duration (iso_duration hours minutes seconds) =
    3600 * Z.of_N (default 0%N hours) + 60 * Z.of_N (default 0%N minutes)
    + Z.of_N (default 0%N seconds).
Proof.
  unfold iso_duration. rewrite !str_app_cons, str_app_nil_l. cbn [_parse_duration].
  destruct hours as [h|], minutes as [m|], seconds as [s|];
    rewrite ?part_app; cbn [part default];
    rewrite ?str_app_nil_l, ?group_hit, ?(group_miss "H" "M"), ?(group_miss "H" "S"),
      ?(group_miss "M" "S"), ?group_hit by done;
    cbn [group span_digits int_or_0];
    rewrite ?(proj2 (proj2 (str_N_spec _))); unfold Datatypes.id; lia.
Qed.

(** A text that does not start with [PT] parses to 0: so does a duration of
    a day or more, which the platform prints as [P#DT#H#M#S]. *)
Lemma parse_duration_days (rest : string) :
  _parse_duration ("P1DT" +:+ rest) = 0.
Proof. by rewrite !str_app_cons. Qed.

(** ** _is_short *)

(** The first of the two title tests of [_is_short] adds nothing: a video
    is a short when it lasts a minute or less or its title holds
    [#short]. *)
Lemma is_short_spec (duration_seconds : Z) (title : string) :
  _is_short duration_seconds title =
    (duration_seconds <=? 60) || contains "#short" (lower title).
Proof.
  unfold _is_short. destruct (duration_seconds <=? 60); [done|]. simpl.
  destruct (contains "#short" (lower title)) eqn:Hs; [by rewrite orb_true_r|].
  rewrite orb_false_r.
  destruct (contains "#shorts" (lower title)) eqn:Hss; [|done].
  rewrite (contains_trans "#short" "#shorts" (lower title)) in Hs; done.
Qed.

(** ** _format_video *)

Section FormatTheorems.
Variable fromisoformat : string → option datetime.

(** What a formatted video holds under the keys the classifier and the
    filter read. *)
Lemma format_video_inv item_id snippet details video :
  _format_video fromisoformat item_id snippet details = Ok video →
  ∃ duration,
    get (d_duration (default no_details details)) "PT0S" = Some duration ∧
    v_id video = video_id_of item_id ∧
    v_duration_seconds video = Val (_parse_duration duration) ∧
    v_title video = of_option (get (sn_title snippet) EmptyString) ∧
    v_description video = of_option (get (sn_description snippet) EmptyString) ∧
    v_channel_title video = of_option (get_none (sn_channelTitle snippet)) ∧
    v_tags video = of_option (get (sn_tags snippet) []) ∧
    v_language video = of_option (language_of snippet) ∧
    (∀ title, get (sn_title snippet) EmptyString = Some title →
              v_is_short video = Val (_is_short (_parse_duration duration) title)) ∧
    (_parse_duration duration ≤ 60 → v_is_short video = Val true).
Proof.
  unfold _format_video.
  intros (duration & Hd & H)%bind_Ok_inv. apply bind_Ok_inv in H as (th & _ & H).
  apply bind_Ok_inv in H as (url & _ & H). apply bind_Ok_inv in H as (short & Hs & H).
  apply bind_Ok_inv in H as (views & _ & H). apply bind_Ok_inv in H as (likes & _ & H).
  apply bind_Ok_inv in H as (comments & _ & [= <-]).
  exists duration. destruct (get (d_duration _) _) as [d'|]; simplify_eq/=.
  split_and!; try done.
  - intros title Ht. rewrite Ht in Hs.
    destruct (_parse_duration duration <=? 60) eqn:Hle.
    + simplify_eq. unfold _is_short. by rewrite Hle.
    + cbn in Hs. by simplify_eq.
  - intros Hle%Z.leb_le. rewrite Hle in Hs. by simplify_eq.
Qed.

(** The duration, the flag and the counts of a formatted video are values. *)
Lemma format_video_values item_id snippet details video :
  _format_video fromisoformat item_id snippet details = Ok video →
  ∃ duration short views likes,
    v_duration_seconds video = Val duration ∧ v_is_short video = Val short ∧
    v_view_count video = Val views ∧ v_like_count video = Val likes.
Proof.
  unfold _format_video.
  intros (duration & Hd & H)%bind_Ok_inv. apply bind_Ok_inv in H as (th & _ & H).
  apply bind_Ok_inv in H as (url & _ & H). apply bind_Ok_inv in H as (short & Hs & H).
  apply bind_Ok_inv in H as (views & _ & H). apply bind_Ok_inv in H as (likes & _ & H).
  apply bind_Ok_inv in H as (comments & _ & [= <-]). by eexists _, _, _, _.
Qed.

(** [_format_video] returns on an item whose duration, thumbnails and counts
    are not null and whose title is a string. *)
Lemma format_video_total item_id snippet details title :
  sn_title snippet = Val title → sn_thumbnails snippet = Missing →
  d_duration (default no_details details) ≠ Null →
  d_viewCount (default no_details details) ≠ Null →
  d_likeCount (default no_details details) ≠ Null →
  d_commentCount (default no_details details) ≠ Null →
  is_ok (_format_video fromisoformat item_id snippet details) = true.
Proof.
  intros Ht Hth Hd Hv Hl Hc. unfold _format_video, count. rewrite Ht, Hth.
  destruct (d_duration _), (d_viewCount _), (d_likeCount _), (d_commentCount _);
    try done; simpl; by destruct (_ <=? 60).
Qed.

End FormatTheorems.

Lemma parse_duration_samples :
  _parse_duration "PT1H2M3S" = 3723 ∧ _parse_duration "PT4M" = 240 ∧
  _parse_duration "PT45S" = 45 ∧ _parse_duration "PT" = 0 ∧
  _parse_duration "P1DT2H" = 0 ∧ _parse_duration "PT15" = 0 ∧
  _parse_duration "PT1H30S" = 3630 ∧ _parse_duration "1H" = 0.
Proof. by vm_compute. Qed.
