(* ===== verification/Platform.v ===== *)
(** * Platform: the requests of services/youtube_service.py

    [search_videos], [_get_videos_details], [get_recommended_videos],
    [get_channel_videos] and [get_video_details] over the two endpoints of
    the platform they call.  The HTTP client [_make_request] is the
    environment: an endpoint is a function from the parameters of a request
    to its answer, which is a page of items, the dictionary of an error
    (any status other than 200), or an exception of the transport.  An
    item whose identifier is [None] is left out of the dictionary of
    details: no lookup asks for it, since joining the identifiers raises
    first. *)

From Stdlib Require Import ZArith String Ascii List Floats.
From stdpp Require Import base option list strings gmap.
From S2P Require Import Prelude Models YouTube.

Set Warnings "-inexact-float".
Local Open Scope string_scope.
Local Open Scope Z_scope.
Local Open Scope list_scope.

(** ** Requests and answers *)

(** The parameters of a request, by the method that builds them. *)
Inductive Params : Type :=
| SearchParams (q : string) (maxResults : Z) (pageToken : option string)
| ChannelParams (channelId : string) (maxResults : Z) (pageToken : option string)
| VideosParams (ids : string)
| PopularParams (maxResults : Z) (pageToken : option string).

(** What [_make_request] returns: the JSON of a page, or
    [{"error": ..., "items": []}] with the message of the error. *)
Inductive Answer (I : Type) : Type :=
| AnswerError (message : option string)
| AnswerPage (items : list I) (nextPageToken : option string)
             (totalResults : option Z).
Arguments AnswerError {I} message.
Arguments AnswerPage {I} items nextPageToken totalResults.

(** [result.get("items", [])]. *)
Definition answer_items {I} (a : Answer I) : list I :=
  match a with AnswerError _ => [] | AnswerPage items _ _ => items end.

(** [result.get("nextPageToken")]. *)
Definition answer_token {I} (a : Answer I) : option string :=
  match a with AnswerError _ => None | AnswerPage _ token _ => token end.

(** [result.get("pageInfo", {}).get("totalResults")]. *)
Definition answer_total {I} (a : Answer I) : option Z :=
  match a with AnswerError _ => None | AnswerPage _ _ total => total end.

(** An item of the endpoint [search]. *)
Record SearchItem : Type := mkSearchItem {
  si_id : ItemId;
  si_snippet : Snippet;
}.

(** An item of the endpoint [videos]: its identifier, its snippet, and its
    statistics and content details. *)
Record VideoItem : Type := mkVideoItem {
  vi_id : field string;
  vi_snippet : Snippet;
  vi_details : Details;
}.

(** The dictionary a method returns: the videos of a page, or the
    dictionary of the error passed on. *)
Inductive Page : Type :=
| PageError (message : option string)
| PageOf (items : list Video) (next_page_token : option string)
         (total_results : option Z).

(** [if page_token: params["pageToken"] = page_token]. *)
Definition token_param (page_token : option string) : option string :=
  match page_token with
  | Some (String c s) => Some (String c s)
  | _ => None
  end.

(** [item["id"]["videoId"]]. *)
Definition search_video_id (i : ItemId) : result (option string) :=
  match i with
  | IdOfSearch videoId => getitem "videoId" videoId
  | IdString _ | IdNone => Raise TypeError
  | IdMissing => Raise (KeyError "id")
  end.

(** [",".join(ids)]: every identifier has to be a string. *)
Definition join_ids (ids : list (option string)) : result string :=
  join "," <$> need TypeError (mapM Datatypes.id ids).

(** [details[item["id"]] = item]. *)
Definition add_details (details : result (gmap string VideoItem)) (item : VideoItem) :
    result (gmap string VideoItem) :=
  details ← details;
  key ← getitem "id" (vi_id item);
  Ok (match key with Some k => <[k := item]> details | None => details end).

Section Platform.

(** The parser of dates and the two endpoints. *)
Variable fromisoformat : string → option datetime.
Variable search_endpoint : Params → result (Answer SearchItem).
Variable videos_endpoint : Params → result (Answer VideoItem).

(** ** _get_videos_details *)

Definition _get_videos_details (video_ids : list (option string)) :
    result (gmap string VideoItem) :=
  match video_ids with
  | [] => Ok ∅
  | _ =>
      ids ← join_ids video_ids;
      answer ← videos_endpoint (VideosParams ids);
      fold_left add_details (answer_items answer) (Ok ∅)
  end.

(** The videos of the items of a search, each formatted with its details:
    the loop of [search_videos] and of [get_channel_videos]. *)
Fixpoint format_search_items (details : gmap string VideoItem)
    (items : list SearchItem) : result (list Video) :=
  match items with
  | [] => Ok []
  | item :: rest =>
      video_id ← search_video_id (si_id item);
      let video_details := vi_details <$> (video_id ≫= (details !!.)) in
      video ← _format_video fromisoformat (si_id item) (si_snippet item) video_details;
      videos ← format_search_items details rest;
      Ok (video :: videos)
  end.

(** [[item["id"]["videoId"] for item in items]]. *)
Fixpoint search_ids (items : list SearchItem) : result (list (option string)) :=
  match items with
  | [] => Ok []
  | item :: rest =>
      video_id ← search_video_id (si_id item);
      ids ← search_ids rest;
      Ok (video_id :: ids)
  end.

(** ** search_videos *)

Definition search_videos (query : string) (max_results : Z)
    (page_token : option string) : result Page :=
  answer ← search_endpoint (SearchParams query max_results (token_param page_token));
  match answer with
  | AnswerError message => Ok (PageError message)
  | AnswerPage items next total =>
      video_ids ← search_ids items;
      details ← _get_videos_details video_ids;
      videos ← format_search_items details items;
      Ok (PageOf videos next total)
  end.

(** ** get_video_details *)

(** [get_video_details]: the first item of the answer, formatted under the
    identifier that was asked for. *)
Definition get_video_details (video_id : string) : result (option Video) :=
  answer ← videos_endpoint (VideosParams video_id);
  match answer_items answer with
  | [] => Ok None
  | item :: _ =>
      Some <$> _format_video fromisoformat (IdString video_id) (vi_snippet item)
                 (Some (vi_details item))
  end.

(** ** get_recommended_videos *)

(** The loop of [get_recommended_videos]: an item is formatted with itself
    as its details. *)
Fixpoint format_video_items (items : list VideoItem) : result (list Video) :=
  match items with
  | [] => Ok []
  | item :: rest =>
      video_id ← getitem "id" (vi_id item);
      video ← _format_video fromisoformat
                 (match video_id with Some i => IdString i | None => IdNone end)
                 (vi_snippet item) (Some (vi_details item));
      videos ← format_video_items rest;
      Ok (video :: videos)
  end.

Definition get_recommended_videos (max_results : Z) (page_token : option string) :
    result Page :=
  answer ← videos_endpoint (PopularParams max_results (token_param page_token));
  videos ← format_video_items (answer_items answer);
  Ok (PageOf videos (answer_token answer) (answer_total answer)).

(** ** get_channel_videos *)

Definition get_channel_videos (channel_id : string) (max_results : Z)
    (page_token : option string) : result Page :=
  answer ← search_endpoint (ChannelParams channel_id max_results (token_param page_token));
  video_ids ← search_ids (answer_items answer);
  details ← _get_videos_details video_ids;
  videos ← format_search_items details (answer_items answer);
  Ok (PageOf videos (answer_token answer) (answer_total answer)).

End Platform.

(** ** Samples *)

(** The item of a search for a video with a title. *)
Definition search_item (video_id title : string) : SearchItem :=
  mkSearchItem (IdOfSearch (Val video_id)) (snippet_of title).

(** The item of its details, with a duration. *)
Definition video_item (video_id title duration : string) : VideoItem :=
  mkVideoItem (Val video_id) (snippet_of title) (details_of duration).

(** A platform with two videos: a lesson of an hour and a clip of 45
    seconds; every search finds both. *)
Definition sample_search (p : Params) : result (Answer SearchItem) :=
  Ok (AnswerPage [search_item "e1" "Python Tutorial for Beginners";
                  search_item "s1" "Funny clip"] (Some "next") (Some 2)).

Definition sample_videos (p : Params) : result (Answer VideoItem) :=
  Ok (AnswerPage [video_item "e1" "Python Tutorial for Beginners" "PT1H";
                  video_item "s1" "Funny clip" "PT45S"] None (Some 2)).

(** The platform when the endpoint [videos] is out of quota. *)
Definition failing_videos (p : Params) : result (Answer VideoItem) :=
  Ok (AnswerError (Some "quotaExceeded")).

(** * Theorems *)

Section PlatformTheorems.
Variable fromisoformat : string → option datetime.
Variable search_endpoint : Params → result (Answer SearchItem).
Variable videos_endpoint : Params → result (Answer VideoItem).

Local Abbreviation format_search_items := (format_search_items fromisoformat).
Local Abbreviation search_videos :=
  (search_videos fromisoformat search_endpoint videos_endpoint).
Local Abbreviation get_recommended_videos :=
  (get_recommended_videos fromisoformat videos_endpoint).
Local Abbreviation _get_videos_details := (_get_videos_details videos_endpoint).

(** The loop formats every item, in order, under its identifier. *)
Lemma format_search_items_inv details items videos :
  format_search_items details items = Ok videos →
  Forall2 (λ item video,
    ∃ video_id, search_video_id (si_id item) = Ok video_id ∧
      _format_video fromisoformat (si_id item) (si_snippet item)
        (vi_details <$> (video_id ≫= (details !!.))) = Ok video) items videos.
Proof.
  revert videos. induction items as [|item rest IH]; intros videos; simpl.
  - intros [= <-]. constructor.
  - destruct (search_video_id (si_id item)) as [video_id|] eqn:Hid; [|done]. simpl.
    destruct (_format_video _ _ _ _) as [video|] eqn:Hv; [|done]. simpl.
    destruct (format_search_items details rest) as [tail|]; [|done].
    intros [= <-]. constructor; [by exists video_id|by apply IH].
Qed.

(** Without details, every video comes out with no duration, as a short. *)
Lemma format_search_items_no_details items videos :
  format_search_items ∅ items = Ok videos →
  Forall (λ video, v_duration_seconds video = Val 0 ∧ v_is_short video = Val true) videos.
Proof.
  intros H%format_search_items_inv. induction H as [|item video items videos Hv _ IH];
    constructor; [|done].
  destruct Hv as (video_id & _ & Hv).
  replace (vi_details <$> _) with (@None Details) in Hv
    by (by destruct video_id; simpl; rewrite ?lookup_empty).
  apply format_video_inv in Hv as (duration & [= <-] & _ & Hd & _ & _ & _ & _ & _ & _ & Hs).
  split; [done|]. by apply Hs.
Qed.

(** What a search returns: a page when the platform answered with one. *)
Lemma search_videos_inv query max_results page_token videos next total :
  search_videos query max_results page_token = Ok (PageOf videos next total) →
  ∃ items details,
    search_endpoint (SearchParams query max_results (token_param page_token)) =
      Ok (AnswerPage items next total) ∧
    format_search_items details items = Ok videos ∧
    length videos = length items.
Proof.
  unfold Platform.search_videos.
  destruct (search_endpoint _) as [[message|items next' total']|]; [done| |done]. simpl.
  destruct (search_ids items) as [ids|]; [|done]. simpl.
  destruct (Platform._get_videos_details _ ids) as [details|]; [|done]. simpl.
  destruct (format_search_items details items) as [vs|] eqn:Hf; [|done].
  intros [= <- <- <-]. exists items, details. split_and!; [done..|].
  apply format_search_items_inv in Hf. symmetry. by eapply Forall2_length.
Qed.

(** An error of the search is passed on as it is. *)
Lemma search_videos_error query max_results page_token message :
  search_endpoint (SearchParams query max_results (token_param page_token)) =
    Ok (AnswerError message) →
  search_videos query max_results page_token = Ok (PageError message).
Proof. intros H. unfold Platform.search_videos. by rewrite H. Qed.

(** No identifier, no request for details. *)
Lemma get_videos_details_nil : _get_videos_details [] = Ok ∅.
Proof. done. Qed.

(** An error of the request for details is read as no details at all. *)
Lemma get_videos_details_error ids joined message :
  ids ≠ [] → join_ids ids = Ok joined →
  videos_endpoint (VideosParams joined) = Ok (AnswerError message) →
  _get_videos_details ids = Ok ∅.
Proof.
  intros Hne Hj He. unfold Platform._get_videos_details. destruct ids; [done|].
  by rewrite Hj; simpl; rewrite He.
Qed.

(** When the endpoint of the details fails while the search succeeds,
    [search_videos] still returns its page, and every video of it has the
    duration 0 and is flagged as a short: the error of the second request
    is not looked at. *)
Theorem search_videos_details_error query max_results page_token items next total
    ids joined message :
  search_endpoint (SearchParams query max_results (token_param page_token)) =
    Ok (AnswerPage items next total) →
  search_ids items = Ok ids → ids ≠ [] → join_ids ids = Ok joined →
  videos_endpoint (VideosParams joined) = Ok (AnswerError message) →
  ∀ page, search_videos query max_results page_token = Ok page →
  ∃ videos, page = PageOf videos next total ∧ length videos = length items ∧
    Forall (λ video, v_duration_seconds video = Val 0 ∧ v_is_short video = Val true)
           videos.
Proof.
  intros Hs Hids Hne Hj He page. unfold Platform.search_videos.
  rewrite Hs. simpl. rewrite Hids. simpl.
  rewrite (get_videos_details_error ids joined message) by done. simpl.
  destruct (format_search_items ∅ items) as [videos|] eqn:Hf; [|done].
  intros [= <-]. exists videos. split_and!; [done| |].
  - apply format_search_items_inv in Hf. symmetry. by eapply Forall2_length.
  - by eapply format_search_items_no_details.
Qed.

(** [get_recommended_videos] hides an error of the platform: where
    [search_videos] passes the dictionary of the error on, it returns an
    empty page without an error. *)
Theorem get_recommended_videos_error max_results page_token message :
  videos_endpoint (PopularParams max_results (token_param page_token)) =
    Ok (AnswerError message) →
  get_recommended_videos max_results page_token = Ok (PageOf [] None None).
Proof. intros H. unfold Platform.get_recommended_videos. by rewrite H. Qed.

End PlatformTheorems.

(** ** The methods on the samples *)

(** The search of the sample platform: both videos, formatted. *)
Lemma sample_search_videos :
  match search_videos (λ _, None) sample_search sample_videos "python" 10 None with
  | Ok (PageOf videos next total) =>
      (λ v, (v_id v, v_duration_seconds v, v_is_short v)) <$> videos =
        [(Val "e1", Val 3600, Val false); (Val "s1", Val 45, Val true)] ∧
      next = Some "next" ∧ total = Some 2
  | _ => False
  end.
Proof. by vm_compute. Qed.

Lemma search_videos_details_error_witness :
  ∃ videos,
    search_videos (λ _, None) sample_search failing_videos "python" 10 None =
      Ok (PageOf videos (Some "next") (Some 2)) ∧
    length videos = 2%nat ∧
    Forall (λ video, v_duration_seconds video = Val 0 ∧ v_is_short video = Val true)
           videos.
Proof.
  destruct (search_videos_details_error (λ _, None) sample_search failing_videos
              "python" 10 None _ _ _ [Some "e1"; Some "s1"] "e1,s1"
              (Some "quotaExceeded") eq_refl eq_refl ltac:(done) eq_refl eq_refl
              _ eq_refl) as (videos & [= <-] & Hl & Hall).
  eexists. by split_and!.
Defined.

Lemma get_recommended_videos_error_witness :
  get_recommended_videos (λ _, None) failing_videos 40 None = Ok (PageOf [] None None).
Proof. by apply (get_recommended_videos_error _ _ 40 None (Some "quotaExceeded")). Defined.
