(* ===== verification/Pipeline.v ===== *)
(** * Pipeline: routers/filter.py

    The endpoint [check_filter]: the active mode of the user, the video
    fetched from the platform, its classification through the cache, and
    the verdict of the filter, in that order.  The video is what
    [get_video_details] of [Platform] returned, or the exception it raised.
    The cache is any implementation of [CacheGateway]; the
    endpoint returns its answer with the cache as committed, which the
    classification has written even when the filter then raises. *)

From Stdlib Require Import ZArith String Ascii List Floats.
From stdpp Require Import base option list strings gmap.
From S2P Require Import Prelude Models Presets FilterEngine Classifier Cache.
From S2P Require Import FocusEngine YouTube Platform.

Set Warnings "-inexact-float".
Local Open Scope string_scope.
Local Open Scope Z_scope.

(** [FilterCheckResponse]. *)
Record FilterCheckResponse : Type := mkFilterCheckResponse {
  resp_video_id : string;
  resp_is_allowed : bool;
  resp_block_reason : option string;
  resp_classification : option VideoClassification;
}.

Section CheckFilter.
Context {S : Type} `{CacheGateway S}.

(** [check_filter]. *)
Definition check_filter (user : uuid) (video_id : string)
    (fetched : result (option Video)) (modes : list FocusMode) (cache : S)
    (now : datetime) : result FilterCheckResponse * S :=
  match get_active_mode user modes with
  | Raise e => (Raise e, cache)
  | Ok None => (Raise (HTTPException 400 "No active focus mode"), cache)
  | Ok (Some active_mode) =>
      match fetched with
      | Raise e => (Raise e, cache)
      | Ok None => (Raise (HTTPException 404 "Video not found"), cache)
      | Ok (Some video) =>
          match classify_video AIFailed video cache now false false with
          | Raise e => (Raise e, cache)
          | Ok (classification, cache') =>
              match check_video active_mode video classification with
              | Raise e => (Raise e, cache')
              | Ok filter_result =>
                  (Ok {| resp_video_id := video_id;
                         resp_is_allowed := allowed filter_result;
                         resp_block_reason := reason filter_result;
                         resp_classification := Some classification |},
                   cache')
              end
          end
      end
  end.

End CheckFilter.

(** ** The scenarios *)

(** The parser of dates of the scenarios: no date is read. *)
Definition no_dates (text : string) : option datetime := None.

(** The item of the platform for a video with a title, a channel and tags. *)
Definition item_of (title channel : string) (tags : list string) (duration : string) :
    Snippet * Details :=
  (mkSnippet (Val title) (Val EmptyString) Missing (Val channel) Missing Missing
             (Val tags) Missing Missing,
   details_of duration).

(** One user with one active mode, seeded from a preset. *)
Definition only_mode (p : Preset) : list FocusMode := [preset_mode 1 1 true p].

(** The endpoint on an item of the platform, an empty cache and the preset
    [p] as the active mode. *)
Definition scenario (p : Preset) (video_id : string) (item : Snippet * Details) :
    result FilterCheckResponse :=
  let videos_endpoint (_ : Params) :=
    Ok (AnswerPage [mkVideoItem (Val video_id) item.1 item.2] None None) in
  fst (check_filter 1 video_id (get_video_details no_dates videos_endpoint video_id)
         (only_mode p) (∅ : gmap string ContentCache) nine_am).

(** * Theorems *)

Section CheckFilterTheorems.
Context {S : Type} `{CacheGateway S}.

(** What an answer of the endpoint is made of. *)
Lemma check_filter_inv user video_id fetched modes (cache cache' : S) now resp :
  check_filter user video_id fetched modes cache now = (Ok resp, cache') →
  ∃ mode video c r,
    get_active_mode user modes = Ok (Some mode) ∧ fetched = Ok (Some video) ∧
    classify_video AIFailed video cache now false false = Ok (c, cache') ∧
    check_video mode video c = Ok r ∧
    resp = mkFilterCheckResponse video_id (allowed r) (reason r) (Some c).
Proof.
  unfold check_filter.
  destruct (get_active_mode user modes) as [[mode|]|] eqn:Hm; [|done..].
  destruct fetched as [[video|]|]; [|done..].
  destruct (classify_video _ _ _ _ _ _) as [[c cache1]|] eqn:Hc; [|done].
  destruct (check_video mode video c) as [r|] eqn:Hr; [|done].
  intros [= <- <-]. by exists mode, video, c, r.
Qed.

(** A lookup that misses makes the call the forced one. *)
Lemma classify_video_miss outcome video (cache : S) now use_ai :
  gw_lookup (get_none (v_id video)) cache now = None →
  classify_video outcome video cache now false use_ai =
  classify_video outcome video cache now true use_ai.
Proof. intros Hl. unfold classify_video. by rewrite Hl. Qed.

(** C8. Asking twice gives the same answer: when [check_filter] has
    classified a video that was not in the cache and answered, the same
    request up to 24 hours later gets the identical answer, from the cache,
    and writes nothing. *)
Theorem check_filter_repeat user video_id video modes (cache cache' : S) now later
    resp :
  v_id video = Val video_id →
  gw_lookup (Some video_id) cache now = None →
  check_filter user video_id (Ok (Some video)) modes cache now = (Ok resp, cache') →
  later ≤ now + timedelta_hours 24 →
  check_filter user video_id (Ok (Some video)) modes cache' later = (Ok resp, cache').
Proof.
  intros Hid Hmiss (mode & v & c & r & Hm & [= <-] & Hc & Hr & ->)%check_filter_inv Hle.
  pose proof (classify_video_valid _ _ _ _ _ _ _ _ Hc) as Hv.
  rewrite classify_video_miss in Hc by (by rewrite Hid).
  apply classify_video_forced in Hc as [_ Hs].
  destruct (gw_lookup_store _ _ _ _ _ _ _ Hs Hid Hle) as (cached & Hl & <-).
  unfold check_filter. rewrite Hm, (classify_video_hit _ _ _ _ _ cached), Hr; [done| |done].
  by rewrite Hid.
Qed.

Section Fetch.
Variable fromisoformat : string → option datetime.
Variable videos_endpoint : Params → result (Answer VideoItem).

(** C32. A video whose item has no channel title cannot be checked: its
    formatted dictionary holds [None] under [channel_title], the
    classifier calls [lower] on it, and the endpoint raises
    [AttributeError] (a 500) without a verdict, leaving the cache as it
    was. *)
Theorem check_filter_channel_missing user video_id answer item items modes mode
    (cache : S) now title :
  get_active_mode user modes = Ok (Some mode) →
  videos_endpoint (VideosParams video_id) = Ok answer →
  answer_items answer = item :: items →
  sn_title (vi_snippet item) = Val title →
  sn_description (vi_snippet item) ≠ Null → sn_tags (vi_snippet item) ≠ Null →
  get_none (sn_channelTitle (vi_snippet item)) = None →
  is_ok (_format_video fromisoformat (IdString video_id) (vi_snippet item)
           (Some (vi_details item))) = true →
  gw_lookup (Some video_id) cache now = None →
  check_filter user video_id
    (get_video_details fromisoformat videos_endpoint video_id)
    modes cache now = (Raise AttributeError, cache).
Proof.
  intros Hm Ha Hi Ht Hd Hg Hc Hok Hmiss. unfold check_filter, get_video_details.
  rewrite Hm, Ha. cbn [mbind result_bind]. rewrite Hi.
  destruct (_format_video _ _ _ _) as [video|] eqn:Hf; [clear Hok|done].
  apply format_video_inv in Hf as (_ & _ & Hid & _ & Hvt & Hvd & Hvc & Hvg & _).
  cbn [fmap result_fmap]. rewrite classify_video_miss by (by rewrite Hid).
  unfold classify_video. rewrite fallback_channel_none; [done|..].
  - by rewrite Hvt, Ht.
  - rewrite Hvd. by destruct (sn_description (vi_snippet item)).
  - rewrite Hvg. by destruct (sn_tags (vi_snippet item)).
  - by rewrite Hvc, Hc.
Qed.

End Fetch.

End CheckFilterTheorems.

(** ** The scenarios *)


(** A tutorial of an hour under the deep-work preset is classified
    EDUCATION with clickbait 0.1 and admitted. *)
Lemma scenario_tutorial_in_deep_work :
  ∃ c, scenario preset_deep_work "b1"
         (item_of "Python Tutorial for Beginners" "Mosh" ["python"; "programming"] "PT1H") =
       Ok (mkFilterCheckResponse "b1" true None (Some c)) ∧
       category c = "EDUCATION" ∧ clickbait_score c = 0.1%float.
Proof. eexists. split; by vm_compute. Qed.

(** A clickbait video of 45 seconds under the relax preset: the
    platform's duration makes it a short, the classifier gives it clickbait
    0.7 and entertainment 0.8, and the filter refuses it on the shorts
    check, before any score is compared. *)
Theorem scenario_short_in_relax :
  ∃ c, scenario preset_relax "c1"
         (item_of "YOU WON'T BELIEVE THIS SHOCKING PRANK!!!" "Pranksters" [] "PT45S") =
       Ok (mkFilterCheckResponse "c1" false
             (Some "Shorts are blocked in this focus mode") (Some c)) ∧
       clickbait_score c = 0.7%float ∧ entertainment_score c = 0.8%float.
Proof. eexists. split; by vm_compute. Qed.

(** A video of exactly one minute is a short for the filter ([<= 60]) and
    not for the classifier ([< 60]): it is refused as a short while its
    scores are those of a long video. *)
Lemma scenario_one_minute :
  ∃ c, scenario preset_relax "c2" (item_of "A calm walk" "Walks" [] "PT1M") =
       Ok (mkFilterCheckResponse "c2" false
             (Some "Shorts are blocked in this focus mode") (Some c)) ∧
       entertainment_score c = 0.5%float ∧ depth_score c = 0.5%float.
Proof. eexists. split; by vm_compute. Qed.

(** ** The theorems at the sample cache *)

Lemma check_filter_repeat_witness :
  check_filter 1 "a1" (Ok (Some music_video)) (only_mode preset_study)
    (snd (check_filter 1 "a1" (Ok (Some music_video)) (only_mode preset_study)
            (∅ : gmap string ContentCache) nine_am))
    (nine_am + timedelta_hours 24) =
  check_filter 1 "a1" (Ok (Some music_video)) (only_mode preset_study)
    (∅ : gmap string ContentCache) nine_am.
Proof.
  apply (check_filter_repeat 1 "a1" music_video _ ∅ _ nine_am); [done..|lia].
Defined.

Lemma check_filter_channel_missing_witness :
  check_filter 1 "c3"
    (get_video_details no_dates
       (λ _, Ok (AnswerPage [video_item "c3" "A calm walk" "PT10M"] None None)) "c3")
    (only_mode preset_relax) (∅ : gmap string ContentCache) nine_am =
  (Raise AttributeError, ∅).
Proof.
  by apply (check_filter_channel_missing no_dates _ 1 "c3"
              (AnswerPage [video_item "c3" "A calm walk" "PT10M"] None None)
              (video_item "c3" "A calm walk" "PT10M") [] _
              (preset_mode 1 1 true preset_relax) _ _ "A calm walk").
Defined.
