(* ===== verification/Feed.v ===== *)
(** * Feed: routers/feed.py

    The three endpoints of the feed: [get_feed], [search_feed] and
    [get_video].  Each reads the active mode of the user, asks the platform
    ([Platform]) for videos, classifies every video through the cache
    ([Cache]) and keeps the ones the filter ([FilterEngine]) admits, up to
    the number asked for.  When the platform fails, [get_feed] serves the
    demonstration videos instead, which carry their category and pass four
    quick checks only.

    The loop of the endpoints is [collect], over the judgement of one
    video: [judge] for a video of the platform, [demo_judge] for a
    demonstration video.  An endpoint returns its answer and the cache as
    committed.  A request is served at one instant [now].  The two sources
    of demonstration videos, the shuffle, the reader of integers of Python
    and the text of an exception are parameters of the section. *)

From Stdlib Require Import ZArith String Ascii List Floats.
From stdpp Require Import base option list strings gmap.
From S2P Require Import Prelude Models Presets Schemas FilterEngine Classifier Cache.
From S2P Require Import FocusEngine YouTube Platform Pipeline.

Set Warnings "-inexact-float".
Local Open Scope string_scope.
Local Open Scope Z_scope.
Local Open Scope list_scope.
Local Open Scope py_scope.

(** ** The schemas of the answers *)

(** [FeedItem]. *)
Record FeedItem : Type := mkFeedItem {
  fi_video_id : string;
  fi_title : string;
  fi_channel_title : option string;
  fi_thumbnail_url : option string;
  fi_duration_seconds : Z;
  fi_is_short : bool;
  fi_view_count : Z;
  fi_published_at : option datetime;
  fi_category : string;
  fi_clickbait_score : float;
  fi_entertainment_score : float;
}.

(** [FeedResponse]. *)
Record FeedResponse : Type := mkFeedResponse {
  feed_items : list FeedItem;
  feed_next_page_token : option string;
  feed_total_results : option Z;
  feed_filtered_count : Z;
}.

(** [VideoResponse]. *)
Record VideoResponse : Type := mkVideoResponse {
  vr_video_id : string;
  vr_title : string;
  vr_description : option string;
  vr_channel_id : option string;
  vr_channel_title : option string;
  vr_thumbnail_url : option string;
  vr_duration_seconds : Z;
  vr_is_short : bool;
  vr_language : option string;
  vr_view_count : Z;
  vr_like_count : Z;
  vr_published_at : option datetime;
  vr_classification : VideoClassification;
  vr_is_allowed : bool;
  vr_block_reason : option string;
}.

(** The bounds of the queries: [max_results] from 1 to 50, the text of a
    search from 1 to 500 characters. *)
Definition max_results_valid (max_results : Z) : bool :=
  (1 <=? max_results) && (max_results <=? 50).

Definition search_valid (q : string * Z) : bool :=
  length_between 1 500 q.1 && max_results_valid q.2.

(** ** The items of the feed *)

(** [FeedItem(video_id=video["id"], title=video["title"], ...)]: the two
    subscripts raise on a missing key; a [None] where the schema wants a
    value is refused by the validation. *)
Definition feed_item (video : Video) (category : option string)
    (clickbait entertainment : option float) : result FeedItem :=
  video_id ← getitem "id" (v_id video);
  title ← getitem "title" (v_title video);
  need ValidationError
    (video_id ← video_id; title ← title;
     duration_seconds ← get (v_duration_seconds video) 0;
     is_short ← get (v_is_short video) false;
     view_count ← get (v_view_count video) 0;
     category ← category; clickbait ← clickbait; entertainment ← entertainment;
     Some {| fi_video_id := video_id; fi_title := title;
             fi_channel_title := get_none (v_channel_title video);
             fi_thumbnail_url := get_none (v_thumbnail_url video);
             fi_duration_seconds := duration_seconds; fi_is_short := is_short;
             fi_view_count := view_count;
             fi_published_at := get_none (v_published_at video);
             fi_category := category; fi_clickbait_score := clickbait;
             fi_entertainment_score := entertainment |}).

(** A video has the values the schema of an item wants. *)
Definition video_typed (video : Video) : bool :=
  bool_decide (is_Some (get_none (v_id video))) &&
  bool_decide (is_Some (get_none (v_title video))) &&
  bool_decide (is_Some (get (v_duration_seconds video) 0)) &&
  bool_decide (is_Some (get (v_is_short video) false)) &&
  bool_decide (is_Some (get (v_view_count video) 0)).

(** [VideoResponse(video_id=video["id"], ...)]. *)
Definition video_response (video : Video) (classification : VideoClassification)
    (is_allowed : bool) (block_reason : option string) : result VideoResponse :=
  video_id ← getitem "id" (v_id video);
  title ← getitem "title" (v_title video);
  need ValidationError
    (video_id ← video_id; title ← title;
     duration_seconds ← get (v_duration_seconds video) 0;
     is_short ← get (v_is_short video) false;
     view_count ← get (v_view_count video) 0;
     like_count ← get (v_like_count video) 0;
     Some {| vr_video_id := video_id; vr_title := title;
             vr_description := get_none (v_description video);
             vr_channel_id := get_none (v_channel_id video);
             vr_channel_title := get_none (v_channel_title video);
             vr_thumbnail_url := get_none (v_thumbnail_url video);
             vr_duration_seconds := duration_seconds; vr_is_short := is_short;
             vr_language := get_none (v_language video);
             vr_view_count := view_count; vr_like_count := like_count;
             vr_published_at := get_none (v_published_at video);
             vr_classification := classification;
             vr_is_allowed := is_allowed; vr_block_reason := block_reason |}).

(** ** The loop *)

Section Collect.
Context {St : Type}.

(** The judgement of one video: its item when it is admitted, [None] when
    it is filtered out, and the state it leaves. *)
Variable judgement : Video → St → result (option FeedItem) * St.
Variable max_results : Z.

(** The loop over the videos: an admitted video is appended and ends the
    loop when the feed is full; a refused video is counted. *)
Fixpoint collect (videos : list Video) (filtered_items : list FeedItem)
    (filtered_count : Z) (st : St) : result (list FeedItem * Z) * St :=
  match videos with
  | [] => (Ok (filtered_items, filtered_count), st)
  | video :: rest =>
      match judgement video st with
      | (Raise e, st') => (Raise e, st')
      | (Ok (Some item), st') =>
          let filtered_items := filtered_items ++ [item] in
          if max_results <=? Z.of_nat (length filtered_items)
          then (Ok (filtered_items, filtered_count), st')
          else collect rest filtered_items filtered_count st'
      | (Ok None, st') => collect rest filtered_items (filtered_count + 1) st'
      end
  end.

End Collect.

(** The feed the loop is meant to compute, for a judgement without state:
    the first [max_results] admitted videos. *)
Definition first_admitted (admission : Video → option FeedItem) (max_results : Z)
    (videos : list Video) : list FeedItem :=
  take (Z.to_nat max_results) (omap admission videos).

(** ** The judgements *)

Section Judge.
Context {S : Type} `{CacheGateway S}.

(** The body of the loop on the videos of the platform: the
    classification through the cache, then the filter. *)
Definition judge (mode : FocusMode) (now : datetime) (video : Video) (cache : S) :
    result (option FeedItem) * S :=
  match classify_video AIFailed video cache now false false with
  | Raise e => (Raise e, cache)
  | Ok (classification, cache') =>
      ((filter_result ← check_video mode video classification;
        if allowed filter_result
        then Some <$> feed_item video (Some (category classification))
                        (Some (clickbait_score classification))
                        (Some (entertainment_score classification))
        else Ok None),
       cache')
  end.

End Judge.

(** The four quick checks of the demonstration videos: the allowed
    categories, the blocked ones, the duration and the shorts. *)
Definition demo_refused (mode : FocusMode) (video : Video) : result bool :=
  let video_category := get (v_category video) "ENTERTAINMENT" in
  if nonempty (allowed_categories mode) &&
     negb (option_in video_category (allowed_categories mode)) then Ok true
  else if nonempty (blocked_categories mode) &&
          option_in video_category (blocked_categories mode) then Ok true
  else
    duration ← need TypeError (get (v_duration_seconds video) 0);
    if duration <? min_duration_seconds mode then Ok true
    else Ok (shorts_blocked mode video).

(** The body of the loop on the demonstration videos. *)
Definition demo_judge (mode : FocusMode) (video : Video) (st : unit) :
    result (option FeedItem) * unit :=
  ((refused ← demo_refused mode video;
    if refused : bool then Ok None
    else Some <$> feed_item video (get (v_category video) "ENTERTAINMENT")
                    (get (v_clickbait_score video) 0.1%float)
                    (get (v_entertainment_score video) 0.3%float)),
   st).

(** [page_num]: the token read as an integer, 0 when there is none or it
    is not one. *)
Definition page_number (int_of_str : string → option Z) (page_token : option string) : Z :=
  match token_param page_token with
  | Some token => default 0 (int_of_str token)
  | None => 0
  end.

(** ** The endpoints *)

Section Endpoints.
Context {S : Type} `{CacheGateway S}.

(** The platform. *)
Variable fromisoformat : string → option datetime.
Variable search_endpoint : Params → result (Answer SearchItem).
Variable videos_endpoint : Params → result (Answer VideoItem).

(** [get_demo_videos] and [generate_dynamic_videos] of the demonstration
    data, and [random.shuffle] after [random.seed]. *)
Variable get_demo_videos : list string → Z → list Video.
Variable generate_dynamic_videos : list string → Z → Z → list Video.
Variable shuffle : Z → list Video → list Video.

(** [int] on a string, and [str] on an exception. *)
Variable int_of_str : string → option Z.
Variable exn_text : exn → string.

Local Abbreviation search_videos :=
  (search_videos fromisoformat search_endpoint videos_endpoint) (only parsing).
Local Abbreviation get_recommended_videos :=
  (get_recommended_videos fromisoformat videos_endpoint) (only parsing).
Local Abbreviation get_video_details :=
  (get_video_details fromisoformat videos_endpoint) (only parsing).

(** The request of [get_feed] to the platform: the videos and the token of
    the next page, or [None] when the demonstration data is to be used. *)
Definition fetch_feed (active_mode : FocusMode) (max_results : Z)
    (page_token : option string) : option (list Video * option string) :=
  let videos :=
    if nonempty (allowed_categories active_mode)
    then search_videos (join " " (take 2 (allowed_categories active_mode)))
           (max_results * 2) page_token
    else get_recommended_videos (max_results * 2) page_token in
  match videos with
  | Ok (PageOf items next_page_token _) => Some (items, next_page_token)
  | Ok (PageError _) | Raise _ => None
  end.

(** The answer of a loop that has ended. *)
Definition feed_response (next_page_token : option string)
    (total_results : list FeedItem → Z → option Z)
    (r : result (list FeedItem * Z)) : result FeedResponse :=
  '(filtered_items, filtered_count) ← r;
  Ok {| feed_items := filtered_items; feed_next_page_token := next_page_token;
        feed_total_results := total_results filtered_items filtered_count;
        feed_filtered_count := filtered_count |}.

(** [len(filtered_items) + filtered_count]. *)
Definition seen (filtered_items : list FeedItem) (filtered_count : Z) : option Z :=
  Some (Z.of_nat (length filtered_items) + filtered_count).

(** The demonstration videos of a page: the fixed ones of the allowed
    categories and the generated ones, shuffled under a seed that changes
    with the page and every five minutes. *)
Definition demo_pool (active_mode : FocusMode) (max_results : Z)
    (page_token : option string) (now : datetime) : list Video :=
  let page_num := page_number int_of_str page_token in
  let seed := now `div` 300000000 + page_num * 1000 in
  let demo_videos := get_demo_videos (allowed_categories active_mode) (max_results * 3) in
  let dynamic_videos :=
    generate_dynamic_videos (allowed_categories active_mode) (max_results * 2) seed in
  shuffle (seed + page_num) (demo_videos ++ dynamic_videos).

(** The feed of demonstration videos. *)
Definition demo_feed (active_mode : FocusMode) (max_results : Z)
    (page_token : option string) (now : datetime) : result FeedResponse :=
  let page_num := page_number int_of_str page_token in
  let all_videos := demo_pool active_mode max_results page_token now in
  feed_response (Some (str_Z (page_num + 1))) seen
    (collect (demo_judge active_mode) max_results all_videos [] 0 ()).1.

(** [get_feed]. *)
Definition get_feed (max_results : Z) (page_token : option string) (user : uuid)
    (modes : list FocusMode) (cache : S) (now : datetime) : result FeedResponse * S :=
  match validated max_results_valid max_results with
  | Raise e => (Raise e, cache)
  | Ok _ =>
      match get_active_mode user modes with
      | Raise e => (Raise e, cache)
      | Ok None =>
          (Raise (HTTPException 400 "No active focus mode. Please activate a mode first."),
           cache)
      | Ok (Some active_mode) =>
          match fetch_feed active_mode max_results page_token with
          | None => (demo_feed active_mode max_results page_token now, cache)
          | Some (videos, next_page_token) =>
              let '(r, cache') :=
                collect (judge active_mode now) max_results videos [] 0 cache in
              (feed_response next_page_token seen r, cache')
          end
      end
  end.

(** [search_feed]. *)
Definition search_feed (query : string) (max_results : Z) (page_token : option string)
    (user : uuid) (modes : list FocusMode) (cache : S) (now : datetime) :
    result FeedResponse * S :=
  match validated search_valid (query, max_results) with
  | Raise e => (Raise e, cache)
  | Ok _ =>
      match get_active_mode user modes with
      | Raise e => (Raise e, cache)
      | Ok None =>
          (Raise (HTTPException 400 "No active focus mode. Please activate a mode first."),
           cache)
      | Ok (Some active_mode) =>
          match search_videos query (max_results * 2) page_token with
          | Ok (PageError message) =>
              (Raise (HTTPException 503
                        ("YouTube API error: " +:+ default "Unknown error" message)),
               cache)
          | Raise e =>
              (Raise (HTTPException 503 ("Failed to search videos: " +:+ exn_text e)),
               cache)
          | Ok (PageOf videos next_page_token total_results) =>
              let '(r, cache') :=
                collect (judge active_mode now) max_results videos [] 0 cache in
              (feed_response next_page_token (λ _ _, total_results) r, cache')
          end
      end
  end.

(** [get_video]. *)
Definition get_video (video_id : string) (user : uuid) (modes : list FocusMode)
    (cache : S) (now : datetime) : result VideoResponse * S :=
  match get_active_mode user modes with
  | Raise e => (Raise e, cache)
  | Ok active_mode =>
      match get_video_details video_id with
      | Raise e => (Raise e, cache)
      | Ok None => (Raise (HTTPException 404 "Video not found"), cache)
      | Ok (Some video) =>
          match classify_video AIFailed video cache now false false with
          | Raise e => (Raise e, cache)
          | Ok (classification, cache') =>
              ((filter_result ←
                  match active_mode with
                  | Some mode => check_video mode video classification
                  | None => Ok passed
                  end;
                video_response video classification (allowed filter_result)
                  (reason filter_result)),
               cache')
          end
      end
  end.

End Endpoints.

(** ** What the feed promises *)

(** A video is admitted with an item: the filter allows it under a
    classification of valid scores, and the item carries the badges of
    that classification. *)
Definition admitted (mode : FocusMode) (video : Video) (item : FeedItem) : Prop :=
  ∃ c r, scores_valid c = true ∧ check_video mode video c = Ok r ∧ allowed r = true ∧
    feed_item video (Some (category c)) (Some (clickbait_score c))
      (Some (entertainment_score c)) = Ok item.

(** The judgement of a demonstration video as a function: a video whose
    judgement raises is admitted nowhere. *)
Definition demo_admit (mode : FocusMode) (video : Video) : option FeedItem :=
  match (demo_judge mode video ()).1 with Ok o => o | Raise _ => None end.

(** The fields of a mode the quick checks read. *)
Definition quick_fields (mode : FocusMode) : list string * list string * Z * bool :=
  (allowed_categories mode, blocked_categories mode, min_duration_seconds mode,
   block_shorts mode).

(** ** Samples *)

(** The three videos of the sample platform: a lesson of an hour, a clip
    of 45 seconds and a music video of four minutes. *)
Definition feed_catalogue : list (string * (Snippet * Details)) :=
  [("e1", item_of "Python Tutorial for Beginners" "Mosh" ["python"; "programming"] "PT1H");
   ("s1", item_of "Funny clip" "Clips" [] "PT45S");
   ("m1", item_of "OFFICIAL MUSIC VIDEO - Song Name" "Label" [] "PT4M")].

(** A platform whose search finds the three videos, in that order. *)
Definition feed_search (p : Params) : result (Answer SearchItem) :=
  Ok (AnswerPage ((λ v, mkSearchItem (IdOfSearch (Val v.1)) v.2.1) <$> feed_catalogue)
        (Some "next") (Some 3)).

Definition feed_videos (p : Params) : result (Answer VideoItem) :=
  Ok (AnswerPage ((λ v, mkVideoItem (Val v.1) v.2.1 v.2.2) <$> feed_catalogue)
        None (Some 3)).

(** A demonstration video, as [get_demo_videos] labels it. *)
Definition demo_video (video_id title category : string) (duration : Z)
    (entertainment : float) : Video :=
  mkVideo (Val video_id) (Val title) Missing Missing (Val "Channel") (Val "thumb")
    (Val duration) (Val (duration <? 60)) Missing Missing (Val 1000) Missing
    Missing Missing (Val category) Missing (Val 0.1%float) (Val entertainment).

(** Sources of demonstration videos: three fixed videos and nothing
    generated, left in their order. *)
Definition sample_demo (categories : list string) (max_results : Z) : list Video :=
  [demo_video "edu_1" "Python Tutorial for Beginners - Full Course" "EDUCATION" 3600 0.3;
   demo_video "ent_19" "Satisfying Video Compilation" "ENTERTAINMENT" 600 0.6;
   demo_video "mus_1" "Lofi Beats" "MUSIC" 30 0.6].

Definition no_dynamic (categories : list string) (count seed : Z) : list Video := [].
Definition no_shuffle (seed : Z) (videos : list Video) : list Video := videos.

(** A reader of integers that knows the pages 1 and 2. *)
Definition small_int (s : string) : option Z :=
  if String.eqb s "1" then Some 1 else if String.eqb s "2" then Some 2 else None.

Definition no_text (e : exn) : string := "error".

(** A mode that allows everything up to an entertainment score of 0.5. *)
Definition calm_mode : FocusMode :=
  mkFocusMode 5 1 "Calm" None true false None [] [] 0 [] 1 0.5 true false None [].

(** The same mode with a ceiling of 0.1 and a blocked keyword. *)
Definition strict_mode : FocusMode :=
  mkFocusMode 5 1 "Calm" None true false None [] [] 0 [] 1 0.1 true false None
    ["compilation"].

(** The platform when the search is out of quota. *)
Definition failing_search (p : Params) : result (Answer SearchItem) :=
  Ok (AnswerError (Some "quotaExceeded")).

(** [get_feed] of user 1 on the sample platform, from an empty cache. *)
Definition sample_feed search videos (modes : list FocusMode) (max_results : Z) :
    result FeedResponse * gmap string ContentCache :=
  get_feed no_dates search videos sample_demo no_dynamic no_shuffle small_int
    max_results (Some "2") 1 modes ∅ nine_am.

(** * Theorems *)

(** ** The items *)

(** What an item is made of. *)
Lemma feed_item_inv video cat cb ent item :
  feed_item video cat cb ent = Ok item →
  v_id video = Val (fi_video_id item) ∧ v_title video = Val (fi_title item) ∧
  get (v_duration_seconds video) 0 = Some (fi_duration_seconds item) ∧
  get (v_is_short video) false = Some (fi_is_short item) ∧
  cat = Some (fi_category item) ∧ cb = Some (fi_clickbait_score item) ∧
  ent = Some (fi_entertainment_score item).
Proof.
  unfold feed_item. destruct (v_id video) as [| |i], (v_title video) as [| |t]; try done.
  simpl. destruct (get (v_duration_seconds video) 0), (get (v_is_short video) false),
    (get (v_view_count video) 0), cat, cb, ent; try done. by intros [= <-].
Qed.

(** An item is built exactly from the typed videos. *)
Lemma feed_item_typed video cat cb ent :
  is_ok (feed_item video (Some cat) (Some cb) (Some ent)) = video_typed video.
Proof.
  unfold feed_item, video_typed.
  destruct (v_id video) as [| |i], (v_title video) as [| |t]; try done.
  simpl. by destruct (get (v_duration_seconds video) 0), (get (v_is_short video) false),
    (get (v_view_count video) 0).
Qed.

(** ** The loop *)

Section CollectTheorems.
Context {St : Type}.
Variable judgement : Video → St → result (option FeedItem) * St.
Variable max_results : Z.

Local Abbreviation collect := (collect judgement max_results) (only parsing).
Local Abbreviation len l := (Z.of_nat (length l)) (only parsing).

(** The counts of a loop that has ended: the new items and the videos
    refused are no more than the videos of the page, and all of them
    unless the loop stopped on a full feed; a feed that was not full
    before is at most full after. *)
Lemma collect_inv videos acc n st items count st' :
  collect videos acc n st = (Ok (items, count), st') →
  ∃ new, items = acc ++ new ∧ n ≤ count ∧
    len new + (count - n) ≤ len videos ∧
    (len items < max_results → len new + (count - n) = len videos) ∧
    (len acc < max_results → len items ≤ max_results).
Proof.
  revert acc n st. induction videos as [|video rest IH]; intros acc n st; simpl.
  - intros [= <- <- <-]. exists []. rewrite app_nil_r. simpl. split; [done|lia].
  - destruct (judgement video st) as [[[item|]|e] st1]; [| |done].
    + destruct (Z.leb_spec max_results (len (acc ++ [item]))) as [Hfull|Hroom].
      * intros [= <- <- <-]. exists [item]. rewrite length_app in *. simpl in *.
        split; [done|lia].
      * intros (new & -> & ?)%IH. exists (item :: new). rewrite <- app_assoc.
        split; [done|]. rewrite !length_app in *. simpl in *. lia.
    + intros (new & -> & ?)%IH. exists new. split; [done|]. lia.
Qed.

(** The loop from an empty feed, asked for at least one video. *)
Lemma collect_bounds videos st items count st' :
  1 ≤ max_results →
  collect videos [] 0 st = (Ok (items, count), st') →
  len items ≤ max_results ∧ 0 ≤ count ∧ len items + count ≤ len videos ∧
  (len items < max_results → len items + count = len videos).
Proof. intros Hmax (new & -> & ?)%collect_inv. simpl in *. lia. Qed.

(** The new items are the judgements of videos of the page, in the order
    of the page. *)
Lemma collect_kept (Q : Video → FeedItem → Prop) videos acc n st items count st' :
  (∀ video st item st', judgement video st = (Ok (Some item), st') → Q video item) →
  collect videos acc n st = (Ok (items, count), st') →
  ∃ kept new, items = acc ++ new ∧ kept `sublist_of` videos ∧ Forall2 Q kept new.
Proof.
  intros HQ. revert acc n st. induction videos as [|video rest IH]; intros acc n st; simpl.
  - intros [= <- <- <-]. exists [], []. by rewrite app_nil_r.
  - destruct (judgement video st) as [[[item|]|e] st1] eqn:Hj; [| |done].
    + destruct (max_results <=? _).
      * intros [= <- <- <-]. exists [video], [item]. split_and!; [done| |].
        -- apply sublist_skip, sublist_nil_l.
        -- constructor; [by eapply HQ|constructor].
      * intros (kept & new & -> & Hsub & Hall)%IH. exists (video :: kept), (item :: new).
        rewrite <- app_assoc. split_and!; [done|by apply sublist_skip|].
        constructor; [by eapply HQ|done].
    + intros (kept & new & -> & Hsub & Hall)%IH. exists kept, new.
      split_and!; [done|by apply sublist_cons|done].
Qed.

(** What every judgement keeps of the state, the loop keeps, whether it
    ends or raises. *)
Lemma collect_state (I : St → Prop) videos acc n st r st' :
  (∀ video st r st', I st → judgement video st = (r, st') → I st') →
  I st → collect videos acc n st = (r, st') → I st'.
Proof.
  intros HI. revert acc n st. induction videos as [|video rest IH]; intros acc n st Hst; simpl.
  - by intros [= <- <-].
  - destruct (judgement video st) as [[[item|]|e] st1] eqn:Hj;
      pose proof (HI _ _ _ _ Hst Hj); [|by apply IH|by intros [= <- <-]].
    destruct (max_results <=? _); [by intros [= <- <-]|by apply IH].
Qed.

(** On judgements that neither raise nor touch the state, the loop
    computes the first admitted videos. *)
Lemma collect_first_admitted admission videos acc n st :
  Forall (λ video, ∀ st, judgement video st = (Ok (admission video), st)) videos →
  len acc < max_results →
  ∃ count, collect videos acc n st =
    (Ok (acc ++ take (Z.to_nat max_results - length acc) (omap admission videos), count), st).
Proof.
  revert acc n. induction videos as [|video rest IH]; intros acc n Hall Hroom; simpl.
  - exists n. by rewrite take_nil, app_nil_r.
  - apply Forall_cons in Hall as [-> Hall]. destruct (admission video) as [item|]; [|by apply IH].
    destruct (Z.leb_spec max_results (len (acc ++ [item]))) as [Hfull|Hroom'];
      rewrite length_app in *; simpl in *.
    + exists n. by replace (Z.to_nat max_results - length acc)%nat with 1%nat by lia.
    + destruct (IH (acc ++ [item]) n Hall) as [count ->]; [rewrite length_app; simpl; lia|].
      exists count. rewrite length_app, <- app_assoc. simpl.
      by replace (Z.to_nat max_results - length acc)%nat
        with (Datatypes.S (Z.to_nat max_results - (length acc + 1)))%nat by lia.
Qed.

End CollectTheorems.

(** The loop depends on the judgement through its values only. *)
Lemma collect_ext {St} (j1 j2 : Video → St → result (option FeedItem) * St)
    max_results videos acc n st :
  (∀ video st, j1 video st = j2 video st) →
  collect j1 max_results videos acc n st = collect j2 max_results videos acc n st.
Proof.
  intros Hj. revert acc n st. induction videos as [|video rest IH]; intros acc n st; [done|].
  simpl. rewrite Hj. destruct (j2 video st) as [[[item|]|e] st1]; [|done..].
  by destruct (max_results <=? _).
Qed.

(** ** The judgements *)

Section JudgeTheorems.
Context {S : Type} `{CacheGateway S}.

(** An item of [judge] is the item of an admitted video. *)
Lemma judge_admitted mode now video (cache cache' : S) item :
  judge mode now video cache = (Ok (Some item), cache') → admitted mode video item.
Proof.
  unfold judge.
  destruct (classify_video _ _ _ _ _ _) as [[c cache1]|] eqn:Hc; [|done].
  destruct (check_video mode video c) as [r|] eqn:Hr; [|done]. simpl.
  destruct (allowed r) eqn:Ha; [|done].
  destruct (feed_item _ _ _ _) as [item'|] eqn:Hi; [|done]. intros [= <- <-].
  exists c, r. split_and!; [|done..]. by eapply classify_video_valid.
Qed.

(** The state a judgement leaves is the cache the classification wrote. *)
Lemma judge_state mode now video (cache cache' : S) r :
  judge mode now video cache = (r, cache') →
  cache' = cache ∨ ∃ c, classify_video AIFailed video cache now false false = Ok (c, cache').
Proof.
  unfold judge. destruct (classify_video _ _ _ _ _ _) as [[c cache1]|] eqn:Hc.
  - intros [= <- <-]. right. by exists c.
  - intros [= <- <-]. by left.
Qed.

End JudgeTheorems.

(** The quick checks read four fields of the mode and nothing else. *)
Lemma demo_judge_quick_fields m1 m2 video st :
  quick_fields m1 = quick_fields m2 → demo_judge m1 video st = demo_judge m2 video st.
Proof.
  intros [= Ha Hb Hd Hs]. unfold demo_judge, demo_refused, shorts_blocked.
  by rewrite Ha, Hb, Hd, Hs.
Qed.

(** What the quick checks have established of an item of the
    demonstration feed. *)
Lemma demo_admit_inv mode video item :
  demo_admit mode video = Some item →
  (allowed_categories mode ≠ [] → In (fi_category item) (allowed_categories mode)) ∧
  ¬ In (fi_category item) (blocked_categories mode) ∧
  min_duration_seconds mode ≤ fi_duration_seconds item ∧
  (block_shorts mode = true → fi_is_short item = false).
Proof.
  unfold demo_admit, demo_judge, demo_refused, shorts_blocked. simpl.
  destruct (nonempty (allowed_categories mode) && _) eqn:Ha; [done|].
  destruct (nonempty (blocked_categories mode) && _) eqn:Hb; [done|].
  destruct (get (v_duration_seconds video) 0) as [d|] eqn:Hd; [|done]. simpl.
  destruct (Z.ltb_spec d (min_duration_seconds mode)); [done|].
  destruct (block_shorts mode && _) eqn:Hs; [done|]. simpl.
  destruct (feed_item _ _ _ _) as [item'|] eqn:Hi; [|done]. intros [= ->].
  apply feed_item_inv in Hi as (_ & _ & Hd' & Hs' & Hc & _). rewrite Hc in Ha, Hb.
  rewrite Hs' in Hs. simpl in *. split_and!.
  - intros Hne. apply in_list_In. destruct (allowed_categories mode); [done|].
    by destruct (in_list _ _).
  - intros Hin%in_list_In. rewrite Hin, andb_true_r in Hb. apply in_list_In in Hin.
    by destruct (blocked_categories mode).
  - congruence.
  - intros Hbs. rewrite Hbs in Hs. by destruct (fi_is_short item).
Qed.

(** ** The endpoints *)

Section EndpointTheorems.
Context {S : Type} `{CacheGateway S}.
Variable fromisoformat : string → option datetime.
Variable search_endpoint : Params → result (Answer SearchItem).
Variable videos_endpoint : Params → result (Answer VideoItem).
Variable get_demo_videos : list string → Z → list Video.
Variable generate_dynamic_videos : list string → Z → Z → list Video.
Variable shuffle : Z → list Video → list Video.
Variable int_of_str : string → option Z.
Variable exn_text : exn → string.

Local Abbreviation fetch_feed :=
  (fetch_feed fromisoformat search_endpoint videos_endpoint) (only parsing).
Local Abbreviation demo_pool :=
  (demo_pool get_demo_videos generate_dynamic_videos shuffle int_of_str) (only parsing).
Local Abbreviation demo_feed :=
  (demo_feed get_demo_videos generate_dynamic_videos shuffle int_of_str) (only parsing).
Local Abbreviation get_feed :=
  (get_feed fromisoformat search_endpoint videos_endpoint get_demo_videos
     generate_dynamic_videos shuffle int_of_str) (only parsing).
Local Abbreviation search_feed :=
  (search_feed fromisoformat search_endpoint videos_endpoint exn_text) (only parsing).
Local Abbreviation get_video :=
  (get_video fromisoformat videos_endpoint) (only parsing).
Local Abbreviation len l := (Z.of_nat (length l)) (only parsing).

(** The answer of a loop that ended on the items and the count it gives. *)
Lemma feed_response_inv next total r resp :
  feed_response next total r = Ok resp →
  ∃ items count, r = Ok (items, count) ∧ resp = mkFeedResponse items next (total items count) count.
Proof. destruct r as [[items count]|]; [|done]. intros [= <-]. by exists items, count. Qed.

(** The two ways [get_feed] answers: from the demonstration data, with
    the cache untouched, or from a page of the platform. *)
Lemma get_feed_inv max_results page_token user modes (cache cache' : S) now resp :
  get_feed max_results page_token user modes cache now = (Ok resp, cache') →
  max_results_valid max_results = true ∧
  ∃ mode, get_active_mode user modes = Ok (Some mode) ∧
    ((fetch_feed mode max_results page_token = None ∧ cache' = cache ∧
      demo_feed mode max_results page_token now = Ok resp) ∨
     (∃ videos next items count,
        fetch_feed mode max_results page_token = Some (videos, next) ∧
        collect (judge mode now) max_results videos [] 0 cache = (Ok (items, count), cache') ∧
        resp = mkFeedResponse items next (seen items count) count)).
Proof.
  unfold Feed.get_feed, validated.
  destruct (max_results_valid max_results); [|done].
  destruct (get_active_mode user modes) as [[mode|]|]; [|done..].
  destruct (Feed.fetch_feed _ _ _ mode max_results page_token) as [[videos next]|] eqn:Hf.
  - destruct (collect _ _ _ _ _ _) as [r cache1] eqn:Hc. intros [= Hr <-].
    apply feed_response_inv in Hr as (items & count & -> & ->).
    split; [done|]. exists mode. split; [done|]. right. by exists videos, next, items, count.
  - intros [= Hr <-]. split; [done|]. exists mode. split; [done|]. by left.
Qed.

(** The shape of an answer of the demonstration feed. *)
Lemma demo_feed_inv mode max_results page_token now resp :
  demo_feed mode max_results page_token now = Ok resp →
  ∃ items count,
    collect (demo_judge mode) max_results (demo_pool mode max_results page_token now)
      [] 0 () = (Ok (items, count), ()) ∧
    resp = mkFeedResponse items (Some (str_Z (page_number int_of_str page_token + 1)))
             (seen items count) count.
Proof.
  unfold Feed.demo_feed. intros (items & count & Hr & ->)%feed_response_inv.
  exists items, count. split; [|done].
  destruct (collect _ _ _ _ _ _) as [r []] eqn:Hc. simpl in Hr. by rewrite <- Hr.
Qed.

(** [max_results] as the query validates it. *)
Lemma max_results_valid_spec max_results :
  max_results_valid max_results = true ↔ 1 ≤ max_results ≤ 50.
Proof. unfold max_results_valid. lia. Qed.

(** The counts of a feed: [get_feed] never returns more items than
    were asked for, at most 50; the number of filtered videos is not
    negative, and the total is the items plus the filtered, on the path of
    the platform and on the path of the demonstration data alike. *)
Theorem get_feed_bounds max_results page_token user modes (cache cache' : S) now resp :
  get_feed max_results page_token user modes cache now = (Ok resp, cache') →
  len (feed_items resp) ≤ max_results ≤ 50 ∧ 0 ≤ feed_filtered_count resp ∧
  feed_total_results resp =
    Some (len (feed_items resp) + feed_filtered_count resp).
Proof.
  intros (Hmax%max_results_valid_spec & mode & _ & Hpath)%get_feed_inv.
  assert (∃ St (j : Video → St → _) videos st st',
            collect j max_results videos [] 0 st =
              (Ok (feed_items resp, feed_filtered_count resp), st') ∧
            feed_total_results resp =
              seen (feed_items resp) (feed_filtered_count resp))
    as (St & j & videos & st & st' & Hc & Ht).
  { destruct Hpath as [(_ & _ & (items & count & Hc & ->)%demo_feed_inv)|
                       (videos & next & items & count & _ & Hc & ->)]; by eexists _, _, _, _, _. }
  apply collect_bounds in Hc; [|lia]. rewrite Ht. unfold seen. split_and!; [lia..|done].
Qed.

(** C11. Only admitted videos reach the feed: on the path of the platform,
    the items of [get_feed] are the items of videos of the page that
    [check_video] allows under the active mode, each with a classification
    of valid scores, in the order of the page; and every video of the page
    is in the feed or counted as filtered, unless the feed is full. *)
Theorem get_feed_sound max_results page_token user modes (cache cache' : S) now resp
    mode videos next :
  get_active_mode user modes = Ok (Some mode) →
  fetch_feed mode max_results page_token = Some (videos, next) →
  get_feed max_results page_token user modes cache now = (Ok resp, cache') →
  (∃ kept, kept `sublist_of` videos ∧ Forall2 (admitted mode) kept (feed_items resp)) ∧
  (len (feed_items resp) < max_results →
   len (feed_items resp) + feed_filtered_count resp = len videos).
Proof.
  intros Hm Hf (Hmax%max_results_valid_spec & mode' & Hm' & Hpath)%get_feed_inv.
  assert (mode' = mode) as -> by congruence.
  destruct Hpath as [(Hf' & _)|(vs & nx & items & count & Hf' & Hc & ->)]; [congruence|].
  assert (vs = videos) as -> by congruence. simpl. split.
  - eapply (collect_kept _ _ (admitted mode)) in Hc as (kept & new & -> & Hsub & Hall);
      [by exists kept|]. intros video st item st'. apply judge_admitted.
  - apply collect_bounds in Hc; [tauto|lia].
Qed.

(** The request of [get_feed] under a mode with allowed categories is a
    search for the first two of them. *)
Lemma fetch_feed_search mode max_results page_token :
  allowed_categories mode ≠ [] →
  fetch_feed mode max_results page_token =
  match search_videos fromisoformat search_endpoint videos_endpoint
          (join " " (take 2 (allowed_categories mode))) (max_results * 2) page_token with
  | Ok (PageOf items next _) => Some (items, next)
  | _ => None
  end.
Proof. unfold Feed.fetch_feed. by destruct (allowed_categories mode). Qed.

(** The demonstration data stands in for a platform that fails: when
    the search of [get_feed] is answered with an error or raises, the
    answer is the feed of demonstration videos, no video is classified and
    the cache is left as it was. *)
Theorem get_feed_demo_fallback max_results page_token user modes (cache : S) now mode :
  max_results_valid max_results = true →
  get_active_mode user modes = Ok (Some mode) →
  allowed_categories mode ≠ [] →
  (∀ items next total,
     search_endpoint (SearchParams (join " " (take 2 (allowed_categories mode)))
                        (max_results * 2) (token_param page_token)) ≠
       Ok (AnswerPage items next total)) →
  get_feed max_results page_token user modes cache now =
    (demo_feed mode max_results page_token now, cache).
Proof.
  intros Hmax Hm Hne Hfail. unfold Feed.get_feed, validated.
  rewrite Hmax, Hm, fetch_feed_search by done. unfold search_videos.
  destruct (search_endpoint _) as [[message|items next total]|]; [done| |done].
  by destruct (Hfail items next total).
Qed.

(** Under a mode without allowed categories the failure of the
    platform is not seen: [get_recommended_videos] turns the error into an
    empty page, and [get_feed] answers with an empty feed instead of the
    demonstration data. *)
Theorem get_feed_recommended_error max_results page_token user modes (cache : S) now
    mode message :
  max_results_valid max_results = true →
  get_active_mode user modes = Ok (Some mode) →
  allowed_categories mode = [] →
  videos_endpoint (PopularParams (max_results * 2) (token_param page_token)) =
    Ok (AnswerError message) →
  get_feed max_results page_token user modes cache now =
    (Ok (mkFeedResponse [] None (Some 0) 0), cache).
Proof.
  intros Hmax Hm Hnil He. unfold Feed.get_feed, validated, Feed.fetch_feed.
  rewrite Hmax, Hm, Hnil. simpl. unfold get_recommended_videos. by rewrite He.
Qed.

(** Without an active mode the feed is refused before the platform is
    asked. *)
Lemma get_feed_no_mode max_results page_token user modes (cache : S) now :
  max_results_valid max_results = true →
  get_active_mode user modes = Ok None →
  get_feed max_results page_token user modes cache now =
    (Raise (HTTPException 400 "No active focus mode. Please activate a mode first."),
     cache).
Proof. intros Hmax Hm. unfold Feed.get_feed, validated. by rewrite Hmax, Hm. Qed.

(** The judgement of a demonstration video that does not raise is its
    admission. *)
Lemma demo_judge_admit mode video st :
  is_ok (demo_judge mode video ()).1 = true →
  demo_judge mode video st = (Ok (demo_admit mode video), st).
Proof.
  unfold demo_admit, demo_judge. simpl. by destruct (_ ≫= _).
Qed.

(** C21. The loop of the demonstration feed computes what it is meant to:
    when no judgement raises, its items are the first [max_results]
    admitted videos of the shuffled pool, and the token of the next page is
    the number of the page plus one. *)
Theorem demo_feed_first_admitted mode max_results page_token now :
  1 ≤ max_results →
  Forall (λ video, is_ok (demo_judge mode video ()).1 = true)
         (demo_pool mode max_results page_token now) →
  ∃ count,
    demo_feed mode max_results page_token now =
    Ok (mkFeedResponse
          (first_admitted (demo_admit mode) max_results
             (demo_pool mode max_results page_token now))
          (Some (str_Z (page_number int_of_str page_token + 1)))
          (Some (len (first_admitted (demo_admit mode) max_results
                        (demo_pool mode max_results page_token now)) + count))
          count).
Proof.
  intros Hmax Hok. unfold Feed.demo_feed.
  destruct (collect_first_admitted (demo_judge mode) max_results (demo_admit mode)
              (demo_pool mode max_results page_token now) [] 0 ()) as [count ->].
  - eapply Forall_impl; [done|]. intros video Hv st. by apply demo_judge_admit.
  - simpl. lia.
  - exists count. simpl. unfold first_admitted. by rewrite Nat.sub_0_r.
Qed.

(** What the quick checks guarantee of the demonstration feed: every
    item has a category of the allowed ones when there are any, none of a
    blocked category, the minimum duration of the mode, and is no short
    when shorts are blocked. *)
Theorem demo_feed_sound mode max_results page_token now resp :
  demo_feed mode max_results page_token now = Ok resp →
  Forall (λ item,
    (allowed_categories mode ≠ [] → In (fi_category item) (allowed_categories mode)) ∧
    ¬ In (fi_category item) (blocked_categories mode) ∧
    min_duration_seconds mode ≤ fi_duration_seconds item ∧
    (block_shorts mode = true → fi_is_short item = false)) (feed_items resp).
Proof.
  intros (items & count & Hc & ->)%demo_feed_inv. simpl.
  eapply (collect_kept _ _ (λ video item, demo_admit mode video = Some item))
    in Hc as (kept & new & -> & _ & Hall).
  - simpl. induction Hall; constructor; [by eapply demo_admit_inv|done].
  - intros video [] item [] Hj. unfold demo_admit. by rewrite Hj.
Qed.

(** The demonstration feed obeys four fields of the mode only: two
    modes with the same allowed and blocked categories, minimum duration
    and shorts flag get the same demonstration feed, whatever their
    blocked keywords, their languages and their ceilings on the clickbait
    and entertainment scores, which [check_video] enforces on the path of
    the platform. *)
Theorem demo_feed_quick_fields m1 m2 max_results page_token now :
  quick_fields m1 = quick_fields m2 →
  demo_feed m1 max_results page_token now = demo_feed m2 max_results page_token now.
Proof.
  intros Hq. unfold Feed.demo_feed, Feed.demo_pool.
  rewrite (collect_ext (demo_judge m1) (demo_judge m2))
    by (intros; by apply demo_judge_quick_fields).
  by injection Hq as -> _ _ _.
Qed.

(** The two ways [search_feed] answers a valid query under an active
    mode. *)
Lemma search_feed_inv query max_results page_token user modes (cache cache' : S) now resp :
  search_feed query max_results page_token user modes cache now = (Ok resp, cache') →
  1 ≤ max_results ≤ 50 ∧
  ∃ mode videos next total items count,
    get_active_mode user modes = Ok (Some mode) ∧
    search_videos fromisoformat search_endpoint videos_endpoint query (max_results * 2)
      page_token = Ok (PageOf videos next total) ∧
    collect (judge mode now) max_results videos [] 0 cache = (Ok (items, count), cache') ∧
    resp = mkFeedResponse items next total count.
Proof.
  unfold Feed.search_feed, validated, search_valid. simpl.
  destruct (length_between 1 500 query); [|done]. simpl.
  destruct (max_results_valid max_results) eqn:Hmax; [|done].
  destruct (get_active_mode user modes) as [[mode|]|]; [|done..].
  destruct (search_videos _ _ _ _ _ _) as [[message|videos next total]|]; [done| |done].
  destruct (collect _ _ _ _ _ _) as [r cache1] eqn:Hc. intros [= Hr <-].
  apply feed_response_inv in Hr as (items & count & -> & ->).
  split; [by apply max_results_valid_spec|]. by exists mode, videos, next, total, items, count.
Qed.

(** A search has no demonstration data to fall back on: when the
    platform answers the search with an error, [search_feed] raises 503
    with the message of the error, or with "Unknown error" when it has
    none; the cache is left as it was. *)
Theorem search_feed_unavailable query max_results page_token user modes (cache : S) now
    mode message :
  search_valid (query, max_results) = true →
  get_active_mode user modes = Ok (Some mode) →
  search_endpoint (SearchParams query (max_results * 2) (token_param page_token)) =
    Ok (AnswerError message) →
  search_feed query max_results page_token user modes cache now =
    (Raise (HTTPException 503 ("YouTube API error: " +:+ default "Unknown error" message)),
     cache).
Proof.
  intros Hv Hm He. unfold Feed.search_feed, validated. rewrite Hv, Hm.
  by rewrite (search_videos_error _ _ _ _ _ _ message).
Qed.

(** In a search too only admitted videos are returned, at most as many
    as were asked for; but the total of the answer is the total the
    platform reported, not the number of videos seen as in [get_feed]. *)
Theorem search_feed_sound query max_results page_token user modes (cache cache' : S) now
    resp :
  search_feed query max_results page_token user modes cache now = (Ok resp, cache') →
  ∃ mode videos next total kept,
    get_active_mode user modes = Ok (Some mode) ∧
    search_videos fromisoformat search_endpoint videos_endpoint query (max_results * 2)
      page_token = Ok (PageOf videos next total) ∧
    kept `sublist_of` videos ∧ Forall2 (admitted mode) kept (feed_items resp) ∧
    len (feed_items resp) ≤ max_results ∧
    feed_next_page_token resp = next ∧ feed_total_results resp = total.
Proof.
  intros (Hmax & mode & videos & next & total & items & count & Hm & Hs & Hc & ->)%search_feed_inv.
  pose proof Hc as Hb. apply collect_bounds in Hb as (Hlen & _); [|lia].
  eapply (collect_kept _ _ (admitted mode)) in Hc as (kept & new & -> & Hsub & Hall).
  - by exists mode, videos, next, total, kept.
  - intros video st item st'. apply judge_admitted.
Qed.

(** [get_video] and [check_filter] of the filter router give the same
    verdict: whenever [check_filter] answers for a video, [get_video]
    classifies it the same way, leaves the same cache, and builds its
    answer with the verdict, the reason and the classification of that
    answer. *)
Theorem get_video_agrees video_id user modes (cache cache' : S) now resp :
  check_filter user video_id (get_video_details fromisoformat videos_endpoint video_id)
    modes cache now = (Ok resp, cache') →
  ∃ video c,
    get_video_details fromisoformat videos_endpoint video_id = Ok (Some video) ∧
    resp_classification resp = Some c ∧
    get_video video_id user modes cache now =
      (video_response video c (resp_is_allowed resp) (resp_block_reason resp), cache').
Proof.
  intros (mode & video & c & r & Hm & Hv & Hc & Hr & ->)%check_filter_inv.
  exists video, c. split_and!; [done..|].
  unfold Feed.get_video. by rewrite Hm, Hv, Hc, Hr.
Qed.

(** Without an active mode the two endpoints part: [check_filter]
    refuses with 400, while [get_video] classifies the video, writes the
    cache, and reports the video as allowed, with no reason. *)
Theorem get_video_no_mode video_id user modes (cache cache' : S) now video c :
  get_active_mode user modes = Ok None →
  get_video_details fromisoformat videos_endpoint video_id = Ok (Some video) →
  classify_video AIFailed video cache now false false = Ok (c, cache') →
  get_video video_id user modes cache now = (video_response video c true None, cache') ∧
  check_filter user video_id (get_video_details fromisoformat videos_endpoint video_id)
    modes cache now = (Raise (HTTPException 400 "No active focus mode"), cache).
Proof.
  intros Hm Hv Hc. unfold Feed.get_video, check_filter. by rewrite Hm, Hv, Hc.
Qed.

(** C22. The videos of the platform have the type of the feed: a video that
    [_format_video] built satisfies the schema of an item exactly when its
    item has an identifier and its title is not null; then, and only then,
    [feed_item] builds its item, whatever the badges. *)
Theorem formatted_video_typed item_id snippet details video cat cb ent :
  _format_video fromisoformat item_id snippet details = Ok video →
  is_ok (feed_item video (Some cat) (Some cb) (Some ent)) =
    bool_decide (is_Some (get_none (video_id_of item_id))) &&
    bool_decide (is_Some (get (sn_title snippet) EmptyString)).
Proof.
  intros Hf. rewrite feed_item_typed. unfold video_typed.
  destruct (format_video_values _ _ _ _ _ Hf) as (d & s & v & l & -> & -> & -> & _).
  apply format_video_inv in Hf as (_ & _ & -> & _ & -> & _). rewrite !andb_true_r.
  f_equal. by destruct (sn_title snippet).
Qed.

End EndpointTheorems.

(** ** The cache under the feed *)

Section FeedCache.
Variable fromisoformat : string → option datetime.
Variable search_endpoint : Params → result (Answer SearchItem).
Variable videos_endpoint : Params → result (Answer VideoItem).
Variable get_demo_videos : list string → Z → list Video.
Variable generate_dynamic_videos : list string → Z → Z → list Video.
Variable shuffle : Z → list Video → list Video.
Variable int_of_str : string → option Z.
Variable exn_text : exn → string.

(** A judgement keeps the table of the cache well formed. *)
Lemma judge_cache_ok mode now video (db db' : gmap string ContentCache) r :
  cache_ok db → judge mode now video db = (r, db') → cache_ok db'.
Proof.
  intros Hok [->|[c Hc]]%judge_state; [done|]. by eapply classify_video_cache_ok.
Qed.

(** So does the loop, whether it ends or raises. *)
Lemma collect_cache_ok mode now max_results videos (db db' : gmap string ContentCache) r :
  cache_ok db → collect (judge mode now) max_results videos [] 0 db = (r, db') →
  cache_ok db'.
Proof.
  apply (collect_state _ _ cache_ok). intros video st r' st' Hok. by apply judge_cache_ok.
Qed.

(** The endpoints of the feed keep the table of the cache well formed,
    whether they answer or raise: after [get_feed], [search_feed] and
    [get_video] every row is under its own key with scores in [0, 1]. *)
Theorem feed_cache_ok query video_id max_results page_token user modes
    (db : gmap string ContentCache) now :
  cache_ok db →
  cache_ok (get_feed fromisoformat search_endpoint videos_endpoint get_demo_videos
              generate_dynamic_videos shuffle int_of_str max_results page_token user
              modes db now).2 ∧
  cache_ok (search_feed fromisoformat search_endpoint videos_endpoint exn_text query
              max_results page_token user modes db now).2 ∧
  cache_ok (get_video fromisoformat videos_endpoint video_id user modes db now).2.
Proof.
  intros Hok. unfold get_feed, search_feed, get_video. split_and!.
  - destruct (validated _ _); [|done].
    destruct (get_active_mode user modes) as [[mode|]|]; [|done..].
    destruct (fetch_feed _ _ _ _ _ _) as [[videos next]|]; [|done].
    destruct (collect _ _ _ _ _ _) as [r db'] eqn:Hc. by eapply collect_cache_ok.
  - destruct (validated _ _); [|done].
    destruct (get_active_mode user modes) as [[mode|]|]; [|done..].
    destruct (search_videos _ _ _ _ _ _) as [[message|videos next total]|]; [done| |done].
    destruct (collect _ _ _ _ _ _) as [r db'] eqn:Hc. by eapply collect_cache_ok.
  - destruct (get_active_mode user modes) as [mode|]; [|done].
    destruct (get_video_details _ _ _) as [[video|]|]; [|done..].
    destruct (classify_video _ _ _ _ _ _) as [[c db']|] eqn:Hc; [|done].
    by eapply classify_video_cache_ok.
Qed.

End FeedCache.

(** ** The endpoints on the samples *)

(** The feed of the sample platform under the relax preset, which has no
    allowed categories: the recommended videos, without the clip. *)
Lemma sample_feed_relax :
  ∃ resp cache,
    sample_feed feed_search feed_videos (only_mode preset_relax) 10 = (Ok resp, cache) ∧
    fi_video_id <$> feed_items resp = ["e1"; "m1"] ∧
    feed_next_page_token resp = None ∧ feed_total_results resp = Some 3 ∧
    feed_filtered_count resp = 1 ∧ (map_to_list cache).*1 ≡ₚ ["e1"; "s1"; "m1"].
Proof. eexists _, _. split_and!; try by vm_compute. vm_compute. solve_Permutation. Qed.

Lemma get_feed_bounds_witness :
  ∃ resp cache,
    sample_feed feed_search feed_videos (only_mode preset_relax) 1 = (Ok resp, cache) ∧
    Z.of_nat (length (feed_items resp)) ≤ 1 ≤ 50 ∧ 0 ≤ feed_filtered_count resp ∧
    feed_total_results resp =
      Some (Z.of_nat (length (feed_items resp)) + feed_filtered_count resp).
Proof.
  destruct (sample_feed feed_search feed_videos (only_mode preset_relax) 1)
    as [[resp|e] cache] eqn:Hg; [|by vm_compute in Hg].
  exists resp, cache. split; [done|].
  by apply (get_feed_bounds _ _ _ _ _ _ _ _ _ _ _ _ _ _ _ Hg).
Defined.

Lemma get_feed_sound_witness :
  ∃ resp cache videos,
    sample_feed feed_search feed_videos (only_mode preset_study) 10 = (Ok resp, cache) ∧
    length videos = 3%nat ∧
    (∃ kept, kept `sublist_of` videos ∧
       Forall2 (admitted (preset_mode 1 1 true preset_study)) kept (feed_items resp)) ∧
    (Z.of_nat (length (feed_items resp)) < 10 →
     Z.of_nat (length (feed_items resp)) + feed_filtered_count resp =
       Z.of_nat (length videos)).
Proof.
  destruct (sample_feed feed_search feed_videos (only_mode preset_study) 10)
    as [[resp|e] cache] eqn:Hg; [|by vm_compute in Hg].
  eexists resp, cache, _. split; [done|]. split; [|
    eapply (get_feed_sound no_dates feed_search feed_videos sample_demo no_dynamic
              no_shuffle small_int 10 (Some "2") 1 (only_mode preset_study) ∅ cache
              nine_am resp (preset_mode 1 1 true preset_study) _ (Some "next") eq_refl);
      [|exact Hg]; vm_compute; reflexivity].
  reflexivity.
Defined.

Lemma get_feed_demo_fallback_witness :
  sample_feed failing_search feed_videos (only_mode preset_study) 10 =
    (demo_feed sample_demo no_dynamic no_shuffle small_int
       (preset_mode 1 1 true preset_study) 10 (Some "2") nine_am, ∅).
Proof.
  by apply (get_feed_demo_fallback no_dates failing_search feed_videos sample_demo
              no_dynamic no_shuffle small_int 10 (Some "2") 1 _ ∅ nine_am
              (preset_mode 1 1 true preset_study)).
Defined.

Lemma get_feed_recommended_error_witness :
  sample_feed feed_search failing_videos [calm_mode] 10 =
    (Ok (mkFeedResponse [] None (Some 0) 0), ∅).
Proof.
  by apply (get_feed_recommended_error no_dates feed_search failing_videos sample_demo
              no_dynamic no_shuffle small_int 10 (Some "2") 1 _ ∅ nine_am calm_mode
              (Some "quotaExceeded")).
Defined.

Lemma demo_feed_first_admitted_witness :
  ∃ count,
    demo_feed sample_demo no_dynamic no_shuffle small_int
      (preset_mode 1 1 true preset_study) 10 (Some "2") nine_am =
    Ok (mkFeedResponse
          (first_admitted (demo_admit (preset_mode 1 1 true preset_study)) 10
             (sample_demo [] 0))
          (Some "3")
          (Some (Z.of_nat (length (first_admitted
                   (demo_admit (preset_mode 1 1 true preset_study)) 10
                   (sample_demo [] 0))) + count))
          count).
Proof.
  apply (demo_feed_first_admitted sample_demo no_dynamic no_shuffle small_int
           (preset_mode 1 1 true preset_study) 10 (Some "2") nine_am); [lia|].
  by repeat constructor.
Defined.

Lemma demo_feed_sound_witness :
  ∃ resp,
    demo_feed sample_demo no_dynamic no_shuffle small_int calm_mode 10 None nine_am =
      Ok resp ∧
    fi_video_id <$> feed_items resp = ["edu_1"; "ent_19"] ∧
    Forall (λ item,
      (allowed_categories calm_mode ≠ [] →
       In (fi_category item) (allowed_categories calm_mode)) ∧
      ¬ In (fi_category item) (blocked_categories calm_mode) ∧
      min_duration_seconds calm_mode ≤ fi_duration_seconds item ∧
      (block_shorts calm_mode = true → fi_is_short item = false)) (feed_items resp).
Proof.
  eexists. split; [by vm_compute|]. split; [by vm_compute|].
  by apply (demo_feed_sound sample_demo no_dynamic no_shuffle small_int calm_mode 10
              None nine_am).
Defined.

(** The ceiling of the strict mode does not reach the demonstration feed:
    the compilation, with an entertainment score of 0.6 against a ceiling
    of 0.1 and a blocked keyword in its title, is served. *)
Lemma demo_feed_quick_fields_witness :
  demo_feed sample_demo no_dynamic no_shuffle small_int calm_mode 10 None nine_am =
  demo_feed sample_demo no_dynamic no_shuffle small_int strict_mode 10 None nine_am.
Proof.
  by apply (demo_feed_quick_fields sample_demo no_dynamic no_shuffle small_int
              calm_mode strict_mode 10 None nine_am).
Defined.

Lemma demo_feed_over_ceiling :
  ∃ resp item,
    demo_feed sample_demo no_dynamic no_shuffle small_int strict_mode 10 None nine_am =
      Ok resp ∧
    item ∈ feed_items resp ∧ fi_title item = "Satisfying Video Compilation" ∧
    PrimFloat.ltb (max_entertainment_score strict_mode) (fi_entertainment_score item) = true ∧
    blocked_keywords strict_mode = ["compilation"].
Proof. eexists _, _. split_and!; [by vm_compute|apply list_elem_of_lookup_2 with 1%nat|..]; done. Qed.

Lemma search_feed_unavailable_witness :
  search_feed no_dates failing_search feed_videos no_text "python" 10 None 1
    (only_mode preset_study) (∅ : gmap string ContentCache) nine_am =
    (Raise (HTTPException 503 "YouTube API error: quotaExceeded"), ∅).
Proof.
  by apply (search_feed_unavailable no_dates failing_search feed_videos no_text "python"
              10 None 1 _ ∅ nine_am (preset_mode 1 1 true preset_study)
              (Some "quotaExceeded")).
Defined.

Lemma search_feed_sound_witness :
  ∃ resp cache,
    search_feed no_dates feed_search feed_videos no_text "python" 10 None 1
      (only_mode preset_study) (∅ : gmap string ContentCache) nine_am = (Ok resp, cache) ∧
    ∃ mode videos next total kept,
      get_active_mode 1 (only_mode preset_study) = Ok (Some mode) ∧
      search_videos no_dates feed_search feed_videos "python" (10 * 2) None =
        Ok (PageOf videos next total) ∧
      kept `sublist_of` videos ∧ Forall2 (admitted mode) kept (feed_items resp) ∧
      Z.of_nat (length (feed_items resp)) ≤ 10 ∧
      feed_next_page_token resp = next ∧ feed_total_results resp = total.
Proof.
  destruct (search_feed no_dates feed_search feed_videos no_text "python" 10 None 1
              (only_mode preset_study) (∅ : gmap string ContentCache) nine_am)
    as [[resp|e] cache] eqn:Hg; [|by vm_compute in Hg].
  exists resp, cache. split; [done|].
  exact (search_feed_sound no_dates feed_search feed_videos no_text "python" 10 None 1
           (only_mode preset_study) ∅ cache nine_am resp Hg).
Defined.

Lemma get_video_agrees_witness :
  ∃ video c,
    get_video_details no_dates feed_videos "e1" = Ok (Some video) ∧
    category c = "EDUCATION" ∧
    get_video no_dates feed_videos "e1" 1 (only_mode preset_study)
      (∅ : gmap string ContentCache) nine_am =
      (video_response video c true None,
       (check_filter 1 "e1" (get_video_details no_dates feed_videos "e1")
          (only_mode preset_study) (∅ : gmap string ContentCache) nine_am).2).
Proof.
  destruct (check_filter 1 "e1" (get_video_details no_dates feed_videos "e1")
              (only_mode preset_study) (∅ : gmap string ContentCache) nine_am)
    as [[resp|e] cache] eqn:Hc; [|by vm_compute in Hc].
  destruct (get_video_agrees no_dates feed_videos "e1" 1 (only_mode preset_study) ∅
              cache nine_am resp Hc) as (video & c & Hv & Hcl & Hg).
  exists video, c. split; [done|]. vm_compute in Hc. injection Hc as <- <-.
  injection Hcl as <-. by split.
Defined.

Lemma get_video_no_mode_witness :
  ∃ video c cache,
    (get_video no_dates feed_videos "s1" 1 [] (∅ : gmap string ContentCache) nine_am =
       (video_response video c true None, cache) ∧
     check_filter 1 "s1" (get_video_details no_dates feed_videos "s1") []
       (∅ : gmap string ContentCache) nine_am =
       (Raise (HTTPException 400 "No active focus mode"), ∅)) ∧
    v_id video = Val "s1" ∧ is_Some (cache !! "s1").
Proof.
  eexists _, _, _. split.
  - eapply (get_video_no_mode no_dates feed_videos "s1" 1 [] ∅ _ nine_am);
      [reflexivity|vm_compute; reflexivity..].
  - split; [reflexivity|]. vm_compute. by eexists.
Defined.

(** The lesson of the sample platform is typed; the same item without an
    identifier is formatted, but is no video of the feed. *)
Lemma formatted_video_typed_witness :
  let item := item_of "Python Tutorial for Beginners" "Mosh" ["python"] "PT1H" in
  ∃ video nameless,
    _format_video no_dates (IdString "e1") item.1 (Some item.2) = Ok video ∧
    _format_video no_dates IdNone item.1 (Some item.2) = Ok nameless ∧
    is_ok (feed_item video (Some "EDUCATION") (Some 0.1%float) (Some 0.2%float)) = true ∧
    is_ok (feed_item nameless (Some "EDUCATION") (Some 0.1%float) (Some 0.2%float)) = false.
Proof.
  intros item. eexists _, _.
  split; [vm_compute; reflexivity|]. split; [vm_compute; reflexivity|]. split.
  - rewrite (formatted_video_typed no_dates (IdString "e1") item.1 (Some item.2))
      by (vm_compute; reflexivity). reflexivity.
  - rewrite (formatted_video_typed no_dates IdNone item.1 (Some item.2))
      by (vm_compute; reflexivity). reflexivity.
Defined.

Lemma feed_cache_ok_witness :
  cache_ok (get_feed no_dates feed_search feed_videos sample_demo no_dynamic no_shuffle
              small_int 10 (Some "2") 1 (only_mode preset_study) ∅ nine_am).2 ∧
  cache_ok (search_feed no_dates feed_search feed_videos no_text "python" 10 (Some "2") 1
              (only_mode preset_study) ∅ nine_am).2 ∧
  cache_ok (get_video no_dates feed_videos "e1" 1 (only_mode preset_study) ∅ nine_am).2.
Proof.
  exact (feed_cache_ok no_dates feed_search feed_videos sample_demo no_dynamic no_shuffle
           small_int no_text "python" "e1" 10 (Some "2") 1 (only_mode preset_study) ∅
           nine_am cache_ok_empty).
Defined.
