(* ===== verification/Personalization.v ===== *)
(** * Personalization: services/personalization.py

    The service that learns the preferences of a user from the watch
    history and the feedback of the last 30 days, and re-orders a list of
    videos by them.  The tables are lists of rows in insertion order,
    joined with the cache of classifications on the identifier of the
    video.  A Python dictionary of counts is the association list of its
    items in the order the keys were first written, the order [items()]
    returns.  The order in which a Python [set] is listed depends on the
    hashes of its elements: it is a parameter, [list_of_set], known only to
    list every element once. *)

From Stdlib Require Import ZArith String Ascii List Floats Sorted Permutation.
From stdpp Require Import base option list strings gmap sorting.
From S2P Require Import Prelude Sorting Models.

Set Warnings "-inexact-float".
Local Open Scope string_scope.
Local Open Scope Z_scope.

(** ** Dictionaries of counts *)

Definition counts : Type := list (string * Z).

(** [d.get(key, default)]. *)
Definition dict_get (key : string) (d : counts) (default : Z) : Z :=
  match List.find (λ item, String.eqb item.1 key) d with
  | Some item => item.2
  | None => default
  end.

(** [d[key] = value]: the item of the key is replaced where it stands, a
    new key goes last. *)
Fixpoint dict_set (key : string) (value : Z) (d : counts) : counts :=
  match d with
  | [] => [(key, value)]
  | item :: rest =>
      if String.eqb item.1 key then (key, value) :: rest
      else item :: dict_set key value rest
  end.

(** [d[key] = d.get(key, 0) + 1]. *)
Definition bump (key : string) (d : counts) : counts :=
  dict_set key (dict_get key d 0 + 1) d.

(** A dictionary of counts the loops can have built: no key twice, every
    count positive. *)
Definition counts_ok (d : counts) : Prop :=
  List.NoDup d.*1 ∧ Forall (λ item, 0 < item.2) d.

(** ** The joins *)

(** The rows of the user in the window, each with the cache row of its
    video, if there is one (an outer join). *)
Definition joined_history (user : uuid) (since : datetime)
    (history : list WatchHistory) (cache : gmap string ContentCache) :
    list (WatchHistory * option ContentCache) :=
  (λ w, (w, cache !! wh_video_id w)) <$>
    List.filter (λ w, (wh_user_id w =? user) && (since <=? wh_watched_at w)) history.

Definition joined_feedback (user : uuid) (since : datetime)
    (feedback : list UserFeedback) (cache : gmap string ContentCache) :
    list (UserFeedback * option ContentCache) :=
  (λ f, (f, cache !! fb_video_id f)) <$>
    List.filter (λ f, (fb_user_id f =? user) && (since <=? fb_created_at f)) feedback.

(** The category a row counts for. *)
Definition row_category (row : WatchHistory * option ContentCache) : string :=
  from_option cc_category "UNKNOWN" row.2.

(** The number of rows of a category that a flag of the watch selects. *)
Definition count_rows (flag : WatchHistory → bool) (category : string)
    (rows : list (WatchHistory * option ContentCache)) : Z :=
  Z.of_nat (length (List.filter
    (λ row, flag row.1 && String.eqb (row_category row) category) rows)).

(** ** _analyze_watch_history *)

Record HistoryStats : Type := mkHistoryStats {
  completed_by_category : counts;
  skipped_by_category : counts;
  avg_preferred_duration : float;
  total_videos : Z;
}.

(** The state of the loop over the rows: the two dictionaries and the
    durations of the completed videos. *)
Definition watch_state : Type := counts * counts * list (option Z).

(** One turn of the loop. *)
Definition watch_step (st : watch_state) (row : WatchHistory * option ContentCache) :
    watch_state :=
  let '(completed, skipped, durations) := st in
  let (watch, content) := row in
  let category := from_option cc_category "UNKNOWN" content in
  let completed' := if wh_completed watch then bump category completed else completed in
  let durations' :=
    match content with
    | Some c => if wh_completed watch then (durations ++ [cc_duration_seconds c])%list
                else durations
    | None => durations
    end in
  let skipped' := if wh_was_skipped watch then bump category skipped else skipped in
  (completed', skipped', durations').

(** [sum(l)] on integers; a [None] among them cannot be added. *)
Fixpoint py_sum (l : list (option Z)) (acc : Z) : result Z :=
  match l with
  | [] => Ok acc
  | Some n :: rest => py_sum rest (acc + n)
  | None :: _ => Raise TypeError
  end.

(** [sum(l) / len(l) if l else 0]. *)
Definition average (l : list (option Z)) : result float :=
  match l with
  | [] => Ok 0%float
  | _ => total ← py_sum l 0; Ok (py_truediv total (Z.of_nat (length l)))
  end.

Definition days_back (now : datetime) (days : Z) : datetime := now - timedelta_days days.

Definition _analyze_watch_history (user : uuid) (history : list WatchHistory)
    (cache : gmap string ContentCache) (now : datetime) (days : Z) :
    result HistoryStats :=
  let rows := joined_history user (days_back now days) history cache in
  let '(completed, skipped, durations) := fold_left watch_step rows ([], [], []) in
  avg ← average durations;
  Ok {| completed_by_category := completed; skipped_by_category := skipped;
        avg_preferred_duration := avg; total_videos := Z.of_nat (length rows) |}.

(** ** _analyze_feedback *)

Record FeedbackStats : Type := mkFeedbackStats {
  liked_categories : list string;
  disliked_categories : list string;
  total_feedback : Z;
}.

(** A category that is a non-empty string. *)
Definition some_category (content : option ContentCache) : option string :=
  match cc_category <$> content with
  | Some (String c s) => Some (String c s)
  | _ => None
  end.

(** One turn of the loop over the feedback. *)
Definition feedback_step (st : list string * list string)
    (row : UserFeedback * option ContentCache) : list string * list string :=
  let (liked, disliked) := st in
  let (feedback, content) := row in
  match some_category content with
  | Some category =>
      if String.eqb (fb_feedback_type feedback) "like"
      then ((liked ++ [category])%list, disliked)
      else if in_list (fb_feedback_type feedback) ["dislike"; "not_interested"]
      then (liked, (disliked ++ [category])%list)
      else st
  | None => st
  end.

(** The rows hold a dislike of a video of the category. *)
Definition disliked_in (rows : list (UserFeedback * option ContentCache))
    (c : string) : Prop :=
  ∃ row, In row rows ∧
    in_list (fb_feedback_type row.1) ["dislike"; "not_interested"] = true ∧
    some_category row.2 = Some c.

(** ** Preferences and scores *)

Record Preferences : Type := mkPreferences {
  preferred_categories : list string;
  avoided_categories : list string;
  preferred_duration_range : Z * Z;
  skip_threshold : float;
}.

(** [[c[0] for c in sorted(d.items(), key=lambda x: x[1], reverse=True)[:3]]]. *)
Definition top3 (d : counts) : list string :=
  fst <$> take 3 (py_sorted Z.ltb snd true d).

(** [if cat not in avoided: avoided.append(cat)]. *)
Definition append_new (avoided : list string) (cat : string) : list string :=
  if in_list cat avoided then avoided else (avoided ++ [cat])%list.

(** The classification with the annotations [adjust_scores] adds. *)
Record Adjusted : Type := mkAdjusted {
  adj_classification : VideoClassification;
  preference_boost : option float;
  preference_penalty : option float;
}.

(** The score of one video: the body of the loop. *)
Definition personalization_score (preferences : Preferences) (video : Video) :
    result float :=
  let score := 1.0%float in
  let category := get (v_category video) EmptyString in
  let score := if option_in category (preferred_categories preferences)
               then (score + 0.5)%float else score in
  let score := if option_in category (avoided_categories preferences)
               then (score - 0.5)%float else score in
  depth ← need TypeError (get (v_depth_score video) 0.5%float);
  let score := (score + depth * 0.3)%float in
  clickbait ← need TypeError (get (v_clickbait_score video) 0%float);
  Ok (score - clickbait * 0.4)%float.

(** The loop: the videos with their scores, in the order of the input. *)
Fixpoint scored_videos (preferences : Preferences) (videos : list Video) :
    result (list (Video * float)) :=
  match videos with
  | [] => Ok []
  | video :: rest =>
      score ← personalization_score preferences video;
      scored ← scored_videos preferences rest;
      Ok ((video, score) :: scored)
  end.

(** [sorted(scored, key=lambda x: x["personalization_score"], reverse=True)]. *)
Definition rank_videos (scored : list (Video * float)) : list (Video * float) :=
  py_sorted PrimFloat.ltb snd true scored.

(** The videos of one score. *)
Definition scored_as (s : float) (p : Video * float) : bool :=
  PrimFloat.Leibniz.eqb p.2 s.

(** ** The service *)

Section Service.

(** [list(set(l))]. *)
Variable list_of_set : list string → list string.

Definition _analyze_feedback (user : uuid) (feedback : list UserFeedback)
    (cache : gmap string ContentCache) (now : datetime) (days : Z) : FeedbackStats :=
  let rows := joined_feedback user (days_back now days) feedback cache in
  let (liked, disliked) := fold_left feedback_step rows ([], []) in
  {| liked_categories := list_of_set liked;
     disliked_categories := list_of_set disliked;
     total_feedback := Z.of_nat (length rows) |}.

Definition get_user_preferences (user : uuid) (history : list WatchHistory)
    (feedback : list UserFeedback) (cache : gmap string ContentCache)
    (now : datetime) : result Preferences :=
  history_stats ← _analyze_watch_history user history cache now 30;
  let feedback_stats := _analyze_feedback user feedback cache now 30 in
  let preferred :=
    match completed_by_category history_stats with
    | [] => []
    | d => top3 d
    end in
  let avoided :=
    match skipped_by_category history_stats with
    | [] => []
    | d => top3 d
    end in
  Ok {| preferred_categories := preferred;
        avoided_categories :=
          fold_left append_new (disliked_categories feedback_stats) avoided;
        preferred_duration_range := (0, 3600);
        skip_threshold := 0.3 |}.

Definition adjust_scores (user : uuid) (history : list WatchHistory)
    (feedback : list UserFeedback) (cache : gmap string ContentCache)
    (now : datetime) (classification : VideoClassification) : result Adjusted :=
  preferences ← get_user_preferences user history feedback cache now;
  Ok {| adj_classification := classification;
        preference_boost :=
          if in_list (category classification) (preferred_categories preferences)
          then Some 0.2%float else None;
        preference_penalty :=
          if in_list (category classification) (avoided_categories preferences)
          then Some 0.3%float else None |}.

Definition get_personalized_ranking (user : uuid) (history : list WatchHistory)
    (feedback : list UserFeedback) (cache : gmap string ContentCache)
    (now : datetime) (videos : list Video) : result (list (Video * float)) :=
  preferences ← get_user_preferences user history feedback cache now;
  scored ← scored_videos preferences videos;
  Ok (rank_videos scored).

End Service.

(** ** Samples *)

(** [list(set(l))] listing the elements in the order they first occur. *)
Definition in_first_order : list string → list string := remove_dups.

Definition sample_now : datetime := timedelta_days 19000 + timedelta_hours 9.

(** A cache row of a video of ten minutes. *)
Definition cached_as (video_id cat : string) : ContentCache :=
  {| cc_video_id := video_id; cc_title := video_id; cc_description := None;
     cc_channel_id := None; cc_channel_title := None; cc_tags := None;
     cc_thumbnail_url := None; cc_category := cat; cc_confidence_score := 0.7;
     cc_entertainment_score := 0.5; cc_depth_score := 0.5;
     cc_clickbait_score := 0.1; cc_is_short := Some false;
     cc_duration_seconds := Some 600; cc_language := None; cc_view_count := None;
     cc_like_count := None; cc_published_at := None;
     cc_analyzed_at := sample_now; cc_expires_at := default_expiry sample_now |}.

Definition sample_cache : gmap string ContentCache :=
  list_to_map [("e1", cached_as "e1" "EDUCATION"); ("m1", cached_as "m1" "MUSIC");
               ("g1", cached_as "g1" "GAMING"); ("c1", cached_as "c1" "COMEDY");
               ("t1", cached_as "t1" "SCIENCE_TECH")].

(** A watch of user 1, so many days ago. *)
Definition watch (video_id : string) (completed skipped : bool) (days_ago : Z) :
    WatchHistory :=
  {| wh_id := days_ago; wh_user_id := 1; wh_video_id := video_id;
     wh_watch_duration_seconds := 300; wh_video_duration_seconds := 600;
     wh_watch_percentage := 50; wh_was_skipped := skipped;
     wh_skip_position_percent := None; wh_completed := completed;
     wh_mode_id := None; wh_watched_at := sample_now - timedelta_days days_ago |}.

(** Three lessons, two songs, a science video and a comedy completed, a game
    skipped twice and a comedy once; a song completed long ago. *)
Definition sample_watches : list WatchHistory :=
  [watch "m1" true false 1; watch "e1" true false 2; watch "g1" false true 3;
   watch "e1" true false 4; watch "c1" true false 5; watch "m1" true false 6;
   watch "t1" true false 7; watch "e1" true false 8; watch "g1" false true 9;
   watch "c1" false true 10; watch "m1" true false 45].

Definition feedback_on (video_id kind : string) (days_ago : Z) : UserFeedback :=
  {| fb_id := days_ago; fb_user_id := 1; fb_video_id := video_id;
     fb_feedback_type := kind; fb_reason := None; fb_suggested_category := None;
     fb_created_at := sample_now - timedelta_days days_ago |}.

Definition sample_feedback : list UserFeedback :=
  [feedback_on "e1" "like" 1; feedback_on "m1" "dislike" 2;
   feedback_on "g1" "not_interested" 3].

(** A candidate of a category with what it holds under [depth_score] and
    [clickbait_score]. *)
Definition candidate_of (video_id cat : string) (depth clickbait : field float) :
    Video :=
  {| v_id := Val video_id; v_title := Val video_id; v_description := Missing;
     v_channel_id := Missing; v_channel_title := Missing;
     v_thumbnail_url := Missing; v_duration_seconds := Val 600;
     v_is_short := Val false; v_language := Missing; v_tags := Missing;
     v_view_count := Missing; v_like_count := Missing; v_published_at := Missing;
     v_transcript := Missing; v_category := Val cat; v_depth_score := depth;
     v_clickbait_score := clickbait; v_entertainment_score := Missing |}.

Definition candidate (video_id cat : string) (depth clickbait : float) : Video :=
  candidate_of video_id cat (Val depth) (Val clickbait).

Definition sample_candidates : list Video :=
  [candidate "a" "GAMING" 0.5 0.5; candidate "b" "EDUCATION" 0.5 0;
   candidate "c" "NEWS" 0.5 0; candidate "d" "NEWS" 0.5 0;
   candidate "e" "MUSIC" 0.5 0].

(** * Theorems *)

(** ** Dictionaries of counts *)

Lemma dict_get_set key key' value d default :
  dict_get key (dict_set key' value d) default =
  if String.eqb key' key then value else dict_get key d default.
Proof.
  unfold dict_get. induction d as [|[k v] d IH]; simpl;
    [by destruct (String.eqb key' key)|].
  destruct (String.eqb_spec k key') as [->|Hk]; simpl.
  - by destruct (String.eqb key' key).
  - destruct (String.eqb_spec k key) as [->|]; [|done].
    by destruct (String.eqb_spec key' key) as [->|].
Qed.

Lemma dict_get_bump key key' d :
  dict_get key (bump key' d) 0 =
  dict_get key d 0 + (if String.eqb key' key then 1 else 0).
Proof.
  unfold bump. rewrite dict_get_set.
  destruct (String.eqb_spec key' key) as [->|]; lia.
Qed.

Lemma dict_get_notin key d default : ¬ In key d.*1 → dict_get key d default = default.
Proof.
  unfold dict_get. induction d as [|[k v] d IH]; simpl; [done|]. intros Hn.
  destruct (String.eqb_spec k key) as [->|]; [|apply IH]; tauto.
Qed.

Lemma dict_get_In key value d default :
  List.NoDup d.*1 → In (key, value) d → dict_get key d default = value.
Proof.
  unfold dict_get. induction d as [|[k v] d IH]; simpl; [done|].
  intros [Hk Hd]%List.NoDup_cons_iff [[= -> ->]|Hin].
  - by rewrite String.eqb_refl.
  - destruct (String.eqb_spec k key) as [->|]; [|by apply IH].
    destruct Hk. apply in_map_iff. by exists (key, value).
Qed.

Lemma dict_set_keys key value d :
  (dict_set key value d).*1 = if in_list key d.*1 then d.*1 else (d.*1 ++ [key])%list.
Proof.
  induction d as [|[k v] d IH]; simpl; [done|]. unfold in_list in *. simpl.
  rewrite (String.eqb_sym key k).
  destruct (String.eqb_spec k key) as [->|]; simpl; [done|].
  change (list_fmap _ _ fst ?l) with (l.*1). rewrite IH. by case_match.
Qed.

Lemma dict_set_In key value d item :
  In item (dict_set key value d) → item = (key, value) ∨ In item d.
Proof.
  induction d as [|[k v] d IH]; simpl; [naive_solver|].
  destruct (String.eqb k key); simpl; naive_solver.
Qed.

Lemma counts_ok_nonneg key d : counts_ok d → 0 ≤ dict_get key d 0.
Proof.
  intros [_ Hpos]. unfold dict_get. destruct (List.find _ d) as [item|] eqn:Hf; [|done].
  apply find_some in Hf as [Hin _]. rewrite List.Forall_forall in Hpos.
  specialize (Hpos _ Hin). lia.
Qed.

Lemma counts_ok_bump key d : counts_ok d → counts_ok (bump key d).
Proof.
  intros Hok. pose proof (counts_ok_nonneg key d Hok) as Hn. destruct Hok as [Hnd Hpos].
  split.
  - unfold bump. rewrite dict_set_keys. destruct (in_list key d.*1) eqn:Hin; [done|].
    apply NoDup_ListNoDup, NoDup_app.
    split_and!; [by apply NoDup_ListNoDup| |apply NoDup_singleton].
    intros k Hk ->%list_elem_of_singleton.
    apply list_elem_of_In, in_list_In in Hk. congruence.
  - apply List.Forall_forall. intros item [->|Hin]%dict_set_In; simpl; [lia|].
    rewrite List.Forall_forall in Hpos. by apply Hpos.
Qed.

Lemma counts_ok_key key d : counts_ok d → In key d.*1 ↔ 0 < dict_get key d 0.
Proof.
  intros [Hnd Hpos]. split.
  - intros ([k n] & <- & Hin)%in_map_iff. simpl.
    rewrite (dict_get_In k n) by done. rewrite List.Forall_forall in Hpos.
    by apply (Hpos (k, n)).
  - intros Hlt. destruct (in_dec string_dec key d.*1) as [|Hn]; [done|].
    rewrite dict_get_notin in Hlt by done. lia.
Qed.

(** ** The loop over the history *)

Lemma count_rows_cons flag c row rows :
  count_rows flag c (row :: rows) = count_rows flag c [row] + count_rows flag c rows.
Proof. unfold count_rows. simpl. case_match; simpl; lia. Qed.

Lemma count_rows_nonneg flag c rows : 0 ≤ count_rows flag c rows.
Proof. unfold count_rows. lia. Qed.

Lemma watch_step_counts st row c :
  dict_get c (watch_step st row).1.1 0 =
    dict_get c st.1.1 0 + count_rows wh_completed c [row] ∧
  dict_get c (watch_step st row).1.2 0 =
    dict_get c st.1.2 0 + count_rows wh_was_skipped c [row].
Proof.
  destruct st as [[completed skipped] durations], row as [watch content].
  unfold count_rows, row_category. simpl.
  destruct (wh_completed watch), (wh_was_skipped watch); rewrite ?dict_get_bump;
    simpl; destruct (String.eqb (from_option cc_category "UNKNOWN" content) c);
    simpl; lia.
Qed.

Lemma watch_step_ok st row :
  counts_ok st.1.1 → counts_ok st.1.2 →
  counts_ok (watch_step st row).1.1 ∧ counts_ok (watch_step st row).1.2.
Proof.
  destruct st as [[completed skipped] durations], row as [watch content]. simpl.
  destruct (wh_completed watch), (wh_was_skipped watch);
    auto using counts_ok_bump.
Qed.

(** What the loop has counted: under every category, the rows of it. *)
Lemma watch_loop_counts rows st c :
  dict_get c (fold_left watch_step rows st).1.1 0 =
    dict_get c st.1.1 0 + count_rows wh_completed c rows ∧
  dict_get c (fold_left watch_step rows st).1.2 0 =
    dict_get c st.1.2 0 + count_rows wh_was_skipped c rows.
Proof.
  revert st. induction rows as [|row rows IH]; intros st; simpl.
  - unfold count_rows. simpl. lia.
  - destruct (IH (watch_step st row)) as [-> ->].
    destruct (watch_step_counts st row c) as [-> ->].
    rewrite !(count_rows_cons _ c row rows). lia.
Qed.

Lemma watch_loop_ok rows st :
  counts_ok st.1.1 → counts_ok st.1.2 →
  counts_ok (fold_left watch_step rows st).1.1 ∧
  counts_ok (fold_left watch_step rows st).1.2.
Proof.
  revert st. induction rows as [|row rows IH]; intros st H1 H2; simpl; [done|].
  by apply IH; apply watch_step_ok.
Qed.

Lemma counts_ok_nil : counts_ok [].
Proof. split; constructor. Qed.

(** The statistics of the history, when they are returned. *)
Lemma analyze_watch_history_inv user history cache now days stats :
  _analyze_watch_history user history cache now days = Ok stats →
  let rows := joined_history user (days_back now days) history cache in
  counts_ok (completed_by_category stats) ∧ counts_ok (skipped_by_category stats) ∧
  (∀ c, dict_get c (completed_by_category stats) 0 = count_rows wh_completed c rows) ∧
  (∀ c, dict_get c (skipped_by_category stats) 0 = count_rows wh_was_skipped c rows) ∧
  total_videos stats = Z.of_nat (length rows).
Proof.
  intros H rows. unfold _analyze_watch_history in H. fold rows in H.
  pose proof (watch_loop_ok rows ([], [], []) counts_ok_nil counts_ok_nil) as [Hc Hs].
  pose proof (λ c, watch_loop_counts rows ([], [], []) c) as Hn.
  destruct (fold_left watch_step rows _) as [[completed skipped] durations].
  destruct (average durations) as [avg|]; [|done]. simpl in H. injection H as <-.
  simpl in *.
  split_and!; try done; intros c; by destruct (Hn c).
Qed.

(** ** The three best *)

Lemma top3_length d : (length (top3 d) ≤ 3)%nat.
Proof. unfold top3. rewrite length_fmap, length_take. lia. Qed.

Lemma top3_In d c :
  In c (top3 d) ↔ ∃ n, In (c, n) (take 3 (py_sorted Z.ltb snd true d)).
Proof.
  unfold top3. rewrite in_map_iff. split.
  - intros ([k n] & <- & Hin). by exists n.
  - intros [n Hin]. by exists (c, n).
Qed.

Lemma top3_key d c : In c (top3 d) → In c d.*1.
Proof.
  intros [n Hin]%top3_In. apply in_map_iff. exists (c, n). split; [done|].
  apply list_elem_of_In, elem_of_take in Hin as (i & Hin & _).
  apply list_elem_of_lookup_2, list_elem_of_In in Hin.
  by apply py_sorted_In in Hin.
Qed.

(** No category outside the three best has a greater count than one of
    them. *)
Lemma top3_best d c c' :
  counts_ok d → In c (top3 d) → ¬ In c' (top3 d) →
  dict_get c' d 0 ≤ dict_get c d 0.
Proof.
  intros Hok Hc Hc'. pose proof Hok as [Hnd Hpos].
  pose proof (proj1 (counts_ok_key c d Hok) (top3_key d c Hc)) as Hn.
  destruct (in_dec string_dec c' d.*1) as [Hk|Hk];
    [|rewrite (dict_get_notin c') by done; lia].
  apply in_map_iff in Hk as ([k n'] & <- & Hin'). simpl in *.
  apply top3_In in Hc as [n Hin]. rewrite (dict_get_In k n') by done.
  assert (In (c, n) d) as Hd.
  { apply (py_sorted_In Z.ltb snd true). apply list_elem_of_In.
    apply list_elem_of_In, elem_of_take in Hin as (i & Hi & _).
    by eapply list_elem_of_lookup_2. }
  rewrite (dict_get_In c n) by done.
  apply (py_sorted_In Z.ltb snd true) in Hin'.
  rewrite <-(take_drop 3 (py_sorted _ _ _ d)), in_app_iff in Hin'.
  destruct Hin' as [Ht|Hdr]; [destruct Hc'; apply top3_In; by exists n'|].
  pose proof (sort_by_take_drop (flip Z.ltb) snd any_key 3 d _ _
                (keys_in_any _ _ _ (λ _, I)) Hin Hdr) as Ho.
  unfold in_order, flip in Ho. simpl in Ho. lia.
Qed.

(** ** The avoided categories *)

Lemma append_new_In avoided cat c :
  In c (append_new avoided cat) ↔ In c avoided ∨ c = cat.
Proof.
  unfold append_new. destruct (in_list cat avoided) eqn:Hin.
  - apply in_list_In in Hin. naive_solver.
  - rewrite in_app_iff. simpl. naive_solver.
Qed.

Lemma fold_append_new_In l avoided c :
  In c (fold_left append_new l avoided) ↔ In c avoided ∨ In c l.
Proof.
  revert avoided. induction l as [|cat l IH]; intros avoided; simpl; [tauto|].
  rewrite IH, append_new_In. naive_solver.
Qed.

Lemma fold_append_new_NoDup l avoided :
  List.NoDup avoided → List.NoDup (fold_left append_new l avoided).
Proof.
  revert avoided. induction l as [|cat l IH]; intros avoided Hnd; simpl; [done|].
  apply IH. unfold append_new. destruct (in_list cat avoided) eqn:Hin; [done|].
  apply NoDup_ListNoDup, NoDup_app.
  split_and!; [by apply NoDup_ListNoDup| |apply NoDup_singleton].
  intros k Hk ->%list_elem_of_singleton.
  apply list_elem_of_In, in_list_In in Hk. congruence.
Qed.

(** ** The loop over the feedback *)

Lemma feedback_step_disliked st row c :
  In c (feedback_step st row).2 ↔ In c st.2 ∨ disliked_in [row] c.
Proof.
  destruct st as [liked disliked], row as [feedback content].
  unfold disliked_in, feedback_step. cbn [fst snd].
  destruct (some_category content) as [cat|] eqn:Hcat.
  2: { split; [by left|]. intros [?|(row & [<-|[]] & _ & Hc)]; [done|].
       simpl in Hc. congruence. }
  destruct (String.eqb_spec (fb_feedback_type feedback) "like") as [Hl|Hl].
  { split; [by left|]. intros [?|(row & [<-|[]] & Hin & _)]; [done|].
    cbn [fst] in Hin. by rewrite Hl in Hin. }
  destruct (in_list (fb_feedback_type feedback) _) eqn:Hin; cbn [snd].
  - rewrite in_app_iff. split.
    + intros [?|[<-|[]]]; [by left|right]. exists (feedback, content).
      split_and!; [by left|done|done].
    + intros [?|(row & [<-|[]] & _ & Hc)]; [by left|]. right. left.
      simpl in Hc. congruence.
  - split; [by left|]. intros [?|(row & [<-|[]] & Hin' & _)]; [done|].
    cbn [fst] in Hin'. congruence.
Qed.

Lemma feedback_loop_disliked rows st c :
  In c (fold_left feedback_step rows st).2 ↔ In c st.2 ∨ disliked_in rows c.
Proof.
  revert st. induction rows as [|row rows IH]; intros st; simpl.
  - unfold disliked_in. naive_solver.
  - rewrite IH, feedback_step_disliked. unfold disliked_in. simpl. naive_solver.
Qed.

(** ** The scores and the order *)

Lemma scored_videos_inv preferences videos scored :
  scored_videos preferences videos = Ok scored →
  scored.*1 = videos ∧
  Forall (λ p, personalization_score preferences p.1 = Ok p.2) scored.
Proof.
  revert scored. induction videos as [|video rest IH]; intros scored; simpl.
  - by intros [= <-].
  - destruct (personalization_score preferences video) as [score|] eqn:Hs; [|done].
    simpl. destruct (scored_videos preferences rest) as [tail|]; [|done].
    intros [= <-]. destruct (IH tail eq_refl) as [<- Hall]. by repeat constructor.
Qed.

Lemma scored_videos_total preferences videos :
  Forall (λ v, v_depth_score v ≠ Null ∧ v_clickbait_score v ≠ Null) videos →
  is_ok (scored_videos preferences videos) = true.
Proof.
  induction 1 as [|video rest [Hd Hc] _ IH]; simpl; [done|].
  unfold personalization_score.
  destruct (v_depth_score video), (v_clickbait_score video); try done; simpl;
    by destruct (scored_videos preferences rest).
Qed.

Lemma scored_videos_raises preferences videos video :
  In video videos → v_depth_score video = Null ∨ v_clickbait_score video = Null →
  scored_videos preferences videos = Raise TypeError.
Proof.
  intros Hin Hnull. induction videos as [|v rest IH]; [done|]. simpl.
  destruct Hin as [->|Hin].
  - unfold personalization_score.
    destruct Hnull as [->| ->]; [done|]. by destruct (v_depth_score video).
  - rewrite (IH Hin). unfold personalization_score.
    by destruct (v_depth_score v), (v_clickbait_score v).
Qed.

Lemma scored_as_ties s : ties (flip PrimFloat.ltb) snd (scored_as s).
Proof.
  intros [v x] [w y]. unfold scored_as, flip. simpl.
  intros ->%Leibniz.eqb_spec ->%Leibniz.eqb_spec.
  apply float_ltb_irrefl.
Qed.

(** The order of the ranking: a permutation of the scored videos in which
    no video is followed by one of greater score, and in which the videos
    of one score stand in the order of the input. *)
Lemma rank_videos_spec scored :
  rank_videos scored ≡ₚ scored ∧
  Sorted (λ a b, PrimFloat.ltb a.2 b.2 = false) (rank_videos scored) ∧
  ∀ s, List.filter (scored_as s) (rank_videos scored) =
       List.filter (scored_as s) scored.
Proof.
  split_and!.
  - apply py_sorted_Permutation.
  - apply (sort_by_Sorted (flip PrimFloat.ltb) snd).
    intros x y. apply float_ltb_asym.
  - intros s. apply sort_by_stable, scored_as_ties.
Qed.

(** With scores that are numbers, no video comes anywhere before one of
    greater score. *)
Lemma rank_videos_StronglySorted scored :
  Forall (λ p, is_number p.2 = true) scored →
  StronglySorted (λ a b, PrimFloat.ltb a.2 b.2 = false) (rank_videos scored).
Proof.
  apply (sort_by_StronglySorted (flip PrimFloat.ltb) snd (λ x, is_number x = true)).
Qed.

(** ** The service *)

Lemma joined_history_outside user since history1 w history2 cache :
  wh_user_id w ≠ user ∨ wh_watched_at w < since →
  joined_history user since (history1 ++ w :: history2) cache =
  joined_history user since (history1 ++ history2) cache.
Proof.
  intros Hout. unfold joined_history. rewrite !List.filter_app. simpl.
  replace ((wh_user_id w =? user) && (since <=? wh_watched_at w)) with false; [done|].
  symmetry. apply andb_false_iff. rewrite Z.eqb_neq, Z.leb_gt. tauto.
Qed.

Lemma py_sum_raises l acc e : py_sum l acc = Raise e → e = TypeError.
Proof.
  revert acc. induction l as [|[n|] l IH]; intros acc; simpl;
    [done|apply IH|by intros [= <-]].
Qed.

Lemma average_raises l e : average l = Raise e → e = TypeError.
Proof.
  unfold average. destruct l as [|x l]; [done|].
  destruct (py_sum (x :: l) 0) as [total|e'] eqn:Hs; [done|].
  intros [= <-]. by eapply py_sum_raises.
Qed.

Lemma top3_nil : top3 [] = [].
Proof. done. Qed.

Section ServiceTheorems.
Variable list_of_set : list string → list string.
Hypothesis list_of_set_In : ∀ l x, In x (list_of_set l) ↔ In x l.

Lemma get_user_preferences_inv user history feedback cache now prefs :
  get_user_preferences list_of_set user history feedback cache now = Ok prefs →
  ∃ stats, _analyze_watch_history user history cache now 30 = Ok stats ∧
    preferred_categories prefs = top3 (completed_by_category stats) ∧
    avoided_categories prefs =
      fold_left append_new
        (disliked_categories (_analyze_feedback list_of_set user feedback cache now 30))
        (top3 (skipped_by_category stats)).
Proof.
  unfold get_user_preferences.
  destruct (_analyze_watch_history _ _ _ _ _) as [stats|]; [|done].
  intros [= <-]. exists stats. simpl.
  by destruct (completed_by_category stats), (skipped_by_category stats).
Qed.

Lemma get_user_preferences_raises user history feedback cache now e :
  get_user_preferences list_of_set user history feedback cache now = Raise e →
  e = TypeError.
Proof.
  unfold get_user_preferences, _analyze_watch_history.
  destruct (fold_left watch_step _ _) as [[completed skipped] durations].
  destruct (average durations) as [avg|e'] eqn:Ha; [done|].
  intros [= <-]. by eapply average_raises.
Qed.

Lemma disliked_categories_spec user feedback cache now c :
  In c (disliked_categories (_analyze_feedback list_of_set user feedback cache now 30)) ↔
  disliked_in (joined_feedback user (days_back now 30) feedback cache) c.
Proof.
  unfold _analyze_feedback.
  pose proof (feedback_loop_disliked
                (joined_feedback user (days_back now 30) feedback cache) ([], []) c) as H.
  destruct (fold_left feedback_step _ _) as [liked disliked]. simpl in *.
  rewrite list_of_set_In, H. naive_solver.
Qed.

(** The preferred categories are the three most completed ones: at
    most three categories are preferred, each was completed at least once by
    the user in the last 30 days, and no category left out was completed
    more often than one that is in. *)
Theorem preferred_are_most_completed user history feedback cache now prefs c c' :
  get_user_preferences list_of_set user history feedback cache now = Ok prefs →
  In c (preferred_categories prefs) → ¬ In c' (preferred_categories prefs) →
  let rows := joined_history user (days_back now 30) history cache in
  (length (preferred_categories prefs) ≤ 3)%nat ∧
  0 < count_rows wh_completed c rows ∧
  count_rows wh_completed c' rows ≤ count_rows wh_completed c rows.
Proof.
  intros (stats & Hs & -> & _)%get_user_preferences_inv Hc Hc' rows.
  apply analyze_watch_history_inv in Hs as (Hok & _ & Hn & _). fold rows in Hn.
  rewrite <-!Hn. split_and!; [apply top3_length| |by apply top3_best].
  by apply counts_ok_key, top3_key.
Qed.

(** The avoided categories are the three most skipped ones together
    with every category of a video the user marked dislike or
    not_interested in the last 30 days, and nothing else. *)
Theorem avoided_categories_spec user history feedback cache now stats prefs c :
  _analyze_watch_history user history cache now 30 = Ok stats →
  get_user_preferences list_of_set user history feedback cache now = Ok prefs →
  In c (avoided_categories prefs) ↔
  In c (top3 (skipped_by_category stats)) ∨
  disliked_in (joined_feedback user (days_back now 30) feedback cache) c.
Proof.
  intros Hs (stats' & Hs' & _ & ->)%get_user_preferences_inv.
  rewrite Hs in Hs'. injection Hs' as <-.
  by rewrite fold_append_new_In, disliked_categories_spec.
Qed.

(** A watch of another user, or one older than 30 days, has no
    influence on the preferences. *)
Theorem preferences_lookback user history1 w history2 feedback cache now :
  wh_user_id w ≠ user ∨ wh_watched_at w < now - timedelta_days 30 →
  get_user_preferences list_of_set user (history1 ++ w :: history2) feedback cache now =
  get_user_preferences list_of_set user (history1 ++ history2) feedback cache now.
Proof.
  intros Hout. unfold get_user_preferences, _analyze_watch_history.
  by rewrite joined_history_outside.
Qed.

(** Re-ranking never removes or adds a video: the ranking lists the
    videos it was given, each once more than any other. *)
Theorem ranking_keeps_videos user history feedback cache now videos ranked :
  get_personalized_ranking list_of_set user history feedback cache now videos =
    Ok ranked →
  ranked.*1 ≡ₚ videos.
Proof.
  unfold get_personalized_ranking.
  destruct (get_user_preferences _ _ _ _ _ _) as [prefs|]; [|done]. simpl.
  destruct (scored_videos prefs videos) as [scored|] eqn:Hsc; [|done].
  intros [= <-]. apply scored_videos_inv in Hsc as [<- _].
  apply fmap_Permutation, rank_videos_spec.
Qed.

(** C17. The ranking is in descending order of score and stable: every
    video carries the score of the formula, no video is followed by one of
    greater score, and the videos of one score keep the order they had in
    the input. *)
Theorem ranking_order user history feedback cache now videos ranked :
  get_personalized_ranking list_of_set user history feedback cache now videos =
    Ok ranked →
  ∃ prefs scored,
    get_user_preferences list_of_set user history feedback cache now = Ok prefs ∧
    scored.*1 = videos ∧
    Forall (λ p, personalization_score prefs p.1 = Ok p.2) ranked ∧
    Sorted (λ a b, PrimFloat.ltb a.2 b.2 = false) ranked ∧
    ∀ s, List.filter (scored_as s) ranked = List.filter (scored_as s) scored.
Proof.
  unfold get_personalized_ranking.
  destruct (get_user_preferences _ _ _ _ _ _) as [prefs|]; [|done]. simpl.
  destruct (scored_videos prefs videos) as [scored|] eqn:Hsc; [|done].
  intros [= <-]. apply scored_videos_inv in Hsc as [Hv Hall].
  destruct (rank_videos_spec scored) as (Hp & Hs & Hst).
  exists prefs, scored. split_and!; try done. by rewrite Hp.
Qed.

(** A candidate whose depth or clickbait score is [None] makes the
    re-ranking raise [TypeError]: no ranking is returned. *)
Theorem ranking_score_none user history feedback cache now videos video :
  In video videos →
  v_depth_score video = Null ∨ v_clickbait_score video = Null →
  get_personalized_ranking list_of_set user history feedback cache now videos =
    Raise TypeError.
Proof.
  intros Hin Hnull. unfold get_personalized_ranking.
  destruct (get_user_preferences _ _ _ _ _ _) as [prefs|e] eqn:Hp; simpl.
  - by rewrite (scored_videos_raises prefs videos video).
  - by apply get_user_preferences_raises in Hp as ->.
Qed.

End ServiceTheorems.

(** ** The service on the samples *)

Lemma in_first_order_In l x : In x (in_first_order l) ↔ In x l.
Proof. unfold in_first_order. by rewrite <-!list_elem_of_In, elem_of_remove_dups. Qed.

(** The preferences of the sample: the lessons, the songs and the comedy
    are preferred; the games and the comedy are avoided, and the songs too,
    for the dislike. *)
Lemma sample_preferences :
  get_user_preferences in_first_order 1 sample_watches sample_feedback sample_cache
    sample_now =
  Ok {| preferred_categories := ["EDUCATION"; "MUSIC"; "COMEDY"];
        avoided_categories := ["GAMING"; "COMEDY"; "MUSIC"];
        preferred_duration_range := (0, 3600); skip_threshold := 0.3 |}.
Proof. by vm_compute. Qed.

(** The ranking of the sample: the lesson first, the game last, and the
    three videos of score 1.15 between them in the order of the input. *)
Lemma sample_ranking :
  (λ p, (get_none (v_id p.1), p.2)) <$>
    default [] (match get_personalized_ranking in_first_order 1 sample_watches
                        sample_feedback sample_cache sample_now sample_candidates with
                | Ok ranked => Some ranked | Raise _ => None end) =
  [(Some "b", 1.65%float); (Some "c", 1.15%float); (Some "d", 1.15%float);
   (Some "e", 1.15%float); (Some "a", 0.45%float)].
Proof. by vm_compute. Qed.

Lemma preferred_are_most_completed_witness :
  let rows := joined_history 1 (days_back sample_now 30) sample_watches sample_cache in
  (3 ≤ 3)%nat ∧ 0 < count_rows wh_completed "COMEDY" rows ∧
  count_rows wh_completed "SCIENCE_TECH" rows ≤ count_rows wh_completed "COMEDY" rows.
Proof.
  apply (preferred_are_most_completed in_first_order 1 sample_watches sample_feedback
           sample_cache sample_now _ "COMEDY" "SCIENCE_TECH" sample_preferences);
    simpl; [tauto|]. intros [|[|[|[]]]]; done.
Defined.

Lemma sample_stats :
  _analyze_watch_history 1 sample_watches sample_cache sample_now 30 =
  Ok {| completed_by_category :=
          [("MUSIC", 2); ("EDUCATION", 3); ("COMEDY", 1); ("SCIENCE_TECH", 1)];
        skipped_by_category := [("GAMING", 2); ("COMEDY", 1)];
        avg_preferred_duration := 600; total_videos := 10 |}.
Proof. by vm_compute. Qed.

Lemma avoided_categories_spec_witness :
  In "MUSIC" ["GAMING"; "COMEDY"; "MUSIC"] ↔
  In "MUSIC" (top3 [("GAMING", 2); ("COMEDY", 1)]) ∨
  disliked_in (joined_feedback 1 (days_back sample_now 30) sample_feedback sample_cache)
    "MUSIC".
Proof.
  exact (avoided_categories_spec in_first_order in_first_order_In 1 sample_watches
           sample_feedback sample_cache sample_now _ _ "MUSIC" sample_stats
           sample_preferences).
Defined.

Lemma preferences_lookback_witness :
  get_user_preferences in_first_order 1 sample_watches sample_feedback sample_cache
    sample_now =
  get_user_preferences in_first_order 1 (removelast sample_watches) sample_feedback
    sample_cache sample_now.
Proof.
  apply (preferences_lookback in_first_order 1 (removelast sample_watches)
           (watch "m1" true false 45) []). right. by vm_compute.
Defined.

Lemma ranking_keeps_videos_witness :
  (rank_videos (zip sample_candidates [0.45; 1.65; 1.15; 1.15; 1.15]%float)).*1 ≡ₚ
  sample_candidates.
Proof.
  by apply (ranking_keeps_videos in_first_order 1 sample_watches sample_feedback
              sample_cache sample_now).
Defined.

Lemma ranking_order_witness :
  ∃ prefs scored,
    get_user_preferences in_first_order 1 sample_watches sample_feedback sample_cache
      sample_now = Ok prefs ∧
    scored.*1 = sample_candidates ∧
    Forall (λ p, personalization_score prefs p.1 = Ok p.2)
      (rank_videos (zip sample_candidates [0.45; 1.65; 1.15; 1.15; 1.15]%float)) ∧
    Sorted (λ a b, PrimFloat.ltb a.2 b.2 = false)
      (rank_videos (zip sample_candidates [0.45; 1.65; 1.15; 1.15; 1.15]%float)) ∧
    ∀ s, List.filter (scored_as s)
           (rank_videos (zip sample_candidates [0.45; 1.65; 1.15; 1.15; 1.15]%float)) =
         List.filter (scored_as s) scored.
Proof.
  by apply (ranking_order in_first_order 1 sample_watches sample_feedback
              sample_cache sample_now sample_candidates).
Defined.

Lemma ranking_score_none_witness :
  get_personalized_ranking in_first_order 1 sample_watches sample_feedback sample_cache
    sample_now (sample_candidates ++ [candidate_of "f" "NEWS" Null Missing]) =
  Raise TypeError.
Proof.
  apply (ranking_score_none in_first_order 1 _ _ _ _ _
           (candidate_of "f" "NEWS" Null Missing)); [|by left].
  apply in_app_iff. right. by left.
Defined.
