(* ===== verification/Analytics.v ===== *)
(** * Analytics: routers/analytics.py and schemas/feedback.py

    The handlers that record what a user watched and said, and the
    statistics drawn from the records.  The tables [watch_history] and
    [user_feedback] are lists of rows in insertion order; a handler returns
    its answer with the tables as committed.  The primary key of a new row
    is given by the caller, as in the modes router.  An aggregate of SQL
    over no row is NULL, which the handlers read as 0.  A date is the
    number of its day; the text of a date is not modelled.  The minutes of
    the statistics go through binary64 as in the code ([int(seconds / 60)]). *)

From Stdlib Require Import ZArith String Ascii List Floats Sorted Permutation.
From stdpp Require Import base option list strings sorting relations.
From S2P Require Import Prelude Sorting Models Schemas FocusEngine.

Set Warnings "-inexact-float".
Local Open Scope string_scope.
Local Open Scope Z_scope.
Local Open Scope list_scope.

(** ** The request bodies *)

(** [WatchEvent]. *)
Record WatchEvent : Type := mkWatchEvent {
  ev_video_id : string;
  ev_watch_duration_seconds : Z;
  ev_video_duration_seconds : Z;
  ev_was_skipped : bool;
  ev_skip_position_percent : option float;
  ev_completed : bool;
  ev_mode_id : option uuid;
}.

(** The constraints of [WatchEvent]: durations [ge=0], the position of a
    skip within [0, 100]. *)
Definition event_valid (e : WatchEvent) : bool :=
  (0 <=? ev_watch_duration_seconds e) && (0 <=? ev_video_duration_seconds e) &&
  option_all (λ p, PrimFloat.leb 0 p && PrimFloat.leb p 100)
             (ev_skip_position_percent e).

(** [FeedbackCreate]. *)
Record FeedbackCreate : Type := mkFeedbackCreate {
  fc_video_id : string;
  fc_feedback_type : string;
  fc_reason : option string;
  fc_suggested_category : option string;
}.

(** The alternatives of the pattern of [feedback_type]. *)
Definition FEEDBACK_TYPES : list string :=
  ["like"; "dislike"; "not_interested"; "wrong_category"; "helpful"; "distracting"].

Definition feedback_valid (f : FeedbackCreate) : bool :=
  in_list (fc_feedback_type f) FEEDBACK_TYPES &&
  option_all (length_between 0 500) (fc_reason f).

(** ** The tables *)

Record Tables : Type := mkTables {
  watch_history : list WatchHistory;
  user_feedback : list UserFeedback;
}.

(** The rows of a user since an instant: the [where] of the statistics. *)
Definition since_rows (user : uuid) (since : datetime) (history : list WatchHistory) :
    list WatchHistory :=
  List.filter (λ w, (wh_user_id w =? user) && (since <=? wh_watched_at w)) history.

(** ** track_watch *)

(** [(watch / video) * 100] when the video has a duration, [0.0] otherwise. *)
Definition watch_percentage (e : WatchEvent) : float :=
  if 0 <? ev_video_duration_seconds e
  then (py_truediv (ev_watch_duration_seconds e) (ev_video_duration_seconds e) * 100)%float
  else 0%float.

(** The row [WatchHistory(user_id=user.id, ...)]; [watched_at] defaults to
    the instant of the insert. *)
Definition history_row (i user : uuid) (e : WatchEvent) (now : datetime) : WatchHistory :=
  {| wh_id := i; wh_user_id := user; wh_video_id := ev_video_id e;
     wh_watch_duration_seconds := ev_watch_duration_seconds e;
     wh_video_duration_seconds := ev_video_duration_seconds e;
     wh_watch_percentage := watch_percentage e;
     wh_was_skipped := ev_was_skipped e;
     wh_skip_position_percent := ev_skip_position_percent e;
     wh_completed := ev_completed e; wh_mode_id := ev_mode_id e;
     wh_watched_at := now |}.

Definition track_watch (fresh user : uuid) (event : WatchEvent) (db : Tables)
    (now : datetime) : result string * Tables :=
  match validated event_valid event with
  | Raise e => (Raise e, db)
  | Ok event =>
      (Ok "tracked",
       {| watch_history := watch_history db ++ [history_row fresh user event now];
          user_feedback := user_feedback db |})
  end.

(** ** get_history *)

(** [WatchHistoryItem]. *)
Record WatchHistoryItem : Type := mkWatchHistoryItem {
  hi_video_id : string;
  hi_watch_duration_seconds : Z;
  hi_watch_percentage : float;
  hi_was_skipped : bool;
  hi_completed : bool;
  hi_watched_at : datetime;
}.

Definition history_item (h : WatchHistory) : WatchHistoryItem :=
  {| hi_video_id := wh_video_id h;
     hi_watch_duration_seconds := wh_watch_duration_seconds h;
     hi_watch_percentage := wh_watch_percentage h;
     hi_was_skipped := wh_was_skipped h; hi_completed := wh_completed h;
     hi_watched_at := wh_watched_at h |}.

(** [WatchHistoryResponse]. *)
Record WatchHistoryResponse : Type := mkWatchHistoryResponse {
  hr_items : list WatchHistoryItem;
  hr_total : Z;
  hr_page : Z;
  hr_per_page : Z;
}.

(** The rows of the user. *)
Definition rows_of (user : uuid) (history : list WatchHistory) : list WatchHistory :=
  List.filter (λ w, wh_user_id w =? user) history.

(** [order_by(WatchHistory.watched_at.desc())]: the latest first; rows of
    one instant in the order of the table. *)
Definition latest_first (rows : list WatchHistory) : list WatchHistory :=
  py_sorted Z.ltb wh_watched_at true rows.

(** The bounds of the query parameters: [page >= 1], [1 <= per_page <= 100]. *)
Definition page_valid (page per_page : Z) : bool :=
  (1 <=? page) && (1 <=? per_page) && (per_page <=? 100).

Definition get_history (user : uuid) (page per_page : Z) (db : Tables) :
    result WatchHistoryResponse :=
  if page_valid page per_page then
    let offset := (page - 1) * per_page in
    let total := Z.of_nat (length (rows_of user (watch_history db))) in
    let items :=
      take (Z.to_nat per_page)
           (drop (Z.to_nat offset) (latest_first (rows_of user (watch_history db)))) in
    Ok {| hr_items := history_item <$> items; hr_total := total; hr_page := page;
          hr_per_page := per_page |}
  else Raise ValidationError.

(** ** submit_feedback *)

Definition feedback_row (i user : uuid) (f : FeedbackCreate) (now : datetime) :
    UserFeedback :=
  {| fb_id := i; fb_user_id := user; fb_video_id := fc_video_id f;
     fb_feedback_type := fc_feedback_type f; fb_reason := fc_reason f;
     fb_suggested_category := fc_suggested_category f; fb_created_at := now |}.

Definition submit_feedback (fresh user : uuid) (feedback_data : FeedbackCreate)
    (db : Tables) (now : datetime) : result UserFeedback * Tables :=
  match validated feedback_valid feedback_data with
  | Raise e => (Raise e, db)
  | Ok feedback_data =>
      let feedback := feedback_row fresh user feedback_data now in
      (Ok feedback,
       {| watch_history := watch_history db;
          user_feedback := user_feedback db ++ [feedback] |})
  end.

(** ** The aggregates *)

(** [func.sum(WatchHistory.watch_duration_seconds)], NULL read as 0. *)
Definition total_seconds (rows : list WatchHistory) : Z :=
  fold_right Z.add 0 (wh_watch_duration_seconds <$> rows).

(** [func.avg(WatchHistory.watch_percentage)], NULL read as 0. *)
Definition avg_percentage (rows : list WatchHistory) : float :=
  match rows with
  | [] => 0%float
  | _ => (fold_left (λ acc w, acc + wh_watch_percentage w) rows 0 /
          float_of_Z (Z.of_nat (length rows)))%float
  end.

(** [int(seconds / 60)]: [None] when the quotient has no integer. *)
Definition whole_minutes (seconds : Z) : result Z :=
  need (ValueError "cannot convert float to integer") (py_int (py_truediv seconds 60)).

(** [int(seconds / 60)] is the integer quotient. *)
Definition minutes_agree (seconds : Z) : bool :=
  match py_int (py_truediv seconds 60) with
  | Some minutes => minutes =? seconds / 60
  | None => false
  end.

(** The bound below which [minutes_agree] is checked: three days of seconds. *)
Definition checked_seconds : N := 262144.

(** [func.date(WatchHistory.watched_at)], as the number of the day. *)
Definition day_of (t : datetime) : Z := t / timedelta_days 1.

(** The seconds of a day added to the groups, which are kept in the order
    of the days. *)
Fixpoint add_to_day (day seconds : Z) (groups : list (Z * Z)) : list (Z * Z) :=
  match groups with
  | [] => [(day, seconds)]
  | (d, s) :: rest =>
      if day <? d then (day, seconds) :: groups
      else if day =? d then (d, s + seconds) :: rest
      else (d, s) :: add_to_day day seconds rest
  end.

(** [group_by(func.date(...)).order_by(func.date(...))] with the sum of the
    seconds of each day. *)
Definition daily_seconds (rows : list WatchHistory) : list (Z * Z) :=
  fold_right (λ w, add_to_day (day_of (wh_watched_at w)) (wh_watch_duration_seconds w))
             [] rows.

(** The sum of the second components: the seconds, or the minutes, of all
    the days. *)
Definition sum_of (groups : list (Z * Z)) : Z := fold_right Z.add 0 groups.*2.

(** The entries [{"date": ..., "minutes": ...}] of the chart. *)
Fixpoint daily_usage (groups : list (Z * Z)) : result (list (Z * Z)) :=
  match groups with
  | [] => Ok []
  | (day, seconds) :: rest =>
      minutes ← whole_minutes seconds;
      usage ← daily_usage rest;
      Ok ((day, minutes) :: usage)
  end.

(** ** get_analytics_summary *)

(** [AnalyticsSummary]; [top_categories] and [focus_mode_usage] are always
    empty. *)
Record AnalyticsSummary : Type := mkAnalyticsSummary {
  total_watch_time_minutes : Z;
  videos_watched : Z;
  videos_skipped : Z;
  videos_completed : Z;
  average_watch_percentage : float;
  top_categories : list string;
  as_daily_usage : list (Z * Z);
  focus_mode_usage : list string;
}.

(** [days: int = Query(default=7, ge=1, le=30)]. *)
Definition days_valid (days : Z) : bool := (1 <=? days) && (days <=? 30).

Definition count_where (p : WatchHistory → bool) (rows : list WatchHistory) : Z :=
  Z.of_nat (length (List.filter p rows)).

Definition get_analytics_summary (user : uuid) (days : Z) (db : Tables)
    (now : datetime) : result AnalyticsSummary :=
  if days_valid days then
    let rows := since_rows user (now - timedelta_days days) (watch_history db) in
    usage ← daily_usage (daily_seconds rows);
    minutes ← whole_minutes (total_seconds rows);
    Ok {| total_watch_time_minutes := minutes;
          videos_watched := Z.of_nat (length rows);
          videos_skipped := count_where wh_was_skipped rows;
          videos_completed := count_where wh_completed rows;
          average_watch_percentage := avg_percentage rows;
          top_categories := []; as_daily_usage := usage; focus_mode_usage := [] |}
  else Raise ValidationError.

(** ** get_daily_stats *)

(** [DailyStats]. *)
Record DailyStats : Type := mkDailyStats {
  ds_date : Z;
  ds_watch_time_minutes : Z;
  ds_videos_watched : Z;
  ds_time_limit_minutes : option Z;
  ds_time_remaining_minutes : option Z;
}.

(** [max(0, time_limit - watch_minutes) if time_limit else None]. *)
Definition time_remaining (time_limit : option Z) (watch_minutes : Z) : option Z :=
  match time_limit with
  | None | Some 0 => None
  | Some limit => Some (Z.max 0 (limit - watch_minutes))
  end.

Definition get_daily_stats (user : uuid) (modes : list FocusMode) (db : Tables)
    (now : datetime) : result DailyStats :=
  let today_start := start_of_day now in
  let rows := since_rows user today_start (watch_history db) in
  active_mode ← get_active_mode user modes;
  let time_limit := active_mode ≫= daily_time_limit_minutes in
  watch_minutes ← whole_minutes (total_seconds rows);
  Ok {| ds_date := day_of today_start; ds_watch_time_minutes := watch_minutes;
        ds_videos_watched := Z.of_nat (length rows);
        ds_time_limit_minutes := time_limit;
        ds_time_remaining_minutes := time_remaining time_limit watch_minutes |}.

(** ** The requests that write *)

Inductive analytics_request : Type :=
| TrackWatch (user : uuid) (event : WatchEvent)
| SubmitFeedback (user : uuid) (feedback_data : FeedbackCreate).

Definition serve (fresh : uuid) (now : datetime) (r : analytics_request) (db : Tables) : Tables :=
  match r with
  | TrackWatch user event => snd (track_watch fresh user event db now)
  | SubmitFeedback user f => snd (submit_feedback fresh user f db now)
  end.

(** A key no row of the tables has. *)
Definition fresh_key (i : uuid) (db : Tables) : Prop :=
  ¬ In i (wh_id <$> watch_history db) ∧ ¬ In i (fb_id <$> user_feedback db).

(** One request served at an instant not before the rows recorded. *)
Inductive served : Tables → Tables → Prop :=
| served_request fresh now r db :
    fresh_key fresh db →
    Forall (λ w, wh_watched_at w ≤ now) (watch_history db) →
    served db (serve fresh now r db).

(** The tables the handlers can have written: the keys are distinct, the
    durations are not negative, the feedback is of a known type, and the
    history is in the order of time. *)
Record tables_ok (db : Tables) : Prop := {
  ok_history_keys : List.NoDup (wh_id <$> watch_history db);
  ok_feedback_keys : List.NoDup (fb_id <$> user_feedback db);
  ok_durations :
    Forall (λ w, 0 ≤ wh_watch_duration_seconds w ∧ 0 ≤ wh_video_duration_seconds w)
           (watch_history db);
  ok_feedback_types :
    Forall (λ f, In (fb_feedback_type f) FEEDBACK_TYPES) (user_feedback db);
  ok_in_time : StronglySorted (λ a b, wh_watched_at a ≤ wh_watched_at b)
                              (watch_history db);
}.

Definition no_tables : Tables := mkTables [] [].

(** The items of a page of the history; none when the parameters are
    refused. *)
Definition page_items (user : uuid) (per_page : Z) (db : Tables) (page : nat) :
    list WatchHistoryItem :=
  match get_history user (Z.of_nat page) per_page db with
  | Ok response => hr_items response
  | Raise _ => []
  end.

(** ** Samples *)

Definition sample_event (seconds : Z) : WatchEvent :=
  {| ev_video_id := "v"; ev_watch_duration_seconds := seconds;
     ev_video_duration_seconds := 3600; ev_was_skipped := false;
     ev_skip_position_percent := None; ev_completed := false; ev_mode_id := None |}.

(** Three watches of user 1 (ten minutes yesterday evening, fifty and twenty
    minutes this morning) and one of user 2, as [track_watch] records them. *)
Definition sample_tables : Tables :=
  mkTables [history_row 1 1 (sample_event 600) (nine_am - timedelta_hours 12);
            history_row 2 1 (sample_event 3000) (nine_am - timedelta_hours 2);
            history_row 3 2 (sample_event 1800) (nine_am - timedelta_hours 1);
            history_row 4 1 (sample_event 1200) (nine_am - timedelta_hours 1)] [].

(** * Theorems *)

(** ** The minutes *)

Lemma minutes_agree_checked : all_below checked_seconds minutes_agree = true.
Proof. by vm_compute. Qed.

(** Below the bound, the minutes computed through binary64 are the integer
    quotient. *)
Lemma whole_minutes_div (seconds : Z) :
  0 ≤ seconds < Z.of_N checked_seconds → whole_minutes seconds = Ok (seconds / 60).
Proof.
  intros Hs. pose proof (all_below_spec _ _ minutes_agree_checked seconds Hs) as H.
  unfold minutes_agree, whole_minutes in *.
  destruct (py_int _) as [m|]; [|done]. by apply Z.eqb_eq in H as ->.
Qed.

(** ** The tables *)

Lemma since_rows_watched user since history :
  total_seconds (since_rows user since history) = watched_seconds user since history.
Proof. done. Qed.

Lemma since_rows_app user since h1 h2 :
  since_rows user since (h1 ++ h2) = since_rows user since h1 ++ since_rows user since h2.
Proof. apply List.filter_app. Qed.

Lemma total_seconds_cons w rows :
  total_seconds (w :: rows) = wh_watch_duration_seconds w + total_seconds rows.
Proof. done. Qed.

Lemma total_seconds_app r1 r2 :
  total_seconds (r1 ++ r2) = total_seconds r1 + total_seconds r2.
Proof.
  induction r1 as [|w r1 IH]; [done|].
  rewrite <-app_comm_cons, !total_seconds_cons, IH. lia.
Qed.

Lemma total_seconds_nonneg rows :
  Forall (λ w, 0 ≤ wh_watch_duration_seconds w) rows → 0 ≤ total_seconds rows.
Proof. induction 1; [done|]. rewrite total_seconds_cons. lia. Qed.

Lemma durations_nonneg db :
  tables_ok db → Forall (λ w, 0 ≤ wh_watch_duration_seconds w) (watch_history db).
Proof. intros [_ _ H _ _]. eapply Forall_impl; [done|]. by intros w [? _]. Qed.

Lemma NoDup_snoc {A} (l : list A) (x : A) :
  List.NoDup l → ¬ In x l → List.NoDup (l ++ [x]).
Proof.
  intros Hnd Hx. apply NoDup_ListNoDup, NoDup_app.
  split_and!; [by apply NoDup_ListNoDup| |apply NoDup_singleton].
  intros y Hy ->%list_elem_of_singleton. by apply Hx, list_elem_of_In.
Qed.

Lemma StronglySorted_snoc {A} (R : relation A) (l : list A) (x : A) :
  StronglySorted R l → Forall (λ a, R a x) l → StronglySorted R (l ++ [x]).
Proof.
  intros Hs Hx. apply StronglySorted_app. split_and!; [|done|by repeat constructor].
  intros a b Ha ->%list_elem_of_singleton. by eapply Forall_forall in Hx.
Qed.

Lemma event_valid_durations e :
  event_valid e = true →
  0 ≤ ev_watch_duration_seconds e ∧ 0 ≤ ev_video_duration_seconds e.
Proof. unfold event_valid. rewrite !andb_true_iff, !Z.leb_le. tauto. Qed.

Lemma track_watch_ok fresh user event db now :
  tables_ok db → fresh_key fresh db →
  Forall (λ w, wh_watched_at w ≤ now) (watch_history db) →
  tables_ok (snd (track_watch fresh user event db now)).
Proof.
  intros Hok [Hfresh _] Hnow. unfold track_watch.
  destruct (validated event_valid event) as [ev|] eqn:Hv; [|done].
  apply validated_Ok in Hv as [-> Hv]. destruct Hok.
  split; cbn [snd watch_history user_feedback]; try done.
  - rewrite fmap_app. by apply NoDup_snoc.
  - apply Forall_app. split; [done|]. repeat constructor; by apply event_valid_durations.
  - by apply StronglySorted_snoc.
Qed.

Lemma submit_feedback_ok fresh user f db now :
  tables_ok db → fresh_key fresh db →
  tables_ok (snd (submit_feedback fresh user f db now)).
Proof.
  intros Hok [_ Hfresh]. unfold submit_feedback.
  destruct (validated feedback_valid f) as [f'|] eqn:Hv; [|done].
  apply validated_Ok in Hv as [-> Hv]. destruct Hok.
  split; cbn [snd watch_history user_feedback]; try done.
  - rewrite fmap_app. by apply NoDup_snoc.
  - apply Forall_app. split; [done|]. apply Forall_singleton, in_list_In.
    unfold feedback_valid in Hv. by apply andb_true_iff in Hv as [Hv _].
Qed.

Lemma step_tables_ok db db' : tables_ok db → served db db' → tables_ok db'.
Proof.
  intros Hok Hstep. destruct Hstep as [fresh now r db Hf Hnow].
  destruct r as [user event|user f]; simpl.
  - by apply track_watch_ok.
  - by apply submit_feedback_ok.
Qed.

Lemma no_tables_ok : tables_ok no_tables.
Proof. split; simpl; constructor. Qed.

(** C18. The tables stay well formed: after any sequence of watch events
    and feedback, each served with a fresh key at an instant not before the
    rows recorded, the keys are distinct, no duration is negative, every
    feedback is of a known type and the history is in the order of time. *)
Theorem reachable_tables_ok init db :
  tables_ok init → rtc served init db → tables_ok db.
Proof.
  intros Hinit Hsteps. induction Hsteps as [|db1 db2 db3 Hstep _ IH]; [done|].
  apply IH. by eapply step_tables_ok.
Qed.

(** ** track_watch *)

(** A watch event with a negative duration, or a skip position outside
    [0, 100], is refused with a validation error and nothing is recorded. *)
Theorem track_watch_invalid fresh user event db now :
  event_valid event = false →
  track_watch fresh user event db now = (Raise ValidationError, db).
Proof. intros Hv. unfold track_watch, validated. by rewrite Hv. Qed.

(** Tracking counts against the daily limit: once a valid event is
    tracked, the seconds watched today that [check_time_limit] sums have
    grown by the seconds of the event, for the user of the event and for no
    other. *)
Theorem track_watch_counts fresh user event db now other :
  event_valid event = true →
  watched_seconds other (start_of_day now)
    (watch_history (snd (track_watch fresh user event db now))) =
  watched_seconds other (start_of_day now) (watch_history db) +
  (if other =? user then ev_watch_duration_seconds event else 0).
Proof.
  intros Hv. unfold track_watch, validated. rewrite Hv. cbn [snd watch_history].
  rewrite <-!since_rows_watched, since_rows_app, total_seconds_app. f_equal.
  unfold since_rows. cbn [List.filter history_row wh_user_id wh_watched_at].
  rewrite (Z.eqb_sym user other). destruct (other =? user); [|done].
  pose proof (start_of_day_le now) as ->%Z.leb_le. simpl. unfold total_seconds.
  simpl. lia.
Qed.

(** ** get_daily_stats *)

(** C35. The daily statistics and the session supervisor agree: on
    well-formed tables, for a user whose active mode has a daily limit and
    who watched less than three days of video today, [get_daily_stats]
    reports the minutes used, the limit and the minutes remaining that
    [check_time_limit] reports. *)
Theorem daily_stats_agree user modes mode db now limit :
  tables_ok db → get_active_mode user modes = Ok (Some mode) →
  daily_time_limit_minutes mode = Some limit → limit ≠ 0 →
  watched_seconds user (start_of_day now) (watch_history db) <
    Z.of_N checked_seconds →
  ∃ stats, get_daily_stats user modes db now = Ok stats ∧
    let r := check_time_limit user mode (watch_history db) now in
    ds_watch_time_minutes stats = used_minutes r ∧
    ds_time_limit_minutes stats = limit_minutes r ∧
    ds_time_remaining_minutes stats = remaining_minutes r.
Proof.
  intros Hok Hmode Hlimit Hne Hlt. unfold get_daily_stats, check_time_limit.
  rewrite Hmode. cbn [mbind result_bind option_bind]. rewrite Hlimit.
  rewrite since_rows_watched, whole_minutes_div.
  - eexists. split; [done|]. by destruct limit.
  - split; [|done]. by apply watched_seconds_nonneg, durations_nonneg.
Qed.

(** ** get_history *)

Lemma page_items_eq user per_page db page :
  1 ≤ per_page ≤ 100 → (1 ≤ page)%nat →
  page_items user per_page db page =
  take (Z.to_nat per_page)
    (drop ((page - 1) * Z.to_nat per_page)
       (history_item <$> latest_first (rows_of user (watch_history db)))).
Proof.
  intros Hpp Hp. unfold page_items, get_history, page_valid.
  replace ((1 <=? Z.of_nat page) && (1 <=? per_page) && (per_page <=? 100)) with true
    by (symmetry; rewrite !andb_true_iff, !Z.leb_le; lia).
  cbn [hr_items]. rewrite fmap_take, fmap_drop. do 2 f_equal. nia.
Qed.

(** The pages of the history partition it: the first [n] pages, one
    after the other, are the first [n * per_page] rows of the user, the
    latest first; so every row is on one page and on one only. *)
Theorem get_history_pages user per_page db n :
  1 ≤ per_page ≤ 100 →
  mjoin (page_items user per_page db <$> seq 1 n) =
  take (n * Z.to_nat per_page)
    (history_item <$> latest_first (rows_of user (watch_history db))).
Proof.
  intros Hpp. induction n as [|n IH]; [done|].
  rewrite seq_S, fmap_app, join_app, IH. cbn [fmap list_fmap mjoin list_join].
  rewrite page_items_eq, app_nil_r by lia.
  replace (1 + n - 1)%nat with n by lia. rewrite take_take_drop. f_equal. lia.
Qed.

(** Every page holds at most [per_page] items, and the total counts the
    rows of the user, whatever the page. *)
Lemma get_history_page user page per_page db response :
  get_history user page per_page db = Ok response →
  (length (hr_items response) ≤ Z.to_nat per_page)%nat ∧
  hr_total response = Z.of_nat (length (rows_of user (watch_history db))).
Proof.
  unfold get_history. destruct (page_valid page per_page); [|done].
  intros [= <-]. simpl. rewrite length_fmap, length_take. split; [lia|done].
Qed.

(** ** The aggregates *)

Lemma sum_of_cons g groups : sum_of (g :: groups) = g.2 + sum_of groups.
Proof. done. Qed.

Lemma add_to_day_sum day seconds groups :
  sum_of (add_to_day day seconds groups) = seconds + sum_of groups.
Proof.
  induction groups as [|[d s] groups IH]; [done|]. cbn [add_to_day].
  destruct (day <? d); [done|].
  destruct (day =? d); rewrite !sum_of_cons; cbn [snd]; [|rewrite IH]; lia.
Qed.

Lemma sum_of_nonneg groups : Forall (λ g, 0 ≤ g.2) groups → 0 ≤ sum_of groups.
Proof. induction 1; [done|]. rewrite sum_of_cons. lia. Qed.

Lemma add_to_day_days day seconds groups x :
  In x (add_to_day day seconds groups).*1 ↔ x = day ∨ In x groups.*1.
Proof.
  induction groups as [|[d s] groups IH]; simpl; [naive_solver|].
  destruct (day <? d); simpl; [naive_solver|].
  destruct (Z.eqb_spec day d) as [->|]; simpl in *; [naive_solver|].
  rewrite IH. naive_solver.
Qed.

Lemma add_to_day_sorted day seconds groups :
  StronglySorted Z.lt groups.*1 → StronglySorted Z.lt (add_to_day day seconds groups).*1.
Proof.
  induction groups as [|[d s] groups IH]; simpl; [by repeat constructor|].
  intros [Hs Hd]%StronglySorted_inv.
  destruct (Z.ltb_spec day d) as [Hlt|Hge]; simpl.
  - constructor; [by constructor|]. constructor; [done|].
    eapply Forall_impl; [done|]. simpl. lia.
  - destruct (Z.eqb_spec day d) as [->|Hne]; simpl; [by constructor|].
    constructor; [by apply IH|]. apply Forall_forall.
    intros x [->|Hx]%list_elem_of_In%add_to_day_days; [lia|].
    by eapply Forall_forall in Hd; [|apply list_elem_of_In].
Qed.

Lemma add_to_day_nonneg day seconds groups :
  0 ≤ seconds → Forall (λ g, 0 ≤ g.2) groups →
  Forall (λ g, 0 ≤ g.2) (add_to_day day seconds groups).
Proof.
  intros Hs. induction 1 as [|[d s] groups Hd Hg IH]; simpl; [by repeat constructor|].
  destruct (day <? d); [by repeat constructor|].
  destruct (day =? d); constructor; simpl in *; try done. lia.
Qed.

(** The groups of the chart: one per day, in the order of the days, and
    their seconds add up to the seconds of the rows. *)
Lemma daily_seconds_spec rows :
  StronglySorted Z.lt (daily_seconds rows).*1 ∧
  sum_of (daily_seconds rows) = total_seconds rows ∧
  (Forall (λ w, 0 ≤ wh_watch_duration_seconds w) rows →
   Forall (λ g, 0 ≤ g.2) (daily_seconds rows)).
Proof.
  induction rows as [|w rows (Hs & Hsum & Hn)]; [by repeat constructor|].
  cbn [daily_seconds fold_right]. fold (daily_seconds rows). split_and!.
  - by apply add_to_day_sorted.
  - by rewrite add_to_day_sum, Hsum.
  - intros [Hw Hr]%Forall_cons. apply add_to_day_nonneg; auto.
Qed.

Lemma sum_of_In g groups : Forall (λ g, 0 ≤ g.2) groups → In g groups → g.2 ≤ sum_of groups.
Proof.
  induction 1 as [|g' groups Hg Hn IH]; [done|]. rewrite sum_of_cons.
  pose proof (sum_of_nonneg groups Hn). intros [->|Hin]; [lia|]. specialize (IH Hin). lia.
Qed.

(** Within the bound, the chart holds the whole minutes of each day. *)
Lemma daily_usage_div groups :
  Forall (λ g, 0 ≤ g.2 < Z.of_N checked_seconds) groups →
  daily_usage groups = Ok ((λ g, (g.1, g.2 / 60)) <$> groups).
Proof.
  induction 1 as [|[d s] groups Hg _ IH]; [done|]. simpl in *.
  by rewrite whole_minutes_div, IH.
Qed.

Lemma minutes_sum_le (groups : list (Z * Z)) :
  Forall (λ g, 0 ≤ g.2) groups →
  sum_of ((λ g, (g.1, g.2 / 60)) <$> groups) ≤ sum_of groups / 60.
Proof.
  induction 1 as [|g groups Hs Hn IH]; [done|].
  pose proof (sum_of_nonneg groups Hn) as Hsum. rewrite fmap_cons, !sum_of_cons.
  cbn [snd]. revert IH Hsum Hs.
  generalize (sum_of groups) (sum_of ((λ g, (g.1, g.2 / 60)) <$> groups)) (g.2).
  intros a b c. Z.div_mod_to_equations. lia.
Qed.

Lemma count_where_le p rows : count_where p rows ≤ Z.of_nat (length rows).
Proof. unfold count_where. pose proof (filter_length_le p rows). lia. Qed.

(** ** get_analytics_summary *)

(** The summary is consistent: on well-formed tables, for a window of
    1 to 30 days in which the user watched less than three days of video,
    the summary is returned, its total is the whole minutes of the seconds
    watched, no more videos are skipped or completed than were watched, the
    chart has one entry per day in the order of the days, and the minutes
    of the chart never add up to more than the total. *)
Theorem summary_consistent user days db now :
  tables_ok db → days_valid days = true →
  let rows := since_rows user (now - timedelta_days days) (watch_history db) in
  total_seconds rows < Z.of_N checked_seconds →
  ∃ summary, get_analytics_summary user days db now = Ok summary ∧
    total_watch_time_minutes summary = total_seconds rows / 60 ∧
    videos_skipped summary ≤ videos_watched summary ∧
    videos_completed summary ≤ videos_watched summary ∧
    StronglySorted Z.lt (as_daily_usage summary).*1 ∧
    sum_of (as_daily_usage summary) ≤ total_watch_time_minutes summary.
Proof.
  intros Hok Hdays rows Hlt. unfold get_analytics_summary. rewrite Hdays. fold rows.
  assert (Forall (λ w, 0 ≤ wh_watch_duration_seconds w) rows) as Hrows.
  { apply List.Forall_forall. intros w [Hw _]%filter_In.
    by eapply List.Forall_forall in Hw; [|apply durations_nonneg]. }
  destruct (daily_seconds_spec rows) as (Hs & Hsum & Hn). specialize (Hn Hrows).
  rewrite daily_usage_div, whole_minutes_div; cbn [mbind result_bind].
  - eexists. split; [done|]. cbn. split_and!; [done|apply count_where_le..| |].
    + by rewrite <-list_fmap_compose.
    + rewrite <-Hsum. by apply minutes_sum_le.
  - split; [by apply total_seconds_nonneg|done].
  - apply List.Forall_forall. intros g Hg. split.
    + by eapply List.Forall_forall in Hn.
    + pose proof (sum_of_In g _ Hn Hg). lia.
Qed.

(** ** The theorems on the samples *)

Lemma sample_tables_ok : tables_ok sample_tables.
Proof.
  split; simpl; repeat constructor; try done; simpl; try lia;
    intros H; simpl in H; lia.
Qed.

Lemma reachable_tables_ok_witness :
  tables_ok (serve 7 nine_am (TrackWatch 1 (sample_event 600)) no_tables).
Proof.
  apply (reachable_tables_ok no_tables); [apply no_tables_ok|].
  apply rtc_once. apply (served_request 7 nine_am); [split; simpl; tauto|constructor].
Defined.

Lemma track_watch_invalid_witness :
  track_watch 7 1 (sample_event (-5)) sample_tables nine_am =
  (Raise ValidationError, sample_tables).
Proof. by apply track_watch_invalid. Defined.

Lemma track_watch_counts_witness :
  watched_seconds 1 (start_of_day nine_am)
    (watch_history (snd (track_watch 7 1 (sample_event 600) sample_tables nine_am))) =
  watched_seconds 1 (start_of_day nine_am) (watch_history sample_tables) + 600.
Proof. by apply (track_watch_counts 7 1 (sample_event 600) sample_tables nine_am 1). Defined.

Lemma daily_stats_agree_witness :
  ∃ stats, get_daily_stats 1 [limited_row] sample_tables nine_am = Ok stats ∧
    let r := check_time_limit 1 limited_row (watch_history sample_tables) nine_am in
    ds_watch_time_minutes stats = used_minutes r ∧
    ds_time_limit_minutes stats = limit_minutes r ∧
    ds_time_remaining_minutes stats = remaining_minutes r.
Proof.
  apply (daily_stats_agree 1 [limited_row] limited_row sample_tables nine_am 60);
    [apply sample_tables_ok|done..|by vm_compute].
Defined.

Lemma get_history_pages_witness :
  mjoin (page_items 1 2 sample_tables <$> seq 1 2) =
  take (2 * 2)
    (history_item <$> latest_first (rows_of 1 (watch_history sample_tables))).
Proof. apply (get_history_pages 1 2 sample_tables 2). lia. Defined.

Lemma summary_consistent_witness :
  ∃ summary, get_analytics_summary 1 7 sample_tables nine_am = Ok summary ∧
    total_watch_time_minutes summary = 4800 / 60 ∧
    videos_skipped summary ≤ videos_watched summary ∧
    videos_completed summary ≤ videos_watched summary ∧
    StronglySorted Z.lt (as_daily_usage summary).*1 ∧
    sum_of (as_daily_usage summary) ≤ total_watch_time_minutes summary.
Proof.
  apply (summary_consistent 1 7 sample_tables nine_am);
    [apply sample_tables_ok|done|by vm_compute].
Defined.
