(* ===== verification/Suggestions.v ===== *)
(** * Suggestions: routers/suggestions.py

    The endpoint [get_suggestions]: the suggestions of a fixed list that
    hold the lower-cased query, the ones that start with it first, the
    shorter before the longer, eight at most.  The sort is [list.sort] with
    the key [(0 if x.startswith(q) else 1, len(x))], a pair compared as
    Python compares tuples. *)

From Stdlib Require Import ZArith String Ascii List Sorted Permutation.
From stdpp Require Import base option list sorting.
From S2P Require Import Prelude Sorting Schemas.

Local Open Scope string_scope.
Local Open Scope list_scope.

(** [base_suggestions]. *)
Definition base_suggestions : list string :=
  ["python tutorial";
   "python for beginners";
   "python crash course";
   "programming tutorial";
   "machine learning";
   "data science";
   "web development";
   "react tutorial";
   "javascript tutorial";
   "computer science";
   "coding for beginners";
   "learn to code";
   "algorithms explained";
   "system design";
   "music playlist";
   "lofi beats";
   "study music";
   "relaxing music";
   "classical music";
   "jazz music";
   "pop music";
   "workout playlist";
   "funny videos";
   "comedy sketches";
   "stand up comedy";
   "movie trailers";
   "gaming highlights";
   "best moments";
   "productivity tips";
   "study tips";
   "how to focus";
   "time management";
   "morning routine"].

(** [Query(..., min_length=1, max_length=100)]. *)
Definition query_valid (query : string) : bool := length_between 1 100 query.

(** [s.startswith(q)]. *)
Definition startswith (s q : string) : bool := String.prefix q s.

(** [s.startswith(q) or q in s]. *)
Definition matching (q s : string) : bool := startswith s q || contains q s.

(** The key of the sort: [(0 if x.startswith(q) else 1, len(x))]. *)
Definition relevance (q x : string) : Z * nat :=
  (if startswith x q then 0%Z else 1%Z, String.length x).

(** The suggestions that match, by relevance, eight at most. *)
Definition rank_suggestions (q : string) (suggestions : list string) : list string :=
  let matching := List.filter (matching q) suggestions in
  let matching := py_sorted (lex_lt Z.eqb Z.ltb Nat.ltb) (relevance q) false matching in
  take 8 matching.

(** [get_suggestions]. *)
Definition get_suggestions (query : string) : result (list string) :=
  _ ← validated query_valid query;
  Ok (rank_suggestions (lower query) base_suggestions).

(** ** What the endpoint promises *)

(** [x] is at least as relevant to [q] as [y]: it starts with the query
    when [y] does, and among suggestions of one class it is not longer. *)
Definition no_less_relevant (q x y : string) : Prop :=
  (startswith y q = true → startswith x q = true) ∧
  (startswith x q = startswith y q → (String.length x ≤ String.length y)%nat).

(** * Theorems *)

(** A suggestion that starts with the query holds it: the first test of the
    filter adds nothing to the second. *)
Lemma matching_contains q s : matching q s = contains q s.
Proof.
  unfold matching, startswith. destruct (String.prefix q s) eqn:Hp; [|done].
  symmetry. apply contains_spec. apply prefix_spec in Hp as [rest ->].
  by exists EmptyString, rest.
Qed.

(** The order of the keys, read on the suggestions. *)
Lemma in_order_relevance q x y :
  in_order (lex_lt Z.eqb Z.ltb Nat.ltb) (relevance q) x y ↔ no_less_relevant q x y.
Proof.
  unfold in_order, lex_lt, relevance, no_less_relevant. simpl.
  destruct (startswith x q), (startswith y q); simpl;
    rewrite ?Nat.ltb_ge; naive_solver lia.
Qed.

(** The list of the suggestions has no repetition. *)
Lemma base_suggestions_NoDup : List.NoDup base_suggestions.
Proof. apply NoDup_ListNoDup, (bool_decide_unpack _). by vm_compute. Qed.

(** ** The ranking of any list *)

Section Ranking.
Variable q : string.
Variable base : list string.

Local Abbreviation sorted_matching :=
  (sort_by (lex_lt Z.eqb Z.ltb Nat.ltb) (relevance q) (List.filter (matching q) base))
  (only parsing).

Lemma rank_suggestions_length : (length (rank_suggestions q base) ≤ 8)%nat.
Proof. unfold rank_suggestions. rewrite length_take. lia. Qed.

Lemma rank_suggestions_In s :
  In s (rank_suggestions q base) → In s base ∧ contains q s = true.
Proof.
  unfold rank_suggestions. intros Hs%list_elem_of_In%subseteq_take%list_elem_of_In.
  apply py_sorted_In, List.filter_In in Hs as [Hs Hm]. by rewrite <- matching_contains.
Qed.

Lemma rank_suggestions_NoDup : List.NoDup base → List.NoDup (rank_suggestions q base).
Proof.
  intros Hb. apply NoDup_ListNoDup.
  eapply sublist_NoDup; [apply NoDup_ListNoDup|apply sublist_take].
  eapply Permutation_NoDup; [symmetry; apply py_sorted_Permutation|].
  by apply List.NoDup_filter.
Qed.

Lemma rank_suggestions_sorted :
  StronglySorted (no_less_relevant q) (rank_suggestions q base).
Proof.
  apply StronglySorted_take.
  eapply StronglySorted_impl;
    [|apply (sort_by_StronglySorted _ _ any_key), keys_in_any; done].
  intros x y. apply in_order_relevance.
Qed.

Lemma rank_suggestions_best s :
  In s base → contains q s = true → ¬ In s (rank_suggestions q base) →
  length (rank_suggestions q base) = 8%nat ∧
  Forall (λ x, no_less_relevant q x s) (rank_suggestions q base).
Proof.
  unfold rank_suggestions, py_sorted. intros Hs Hc Hout.
  assert (In s sorted_matching) as Hin.
  { apply sort_by_In, List.filter_In. by rewrite matching_contains. }
  rewrite <- (take_drop 8 sorted_matching) in Hin. apply in_app_or in Hin as [?|Hd]; [done|].
  split.
  - rewrite length_take. apply list_elem_of_In, list_elem_of_lookup_1 in Hd as [i Hi].
    apply lookup_lt_Some in Hi. rewrite length_drop in Hi. lia.
  - apply Forall_forall. intros x Hx%list_elem_of_In. apply in_order_relevance.
    by eapply (sort_by_take_drop _ _ any_key 8); [apply keys_in_any|..].
Qed.

End Ranking.

(** ** The endpoint *)

(** What an answer of the endpoint is. *)
Lemma get_suggestions_inv query suggestions :
  get_suggestions query = Ok suggestions →
  query_valid query = true ∧
  suggestions = rank_suggestions (lower query) base_suggestions.
Proof.
  intros (q & Hq%validated_Ok & Heq%Ok_inj)%bind_Ok_inv. by destruct Hq.
Qed.

Section Answer.
Variable query : string.
Variable suggestions : list string.
Hypothesis answer : get_suggestions query = Ok suggestions.

Local Abbreviation q := (lower query) (only parsing).

(** Every suggestion of the answer is one of the list and holds the
    query in lower case; there are at most eight, and none comes twice. *)
Theorem get_suggestions_sound :
  (length suggestions ≤ 8)%nat ∧ List.NoDup suggestions ∧
  Forall (λ s, In s base_suggestions ∧ contains q s = true) suggestions.
Proof.
  apply get_suggestions_inv in answer as [_ ->]. split_and!.
  - apply rank_suggestions_length.
  - apply rank_suggestions_NoDup, base_suggestions_NoDup.
  - apply Forall_forall. intros s Hs%list_elem_of_In. by apply rank_suggestions_In.
Qed.

(** C23. The answer is in the order of relevance: a suggestion comes before
    another only if it is no less relevant, that is, it starts with the
    query when the other does, and of two of one class it is not the
    longer. *)
Theorem get_suggestions_order :
  StronglySorted (no_less_relevant q) suggestions.
Proof. apply get_suggestions_inv in answer as [_ ->]. apply rank_suggestions_sorted. Qed.

(** The eight are the best: a suggestion of the list that holds the
    query and is left out of the answer is no more relevant than any
    suggestion of the answer; and when at most eight suggestions hold the
    query, none is left out. *)
Theorem get_suggestions_best s :
  In s base_suggestions → contains q s = true → ¬ In s suggestions →
  length suggestions = 8%nat ∧ Forall (λ x, no_less_relevant q x s) suggestions.
Proof. apply get_suggestions_inv in answer as [_ ->]. apply rank_suggestions_best. Qed.

End Answer.

(** A query outside the bounds is refused. *)
Lemma get_suggestions_invalid query :
  query_valid query = false → get_suggestions query = Raise ValidationError.
Proof. intros H. unfold get_suggestions, validated. by rewrite H. Qed.

(** ** The endpoint on samples *)

Lemma get_suggestions_samples :
  get_suggestions "Py" =
    Ok ["python tutorial"; "python crash course"; "python for beginners"] ∧
  get_suggestions "tutorial" =
    Ok ["react tutorial"; "python tutorial"; "javascript tutorial"; "programming tutorial"] ∧
  get_suggestions EmptyString = Raise ValidationError.
Proof. by vm_compute. Qed.

(** The query "music" matches seven suggestions; "music playlist" alone
    starts with it and comes first, before shorter ones. *)
Lemma get_suggestions_music :
  get_suggestions "MUSIC" =
    Ok ["music playlist"; "pop music"; "jazz music"; "study music"; "relaxing music";
        "classical music"].
Proof. by vm_compute. Qed.

Lemma get_suggestions_sound_witness :
  let suggestions := ["python tutorial"; "python crash course"; "python for beginners"] in
  (length suggestions ≤ 8)%nat ∧ List.NoDup suggestions ∧
  Forall (λ s, In s base_suggestions ∧ contains (lower "Py") s = true) suggestions.
Proof. apply (get_suggestions_sound "Py"). vm_compute. reflexivity. Defined.

Lemma get_suggestions_order_witness :
  StronglySorted (no_less_relevant (lower "MUSIC"))
    ["music playlist"; "pop music"; "jazz music"; "study music"; "relaxing music";
     "classical music"].
Proof. apply (get_suggestions_order "MUSIC"). vm_compute. reflexivity. Defined.

(** The query "t" is held by more than eight suggestions: "time
    management" starts with it and is served; "python tutorial" is left
    out, and none of the eight is less relevant. *)
Lemma get_suggestions_best_witness :
  ∃ suggestions,
    get_suggestions "t" = Ok suggestions ∧ In "time management" suggestions ∧
    length suggestions = 8%nat ∧
    Forall (λ x, no_less_relevant (lower "t") x "python tutorial") suggestions.
Proof.
  eexists. split; [vm_compute; reflexivity|]. split; [simpl; tauto|].
  apply (get_suggestions_best "t"); [vm_compute; reflexivity|simpl; tauto|reflexivity|].
  intros H. simpl in H. intuition discriminate.
Defined.
