(* ===== verification/DemoData.v ===== *)
(** * DemoData: services/demo_data.py

    The demonstration videos the feed serves when the platform fails: the
    table [DEMO_VIDEOS], [get_demo_videos], which labels the entries of the
    asked categories, and [generate_dynamic_videos], which fills title
    templates.  Both draw random numbers.  The generator of Python is the
    interface [Random]: a draw is named by the state of the generator (its
    seed), the turn of the loop and its place in the turn, and the
    interface promises what [random] documents: [choice] returns an element
    of its sequence, [randint] a number of its range, [shuffle] a
    permutation.  Every theorem holds of every generator.  The text of a
    date is the instant it prints. *)

From Stdlib Require Import ZArith String Ascii List Floats Permutation.
From stdpp Require Import base option list strings.
From S2P Require Import Prelude Models.

Set Warnings "-inexact-float".
Local Open Scope string_scope.
Local Open Scope Z_scope.
Local Open Scope list_scope.

(** ** The generator *)

Class Random : Type := {
  (** [random.choice(seq)] *)
  choice : Z → nat → nat → list string → string;
  (** [random.randint(lo, hi)] *)
  randint : Z → nat → nat → Z → Z → Z;
  (** the first ten digits of the MD5 of [f'{i}{random.random()}'] *)
  digest : Z → nat → string;
  (** [random.shuffle(l)] *)
  shuffle : Z → list Video → list Video;
  choice_In seed i k seq : seq ≠ [] → In (choice seed i k seq) seq;
  randint_range seed i k lo hi : lo ≤ hi → lo ≤ randint seed i k lo hi ≤ hi;
  shuffle_Permutation seed l : shuffle seed l ≡ₚ l;
}.

(** ** The table *)

(** An entry of [DEMO_VIDEOS]: every entry has these six keys. *)
Record DemoEntry : Type := demo {
  de_id : string;
  de_title : string;
  de_channel_title : string;
  de_duration_seconds : Z;
  de_view_count : Z;
  de_thumbnail_url : string;
}.

(** [DEMO_VIDEOS]: the entries of each category, in the order of the
    dictionary. *)
Definition DEMO_VIDEOS : list (string * list DemoEntry) :=
  [("EDUCATION",
    [demo "edu_1" "Python Tutorial for Beginners - Full Course" "Programming with Mosh" 3600 15000000
       "https://i.ytimg.com/vi/rfscVS0vtbw/hqdefault.jpg";
     demo "edu_2" "Machine Learning Full Course - 12 Hours" "freeCodeCamp" 43200 8000000
       "https://i.ytimg.com/vi/GwIo3gDZCVQ/hqdefault.jpg";
     demo "edu_3" "Data Science Tutorial for Beginners" "Simplilearn" 5400 3500000
       "https://i.ytimg.com/vi/ua-CiDNNj30/hqdefault.jpg";
     demo "edu_4" "JavaScript Crash Course For Beginners" "Traversy Media" 5760 6200000
       "https://i.ytimg.com/vi/hdI2bqOjy3c/hqdefault.jpg";
     demo "edu_5" "React JS Tutorial - Build a Portfolio Website" "Web Dev Simplified" 7200 2100000
       "https://i.ytimg.com/vi/I2UBjN5ER4s/hqdefault.jpg";
     demo "edu_6" "Learn TypeScript in 50 Minutes" "Fireship" 3000 4500000
       "https://i.ytimg.com/vi/ahCwqrYpIuM/hqdefault.jpg";
     demo "edu_7" "Docker Tutorial for Beginners" "TechWorld with Nana" 7200 3200000
       "https://i.ytimg.com/vi/3c-iBn73dDE/hqdefault.jpg";
     demo "edu_8" "Git and GitHub for Beginners - Crash Course" "freeCodeCamp" 5400 5800000
       "https://i.ytimg.com/vi/RGOj5yH7evk/hqdefault.jpg";
     demo "edu_9" "SQL Tutorial - Full Database Course for Beginners" "freeCodeCamp" 14400 7200000
       "https://i.ytimg.com/vi/HXV3zeQKqGY/hqdefault.jpg";
     demo "edu_10" "AWS Tutorial for Beginners" "Simplilearn" 10800 2900000
       "https://i.ytimg.com/vi/ubCNZRNjhyo/hqdefault.jpg";
     demo "edu_11" "Node.js Full Course for Beginners" "Dave Gray" 28800 1500000
       "https://i.ytimg.com/vi/f2EqECiTBL8/hqdefault.jpg";
     demo "edu_12" "Vue.js Course for Beginners" "The Net Ninja" 14400 1200000
       "https://i.ytimg.com/vi/YrxBCBibVo0/hqdefault.jpg";
     demo "edu_13" "Rust Programming Tutorial" "Let's Get Rusty" 7200 890000
       "https://i.ytimg.com/vi/OX9HJsJUDxA/hqdefault.jpg";
     demo "edu_14" "Go Programming Language Full Course" "Tech With Tim" 18000 650000
       "https://i.ytimg.com/vi/un6ZyFkqFKo/hqdefault.jpg";
     demo "edu_15" "Kubernetes Tutorial for Beginners" "TechWorld with Nana" 14400 2100000
       "https://i.ytimg.com/vi/X48VuDVv0do/hqdefault.jpg";
     demo "edu_16" "C++ Programming Course - Beginner to Advanced" "freeCodeCamp" 108000 4300000
       "https://i.ytimg.com/vi/8jLOx1hD3_o/hqdefault.jpg";
     demo "edu_17" "Java Programming Tutorial" "Bro Code" 43200 3800000
       "https://i.ytimg.com/vi/xk4_1vDrzzo/hqdefault.jpg";
     demo "edu_18" "HTML & CSS Full Course for Beginners" "SuperSimpleDev" 25200 2500000
       "https://i.ytimg.com/vi/G3e-cpL7ofc/hqdefault.jpg";
     demo "edu_19" "Linux Command Line Full Course" "freeCodeCamp" 18000 1800000
       "https://i.ytimg.com/vi/ZtqBQ68cfJc/hqdefault.jpg";
     demo "edu_20" "MongoDB Tutorial for Beginners" "The Net Ninja" 10800 980000
       "https://i.ytimg.com/vi/ExcRbA7fy_A/hqdefault.jpg"]);
   ("SCIENCE_TECH",
    [demo "tech_1" "How Does the Internet Work?" "Lesics" 900 4500000
       "https://i.ytimg.com/vi/x3c1ih2NJEg/hqdefault.jpg";
     demo "tech_2" "How AI Will Change Everything" "Veritasium" 1200 9800000
       "https://i.ytimg.com/vi/aircAruvnKk/hqdefault.jpg";
     demo "tech_3" "The Science of 3D Printing" "Stuff Made Here" 1800 3200000
       "https://i.ytimg.com/vi/n12WjLGzRWM/hqdefault.jpg";
     demo "tech_4" "Quantum Computing Explained" "Kurzgesagt" 720 12000000
       "https://i.ytimg.com/vi/JhHMJCUmq28/hqdefault.jpg";
     demo "tech_5" "SpaceX Starship Deep Dive" "Everyday Astronaut" 3600 1800000
       "https://i.ytimg.com/vi/921VbEMAwwY/hqdefault.jpg";
     demo "tech_6" "How Batteries Work" "Undecided with Matt Ferrell" 1500 2100000
       "https://i.ytimg.com/vi/QnrRnYtABkI/hqdefault.jpg";
     demo "tech_7" "The Future of Electric Cars" "MKBHD" 1200 8900000
       "https://i.ytimg.com/vi/MrUWMg1tMNI/hqdefault.jpg";
     demo "tech_8" "How Nuclear Reactors Work" "Real Engineering" 1800 5400000
       "https://i.ytimg.com/vi/poPLSgbSO6k/hqdefault.jpg";
     demo "tech_9" "The Science of Black Holes" "PBS Space Time" 1200 3800000
       "https://i.ytimg.com/vi/e-P5IFTqB98/hqdefault.jpg";
     demo "tech_10" "How CRISPR Gene Editing Works" "Kurzgesagt" 600 15000000
       "https://i.ytimg.com/vi/jAhjPd4uNFY/hqdefault.jpg";
     demo "tech_11" "Understanding Neural Networks" "3Blue1Brown" 1200 8500000
       "https://i.ytimg.com/vi/aircAruvnKk/hqdefault.jpg";
     demo "tech_12" "The James Webb Telescope Explained" "Astrum" 2400 2300000
       "https://i.ytimg.com/vi/aICaAEXDJQQ/hqdefault.jpg";
     demo "tech_13" "How Does GPS Work?" "Practical Engineering" 900 4100000
       "https://i.ytimg.com/vi/FU_pY2sTwTA/hqdefault.jpg";
     demo "tech_14" "The Science of Climate Change" "It's Okay To Be Smart" 1500 1900000
       "https://i.ytimg.com/vi/SDxufRrhqGo/hqdefault.jpg";
     demo "tech_15" "How Fusion Energy Works" "Kyle Hill" 1800 1200000
       "https://i.ytimg.com/vi/mZsaaturR6E/hqdefault.jpg";
     demo "tech_16" "Explaining Blockchain Technology" "Simply Explained" 600 3400000
       "https://i.ytimg.com/vi/SSo_EIwHSd4/hqdefault.jpg";
     demo "tech_17" "How Modern CPUs Work" "Linus Tech Tips" 1200 6700000
       "https://i.ytimg.com/vi/vqs_0W-MSB0/hqdefault.jpg";
     demo "tech_18" "The Physics of Time Travel" "Veritasium" 1800 11000000
       "https://i.ytimg.com/vi/O2jkV4BsN6U/hqdefault.jpg";
     demo "tech_19" "How mRNA Vaccines Work" "SciShow" 900 2800000
       "https://i.ytimg.com/vi/XPeeCyJReZw/hqdefault.jpg";
     demo "tech_20" "The Future of Solar Power" "Undecided with Matt Ferrell" 1200 1500000
       "https://i.ytimg.com/vi/N-yALPEpV4w/hqdefault.jpg"]);
   ("HOWTO_STYLE",
    [demo "howto_1" "How to Cook Perfect Pasta Every Time" "Gordon Ramsay" 600 8500000
       "https://i.ytimg.com/vi/UYhKDweME3A/hqdefault.jpg";
     demo "howto_2" "Home Workout - No Equipment Needed" "THENX" 1200 4200000
       "https://i.ytimg.com/vi/vc1E5CfRfos/hqdefault.jpg";
     demo "howto_3" "DIY Room Makeover on a Budget" "Mr. Kate" 1800 2100000
       "https://i.ytimg.com/vi/2V6_LNzlNOk/hqdefault.jpg";
     demo "howto_4" "Productivity Tips from a CEO" "Ali Abdaal" 900 3800000
       "https://i.ytimg.com/vi/A2sS00egAzg/hqdefault.jpg";
     demo "howto_5" "Learn Guitar in 21 Days" "Justin Guitar" 2400 5500000
       "https://i.ytimg.com/vi/BBz-Jyr23M4/hqdefault.jpg";
     demo "howto_6" "Morning Routine for Success" "Thomas Frank" 720 2300000
       "https://i.ytimg.com/vi/ysR-6wJXvHM/hqdefault.jpg";
     demo "howto_7" "How to Start a Business" "Graham Stephan" 1800 4100000
       "https://i.ytimg.com/vi/pt8VYOfr8To/hqdefault.jpg";
     demo "howto_8" "Photography Tips for Beginners" "Peter McKinnon" 1200 3600000
       "https://i.ytimg.com/vi/LxO-6rlihSg/hqdefault.jpg";
     demo "howto_9" "How to Edit Videos Like a Pro" "MKBHD" 900 5200000
       "https://i.ytimg.com/vi/O6ERELse_QY/hqdefault.jpg";
     demo "howto_10" "Beginner's Guide to Investing" "Andrei Jikh" 1500 2800000
       "https://i.ytimg.com/vi/gFQNPmLKj1k/hqdefault.jpg";
     demo "howto_11" "Home Cooking Essentials" "Joshua Weissman" 1800 3100000
       "https://i.ytimg.com/vi/qWAagS_MANg/hqdefault.jpg";
     demo "howto_12" "How to Build Good Habits" "Improvement Pill" 600 4500000
       "https://i.ytimg.com/vi/W1eYrhGeffc/hqdefault.jpg";
     demo "howto_13" "Meditation for Beginners" "Headspace" 900 2700000
       "https://i.ytimg.com/vi/thcEuMDWxoI/hqdefault.jpg";
     demo "howto_14" "How to Design Your Home" "Havenly" 1200 1800000
       "https://i.ytimg.com/vi/4ERbbJWlhgI/hqdefault.jpg";
     demo "howto_15" "Budget Travel Tips" "Kara and Nate" 1500 2400000
       "https://i.ytimg.com/vi/Ep0yLMjGkRE/hqdefault.jpg";
     demo "howto_16" "Drawing Tutorial for Beginners" "Proko" 2400 1900000
       "https://i.ytimg.com/vi/1EPNYWeEf1U/hqdefault.jpg";
     demo "howto_17" "How to Study Effectively" "Mike and Matty" 720 3200000
       "https://i.ytimg.com/vi/ukLnPbIffxE/hqdefault.jpg";
     demo "howto_18" "Yoga for Complete Beginners" "Yoga With Adriene" 1800 8900000
       "https://i.ytimg.com/vi/v7AYKMP6rOE/hqdefault.jpg";
     demo "howto_19" "Skincare Routine Guide" "James Welsh" 900 1500000
       "https://i.ytimg.com/vi/OrElyY7MFVs/hqdefault.jpg";
     demo "howto_20" "How to Learn Any Skill Fast" "Matt D'Avella" 1200 4800000
       "https://i.ytimg.com/vi/5MgBikgcWnY/hqdefault.jpg"]);
   ("MUSIC",
    [demo "music_1" "Lofi Hip Hop Radio - Beats to Study/Relax to" "Lofi Girl" 0 950000000
       "https://i.ytimg.com/vi/jfKfPfyJRdk/hqdefault.jpg";
     demo "music_2" "Classical Music Playlist for Concentration" "HALIDONMUSIC" 10800 45000000
       "https://i.ytimg.com/vi/mIYzp5rcTvU/hqdefault.jpg";
     demo "music_3" "Jazz Music for Work and Study" "Cafe Music BGM" 7200 28000000
       "https://i.ytimg.com/vi/fEvM-OUbaKs/hqdefault.jpg";
     demo "music_4" "Piano Music for Relaxation" "Relaxing Records" 3600 18000000
       "https://i.ytimg.com/vi/77ZozI0rw7w/hqdefault.jpg";
     demo "music_5" "Best Pop Songs 2024 Playlist" "Top Music" 5400 12000000
       "https://i.ytimg.com/vi/kXYiU_JCYtU/hqdefault.jpg";
     demo "music_6" "Ambient Music for Sleep" "Yellow Brick Cinema" 28800 89000000
       "https://i.ytimg.com/vi/lFcSrYw-ARY/hqdefault.jpg";
     demo "music_7" "Epic Orchestral Music Mix" "HDSounDI" 7200 34000000
       "https://i.ytimg.com/vi/d4PSHHNB0EY/hqdefault.jpg";
     demo "music_8" "Acoustic Guitar Relaxing Music" "Acoustic FM" 10800 21000000
       "https://i.ytimg.com/vi/T2K-MAdBJTo/hqdefault.jpg";
     demo "music_9" "Electronic Dance Music Mix" "NCS Release" 3600 156000000
       "https://i.ytimg.com/vi/bM7SZ5SBzyY/hqdefault.jpg";
     demo "music_10" "Chill Indie Pop Playlist" "Indie Supreme" 5400 8900000
       "https://i.ytimg.com/vi/3jWRrafhO7M/hqdefault.jpg";
     demo "music_11" "Deep House Mix for Focus" "Chill Nation" 7200 42000000
       "https://i.ytimg.com/vi/5qap5aO4i9A/hqdefault.jpg";
     demo "music_12" "Meditation Music - 1 Hour" "Soothing Relaxation" 3600 67000000
       "https://i.ytimg.com/vi/1ZYbU82GVz4/hqdefault.jpg";
     demo "music_13" "Rock Classics Playlist" "Rock Legends" 14400 23000000
       "https://i.ytimg.com/vi/1w7OgIMMRc4/hqdefault.jpg";
     demo "music_14" "R&B Soul Mix 2024" "Chill R&B" 5400 15000000
       "https://i.ytimg.com/vi/e3L1PIY1pN8/hqdefault.jpg";
     demo "music_15" "Nature Sounds - Rain and Thunder" "Relaxing White Noise" 36000 112000000
       "https://i.ytimg.com/vi/nMfPqeZjc2c/hqdefault.jpg";
     demo "music_16" "Hip Hop Workout Music" "Workout Music Service" 3600 18000000
       "https://i.ytimg.com/vi/6OVQv6wIpfg/hqdefault.jpg";
     demo "music_17" "Country Music Hits 2024" "Country Now" 7200 9500000
       "https://i.ytimg.com/vi/QfcLcDBII78/hqdefault.jpg";
     demo "music_18" "K-Pop Hits Playlist" "K-Pop Universe" 5400 78000000
       "https://i.ytimg.com/vi/UOxkGD8qRB4/hqdefault.jpg";
     demo "music_19" "Latin Dance Music Mix" "Latin Vibes" 3600 34000000
       "https://i.ytimg.com/vi/kJQP7kiw5Fk/hqdefault.jpg";
     demo "music_20" "Reggae Vibes Playlist" "Reggae Camp" 7200 12000000
       "https://i.ytimg.com/vi/wWF8ZZrI0H0/hqdefault.jpg"]);
   ("GAMING",
    [demo "game_1" "Best Gaming Moments of 2024" "GameSpot" 1200 5600000
       "https://i.ytimg.com/vi/xvFZjo5PgG0/hqdefault.jpg";
     demo "game_2" "Minecraft Hardcore Survival Series" "Dream" 2400 35000000
       "https://i.ytimg.com/vi/u9WtpyqRGbo/hqdefault.jpg";
     demo "game_3" "GTA 6 Trailer Analysis" "IGN" 900 28000000
       "https://i.ytimg.com/vi/QdBZY2fkU-0/hqdefault.jpg";
     demo "game_4" "Pro Tips for Valorant Beginners" "100 Thieves" 1500 4200000
       "https://i.ytimg.com/vi/5p3I_4EV4ZY/hqdefault.jpg";
     demo "game_5" "Elden Ring Boss Guide" "VaatiVidya" 1800 8900000
       "https://i.ytimg.com/vi/K_03kFqWfqs/hqdefault.jpg";
     demo "game_6" "Fortnite Tips and Tricks" "Ninja" 1200 15000000
       "https://i.ytimg.com/vi/jqFSW9xCUzU/hqdefault.jpg";
     demo "game_7" "Call of Duty Warzone Strategy Guide" "JGOD" 1800 3400000
       "https://i.ytimg.com/vi/R6wMB9k_uOg/hqdefault.jpg";
     demo "game_8" "League of Legends Pro Tips" "Faker" 2400 8700000
       "https://i.ytimg.com/vi/rRzxEiBLQCA/hqdefault.jpg";
     demo "game_9" "Zelda Tears of the Kingdom Secrets" "Nintendo Life" 1500 6200000
       "https://i.ytimg.com/vi/uHGShqcAHlQ/hqdefault.jpg";
     demo "game_10" "Hogwarts Legacy Complete Walkthrough" "GameRanx" 7200 4500000
       "https://i.ytimg.com/vi/1O6Qstncpnc/hqdefault.jpg";
     demo "game_11" "FIFA 24 Ultimate Team Guide" "Nepenthez" 1800 2100000
       "https://i.ytimg.com/vi/dQw4w9WgXcQ/hqdefault.jpg";
     demo "game_12" "Among Us Strategies" "Disguised Toast" 1200 12000000
       "https://i.ytimg.com/vi/kCJvNMPAsvY/hqdefault.jpg";
     demo "game_13" "Cyberpunk 2077 Build Guide" "Fextralife" 2100 3800000
       "https://i.ytimg.com/vi/UnA7tepsc7s/hqdefault.jpg";
     demo "game_14" "Spider-Man 2 PS5 Gameplay" "PlayStation" 900 18000000
       "https://i.ytimg.com/vi/nq1M_Wc4FIc/hqdefault.jpg";
     demo "game_15" "Starfield Exploration Guide" "Bethesda" 1800 5600000
       "https://i.ytimg.com/vi/pYqyVpCV-3c/hqdefault.jpg";
     demo "game_16" "Baldur's Gate 3 Class Guide" "Larian Studios" 2400 4200000
       "https://i.ytimg.com/vi/1T22wNvoNiU/hqdefault.jpg";
     demo "game_17" "Apex Legends Movement Guide" "Aceu" 1500 2900000
       "https://i.ytimg.com/vi/GKq6WfpEdBI/hqdefault.jpg";
     demo "game_18" "Palworld Beginner's Guide" "Arekkz Gaming" 1800 7800000
       "https://i.ytimg.com/vi/qLCAK83fVOc/hqdefault.jpg";
     demo "game_19" "Final Fantasy XVI Review" "SkillUp" 2700 1500000
       "https://i.ytimg.com/vi/mWBTdj6sLkA/hqdefault.jpg";
     demo "game_20" "Diablo 4 Endgame Guide" "Rhykker" 2100 2300000
       "https://i.ytimg.com/vi/BibhFSqWL0I/hqdefault.jpg"]);
   ("ENTERTAINMENT",
    [demo "ent_1" "Top 10 Movies of 2024" "WatchMojo" 1200 7800000
       "https://i.ytimg.com/vi/w7ejDZ8SWv8/hqdefault.jpg";
     demo "ent_2" "Stand-Up Comedy Special" "Netflix Comedy" 3600 12000000
       "https://i.ytimg.com/vi/0ZBD2tcKZak/hqdefault.jpg";
     demo "ent_3" "Travel Vlog: Japan 2024" "Lost LeBlanc" 1800 4500000
       "https://i.ytimg.com/vi/FyU1a4c1Tdk/hqdefault.jpg";
     demo "ent_4" "Celebrity Interview Collection" "The Tonight Show" 2700 9200000
       "https://i.ytimg.com/vi/4SVaHxJhTmk/hqdefault.jpg";
     demo "ent_5" "Animation Short Film Compilation" "CGMeetup" 1500 3800000
       "https://i.ytimg.com/vi/skV-q5KjrUA/hqdefault.jpg";
     demo "ent_6" "Best TV Shows 2024" "CineFix" 1800 5600000
       "https://i.ytimg.com/vi/t3217H8JppI/hqdefault.jpg";
     demo "ent_7" "Hidden Gems on Netflix" "MovieFlame" 1200 3200000
       "https://i.ytimg.com/vi/Eas5bH-07QE/hqdefault.jpg";
     demo "ent_8" "Behind the Scenes: Marvel Movies" "Marvel Entertainment" 900 18000000
       "https://i.ytimg.com/vi/TcMBFSGVi1c/hqdefault.jpg";
     demo "ent_9" "Oscar Winners Best Speeches" "Oscars" 2100 8400000
       "https://i.ytimg.com/vi/GNjpxdqJWOY/hqdefault.jpg";
     demo "ent_10" "True Crime Documentary" "Netflix" 5400 15000000
       "https://i.ytimg.com/vi/8WKgAkpBYGI/hqdefault.jpg";
     demo "ent_11" "Broadway Musicals Best Moments" "Broadway HD" 1800 2100000
       "https://i.ytimg.com/vi/MpYGVEpz56U/hqdefault.jpg";
     demo "ent_12" "Food Challenge: 24 Hours" "MrBeast" 1200 89000000
       "https://i.ytimg.com/vi/TQHEJj68Jew/hqdefault.jpg";
     demo "ent_13" "World's Most Amazing Places" "Beautiful Destinations" 600 34000000
       "https://i.ytimg.com/vi/xSWGUVoDHvs/hqdefault.jpg";
     demo "ent_14" "Funny Animal Compilation" "The Pet Collective" 900 56000000
       "https://i.ytimg.com/vi/MuJt4uLlT7g/hqdefault.jpg";
     demo "ent_15" "Extreme Sports Compilation" "Red Bull" 1500 23000000
       "https://i.ytimg.com/vi/JELm-y8lMb4/hqdefault.jpg";
     demo "ent_16" "Magic Tricks Revealed" "Penn & Teller" 1800 12000000
       "https://i.ytimg.com/vi/8osRaFTtgHo/hqdefault.jpg";
     demo "ent_17" "Talent Show Best Auditions" "Got Talent Global" 2400 67000000
       "https://i.ytimg.com/vi/POLPxzP2BNg/hqdefault.jpg";
     demo "ent_18" "World Records Being Broken" "Guinness World Records" 1200 45000000
       "https://i.ytimg.com/vi/a6WnRBsOIl8/hqdefault.jpg";
     demo "ent_19" "Satisfying Video Compilation" "Oddly Satisfying" 600 78000000
       "https://i.ytimg.com/vi/7UH2j4vLWas/hqdefault.jpg";
     demo "ent_20" "Prank Wars Compilation" "Dude Perfect" 1500 34000000
       "https://i.ytimg.com/vi/bpyX5E1tARY/hqdefault.jpg"])].

(** [templates]: the title templates of each category. *)
Definition templates : list (string * list string) :=
  [("EDUCATION",
    ["{topic} Tutorial for Beginners";
     "Learn {topic} in {time}";
     "{topic} Full Course";
     "Master {topic} Step by Step";
     "{topic} Complete Guide";
     "Introduction to {topic}";
     "{topic} Crash Course";
     "Advanced {topic} Techniques";
     "{topic} Tips and Tricks";
     "{topic} Best Practices"]);
   ("SCIENCE_TECH",
    ["How {tech} Works";
     "The Science of {topic}";
     "{tech} Explained Simply";
     "The Future of {tech}";
     "{topic} Deep Dive";
     "Understanding {topic}";
     "{tech} vs {alt_tech}";
     "Why {tech} Matters";
     "{topic} Revolution";
     "Inside {tech}"]);
   ("NEWS_POLITICS",
    ["Breaking: {topic} Update {year}";
     "Analysis: The {topic} Situation";
     "Daily News Roundup: {topic}";
     "What's Happening with {topic}";
     "{topic}: Expert Analysis";
     "Current Events: {topic} Report";
     "Weekly News: {topic} Updates";
     "{topic} News Explained";
     "Top Stories: {topic} Today";
     "News Brief: {topic} Summary"]);
   ("HOWTO_STYLE",
    ["How to {action} - Complete Guide";
     "{action} Tips for Beginners";
     "DIY {project} Tutorial";
     "Easy Ways to {action}";
     "{action} Step by Step";
     "Quick {action} Tutorial";
     "Best {action} Techniques";
     "Beginner's Guide to {action}";
     "{action} Made Simple";
     "Pro Tips for {action}"]);
   ("MUSIC",
    ["{genre} Music for {activity}";
     "{mood} {genre} Playlist";
     "Best {genre} Hits {year}";
     "{genre} Mix - {duration}";
     "Relaxing {genre} Music";
     "{genre} Vibes";
     "{mood} Songs Playlist";
     "{genre} for Focus";
     "Chill {genre} Mix";
     "{genre} Essentials"]);
   ("GAMING",
    ["{game} Gameplay - Full Walkthrough";
     "{game} Tips and Tricks";
     "Best {game} Strategies";
     "{game} Pro Guide";
     "{game} for Beginners";
     "{game} Stream Highlights";
     "{game} Epic Moments";
     "{game} Tutorial";
     "{game} Ranked Guide";
     "{game} Review {year}"]);
   ("ENTERTAINMENT",
    ["Top 10 {topic} Moments";
     "Best of {topic} {year}";
     "{topic} Compilation";
     "Amazing {topic} Stories";
     "{topic} Documentary";
     "{topic} Behind the Scenes";
     "Incredible {topic} Facts";
     "{topic} Highlights";
     "Epic {topic} Moments";
     "{topic} Review"])].

Definition topics : list string :=
  ["Python"; "JavaScript"; "React"; "Machine Learning"; "AI"; "Data Science"; "Web Development"; "Mobile Apps"; "Cloud Computing"; "DevOps"; "Cybersecurity"].

Definition techs : list string :=
  ["Quantum Computing"; "Blockchain"; "5G"; "IoT"; "VR"; "AR"; "Robotics"; "Drones"].

Definition genres : list string :=
  ["Lofi"; "Jazz"; "Classical"; "Electronic"; "Ambient"; "Pop"; "Rock"; "Hip Hop"].

Definition moods : list string :=
  ["Chill"; "Upbeat"; "Relaxing"; "Energetic"; "Peaceful"; "Happy"].

Definition activities : list string :=
  ["Study"; "Work"; "Sleep"; "Focus"; "Meditation"; "Coding"; "Reading"].

Definition actions : list string :=
  ["Cook"; "Build"; "Create"; "Design"; "Organize"; "Clean"; "Decorate"; "Fix"].

Definition projects : list string :=
  ["Furniture"; "Garden"; "Room Decor"; "Storage"; "Kitchen"; "Office"; "Workshop"].

Definition games : list string :=
  ["Minecraft"; "Fortnite"; "Valorant"; "GTA"; "Elden Ring"; "Zelda"; "Mario"; "Pokemon"].

Definition channels : list string :=
  ["TechMaster"; "CodeAcademy"; "ScienceHub"; "MusicVibes"; "LearnDaily"; "DigitalNomad"; "StudyBuddy"; "FutureTech"; "ChillBeats"; "EduPro"; "NewsToday"; "GamePro"; "DIYMaster"; "TopNews"; "EntertainNow"].

(** ** Dictionaries and text *)

(** [d.get(key)] on a dictionary written as its items. *)
Definition lookup_key {A} (key : string) (d : list (string * A)) : option A :=
  snd <$> List.find (λ item, String.eqb item.1 key) d.

(** [key in d]. *)
Definition has_key {A} (key : string) (d : list (string * A)) : bool :=
  bool_decide (is_Some (lookup_key key d)).

(** [s.replace(old, new)] for a non-empty [old]: the occurrences are
    replaced from the left, and the text of an occurrence is not searched
    again; [skip] counts the characters of an occurrence still to pass. *)
Fixpoint replace_from (old new : string) (skip : nat) (s : string) : string :=
  match s with
  | EmptyString => EmptyString
  | String c rest =>
      match skip with
      | S k => replace_from old new k rest
      | O =>
          if String.prefix old s
          then new +:+ replace_from old new (String.length old - 1) rest
          else String c (replace_from old new 0 rest)
      end
  end.

Definition replace (old new s : string) : string := replace_from old new 0 s.

(** [0.3 if category in ["EDUCATION", "SCIENCE_TECH"] else 0.6]. *)
Definition default_entertainment (category : string) : float :=
  if in_list category ["EDUCATION"; "SCIENCE_TECH"] then 0.3%float else 0.6%float.

(** ** get_demo_videos *)

(** The entries of the asked categories, each with its category; of all
    the categories when none is asked. *)
Definition labelled (categories : list string) : list (string * DemoEntry) :=
  match categories with
  | [] => cat_videos ← DEMO_VIDEOS; (λ video, (cat_videos.1, video)) <$> cat_videos.2
  | _ =>
      cat ← categories;
      match lookup_key cat DEMO_VIDEOS with
      | Some videos => (λ video, (cat, video)) <$> videos
      | None => []
      end
  end.

Section Demo.
Context `{Random}.

(** The state of the generator when the function is called, and the
    instant. *)
Variable seed : Z.
Variable now : datetime.

(** The common fields of the [i]-th video. *)
Definition demo_fields (i : nat) (entry : string * DemoEntry) : Video :=
  let (category, video) := entry in
  {| v_id := Val (de_id video +:+ "_" +:+ str_Z (randint seed i 0 1000 9999));
     v_title := Val (de_title video);
     v_description := Missing; v_channel_id := Missing;
     v_channel_title := Val (de_channel_title video);
     v_thumbnail_url :=
       Val (if String.eqb (de_thumbnail_url video) EmptyString
            then "https://via.placeholder.com/320x180?text=" +:+ take_str 20 (de_title video)
            else de_thumbnail_url video);
     v_duration_seconds := Val (de_duration_seconds video);
     v_is_short := Val (de_duration_seconds video <? 60);
     v_language := Missing; v_tags := Missing;
     v_view_count := Val (de_view_count video); v_like_count := Missing;
     v_published_at := Val (now - timedelta_days (randint seed i 1 1 365));
     v_transcript := Missing; v_category := Val category; v_depth_score := Missing;
     v_clickbait_score := Val 0.1%float;
     v_entertainment_score := Val (default_entertainment category) |}.

(** [get_demo_videos]. *)
Definition get_demo_videos (categories : list string) (max_results : Z) : list Video :=
  let all_videos := imap demo_fields (labelled categories) in
  take (Z.to_nat max_results) (shuffle seed all_videos).

(** ** generate_dynamic_videos *)

(** The categories that have templates, [EDUCATION] when there is none. *)
Definition available_cats (categories : list string) : list string :=
  let asked := match categories with [] => DEMO_VIDEOS.*1 | _ => categories end in
  match List.filter (λ c, has_key c templates) asked with
  | [] => ["EDUCATION"]
  | cats => cats
  end.

(** The placeholders in the order the loop fills them, each with the
    sequence its value is drawn from. *)
Definition placeholders : list (string * list string) :=
  [("{topic}", topics); ("{tech}", techs); ("{alt_tech}", techs); ("{genre}", genres);
   ("{mood}", moods); ("{activity}", activities); ("{action}", actions);
   ("{project}", projects); ("{game}", games);
   ("{time}", ["1 Hour"; "30 Minutes"; "2 Hours"]);
   ("{duration}", ["1 Hour Mix"; "2 Hour Session"])].

(** One [title.replace(placeholder, random.choice(values))]; the draw is
    made whether the placeholder occurs or not. *)
Definition fill (i : nat) (title : string) (k : nat) (p : string * list string) : string :=
  replace p.1 (choice seed i (S k) p.2) title.

(** The title of the [i]-th video of a category. *)
Definition dynamic_title (i : nat) (cat : string) : string :=
  let title_templates :=
    default (default [] (lookup_key "EDUCATION" templates)) (lookup_key cat templates) in
  let title := choice seed i 0 title_templates in
  let title := foldl (λ title kp, fill i title kp.1 kp.2) title (imap pair placeholders) in
  replace "{year}" "2024" title.

(** The [i]-th generated video. *)
Definition dynamic_video (cats : list string) (i : nat) : Video :=
  let cat := default "EDUCATION" (cats !! (i mod length cats)%nat) in
  {| v_id := Val ("gen_" +:+ digest seed i);
     v_title := Val (dynamic_title i cat);
     v_description := Missing; v_channel_id := Missing;
     v_channel_title := Val (choice seed i 12 channels);
     v_thumbnail_url :=
       Val ("https://picsum.photos/seed/" +:+ str_Z (Z.of_nat i) +:+ "/320/180");
     v_duration_seconds := Val (randint seed i 13 300 7200);
     v_is_short := Val false;
     v_language := Missing; v_tags := Missing;
     v_view_count := Val (randint seed i 14 100000 50000000); v_like_count := Missing;
     v_published_at := Val (now - timedelta_days (randint seed i 15 1 365));
     v_transcript := Missing; v_category := Val cat; v_depth_score := Missing;
     v_clickbait_score := Val 0.1%float;
     v_entertainment_score := Val (default_entertainment cat) |}.

(** [generate_dynamic_videos]. *)
Definition generate_dynamic_videos (categories : list string) (count : Z) : list Video :=
  dynamic_video (available_cats categories) <$> seq 0 (Z.to_nat count).

End Demo.

(** ** A generator for the samples *)

(** The generator that always draws the first element, the lower bound and
    the identity. *)
#[export, refine] Instance first_draws : Random := {
  choice _ _ _ seq := default EmptyString (head seq);
  randint _ _ _ lo _ := lo;
  digest _ i := "0000000000";
  shuffle _ l := l;
}.
Proof.
  - intros _ _ _ [|s seq] Hne; [done|]. by left.
  - intros. lia.
  - done.
Defined.

(** * Theorems *)

(** ** The tables *)

(** The table has six categories of twenty entries, every entry under an
    identifier of its own; the templates cover these and [NEWS_POLITICS]. *)
Lemma DEMO_VIDEOS_shape :
  DEMO_VIDEOS.*1 =
    ["EDUCATION"; "SCIENCE_TECH"; "HOWTO_STYLE"; "MUSIC"; "GAMING"; "ENTERTAINMENT"] ∧
  Forall (λ cat_videos, length cat_videos.2 = 20%nat) DEMO_VIDEOS ∧
  List.NoDup (de_id <$> (DEMO_VIDEOS ≫= snd)) ∧
  templates.*1 =
    ["EDUCATION"; "SCIENCE_TECH"; "NEWS_POLITICS"; "HOWTO_STYLE"; "MUSIC"; "GAMING";
     "ENTERTAINMENT"] ∧
  Forall (λ cat_titles, cat_titles.2 ≠ []) templates.
Proof.
  split_and!; [done|by repeat constructor| |done|by repeat constructor].
  apply NoDup_ListNoDup, (bool_decide_unpack _). by vm_compute.
Qed.

(** A key that is found is a key of the dictionary. *)
Lemma lookup_key_In {A} key (d : list (string * A)) a :
  lookup_key key d = Some a → In (key, a) d.
Proof.
  unfold lookup_key. destruct (List.find _ d) as [[k a']|] eqn:Hf; [|done].
  intros [= <-]. apply List.find_some in Hf as [Hin Hk]. simpl in Hk.
  by apply String.eqb_eq in Hk as ->.
Qed.

Lemma has_key_spec {A} key (d : list (string * A)) :
  has_key key d = true ↔ ∃ a, lookup_key key d = Some a.
Proof. unfold has_key. by rewrite bool_decide_eq_true. Qed.

(** ** replace *)

(** A text that does not hold [old] is left as it is. *)
Lemma replace_absent old new s : contains old s = false → replace old new s = s.
Proof.
  unfold replace. induction s as [|c s IH]; [done|]. rewrite contains_cons.
  intros [Hp Hc]%orb_false_iff. cbn [replace_from]. by rewrite Hp, IH.
Qed.

(** ** get_demo_videos *)

(** The labelled entries are entries of the table under their category,
    which is one of the asked when any is. *)
Lemma labelled_In categories cat entry :
  In (cat, entry) (labelled categories) →
  (∃ videos, In (cat, videos) DEMO_VIDEOS ∧ In entry videos) ∧
  (categories ≠ [] → In cat categories).
Proof.
  intros Hin%list_elem_of_In.
  assert (∃ c,
    (categories ≠ [] → In c categories) ∧ ∃ videos, In (c, videos) DEMO_VIDEOS ∧
      (cat, entry) ∈ (λ video, (c, video)) <$> videos) as (c & Hc & videos & Hv & He).
  { destruct categories as [|c0 cs]; unfold labelled in Hin;
      apply list_elem_of_bind in Hin as (x & Hx & Hin).
    - destruct x as [c videos]. exists c. split; [done|]. exists videos.
      by split; [apply list_elem_of_In|].
    - exists x. split; [intros _; by apply list_elem_of_In|].
      destruct (lookup_key x DEMO_VIDEOS) as [videos|] eqn:Hl; [|by apply elem_of_nil in Hx].
      exists videos. by split; [apply lookup_key_In|]. }
  apply list_elem_of_fmap in He as (video & [= -> ->] & Hin'%list_elem_of_In).
  split; [by exists videos|done].
Qed.

(** The categories of the table are categories of the templates. *)
Lemma DEMO_VIDEOS_templates cat :
  has_key cat templates = false → lookup_key cat DEMO_VIDEOS = None.
Proof.
  intros Ht. destruct (lookup_key cat DEMO_VIDEOS) as [videos|] eqn:Hl; [|done].
  apply lookup_key_In, (in_map fst) in Hl. simpl in Hl.
  by decompose [or] Hl; subst.
Qed.

(** No entry of the table is labelled for categories without templates. *)
Lemma labelled_without_templates categories :
  categories ≠ [] → Forall (λ c, has_key c templates = false) categories →
  labelled categories = [].
Proof.
  intros Hne Hall. assert (categories ≫= (λ cat,
    match lookup_key cat DEMO_VIDEOS with
    | Some videos => (λ video, (cat, video)) <$> videos
    | None => []
    end) = []) as Hl.
  { clear Hne. induction Hall as [|c l Hc _ IH]; [done|].
    cbn [mbind list_bind]. by rewrite (DEMO_VIDEOS_templates c Hc), IH. }
  by destruct categories.
Qed.

(** Nor is any video returned for them. *)
Lemma get_demo_videos_without_templates `{Random} seed now categories max_results :
  categories ≠ [] → Forall (λ c, has_key c templates = false) categories →
  get_demo_videos seed now categories max_results = [].
Proof.
  intros Hne Hall. unfold get_demo_videos. rewrite labelled_without_templates by done.
  simpl. by rewrite (proj1 (Permutation_nil_r _) (shuffle_Permutation seed [])), take_nil.
Qed.

Section DemoTheorems.
Context `{Random}.
Variable seed : Z.
Variable now : datetime.

Local Abbreviation get_demo_videos := (get_demo_videos seed now) (only parsing).
Local Abbreviation generate_dynamic_videos := (generate_dynamic_videos seed now) (only parsing).

(** The videos returned are labelled entries with their common fields. *)
Lemma get_demo_videos_inv categories max_results video :
  In video (get_demo_videos categories max_results) →
  ∃ i entry, In entry (labelled categories) ∧ video = demo_fields seed now i entry.
Proof.
  unfold DemoData.get_demo_videos. intros Hin%list_elem_of_In%subseteq_take.
  rewrite shuffle_Permutation in Hin.
  apply elem_of_lookup_imap_1 in Hin as (i & entry & -> & He).
  exists i, entry. split; [|done]. by eapply list_elem_of_In, list_elem_of_lookup_2.
Qed.

(** What [get_demo_videos] returns: at most [max_results] videos, each
    an entry of the table under its category, which is one of the asked
    categories when any is asked; its identifier is the identifier of the
    entry with a suffix from 1000 to 9999, it is a short exactly when the
    entry lasts less than a minute, and its entertainment score is the
    default of its category. *)
Theorem get_demo_videos_sound categories max_results :
  (length (get_demo_videos categories max_results) ≤ Z.to_nat max_results)%nat ∧
  Forall (λ video, ∃ cat entry suffix,
    (∃ videos, In (cat, videos) DEMO_VIDEOS ∧ In entry videos) ∧
    (categories ≠ [] → In cat categories) ∧
    1000 ≤ suffix ≤ 9999 ∧
    v_id video = Val (de_id entry +:+ "_" +:+ str_Z suffix) ∧
    v_category video = Val cat ∧
    v_duration_seconds video = Val (de_duration_seconds entry) ∧
    v_is_short video = Val (de_duration_seconds entry <? 60) ∧
    v_entertainment_score video = Val (default_entertainment cat))
    (get_demo_videos categories max_results).
Proof.
  split; [unfold DemoData.get_demo_videos; rewrite length_take; lia|].
  apply Forall_forall. intros video (i & [cat entry] & He & ->)%list_elem_of_In%get_demo_videos_inv.
  apply labelled_In in He as [Ht Hc].
  exists cat, entry, (randint seed i 0 1000 9999). split_and!; try done;
    by apply randint_range.
Qed.

(** The categories of the generated videos: there is one, and each has
    templates. *)
Lemma available_cats_spec categories :
  available_cats categories ≠ [] ∧
  Forall (λ c, has_key c templates = true) (available_cats categories).
Proof.
  unfold available_cats. set (asked := match categories with [] => _ | _ => _ end).
  destruct (List.filter _ asked) as [|c cs] eqn:Hf; [split; [done|by repeat constructor]|].
  split; [done|]. rewrite <- Hf. apply Forall_forall. intros c' Hc%list_elem_of_In.
  by apply List.filter_In in Hc as [_ Hc].
Qed.

(** When no asked category has templates, the videos are generated for
    [EDUCATION]. *)
Lemma available_cats_fallback categories :
  categories ≠ [] → Forall (λ c, has_key c templates = false) categories →
  available_cats categories = ["EDUCATION"].
Proof.
  intros Hne Hall. unfold available_cats.
  assert (List.filter (λ c, has_key c templates) categories = []) as Hf.
  { clear Hne. induction Hall as [|x l Hx _ IH]; [done|]. simpl. by rewrite Hx. }
  destruct categories; [done|]. by rewrite Hf.
Qed.

(** When every asked category has templates, the videos are generated for
    the asked categories. *)
Lemma available_cats_all categories :
  categories ≠ [] → Forall (λ c, has_key c templates = true) categories →
  available_cats categories = categories.
Proof.
  intros Hne Hall. unfold available_cats.
  assert (List.filter (λ c, has_key c templates) categories = categories) as Hf.
  { clear Hne. induction Hall as [|x l Hx _ IH]; [done|]. simpl. by rewrite Hx, IH. }
  destruct categories; [done|]. by rewrite Hf.
Qed.

(** The category of the [i]-th turn: the categories are taken in turn. *)
Lemma dynamic_video_category cats i :
  cats ≠ [] →
  ∃ cat, cats !! (i mod length cats)%nat = Some cat ∧
    v_category (dynamic_video seed now cats i) = Val cat.
Proof.
  intros Hne. destruct (lookup_lt_is_Some_2 cats (i mod length cats)%nat) as [cat Hc].
  { apply Nat.mod_upper_bound. by destruct cats. }
  exists cat. split; [done|]. unfold dynamic_video. by rewrite Hc.
Qed.

(** What [generate_dynamic_videos] returns: [count] videos; the
    [i]-th has the category of place [i] modulo their number among the
    categories that have templates, lasts between five minutes and two
    hours and is no short. *)
Theorem generate_dynamic_videos_spec categories count :
  length (generate_dynamic_videos categories count) = Z.to_nat count ∧
  ∀ i video, generate_dynamic_videos categories count !! i = Some video →
    ∃ cat duration,
      available_cats categories !! (i mod length (available_cats categories))%nat =
        Some cat ∧
      has_key cat templates = true ∧ v_category video = Val cat ∧
      v_is_short video = Val false ∧
      v_duration_seconds video = Val duration ∧ 300 ≤ duration ≤ 7200 ∧
      v_entertainment_score video = Val (default_entertainment cat).
Proof.
  unfold DemoData.generate_dynamic_videos. split; [by rewrite length_fmap, length_seq|].
  intros i video Hi. rewrite list_lookup_fmap in Hi.
  destruct (seq 0 _ !! i) as [j|] eqn:Hj; [|done]. injection Hi as <-.
  apply lookup_seq in Hj as [-> _]. simpl.
  destruct (available_cats_spec categories) as [Hne Hall].
  destruct (dynamic_video_category (available_cats categories) i Hne) as (cat & Hc & Hv).
  exists cat, (randint seed i 13 300 7200). split_and!; try done.
  - by eapply (proj1 (Forall_forall _ _) Hall), list_elem_of_lookup_2.
  - by apply randint_range.
  - by apply randint_range.
  - unfold dynamic_video. by rewrite Hc.
Qed.

End DemoTheorems.

(** ** The functions on the sample generator *)

(** The first entry of [MUSIC] is a live stream of no duration, and so a
    short. *)
Lemma get_demo_videos_sample :
  (λ v, (v_id v, v_category v, v_is_short v)) <$>
    get_demo_videos 7 0 ["MUSIC"; "COMEDY"] 2 =
  [(Val "music_1_1000", Val "MUSIC", Val true);
   (Val "music_2_1000", Val "MUSIC", Val false)].
Proof. by vm_compute. Qed.

Lemma generate_dynamic_videos_sample :
  (λ v, (v_title v, v_category v, v_duration_seconds v)) <$>
    generate_dynamic_videos 7 0 ["MUSIC"; "COMEDY"; "GAMING"] 3 =
  [(Val "Lofi Music for Study", Val "MUSIC", Val 300);
   (Val "Minecraft Gameplay - Full Walkthrough", Val "GAMING", Val 300);
   (Val "Lofi Music for Study", Val "MUSIC", Val 300)].
Proof. by vm_compute. Qed.
