(* ===== verification/FeedDemo.v ===== *)
(** * FeedDemo: the feed over the demonstration data

    [get_feed] of routers/feed.py with the functions it imports from
    services/demo_data.py in the place of the parameters of [Feed]: what
    the feed is when the platform fails.  The theorems hold of every
    generator of random numbers ([Random]) and every state of it. *)

From Stdlib Require Import ZArith String Ascii List Floats Permutation.
From stdpp Require Import base option list strings gmap.
From S2P Require Import Prelude Models Presets Schemas FilterEngine Classifier Cache.
From S2P Require Import FocusEngine YouTube Platform Pipeline Feed DemoData.

Set Warnings "-inexact-float".
Local Open Scope string_scope.
Local Open Scope Z_scope.
Local Open Scope list_scope.

(** A video holds a value under every key the loop of the demonstration
    feed reads. *)
Definition demo_complete (video : Video) : bool :=
  video_typed video &&
  bool_decide (is_Some (get_none (v_category video))) &&
  bool_decide (is_Some (get_none (v_clickbait_score video))) &&
  bool_decide (is_Some (get_none (v_entertainment_score video))).

Section FeedDemo.
Context {S : Type} `{CacheGateway S} `{Random}.

Variable fromisoformat : string → option datetime.
Variable search_endpoint : Params → result (Answer SearchItem).
Variable videos_endpoint : Params → result (Answer VideoItem).
Variable int_of_str : string → option Z.

(** The state of the generator when [get_demo_videos] is called. *)
Variable entropy : Z.

(** The pool of [get_feed]: [get_demo_videos] and
    [generate_dynamic_videos] of the demonstration data, shuffled. *)
Definition served_pool (active_mode : FocusMode) (max_results : Z)
    (page_token : option string) (now : datetime) : list Video :=
  demo_pool (get_demo_videos entropy now)
    (λ categories count seed, generate_dynamic_videos seed now categories count)
    shuffle int_of_str active_mode max_results page_token now.

(** The feed of demonstration videos [get_feed] serves. *)
Definition served_demo_feed (active_mode : FocusMode) (max_results : Z)
    (page_token : option string) (now : datetime) : result FeedResponse :=
  demo_feed (get_demo_videos entropy now)
    (λ categories count seed, generate_dynamic_videos seed now categories count)
    shuffle int_of_str active_mode max_results page_token now.

(** [get_feed] as the router runs it. *)
Definition served_feed (max_results : Z) (page_token : option string) (user : uuid)
    (modes : list FocusMode) (cache : S) (now : datetime) : result FeedResponse * S :=
  get_feed fromisoformat search_endpoint videos_endpoint (get_demo_videos entropy now)
    (λ categories count seed, generate_dynamic_videos seed now categories count)
    shuffle int_of_str max_results page_token user modes cache now.

End FeedDemo.

(** A mode of user 1 that allows the categories of the travel preset. *)
Definition travel_mode : FocusMode := preset_mode 9 1 true preset_travel.

(** * Theorems *)

(** ** Lists *)

(** A function that admits every element of a list drops none. *)
Lemma omap_length_all {A B} (f : A → option B) l :
  Forall (λ x, is_Some (f x)) l → length (omap f l) = length l.
Proof. induction 1 as [|x l [y Hy] _ IH]; [done|]. simpl. by rewrite Hy, <- IH. Qed.

(** A function that admits no element of a list leaves nothing. *)
Lemma omap_none {A B} (f : A → option B) l :
  Forall (λ x, f x = None) l → omap f l = [].
Proof. induction 1 as [|x l Hx _ IH]; [done|]. simpl. by rewrite Hx. Qed.

(** ** The videos of the demonstration data *)

Section FeedDemoTheorems.
Context {S : Type} `{CacheGateway S} `{Random}.
Variable fromisoformat : string → option datetime.
Variable search_endpoint : Params → result (Answer SearchItem).
Variable videos_endpoint : Params → result (Answer VideoItem).
Variable int_of_str : string → option Z.
Variable entropy : Z.

Local Abbreviation served_pool := (served_pool int_of_str entropy) (only parsing).
Local Abbreviation served_demo_feed := (served_demo_feed int_of_str entropy) (only parsing).
Local Abbreviation served_feed :=
  (served_feed fromisoformat search_endpoint videos_endpoint int_of_str entropy)
  (only parsing).

(** The videos of both sources hold every key the loop reads. *)
Lemma get_demo_videos_complete seed now categories max_results :
  Forall (λ video, demo_complete video = true)
         (get_demo_videos seed now categories max_results).
Proof.
  apply Forall_forall.
  by intros video (i & [cat entry] & _ & ->)%list_elem_of_In%get_demo_videos_inv.
Qed.

Lemma generate_dynamic_videos_complete seed now categories count :
  Forall (λ video, demo_complete video = true)
         (generate_dynamic_videos seed now categories count).
Proof.
  apply Forall_forall. unfold generate_dynamic_videos.
  by intros video (i & -> & _)%list_elem_of_fmap.
Qed.

Lemma served_pool_complete mode max_results page_token now :
  Forall (λ video, demo_complete video = true)
         (served_pool mode max_results page_token now).
Proof.
  unfold FeedDemo.served_pool, demo_pool. rewrite shuffle_Permutation.
  apply Forall_app. split;
    [apply get_demo_videos_complete|apply generate_dynamic_videos_complete].
Qed.

(** The judgement of a complete video does not raise. *)
Lemma demo_judge_complete mode video :
  demo_complete video = true → is_ok (demo_judge mode video ()).1 = true.
Proof.
  unfold demo_complete, video_typed. rewrite !andb_true_iff, !bool_decide_eq_true.
  intros [[[[[[[[i Hi]%get_none_is_Some [t Ht]%get_none_is_Some] [d Hd]] [s Hs]] [n Hn]]
    [c Hc]%get_none_is_Some] [cb Hcb]%get_none_is_Some] [e He]%get_none_is_Some].
  unfold demo_judge, demo_refused, feed_item, shorts_blocked.
  rewrite Hi, Ht, Hd, Hs, Hn, Hc, Hcb, He. simpl.
  repeat match goal with |- context [if ?b then _ else _] => destruct b end; try done;
    by destruct (block_shorts mode), s.
Qed.

(** The demonstration feed always answers: its items are the first
    admitted videos of the pool. *)
Lemma served_demo_feed_answers mode max_results page_token now :
  1 ≤ max_results →
  ∃ count,
    served_demo_feed mode max_results page_token now =
    Ok (mkFeedResponse
          (first_admitted (demo_admit mode) max_results
             (served_pool mode max_results page_token now))
          (Some (str_Z (page_number int_of_str page_token + 1)))
          (seen (first_admitted (demo_admit mode) max_results
                   (served_pool mode max_results page_token now)) count)
          count) ∧
    (Z.of_nat (length (first_admitted (demo_admit mode) max_results
                         (served_pool mode max_results page_token now))) < max_results →
     Z.of_nat (length (first_admitted (demo_admit mode) max_results
                         (served_pool mode max_results page_token now))) + count =
     Z.of_nat (length (served_pool mode max_results page_token now))).
Proof.
  intros Hmax. unfold FeedDemo.served_demo_feed, demo_feed. fold (served_pool mode max_results page_token now).
  destruct (collect_first_admitted (demo_judge mode) max_results (demo_admit mode)
              (served_pool mode max_results page_token now) [] 0 ()) as [count Hc].
  - eapply Forall_impl; [apply served_pool_complete|]. intros video Hv st.
    by apply demo_judge_admit, demo_judge_complete.
  - simpl. lia.
  - rewrite Hc. exists count. simpl. rewrite Nat.sub_0_r. split; [done|].
    apply collect_bounds in Hc as (_ & _ & _ & Hall); [|done]. simpl in Hall.
    by rewrite Nat.sub_0_r in Hall.
Qed.

(** C20. The feed is there when the platform is not: for a valid request
    of a user whose active mode has allowed categories, and a search that
    fails in any way, [get_feed] with the demonstration data answers, with
    no more items than asked for, whatever the generator of random numbers
    draws; the cache is left as it was. *)
Theorem served_feed_available max_results page_token user modes (cache : S) now mode :
  max_results_valid max_results = true →
  get_active_mode user modes = Ok (Some mode) →
  allowed_categories mode ≠ [] →
  (∀ items next total,
     search_endpoint (SearchParams (join " " (take 2 (allowed_categories mode)))
                        (max_results * 2) (token_param page_token)) ≠
       Ok (AnswerPage items next total)) →
  ∃ resp,
    served_feed max_results page_token user modes cache now = (Ok resp, cache) ∧
    Z.of_nat (length (feed_items resp)) ≤ max_results ∧
    feed_next_page_token resp = Some (str_Z (page_number int_of_str page_token + 1)).
Proof.
  intros Hmax Hm Hne Hfail. pose proof Hmax as Hv%max_results_valid_spec.
  destruct (served_demo_feed_answers mode max_results page_token now) as (count & Hd & _);
    [lia|].
  eexists. split_and!.
  - unfold FeedDemo.served_feed, get_feed, validated.
    rewrite Hmax, Hm, fetch_feed_search by done. unfold search_videos.
    destruct (search_endpoint _) as [[message|items next total]|] eqn:He;
      [| by destruct (Hfail items next total) |]; by rewrite <- Hd.
  - simpl. unfold first_admitted. rewrite length_take. lia.
  - done.
Qed.

(** The generated videos come last in the pool before the shuffle. *)
Lemma served_pool_Permutation mode max_results page_token now :
  ∃ seed,
    served_pool mode max_results page_token now ≡ₚ
    get_demo_videos entropy now (allowed_categories mode) (max_results * 3) ++
    generate_dynamic_videos seed now (allowed_categories mode) (max_results * 2).
Proof. eexists. unfold FeedDemo.served_pool, demo_pool. apply shuffle_Permutation. Qed.

(** A complete video that passes the four quick checks is admitted. *)
Lemma demo_admit_passes mode video cat duration :
  demo_complete video = true → v_category video = Val cat →
  v_duration_seconds video = Val duration → v_is_short video = Val false →
  in_list cat (allowed_categories mode) = true →
  in_list cat (blocked_categories mode) = false →
  min_duration_seconds mode ≤ duration →
  is_Some (demo_admit mode video).
Proof.
  intros Hc Hcat Hd Hs Ha Hb Hmin. apply (demo_judge_complete mode) in Hc.
  revert Hc. unfold demo_admit, demo_judge, demo_refused, shorts_blocked. simpl.
  rewrite Hcat, Hd, Hs. simpl. rewrite Ha, Hb, !andb_false_r. simpl.
  destruct (Z.ltb_spec duration (min_duration_seconds mode)); [lia|]. simpl.
  by destruct (feed_item _ _ _ _).
Qed.

(** A video of a category that is not allowed is refused. *)
Lemma demo_admit_not_allowed mode video cat :
  v_category video = Val cat → allowed_categories mode ≠ [] →
  in_list cat (allowed_categories mode) = false →
  demo_admit mode video = None.
Proof.
  intros Hcat Hne Ha. unfold demo_admit, demo_judge, demo_refused. simpl.
  rewrite Hcat. simpl. rewrite Ha. by destruct (allowed_categories mode).
Qed.

(** The demonstration feed is never short of videos: under a mode
    whose allowed categories all have title templates and are not
    blocked, and whose minimum duration is at most five minutes, the feed
    holds exactly [max_results] items on every page, since the generated
    videos alone, twice as many as asked for, all pass the quick checks. *)
Theorem served_demo_feed_full mode max_results page_token now :
  1 ≤ max_results → allowed_categories mode ≠ [] →
  Forall (λ c, has_key c templates = true ∧ in_list c (blocked_categories mode) = false)
         (allowed_categories mode) →
  min_duration_seconds mode ≤ 300 →
  ∃ resp, served_demo_feed mode max_results page_token now = Ok resp ∧
          Z.of_nat (length (feed_items resp)) = max_results.
Proof.
  intros Hmax Hne Hall Hmin.
  destruct (served_demo_feed_answers mode max_results page_token now Hmax) as (count & -> & _).
  eexists. split; [done|]. simpl. unfold first_admitted. rewrite length_take.
  destruct (served_pool_Permutation mode max_results page_token now) as [seed ->].
  rewrite omap_app, length_app, (omap_length_all _ (generate_dynamic_videos _ _ _ _)).
  { rewrite (proj1 (generate_dynamic_videos_spec seed now _ _)). lia. }
  apply Forall_lookup_2. intros i video Hi.
  pose proof (proj1 (Forall_lookup _ _) (generate_dynamic_videos_complete seed now _ _) i _ Hi).
  apply generate_dynamic_videos_spec in Hi as (cat & d & Hc & _ & Hcat & Hs & Hd & Hr & _).
  rewrite available_cats_all in Hc by (done || by eapply Forall_impl; [done|naive_solver]).
  pose proof (proj1 (Forall_lookup _ _) Hall _ _ Hc) as [_ Hb].
  apply (demo_admit_passes mode video cat d); try done; [|lia].
  by eapply in_list_In, list_elem_of_In, list_elem_of_lookup_2.
Qed.

(** C29. The demonstration feed has nothing for a mode none of whose
    allowed categories has title templates, as the travel preset: the
    table holds no entry of such a category, the generator falls back to
    [EDUCATION], and every video it generates is refused as not allowed.
    The feed is empty on every page, and counts twice [max_results]
    filtered videos. *)
Theorem served_demo_feed_empty mode max_results page_token now :
  1 ≤ max_results → allowed_categories mode ≠ [] →
  Forall (λ c, has_key c templates = false) (allowed_categories mode) →
  served_demo_feed mode max_results page_token now =
    Ok (mkFeedResponse [] (Some (str_Z (page_number int_of_str page_token + 1)))
          (Some (max_results * 2)) (max_results * 2)).
Proof.
  intros Hmax Hne Hall.
  destruct (served_demo_feed_answers mode max_results page_token now Hmax)
    as (count & -> & Hcount).
  destruct (served_pool_Permutation mode max_results page_token now) as [seed Hp].
  rewrite get_demo_videos_without_templates in Hp by done. simpl in Hp. revert Hcount. unfold first_admitted. rewrite (Permutation_length Hp).
  rewrite (omap_none _ (served_pool _ _ _ _)).
  - rewrite take_nil, (proj1 (generate_dynamic_videos_spec seed now _ _)). simpl.
    intros Hcount. replace count with (max_results * 2) by lia. done.
  - rewrite Hp. apply Forall_lookup_2. intros i video Hi.
    apply generate_dynamic_videos_spec in Hi as (cat & d & Hc & _ & Hcat & _).
    rewrite available_cats_fallback in Hc by done.
    apply list_elem_of_lookup_2, list_elem_of_In in Hc as [<-|[]].
    apply (demo_admit_not_allowed mode video "EDUCATION"); [done..|].
    destruct (in_list _ _) eqn:Hin; [|done]. apply in_list_In, list_elem_of_In in Hin.
    by apply (proj1 (Forall_forall _ _) Hall) in Hin.
Qed.

End FeedDemoTheorems.

(** ** The feed on the sample generator *)

Lemma served_feed_available_witness :
  ∃ resp,
    served_feed no_dates failing_search feed_videos small_int 7 10 (Some "2") 1
      (only_mode preset_study) (∅ : gmap string ContentCache) nine_am = (Ok resp, ∅) ∧
    Z.of_nat (length (feed_items resp)) ≤ 10 ∧
    feed_next_page_token resp = Some "3".
Proof.
  by apply (served_feed_available no_dates failing_search feed_videos small_int 7 10
              (Some "2") 1 (only_mode preset_study) ∅ nine_am
              (preset_mode 1 1 true preset_study)).
Defined.

Lemma served_demo_feed_full_witness :
  ∃ resp, served_demo_feed small_int 7 (preset_mode 1 1 true preset_music) 10 None nine_am =
            Ok resp ∧
          Z.of_nat (length (feed_items resp)) = 10.
Proof.
  apply (served_demo_feed_full small_int 7 (preset_mode 1 1 true preset_music) 10 None
           nine_am); [lia|done|by repeat constructor|simpl; lia].
Defined.

Lemma served_demo_feed_empty_witness :
  served_demo_feed small_int 7 travel_mode 10 (Some "1") nine_am =
    Ok (mkFeedResponse [] (Some "2") (Some 20) 20).
Proof.
  apply (served_demo_feed_empty small_int 7 travel_mode 10 (Some "1") nine_am);
    [lia|done|by repeat constructor].
Defined.
