(* ===== verification/Transport.v ===== *)
(** * Transport: the HTTP client of services/youtube_service.py

    [YouTubeService._make_request] and [YouTubeService.get_transcript]
    over the two libraries they call.  The HTTP library is a function from
    the address, the key and the parameters of a request to a response (a
    status and the JSON of the body) or to an exception of the transport;
    the transcript library is a function from a video to its lines.  With
    them the two endpoints that [Platform] and [Feed] take as parameters
    are [_make_request] on the names [search] and [videos].

    The JSON of a body is read as far as the service and the routers read
    it: as the dictionary a caller of [_make_request] inspects, and by its
    entry [message].  A body that is not a dictionary is outside the
    model. *)

From Stdlib Require Import ZArith String Ascii List Floats.
From stdpp Require Import base option list strings gmap.
From S2P Require Import Prelude Models Presets FocusEngine YouTube Platform Cache Pipeline.
From S2P Require Import Feed Auth.

Local Open Scope string_scope.
Local Open Scope Z_scope.
Local Open Scope list_scope.

(** ** The HTTP library *)

(** The two endpoints of the platform the service requests, and the items
    of their pages. *)
Inductive api : Type := SearchApi | VideosApi.

Definition api_name (a : api) : string :=
  match a with SearchApi => "search" | VideosApi => "videos" end.

Definition api_item (a : api) : Type :=
  match a with SearchApi => SearchItem | VideosApi => VideoItem end.

(** The JSON of a body: the dictionary as the callers of [_make_request]
    read it, and [body.get("message")]. *)
Record Body (I : Type) : Type := mkBody {
  body_dict : Answer I;
  body_message : option string;
}.
Arguments mkBody {I} body_dict body_message.
Arguments body_dict {I} b.
Arguments body_message {I} b.

(** [response]: the status, and what [response.json()] returns or
    raises. *)
Record HttpResponse (I : Type) : Type := mkHttpResponse {
  status_code : Z;
  json : result (Body I);
}.
Arguments mkHttpResponse {I} status_code json.
Arguments status_code {I} h.
Arguments json {I} h.

(** [YouTubeService.BASE_URL]. *)
Definition BASE_URL : string := "https://www.googleapis.com/youtube/v3".

(** The body of an error of the platform: the message is an entry of the
    dictionary under [error], and the top level has no [message]. *)
Definition platform_error {I} (message : string) : Body I :=
  mkBody (AnswerError (Some message)) None.

Section Service.

(** The settings; [client.get(url, params=params, timeout=30.0)] with the
    key the parameters were given; and
    [YouTubeTranscriptApi.get_transcript], whose lines hold their text
    under [text]. *)
Variable settings : Settings.
Variable client_get : ∀ a : api, string → string → Params → result (HttpResponse (api_item a)).
Variable transcript_api : string → result (list (field string)).

(** [YouTubeService.__init__]. *)
Definition api_key : string := youtube_api_key settings.

(** [YouTubeService._make_request]: any status other than 200 is answered
    with the body under [error] and no items. *)
Definition _make_request (a : api) (params : Params) : result (Answer (api_item a)) :=
  response ← client_get a (BASE_URL +:+ "/" +:+ api_name a) api_key params;
  if negb (status_code response =? 200) then
    body ← json response;
    Ok (AnswerError (body_message body))
  else body_dict <$> json response.

(** The endpoints of [Platform]. *)
Definition search_endpoint : Params → result (Answer SearchItem) := _make_request SearchApi.
Definition videos_endpoint : Params → result (Answer VideoItem) := _make_request VideosApi.

(** [YouTubeService.get_transcript]: the texts of the lines joined by
    spaces, or [None] on any exception: of the library, of a line without
    text ([KeyError]), of a text that is [None] ([TypeError]). *)
Definition get_transcript (video_id : string) : option string :=
  match transcript_api video_id ≫= mapM (λ t, getitem "text" t ≫= need TypeError) with
  | Ok texts => Some (join " " texts)
  | Raise _ => None
  end.

End Service.

(** ** Samples *)

(** A platform that refuses the key: status 403 with the body of an
    error. *)
Definition refusing_client (a : api) (url key : string) (p : Params) :
    result (HttpResponse (api_item a)) :=
  Ok (mkHttpResponse 403 (Ok (platform_error "API key not valid."))).

(** Two lines of a transcript, and a library that knows one video. *)
Definition sample_transcripts (video_id : string) : result (list (field string)) :=
  if String.eqb video_id "abc" then Ok [Val "hello"; Val "world"] else Raise TypeError.

(** * Theorems *)

Section ServiceTheorems.
Variable settings : Settings.
Variable client_get : ∀ a : api, string → string → Params → result (HttpResponse (api_item a)).

Local Abbreviation _make_request := (_make_request settings client_get) (only parsing).

(** ** _make_request *)

(** The request goes to the address of the endpoint under [BASE_URL], with
    the key of the settings. *)
Lemma make_request_inv a params answer :
  _make_request a params = Ok answer →
  ∃ response body,
    client_get a (BASE_URL +:+ "/" +:+ api_name a) (youtube_api_key settings) params =
      Ok response ∧
    json response = Ok body ∧
    answer = if status_code response =? 200 then body_dict body
             else AnswerError (body_message body).
Proof.
  unfold Transport._make_request, api_key. intros Hr.
  destruct (client_get _ _ _ _) as [response|]; [|done]. simpl in Hr.
  exists response. destruct (json response) as [body|] eqn:Hj.
  - exists body. split_and!; [done..|]. destruct (status_code response =? 200); simpl in Hr;
      rewrite ?Hj in Hr; simpl in Hr; congruence.
  - destruct (status_code response =? 200); simpl in Hr; rewrite ?Hj in Hr; done.
Qed.

(** A status other than 200 gives the dictionary of an error, which has
    no items, no token and no total. *)
Lemma make_request_status a params response body :
  client_get a (BASE_URL +:+ "/" +:+ api_name a) (youtube_api_key settings) params =
    Ok response →
  status_code response ≠ 200 → json response = Ok body →
  _make_request a params = Ok (AnswerError (body_message body)).
Proof.
  intros Hc Hs Hj. unfold Transport._make_request, api_key. rewrite Hc. simpl.
  apply Z.eqb_neq in Hs. by rewrite Hs, Hj.
Qed.

(** An exception of the transport or of the decoder is not caught. *)
Lemma make_request_raises a params e :
  _make_request a params = Raise e ↔
  client_get a (BASE_URL +:+ "/" +:+ api_name a) (youtube_api_key settings) params = Raise e ∨
  ∃ response,
    client_get a (BASE_URL +:+ "/" +:+ api_name a) (youtube_api_key settings) params =
      Ok response ∧ json response = Raise e.
Proof.
  unfold Transport._make_request, api_key.
  destruct (client_get _ _ _ _) as [response|e']; simpl.
  - destruct (status_code response =? 200), (json response) as [body|e'] eqn:Hj; simpl;
      split; try done; try (intros [[=]|(? & [= <-] & ?)]; congruence);
      intros [= <-]; right; by exists response.
  - split; [intros [= <-]; by left|]. by intros [[= <-]|(? & [=] & _)].
Qed.

(** ** The message of an error of the platform *)

Section Search.
Variable fromisoformat : string → option datetime.
Variable exn_text : exn → string.

(** C27. The message of the platform never reaches the client.  When the
    platform refuses a search with a status other than 200 and the body of
    an error, whose message lies under [error], [_make_request] puts the
    whole body under [error] once more; [search_feed] looks for [message]
    one level too high, and answers 503 with "Unknown error" whatever the
    platform said. *)
Theorem search_feed_error_message query max_results page_token user modes
    (cache : gmap string ContentCache) now mode response message :
  search_valid (query, max_results) = true →
  get_active_mode user modes = Ok (Some mode) →
  client_get SearchApi (BASE_URL +:+ "/search") (youtube_api_key settings)
    (SearchParams query (max_results * 2) (token_param page_token)) = Ok response →
  status_code response ≠ 200 → json response = Ok (platform_error message) →
  search_feed fromisoformat (search_endpoint settings client_get)
    (videos_endpoint settings client_get) exn_text query max_results page_token user modes
    cache now =
    (Raise (HTTPException 503 "YouTube API error: Unknown error"), cache).
Proof.
  intros Hv Hm Hc Hs Hj.
  by rewrite (search_feed_unavailable _ _ _ _ _ _ _ _ _ _ _ mode None Hv Hm
                (make_request_status SearchApi _ response _ Hc Hs Hj)).
Qed.

End Search.
End ServiceTheorems.

(** ** get_transcript *)

Section Transcript.
Variable transcript_api : string → result (list (field string)).

(** [get_transcript] answers with a text exactly when the library answers
    and every line has a text; the text is the lines joined by spaces. *)
Theorem get_transcript_spec video_id text :
  get_transcript transcript_api video_id = Some text ↔
  ∃ texts, transcript_api video_id = Ok (Val <$> texts) ∧ text = join " " texts.
Proof.
  unfold get_transcript. destruct (transcript_api video_id) as [lines|e]; simpl.
  2:{ split; [done|]. by intros (? & [=] & _). }
  assert (Hm : ∀ texts,
            mapM (λ t : field string, getitem "text" t ≫= need TypeError) lines = Ok texts ↔
            lines = Val <$> texts).
  { induction lines as [|t lines IH]; intros texts; simpl.
    - split; [by intros [= <-]|]. by destruct texts.
    - destruct t as [| |s]; simpl; try (split; [done|by destruct texts]).
      destruct (mapM _ lines) as [rest|e] eqn:Hr; simpl.
      + split.
        * intros [= <-]. simpl. f_equal. by apply IH.
        * destruct texts as [|s' texts]; [done|]. intros [= -> Hl].
          apply IH in Hl. by injection Hl as ->.
      + split; [done|]. destruct texts as [|s' texts]; [done|]. intros [= -> Hl].
        by apply IH in Hl. }
  destruct (mapM _ lines) as [texts|e] eqn:Hr.
  - split.
    + intros [= <-]. exists texts. split; [|done]. f_equal. by apply Hm.
    + intros (texts' & [= Hl] & ->). apply Hm in Hl. by injection Hl as ->.
  - split; [done|]. intros (texts' & [= Hl] & _). by apply Hm in Hl.
Qed.

End Transcript.

(** ** Witnesses *)

Lemma search_feed_error_message_witness :
  search_feed no_dates (search_endpoint default_settings refusing_client)
    (videos_endpoint default_settings refusing_client) no_text "python" 10 None 1
    (only_mode preset_study) (∅ : gmap string ContentCache) nine_am =
    (Raise (HTTPException 503 "YouTube API error: Unknown error"), ∅).
Proof.
  by apply (search_feed_error_message default_settings refusing_client no_dates no_text
              "python" 10 None 1 _ ∅ nine_am (preset_mode 1 1 true preset_study)
              (mkHttpResponse 403 (Ok (platform_error "API key not valid.")))
              "API key not valid.").
Defined.

Lemma sample_get_transcript :
  get_transcript sample_transcripts "abc" = Some "hello world" ∧
  get_transcript sample_transcripts "xyz" = None ∧
  get_transcript (λ _, Ok [Val "hello"; Null]) "abc" = None ∧
  get_transcript (λ _, Ok [Missing]) "abc" = None ∧
  get_transcript (λ _, Ok []) "abc" = Some EmptyString.
Proof. by vm_compute. Qed.
