(* ===== verification/Isolation.v ===== *)
(** * Isolation: what the requests of one user leave to the others

    Every handler of routers/modes.py and routers/analytics.py filters its
    queries by [user.id] and writes rows of that user only.  This file
    states what that buys: the view of another user (the modes that user
    owns, the rules attached to them, the history and the feedback of that
    user) is the same before and after the request.  The handlers edit the
    tables in three ways (rows appended, rows deleted, rows rewritten in
    place); each edit has its frame lemma, and the lemma of a handler
    composes them. *)

From Stdlib Require Import ZArith String List.
From stdpp Require Import base option list strings.
From S2P Require Import Prelude Models Presets Schemas FocusEngine ModesRouter Analytics.

Local Open Scope Z_scope.
Local Open Scope list_scope.

(** ** The view of a user *)

(** A rule is attached to a mode of the user. *)
Definition rule_of (user : uuid) (modes : list FocusMode) (r : FilterRule) : bool :=
  existsb (λ m, owned_by user m && (id m =? fr_mode_id r)) modes.

(** The rows of the modes router a user can reach: the modes of the user
    and the rules of those modes. *)
Definition modes_view (user : uuid) (db : Db) : list FocusMode * list FilterRule :=
  (modes_of user (focus_modes db),
   List.filter (rule_of user (focus_modes db)) (filter_rules db)).

(** The rows of the analytics router a user can reach. *)
Definition feedback_of (user : uuid) (feedback : list UserFeedback) : list UserFeedback :=
  List.filter (λ f, fb_user_id f =? user) feedback.

Definition analytics_view (user : uuid) (db : Tables) :
    list WatchHistory * list UserFeedback :=
  (rows_of user (watch_history db), feedback_of user (user_feedback db)).

(** The user of a request that writes to the analytics tables. *)
Definition request_user (r : analytics_request) : uuid :=
  match r with TrackWatch user _ | SubmitFeedback user _ => user end.

(** A rewriting of rows in place that reaches the rows of one user only,
    and keeps the key and the owner of each. *)
Record rewrites_of (user : uuid) (modes : list FocusMode) (g : FocusMode → FocusMode) :
    Prop := {
  rw_others m : In m modes → user_id m ≠ user → g m = m;
  rw_id m : id (g m) = id m;
  rw_owner m : user_id (g m) = user_id m;
}.

(** * Theorems *)

(** ** Lists *)

Lemma filter_filter_keep {A} (q k : A → bool) (l : list A) :
  (∀ x, In x l → q x = true → k x = true) →
  List.filter q (List.filter k l) = List.filter q l.
Proof.
  induction l as [|a l IH]; simpl; [done|]. intros Hk.
  destruct (k a) eqn:Hka, (q a) eqn:Hqa; simpl; rewrite ?Hqa, ?IH; auto.
  rewrite Hk in Hka; auto. done.
Qed.

Lemma filter_map_fixed {A} (q : A → bool) (g : A → A) (l : list A) :
  (∀ x, In x l → q x = true → g x = x) → (∀ x, In x l → q (g x) = q x) →
  List.filter q (map g l) = List.filter q l.
Proof.
  induction l as [|a l IH]; simpl; [done|]. intros Hfix Hq.
  rewrite Hq by auto. destruct (q a) eqn:Hqa; rewrite IH by auto; [|done].
  by rewrite Hfix by auto.
Qed.

Lemma existsb_map_ext {A} (p : A → bool) (g : A → A) (l : list A) :
  (∀ x, p (g x) = p x) → existsb p (map g l) = existsb p l.
Proof. intros H. induction l as [|a l IH]; simpl; [done|]. by rewrite H, IH. Qed.

Lemma existsb_none {A} (p : A → bool) (l : list A) :
  (∀ x, In x l → p x = false) → existsb p l = false.
Proof.
  induction l as [|a l IH]; simpl; [done|]. intros H. rewrite H, IH; auto.
Qed.

(** ** The three edits *)

Section Edits.
Variables user other : uuid.
Hypothesis Hother : other ≠ user.

Lemma not_owned m : user_id m = user → owned_by other m = false.
Proof. intros Hm. apply Z.eqb_neq. congruence. Qed.

(** Rows of the user appended. *)
Lemma view_append extra db :
  Forall (λ m, user_id m = user) extra →
  modes_view other (with_modes (focus_modes db ++ extra) db) = modes_view other db.
Proof.
  intros Hextra. rewrite List.Forall_forall in Hextra. unfold modes_view. simpl.
  unfold modes_of. rewrite List.filter_app, (filter_none _ extra), app_nil_r
    by (intros m Hm; by apply not_owned, Hextra).
  f_equal. apply filter_ext. intros r. unfold rule_of. rewrite existsb_app.
  rewrite (existsb_none _ extra), orb_false_r; [done|].
  intros m Hm. by rewrite not_owned by auto.
Qed.

(** Rows of the user deleted, with their rules. *)
Lemma view_delete (p : FocusMode → bool) db :
  List.NoDup (map id (focus_modes db)) →
  (∀ m, In m (focus_modes db) → p m = true → user_id m = user) →
  modes_view other (delete_modes p db) = modes_view other db.
Proof.
  intros Hnd Hp. unfold modes_view. simpl.
  assert (∀ m, In m (focus_modes db) → owned_by other m = true → negb (p m) = true) as Hkeep.
  { intros m Hm Ho. destruct (p m) eqn:Hpm; [|done].
    by rewrite (not_owned m) in Ho by auto. }
  unfold modes_of. rewrite filter_filter_keep by done. f_equal.
  rewrite (filter_ext (rule_of other (List.filter _ _)) (rule_of other (focus_modes db))).
  - apply filter_filter_keep. intros r _ (m & Hm & [Ho Hid]%andb_true_iff)%existsb_exists.
    apply negb_true_iff, existsb_none. intros m' Hm'.
    apply andb_false_iff. destruct (p m') eqn:Hpm; [right|by left].
    apply Z.eqb_neq. intros Heq. apply Z.eqb_eq in Hid.
    assert (m' = m) as -> by (apply (same_key (focus_modes db)); [done..|congruence]).
    by rewrite (not_owned m) in Ho by auto.
  - intros r. unfold rule_of. induction (focus_modes db) as [|m l IH]; simpl; [done|].
    destruct (p m) eqn:Hpm; simpl.
    + rewrite not_owned by (apply Hp; [by left|done]). simpl. apply IH; auto.
      * by inversion Hnd.
      * intros; apply Hp; auto. by right.
      * intros; apply Hkeep; auto. by right.
    + f_equal. apply IH; auto.
      * by inversion Hnd.
      * intros; apply Hp; auto. by right.
      * intros; apply Hkeep; auto. by right.
Qed.

(** Rows of the user rewritten in place. *)
Lemma view_rewrite (g : FocusMode → FocusMode) db :
  rewrites_of user (focus_modes db) g →
  modes_view other (with_modes (map g (focus_modes db)) db) = modes_view other db.
Proof.
  intros [Hfix Hid Hown]. unfold modes_view. simpl.
  assert (∀ m, owned_by other (g m) = owned_by other m) as Ho
    by (intros m; unfold owned_by; by rewrite Hown).
  unfold modes_of. rewrite filter_map_fixed.
  - f_equal. apply filter_ext. intros r. unfold rule_of.
    apply existsb_map_ext. intros m. by rewrite Ho, Hid.
  - intros m Hm Hm'%owned_by_spec. apply Hfix; [done|congruence].
  - intros m _. apply Ho.
Qed.

(** A rule of a mode of the user appended. *)
Lemma view_add_rule rule mode db :
  List.NoDup (map id (focus_modes db)) →
  In mode (focus_modes db) → user_id mode = user → fr_mode_id rule = id mode →
  modes_view other {| focus_modes := focus_modes db;
                      filter_rules := filter_rules db ++ [rule] |} = modes_view other db.
Proof.
  intros Hnd Hin Hu Hid. unfold modes_view. simpl. f_equal.
  rewrite List.filter_app. simpl.
  assert (rule_of other (focus_modes db) rule = false) as ->; [|apply app_nil_r].
  apply existsb_none. intros m Hm. apply andb_false_iff.
  destruct (Z.eqb_spec (id m) (fr_mode_id rule)) as [Heq|]; [left|by right].
  assert (m = mode) as -> by (apply (same_key (focus_modes db)); [done..|congruence]).
  by apply not_owned.
Qed.

(** The assignment to the row of a key rewrites the rows of its owner. *)
Lemma update_row_rewrites mode f modes :
  List.NoDup (map id modes) → In mode modes → user_id mode = user →
  (∀ m, id (f m) = id m ∧ user_id (f m) = user_id m) →
  rewrites_of user modes (λ m, if id m =? id mode then f m else m).
Proof.
  intros Hnd Hin Hu Hf. split.
  - intros m Hm Hne. destruct (Z.eqb_spec (id m) (id mode)) as [Heq|]; [|done].
    by rewrite (same_key modes m mode) in Hne.
  - intros m. destruct (id m =? id mode); [apply Hf|done].
  - intros m. destruct (id m =? id mode); [apply Hf|done].
Qed.

Lemma deactivate_all_rewrites modes :
  rewrites_of user modes (λ m, if owned_by user m then clear_session m else m).
Proof.
  split; intros m; [intros _ Hne|..]; destruct (owned_by user m) eqn:Ho; try done.
  by apply owned_by_spec in Ho.
Qed.

End Edits.

(** ** The handlers of the modes router *)

Section Handlers.
Variables user other : uuid.
Hypothesis Hother : other ≠ user.

Local Abbreviation unchanged db' db := (modes_view other db' = modes_view other db) (only parsing).

Lemma seed_presets_owner fresh first :
  Forall (λ m, user_id m = user) (seed_presets user fresh first).
Proof. apply List.Forall_forall. by intros m (k & entry & _ & ->)%seed_presets_In. Qed.

(** The assignment to a row the user owns. *)
Lemma view_update_row mode f db :
  db_ok db → In mode (focus_modes db) → user_id mode = user →
  (∀ m, id (f m) = id m ∧ user_id (f m) = user_id m) →
  unchanged (with_modes (update_row (id mode) f (focus_modes db)) db) db.
Proof.
  intros [[Hnd _ _] _ _] Hin Hu Hf. by apply (view_rewrite user), update_row_rewrites.
Qed.

Lemma list_modes_isolated fresh db : unchanged (Router.list_modes user fresh db).2 db.
Proof.
  unfold Router.list_modes. destruct (modes_of user (focus_modes db)); [|done].
  apply (view_append user); [done|apply seed_presets_owner].
Qed.

Lemma reset_modes_isolated fresh db :
  db_ok db → unchanged (Router.reset_modes user fresh db).2 db.
Proof.
  intros [[Hnd _ _] _ _]. unfold Router.reset_modes. cbn [snd].
  rewrite (view_append user) by (done || apply seed_presets_owner).
  apply (view_delete user); [done..|]. by intros m _ ?%owned_by_spec.
Qed.

Lemma create_mode_isolated fresh mode_data db :
  unchanged (Router.create_mode user fresh mode_data db).2 db.
Proof.
  unfold Router.create_mode. destruct (validated _ _); [|done].
  apply (view_append user); [done|]. by constructor.
Qed.

Lemma update_mode_isolated mode_id mode_data db now :
  db_ok db → unchanged (Router.update_mode user mode_id mode_data db now).2 db.
Proof.
  intros Hok. unfold Router.update_mode. destruct (validated _ _) as [body|]; [|done].
  destruct (Router.owned_mode _ _ _) as [mode|] eqn:Hm; [|done].
  apply owned_mode_inv in Hm as (Hin & _ & Hu).
  destruct (Router.lock_running _ _); [done|]. destruct (nulls_name _); [done|].
  by apply view_update_row.
Qed.

Lemma delete_mode_isolated mode_id db :
  db_ok db → unchanged (Router.delete_mode user mode_id db).2 db.
Proof.
  intros [[Hnd _ _] _ _]. unfold Router.delete_mode.
  destruct (Router.owned_mode _ _ _) as [mode|] eqn:Hm; [|done].
  apply owned_mode_inv in Hm as (Hin & _ & Hu).
  apply (view_delete user); [done..|]. intros m Hm Hid%Z.eqb_eq.
  by rewrite (same_key (focus_modes db) m mode).
Qed.

Lemma activate_unlocked_isolated mode_id db :
  db_ok db → unchanged (Router.activate_unlocked user mode_id db).2 db.
Proof.
  intros [[Hnd _ _] _ _]. unfold Router.activate_unlocked.
  destruct (Router.owned_mode _ _ _) as [mode|] eqn:Hm; [|done].
  apply owned_mode_inv in Hm as (Hin & _ & Hu). simpl in *.
  transitivity (modes_view other (with_modes (deactivate_all user (focus_modes db)) db)).
  - apply (view_rewrite user _ Hother _ (with_modes (deactivate_all user (focus_modes db)) db)).
    apply update_row_rewrites; try done. simpl. by rewrite keys_deactivate_all.
  - apply (view_rewrite user), deactivate_all_rewrites. done.
Qed.

Lemma activate_mode_isolated mode_id db now :
  db_ok db → unchanged (Router.activate_mode user mode_id db now).2 db.
Proof.
  intros Hok. unfold Router.activate_mode.
  destruct (scalar_one_or_none _) as [[locked|]|]; [|by apply activate_unlocked_isolated|done].
  destruct (Router.deadline_ahead _ _); [done|by apply activate_unlocked_isolated].
Qed.

Lemma lock_session_isolated mode_id minutes db now :
  db_ok db → unchanged (Router.lock_session user mode_id minutes db now).2 db.
Proof.
  intros Hok. unfold Router.lock_session. destruct (validated _ _); [|done].
  destruct (Router.owned_mode _ _ _) as [mode|] eqn:Hm; [|done].
  apply owned_mode_inv in Hm as (Hin & _ & Hu).
  destruct (negb _); [done|]. by apply view_update_row.
Qed.

Lemma create_rule_isolated mode_id fresh rule_data db :
  db_ok db → unchanged (Router.create_rule user mode_id fresh rule_data db).2 db.
Proof.
  intros [[Hnd _ _] _ _]. unfold Router.create_rule. destruct (validated _ _); [|done].
  destruct (Router.owned_mode _ _ _) as [mode|] eqn:Hm; [|done].
  apply owned_mode_inv in Hm as (Hin & Hid & Hu).
  by apply (view_add_rule user _ Hother _ mode).
Qed.

(** The modes router keeps the users apart: whatever the request of a
    user on a well-formed database (a listing that seeds, a reset, a
    creation, an update, a deletion, an activation, a lock, a new rule) and
    whether it answers or raises, another user finds the same modes and
    the same rules as before. *)
Lemma handle_view now r db :
  db_ok db → modes_view other (Router.handle user now r db) = modes_view other db.
Proof.
  intros Hok. destruct r; simpl.
  - apply list_modes_isolated.
  - by apply reset_modes_isolated.
  - apply create_mode_isolated.
  - by apply update_mode_isolated.
  - by apply delete_mode_isolated.
  - by apply activate_mode_isolated.
  - by apply lock_session_isolated.
  - by apply create_rule_isolated.
Qed.

End Handlers.

(** ** The owners of the rows *)

(** Under an unchanged view, a row of the other user was there before. *)
Lemma view_owner other db' db m :
  modes_view other db' = modes_view other db →
  In m (focus_modes db') → user_id m = other → In m (focus_modes db).
Proof.
  intros [= Hv _] Hm Hu.
  assert (In m (modes_of other (focus_modes db))) as [? _]%List.filter_In; [|done].
  rewrite <- Hv. apply List.filter_In. split; [done|by apply owned_by_spec].
Qed.

(** Every row of the modes router belongs to the user of the request or
    was in the table before it: a set of owners that holds the user and
    the owners of the rows holds the owners of the rows afterwards. *)
Lemma handle_owners (P : uuid → Prop) user now r db :
  db_ok db → P user → Forall (λ m, P (user_id m)) (focus_modes db) →
  Forall (λ m, P (user_id m)) (focus_modes (Router.handle user now r db)).
Proof.
  intros Hok Hu Hall. apply List.Forall_forall. intros m Hm.
  destruct (decide (user_id m = user)) as [->|Hne]; [done|].
  rewrite List.Forall_forall in Hall. apply Hall.
  apply (view_owner (user_id m) (Router.handle user now r db) db m); [|done..].
  by apply handle_view.
Qed.

(** ** The handlers of the analytics router *)

(** The analytics router keeps the users apart: a watch or a feedback
    recorded for one user leaves the history and the feedback of another as
    they were. *)
Lemma serve_view other fresh now r db :
  other ≠ request_user r → analytics_view other (serve fresh now r db) = analytics_view other db.
Proof.
  intros Hne. unfold analytics_view, serve, track_watch, submit_feedback, rows_of, feedback_of.
  destruct r as [user event|user f]; simpl in *; destruct (validated _ _); simpl; try done;
    rewrite List.filter_app; simpl; rewrite (proj2 (Z.eqb_neq user other)) by done;
    by rewrite app_nil_r.
Qed.

Lemma serve_owners (P : uuid → Prop) fresh now r db :
  P (request_user r) →
  Forall (λ w, P (wh_user_id w)) (watch_history db) ∧
  Forall (λ f, P (fb_user_id f)) (user_feedback db) →
  Forall (λ w, P (wh_user_id w)) (watch_history (serve fresh now r db)) ∧
  Forall (λ f, P (fb_user_id f)) (user_feedback (serve fresh now r db)).
Proof.
  intros Hu [Hw Hf]. unfold serve, track_watch, submit_feedback.
  destruct r as [user event|user f]; simpl in *; destruct (validated _ _); simpl; try done;
    (split; [|try done]); try done; apply Forall_app; split; try done; by constructor.
Qed.
