(* ===== verification/Confinement.v ===== *)
(** * Confinement: a request reads and writes the rows of its user only

    The converse of [Isolation].  Every query of routers/modes.py and
    routers/analytics.py carries [user_id == user.id], so what a handler
    answers and what it writes is decided by the rows of its user: run on
    the slice of the database that holds the rows of the user alone, the
    handler gives the same answer and leaves that slice as it leaves the
    slice of the whole database.  Having the same slice is an equivalence
    of databases; the handlers that read respect it ([Proper]), and so do
    the handlers that write, on well-formed databases and with fresh
    identifiers. *)

From Stdlib Require Import ZArith String List Morphisms.
From stdpp Require Import base option list strings.
From S2P Require Import Prelude Models Presets Schemas FocusEngine ModesRouter Analytics.
From S2P Require Import Isolation.

Local Open Scope Z_scope.
Local Open Scope list_scope.

(** ** The slice of a user *)

(** The database with the rows of the user alone: the modes of the user
    and the rules of those modes. *)
Definition own_db (user : uuid) (db : Db) : Db :=
  {| focus_modes := modes_of user (focus_modes db);
     filter_rules := List.filter (rule_of user (focus_modes db)) (filter_rules db) |}.

(** The analytics tables with the rows of the user alone. *)
Definition own_tables (user : uuid) (db : Tables) : Tables :=
  {| watch_history := rows_of user (watch_history db);
     user_feedback := feedback_of user (user_feedback db) |}.

(** Two databases a user cannot tell apart. *)
Definition same_db (user : uuid) : relation Db := λ db1 db2, own_db user db1 = own_db user db2.

Definition same_tables (user : uuid) : relation Tables :=
  λ db1 db2, own_tables user db1 = own_tables user db2.

(** A handler is confined to a slice of the tables: it answers as on the
    slice, and the slice of what it commits is what it commits on the
    slice. *)
Definition confined {S A} (slice : S → S) (handler : S → result A * S) (s : S) : Prop :=
  (handler s).1 = (handler (slice s)).1 ∧ slice (handler s).2 = (handler (slice s)).2.

(** * Theorems *)

#[export] Instance same_db_equivalence user : Equivalence (same_db user).
Proof. unfold same_db. split; [done|by intros ?? ->|by intros ??? -> ->]. Qed.

#[export] Instance same_tables_equivalence user : Equivalence (same_tables user).
Proof. unfold same_tables. split; [done|by intros ?? ->|by intros ??? -> ->]. Qed.

(** The slice is the view of [Isolation]. *)
Lemma same_db_view user db1 db2 :
  same_db user db1 db2 ↔ modes_view user db1 = modes_view user db2.
Proof. unfold same_db, own_db, modes_view. split; [by intros [= -> ->]|by intros [= -> ->]]. Qed.

Lemma same_tables_view user db1 db2 :
  same_tables user db1 db2 ↔ analytics_view user db1 = analytics_view user db2.
Proof.
  unfold same_tables, own_tables, analytics_view. split; [by intros [= -> ->]|by intros [= -> ->]].
Qed.

(** ** Lists *)

Lemma filter_filter_ext {A} (p1 q1 p2 q2 : A → bool) (l : list A) :
  (∀ x, In x l → q1 x && p1 x = q2 x && p2 x) →
  List.filter p1 (List.filter q1 l) = List.filter p2 (List.filter q2 l).
Proof.
  induction l as [|a l IH]; simpl; [done|]. intros H.
  pose proof (H a (or_introl eq_refl)) as Ha.
  destruct (q1 a), (q2 a); simpl in *; rewrite ?Ha, <- ?Ha; rewrite IH by auto;
    try done; by destruct (p1 a), (p2 a).
Qed.

Lemma filter_map_comm {A} (q : A → bool) (g : A → A) (l : list A) :
  (∀ x, q (g x) = q x) → List.filter q (map g l) = map g (List.filter q l).
Proof.
  intros H. induction l as [|a l IH]; simpl; [done|]. rewrite H, IH. by destruct (q a).
Qed.

Lemma existsb_filter {A} (f q : A → bool) (l : list A) :
  existsb f (List.filter q l) = existsb (λ x, q x && f x) l.
Proof. induction l as [|a l IH]; simpl; [done|]. destruct (q a); simpl; by rewrite IH. Qed.

Lemma existsb_ext_in {A} (f g : A → bool) (l : list A) :
  (∀ x, In x l → f x = g x) → existsb f l = existsb g l.
Proof. induction l as [|a l IH]; simpl; [done|]. intros H. rewrite H, IH; auto. Qed.

Lemma existsb_none_inv {A} (f : A → bool) (l : list A) :
  existsb f l = false → ∀ x, In x l → f x = false.
Proof.
  intros H x Hx. destruct (f x) eqn:Hfx; [|done].
  rewrite <- H. symmetry. apply existsb_exists. by exists x.
Qed.

(** ** Queries *)

Section Queries.
Variable user : uuid.

(** A query with [user_id == user.id] reads the slice. *)
Lemma filter_owned (q : FocusMode → bool) modes :
  (∀ m, q m = true → owned_by user m = true) →
  List.filter q (modes_of user modes) = List.filter q modes.
Proof. intros Hq. apply filter_filter_keep. intros m _. apply Hq. Qed.

Lemma find_mode_own mode_id modes :
  find_mode user mode_id (modes_of user modes) = find_mode user mode_id modes.
Proof. unfold find_mode. rewrite filter_owned; [done|]. by intros m [_ ?]%andb_true_iff. Qed.

Lemma get_active_mode_own modes :
  get_active_mode user (modes_of user modes) = get_active_mode user modes.
Proof. unfold get_active_mode. rewrite filter_owned; [done|]. by intros m [? _]%andb_true_iff. Qed.

Lemma owned_mode_own mode_id db :
  Router.owned_mode user mode_id (own_db user db) = Router.owned_mode user mode_id db.
Proof. unfold Router.owned_mode. simpl. by rewrite find_mode_own. Qed.

(** The rules of a mode of the user are rules of the slice. *)
Lemma rules_of_mode_own mode db :
  In mode (focus_modes db) → user_id mode = user →
  List.filter (λ r, fr_mode_id r =? id mode) (filter_rules (own_db user db)) =
    List.filter (λ r, fr_mode_id r =? id mode) (filter_rules db).
Proof.
  intros Hin Hu. apply filter_filter_keep. intros r _ Hr%Z.eqb_eq.
  apply existsb_exists. exists mode. split; [done|].
  apply andb_true_iff. split; [by apply owned_by_spec|by apply Z.eqb_eq].
Qed.

(** A rewriting that keeps the key and the owner of a row keeps the
    rules of the user. *)
Lemma rule_of_map (g : FocusMode → FocusMode) modes r :
  (∀ m, id (g m) = id m ∧ user_id (g m) = user_id m) →
  rule_of user (map g modes) r = rule_of user modes r.
Proof.
  intros Hg. apply existsb_map_ext. intros m. unfold owned_by.
  by rewrite (proj1 (Hg m)), (proj2 (Hg m)).
Qed.

(** ** The four edits on the slice *)

(** Rows of the user appended under keys no rule names. *)
Lemma own_append extra db :
  Forall (λ m, user_id m = user) extra →
  (∀ m r, In m extra → In r (filter_rules db) → id m ≠ fr_mode_id r) →
  own_db user (with_modes (focus_modes db ++ extra) db) =
    with_modes (focus_modes (own_db user db) ++ extra) (own_db user db).
Proof.
  intros Hextra Hnew. rewrite List.Forall_forall in Hextra. unfold own_db, with_modes. simpl.
  f_equal.
  - unfold modes_of. rewrite List.filter_app. f_equal. apply filter_all.
    intros m Hm. by apply owned_by_spec, Hextra.
  - apply filter_ext_in. intros r Hr. unfold rule_of. rewrite existsb_app.
    rewrite (existsb_none _ extra), orb_false_r; [done|].
    intros m Hm. apply andb_false_iff. right. apply Z.eqb_neq. by apply Hnew.
Qed.

(** Rows of the user deleted, with their rules. *)
Lemma own_delete (p : FocusMode → bool) db :
  (∀ m, In m (focus_modes db) → p m = true → user_id m = user) →
  own_db user (delete_modes p db) = delete_modes p (own_db user db).
Proof.
  intros Hp. unfold own_db, delete_modes, modes_of. simpl. f_equal.
  { apply filter_filter_ext. intros m _. apply andb_comm. }
  apply filter_filter_ext. intros r _. unfold rule_of. rewrite !existsb_filter.
  rewrite (existsb_ext_in (λ m, owned_by user m && (p m && (id m =? fr_mode_id r)))
             (λ m, p m && (id m =? fr_mode_id r))).
  2:{ intros m Hm. cbv beta. destruct (p m) eqn:Hpm; [|by destruct (owned_by user m)].
      by rewrite (proj2 (owned_by_spec user m) (Hp m Hm Hpm)). }
  destruct (existsb (λ m, p m && _) (focus_modes db)) eqn:Hex; simpl; [by rewrite andb_false_r|].
  rewrite andb_true_r. apply existsb_ext_in. intros m Hm.
  pose proof (existsb_none_inv _ _ Hex m Hm) as Hm'. simpl in Hm'.
  by destruct (p m), (owned_by user m), (id m =? fr_mode_id r).
Qed.

(** Rows rewritten in place, with their keys and owners kept. *)
Lemma own_rewrite (g : FocusMode → FocusMode) db :
  (∀ m, id (g m) = id m ∧ user_id (g m) = user_id m) →
  own_db user (with_modes (map g (focus_modes db)) db) =
    with_modes (map g (focus_modes (own_db user db))) (own_db user db).
Proof.
  intros Hg. unfold own_db, with_modes, modes_of. simpl. f_equal.
  - apply filter_map_comm. intros m. unfold owned_by. by rewrite (proj2 (Hg m)).
  - apply filter_ext. intros r. by apply rule_of_map.
Qed.

(** A rule of a mode of the user appended. *)
Lemma own_add_rule rule mode db :
  In mode (focus_modes db) → user_id mode = user → fr_mode_id rule = id mode →
  own_db user {| focus_modes := focus_modes db; filter_rules := filter_rules db ++ [rule] |} =
    {| focus_modes := focus_modes (own_db user db);
       filter_rules := filter_rules (own_db user db) ++ [rule] |}.
Proof.
  intros Hin Hu Hid. unfold own_db. simpl. f_equal. rewrite List.filter_app. f_equal. simpl.
  assert (rule_of user (focus_modes db) rule = true) as ->; [|done].
  apply existsb_exists. exists mode. split; [done|].
  apply andb_true_iff. split; [by apply owned_by_spec|by apply Z.eqb_eq].
Qed.

End Queries.

(** ** The handlers of the modes router *)

Section Handlers.
Variable user : uuid.

Lemma modes_of_own modes : modes_of user (modes_of user modes) = modes_of user modes.
Proof. by apply filter_owned. Qed.

(** No rule names an identifier the generator hands out. *)
Lemma fresh_not_named fresh db k r :
  db_ok db → Router.fresh_for fresh db → In r (filter_rules db) → fresh k ≠ fr_mode_id r.
Proof. intros [_ Hrules _] [_ Hfresh] Hr Heq. apply (Hfresh k). rewrite Heq. by apply Hrules. Qed.

Lemma seed_not_named fresh first db m r :
  db_ok db → Router.fresh_for fresh db →
  In m (seed_presets user fresh first) → In r (filter_rules db) → id m ≠ fr_mode_id r.
Proof.
  intros Hok Hfresh (k & entry & _ & ->)%seed_presets_In Hr. by apply (fresh_not_named fresh db).
Qed.

(** The assignment to the row of a key, on the slice. *)
Lemma own_update_row i f db :
  (∀ m, id (f m) = id m ∧ user_id (f m) = user_id m) →
  own_db user (with_modes (update_row i f (focus_modes db)) db) =
    with_modes (update_row i f (focus_modes (own_db user db))) (own_db user db).
Proof. intros Hf. apply own_rewrite. intros m. destruct (id m =? i); [apply Hf|done]. Qed.

Lemma own_deactivate_all db :
  own_db user (with_modes (deactivate_all user (focus_modes db)) db) =
    with_modes (deactivate_all user (focus_modes (own_db user db))) (own_db user db).
Proof. apply own_rewrite. intros m. by destruct (owned_by user m). Qed.

(** *** The handlers that read *)

Lemma get_active_mode_slice db :
  Router.get_active_mode user (own_db user db) = Router.get_active_mode user db.
Proof. unfold Router.get_active_mode. simpl. by rewrite get_active_mode_own. Qed.

Lemma get_mode_slice mode_id db :
  Router.get_mode user mode_id (own_db user db) = Router.get_mode user mode_id db.
Proof. apply owned_mode_own. Qed.

Lemma list_mode_rules_slice mode_id db :
  Router.list_mode_rules user mode_id (own_db user db) = Router.list_mode_rules user mode_id db.
Proof.
  unfold Router.list_mode_rules. rewrite owned_mode_own.
  destruct (Router.owned_mode _ _ _) as [mode|] eqn:Hm; [|done].
  apply owned_mode_inv in Hm as (Hin & <- & Hu). simpl. by rewrite <- (rules_of_mode_own user mode db).
Qed.

(** *** The handlers that write *)

Lemma list_modes_confined fresh db :
  db_ok db → Router.fresh_for fresh db → confined (own_db user) (Router.list_modes user fresh) db.
Proof.
  intros Hok Hfresh. unfold confined, Router.list_modes. cbn [focus_modes own_db].
  rewrite modes_of_own. destruct (modes_of user (focus_modes db)) eqn:Hm; [|done].
  cbn [fst snd].
  rewrite own_append;
    [|apply seed_presets_owner|intros m r; by apply (seed_not_named fresh false db)].
  cbn [focus_modes with_modes own_db]. rewrite Hm. split; [|done].
  unfold modes_of in *. by rewrite List.filter_app, Hm.
Qed.

Lemma reset_modes_confined fresh db :
  db_ok db → Router.fresh_for fresh db → confined (own_db user) (Router.reset_modes user fresh) db.
Proof.
  intros Hok Hfresh. unfold confined, Router.reset_modes. cbn [fst snd].
  rewrite <- (own_delete user) by (by intros m _ ?%owned_by_spec).
  rewrite own_append.
  - split; [|done]. cbn [focus_modes with_modes own_db]. unfold modes_of.
    rewrite !List.filter_app. f_equal. f_equal. symmetry. apply modes_of_own.
  - apply seed_presets_owner.
  - intros m r Hm [Hr _]%List.filter_In. by apply (seed_not_named fresh true db).
Qed.

Lemma create_mode_confined fresh mode_data db :
  db_ok db → Router.fresh_for fresh db →
  confined (own_db user) (Router.create_mode user fresh mode_data) db.
Proof.
  intros Hok Hfresh. unfold confined, Router.create_mode.
  destruct (validated _ _) as [body|]; [|done]. cbn [fst snd]. split; [done|].
  apply own_append; [by constructor|]. intros m r [<-|[]] Hr.
  by apply (fresh_not_named fresh db).
Qed.

Lemma update_mode_confined mode_id mode_data now db :
  confined (own_db user) (λ db, Router.update_mode user mode_id mode_data db now) db.
Proof.
  unfold confined, Router.update_mode. destruct (validated _ _) as [body|]; [|done].
  rewrite owned_mode_own. destruct (Router.owned_mode _ _ _) as [mode|]; [|done].
  destruct (Router.lock_running _ _); [done|]. destruct (nulls_name _); [done|].
  split; [done|]. by apply own_update_row.
Qed.

Lemma delete_mode_confined mode_id db :
  db_ok db → confined (own_db user) (Router.delete_mode user mode_id) db.
Proof.
  intros [[Hnd _ _] _ _]. unfold confined, Router.delete_mode. rewrite owned_mode_own.
  destruct (Router.owned_mode _ _ _) as [mode|] eqn:Hm; [|done].
  apply owned_mode_inv in Hm as (Hin & _ & Hu). split; [done|]. cbn [snd].
  apply own_delete. intros m Hm Hid%Z.eqb_eq. by rewrite (same_key (focus_modes db) m mode).
Qed.

Lemma activate_unlocked_confined mode_id db :
  confined (own_db user) (Router.activate_unlocked user mode_id) db.
Proof.
  unfold confined, Router.activate_unlocked. cbv zeta.
  rewrite <- own_deactivate_all, owned_mode_own.
  destruct (Router.owned_mode _ _ _) as [mode|]; [|done]. split; [done|]. cbn [snd].
  rewrite own_deactivate_all. cbn [focus_modes with_modes own_db].
  unfold deactivate_all, update_row. rewrite !map_map.
  apply (own_rewrite user (λ m, if id (if owned_by user m then clear_session m else m) =? id mode
                                then set_active true (if owned_by user m then clear_session m
                                                      else m)
                                else if owned_by user m then clear_session m else m)).
  intros m. by destruct (owned_by user m), (_ =? _).
Qed.

Lemma activate_mode_confined mode_id now db :
  confined (own_db user) (λ db, Router.activate_mode user mode_id db now) db.
Proof.
  unfold confined, Router.activate_mode. cbn [focus_modes own_db].
  rewrite (filter_owned user) by (by intros m [? _]%andb_true_iff).
  destruct (scalar_one_or_none _) as [[locked|]|]; [|apply activate_unlocked_confined|done].
  destruct (Router.deadline_ahead _ _); [done|apply activate_unlocked_confined].
Qed.

Lemma lock_session_confined mode_id minutes now db :
  confined (own_db user) (λ db, Router.lock_session user mode_id minutes db now) db.
Proof.
  unfold confined, Router.lock_session. destruct (validated _ _); [|done].
  rewrite owned_mode_own. destruct (Router.owned_mode _ _ _) as [mode|]; [|done].
  destruct (negb _); [done|]. split; [done|]. by apply own_update_row.
Qed.

Lemma create_rule_confined mode_id fresh rule_data db :
  confined (own_db user) (Router.create_rule user mode_id fresh rule_data) db.
Proof.
  unfold confined, Router.create_rule. destruct (validated _ _); [|done].
  rewrite owned_mode_own. destruct (Router.owned_mode _ _ _) as [mode|] eqn:Hm; [|done].
  apply owned_mode_inv in Hm as (Hin & Hid & Hu). split; [done|].
  by apply (own_add_rule user _ mode).
Qed.

(** The modes router is confined: the slice of the user after a request
    of the user is the request served on the slice. *)
Lemma handle_confined now r db :
  db_ok db → Router.request_fresh r db →
  own_db user (Router.handle user now r db) = Router.handle user now r (own_db user db).
Proof.
  intros Hok Hfresh. destruct r; simpl in *.
  - by apply list_modes_confined.
  - by apply reset_modes_confined.
  - by apply create_mode_confined.
  - apply (update_mode_confined mode_id mode_data now db).
  - by apply delete_mode_confined.
  - apply (activate_mode_confined mode_id now db).
  - apply (lock_session_confined mode_id duration_minutes now db).
  - apply create_rule_confined.
Qed.

End Handlers.

(** Two states with the same slice give a confined handler the same
    answer, and the same slice afterwards. *)
Lemma confined_same {S A} (slice : S → S) (handler : S → result A * S) s1 s2 :
  confined slice handler s1 → confined slice handler s2 → slice s1 = slice s2 →
  (handler s1).1 = (handler s2).1 ∧ slice (handler s1).2 = slice (handler s2).2.
Proof. by intros [-> ->] [-> ->] ->. Qed.

(** The handlers that read respect the equivalence. *)
#[export] Instance get_active_mode_proper user :
  Proper (same_db user ==> eq) (Router.get_active_mode user).
Proof.
  intros db1 db2 Hdb. unfold same_db in Hdb.
  by rewrite <- (get_active_mode_slice user db1), Hdb, get_active_mode_slice.
Qed.

#[export] Instance get_mode_proper user mode_id :
  Proper (same_db user ==> eq) (Router.get_mode user mode_id).
Proof.
  intros db1 db2 Hdb. unfold same_db in Hdb.
  by rewrite <- (get_mode_slice user mode_id db1), Hdb, get_mode_slice.
Qed.

#[export] Instance list_mode_rules_proper user mode_id :
  Proper (same_db user ==> eq) (Router.list_mode_rules user mode_id).
Proof.
  intros db1 db2 Hdb. unfold same_db in Hdb.
  by rewrite <- (list_mode_rules_slice user mode_id db1), Hdb, list_mode_rules_slice.
Qed.

(** The modes of the user, which the feed and the statistics read. *)
#[export] Instance modes_of_proper user :
  Proper (same_db user ==> eq) (λ db, modes_of user (focus_modes db)).
Proof. by intros db1 db2 [= -> _]. Qed.

(** ** The handlers of the analytics router *)

Section Analytics.
Variable user : uuid.

Lemma since_rows_own since history :
  since_rows user since (rows_of user history) = since_rows user since history.
Proof. apply filter_filter_keep. by intros w _ [? _]%andb_true_iff. Qed.

Lemma rows_of_own history : rows_of user (rows_of user history) = rows_of user history.
Proof. by apply filter_filter_keep. Qed.

Lemma get_history_slice page per_page db :
  get_history user page per_page (own_tables user db) = get_history user page per_page db.
Proof. unfold get_history. simpl. by rewrite rows_of_own. Qed.

Lemma get_analytics_summary_slice days now db :
  get_analytics_summary user days (own_tables user db) now =
    get_analytics_summary user days db now.
Proof. unfold get_analytics_summary. simpl. by rewrite since_rows_own. Qed.

Lemma get_daily_stats_slice modes now db :
  get_daily_stats user (modes_of user modes) (own_tables user db) now =
    get_daily_stats user modes db now.
Proof. unfold get_daily_stats. simpl. by rewrite since_rows_own, get_active_mode_own. Qed.

Lemma track_watch_confined fresh event now db :
  confined (own_tables user) (λ db, track_watch fresh user event db now) db.
Proof.
  unfold confined, track_watch. destruct (validated _ _); [|done]. split; [done|].
  unfold own_tables, rows_of. simpl. by rewrite List.filter_app; simpl; rewrite Z.eqb_refl.
Qed.

Lemma submit_feedback_confined fresh feedback_data now db :
  confined (own_tables user) (λ db, submit_feedback fresh user feedback_data db now) db.
Proof.
  unfold confined, submit_feedback. destruct (validated _ _); [|done]. split; [done|].
  unfold own_tables, feedback_of. simpl. by rewrite List.filter_app; simpl; rewrite Z.eqb_refl.
Qed.

End Analytics.

#[export] Instance get_history_proper user page per_page :
  Proper (same_tables user ==> eq) (get_history user page per_page).
Proof.
  intros db1 db2 Hdb. unfold same_tables in Hdb.
  by rewrite <- (get_history_slice user page per_page db1), Hdb, get_history_slice.
Qed.

#[export] Instance get_analytics_summary_proper user days :
  Proper (same_tables user ==> eq ==> eq) (get_analytics_summary user days).
Proof.
  intros db1 db2 Hdb now _ <-. unfold same_tables in Hdb.
  by rewrite <- (get_analytics_summary_slice user days now db1), Hdb,
    get_analytics_summary_slice.
Qed.

#[export] Instance get_daily_stats_proper user :
  Proper (same_db user ==> same_tables user ==> eq ==> eq)
    (λ db, get_daily_stats user (focus_modes db)).
Proof.
  intros db1 db2 [= Hm _] t1 t2 Ht now _ <-. unfold same_tables in Ht.
  by rewrite <- (get_daily_stats_slice user (focus_modes db1) now t1), Hm, Ht,
    get_daily_stats_slice.
Qed.

(** The analytics router is confined: the slice of the user after a write
    of the user is the write served on the slice. *)
Lemma serve_confined fresh now r db :
  own_tables (request_user r) (serve fresh now r db) =
    serve fresh now r (own_tables (request_user r) db).
Proof.
  destruct r as [user event|user feedback_data]; simpl.
  - apply (track_watch_confined user fresh event now db).
  - apply (submit_feedback_confined user fresh feedback_data now db).
Qed.
