(* ===== verification/Routes.v ===== *)
(** * Routes: the route table of main.py and of the routers

    The decorators of the six routers and the [include_router] calls of
    main.py make one list of routes, in the order they are written.  A
    request is resolved as Starlette does it: the first route whose path
    template matches the path and whose method is the method of the
    request serves it; when routes match the path but none the method,
    the answer is 405, and when no route matches the path it is 404.  A
    template matches segment by segment, where [{name}] stands for any
    segment that is not empty.  The redirection of a path with a trailing
    slash and the routes of the documentation, which FastAPI adds, are left
    out. *)

From Stdlib Require Import ZArith String Ascii List.
From stdpp Require Import base option list strings.
From S2P Require Import Prelude.

Local Open Scope string_scope.
Local Open Scope Z_scope.
Local Open Scope list_scope.

(** ** The routes *)

Inductive http_method : Type := GET | POST | PUT | DELETE.

(** The handlers of the application, by the names of the functions. *)
Inductive endpoint : Type :=
| E_health_check
| E_google_auth_redirect | E_google_callback | E_refresh_token | E_logout | E_get_me
| E_demo_login
| E_list_modes | E_reset_modes | E_create_mode | E_get_active_mode | E_get_mode
| E_update_mode | E_delete_mode | E_activate_mode | E_lock_session | E_list_mode_rules
| E_create_rule
| E_get_feed | E_search_feed | E_get_video
| E_check_filter
| E_track_watch | E_get_history | E_submit_feedback | E_get_analytics_summary
| E_get_daily_stats
| E_get_suggestions.

#[export] Instance http_method_eq_dec : EqDecision http_method.
Proof. solve_decision. Defined.

#[export] Instance endpoint_eq_dec : EqDecision endpoint.
Proof. solve_decision. Defined.

(** A decorated handler: [@router.get(path, status_code=...)]. *)
Record Route : Type := route {
  r_method : http_method;
  r_path : string;
  r_status_code : Z;
  r_endpoint : endpoint;
}.

#[export] Instance Route_eq_dec : EqDecision Route.
Proof. solve_decision. Defined.

(** routers/auth.py *)
Definition auth_routes : list Route :=
  [route GET "/google" 200 E_google_auth_redirect;
   route GET "/callback" 200 E_google_callback;
   route POST "/refresh" 200 E_refresh_token;
   route POST "/logout" 200 E_logout;
   route GET "/me" 200 E_get_me;
   route GET "/demo" 200 E_demo_login].

(** routers/modes.py *)
Definition modes_routes : list Route :=
  [route GET EmptyString 200 E_list_modes;
   route POST "/reset" 200 E_reset_modes;
   route POST EmptyString 201 E_create_mode;
   route GET "/active" 200 E_get_active_mode;
   route GET "/{mode_id}" 200 E_get_mode;
   route PUT "/{mode_id}" 200 E_update_mode;
   route DELETE "/{mode_id}" 204 E_delete_mode;
   route POST "/{mode_id}/activate" 200 E_activate_mode;
   route POST "/{mode_id}/lock" 200 E_lock_session;
   route GET "/{mode_id}/rules" 200 E_list_mode_rules;
   route POST "/{mode_id}/rules" 201 E_create_rule].

(** routers/feed.py *)
Definition feed_routes : list Route :=
  [route GET EmptyString 200 E_get_feed;
   route GET "/search" 200 E_search_feed;
   route GET "/video/{video_id}" 200 E_get_video].

(** routers/filter.py *)
Definition filter_routes : list Route :=
  [route POST "/check" 200 E_check_filter].

(** routers/analytics.py *)
Definition analytics_routes : list Route :=
  [route POST "/watch" 201 E_track_watch;
   route GET "/history" 200 E_get_history;
   route POST "/feedback" 201 E_submit_feedback;
   route GET "/summary" 200 E_get_analytics_summary;
   route GET "/daily" 200 E_get_daily_stats].

(** routers/suggestions.py *)
Definition suggestions_routes : list Route :=
  [route GET EmptyString 200 E_get_suggestions].

(** [app.include_router(router, prefix=...)]: the routes of the router
    under the prefix, in their order. *)
Definition include_router (prefix : string) (routes : list Route) : list Route :=
  map (λ r, route (r_method r) (prefix +:+ r_path r) (r_status_code r) (r_endpoint r)) routes.

(** The routes of the application: the health check, then the routers in
    the order main.py includes them. *)
Definition app_routes : list Route :=
  route GET "/health" 200 E_health_check ::
  include_router "/api/auth" auth_routes ++
  include_router "/api/modes" modes_routes ++
  include_router "/api/feed" feed_routes ++
  include_router "/api/filter" filter_routes ++
  include_router "/api/analytics" analytics_routes ++
  include_router "/api/suggestions" suggestions_routes.

(** ** Resolution *)

(** [s.split(sep)]. *)
Fixpoint split_on (sep : ascii) (s : string) : list string :=
  match s with
  | EmptyString => [EmptyString]
  | String c rest =>
      if Ascii.eqb c sep then EmptyString :: split_on sep rest
      else match split_on sep rest with
           | seg :: segs => String c seg :: segs
           | [] => [String c EmptyString]
           end
  end.

(** The segments of a path or of a template. *)
Definition segments (path : string) : list string := split_on "/" path.

(** A segment of a template that is a parameter. *)
Definition is_param (segment : string) : bool := String.prefix "{" segment.

(** [{name}] is compiled to [[^/]+]: any segment but the empty one; any
    other segment of a template matches itself. *)
Definition segment_matches (template segment : string) : bool :=
  if is_param template then negb (String.eqb segment EmptyString)
  else String.eqb template segment.

(** The template matches the whole path. *)
Fixpoint path_matches (template path : list string) : bool :=
  match template, path with
  | [], [] => true
  | t :: template, s :: path => segment_matches t s && path_matches template path
  | _, _ => false
  end.

Definition method_eqb (a b : http_method) : bool := bool_decide (a = b).

(** The route matches the path; and the method too. *)
Definition partial_match (path : list string) (r : Route) : bool :=
  path_matches (segments (r_path r)) path.

Definition full_match (method : http_method) (path : list string) (r : Route) : bool :=
  partial_match path r && method_eqb (r_method r) method.

(** What the router does with a request. *)
Inductive resolution : Type :=
| Found (r : Route)
| MethodNotAllowed
| NotFound.

(** The first full match; 405 when only partial matches exist, 404 when
    none does. *)
Definition resolve_in (routes : list Route) (method : http_method) (path : list string) :
    resolution :=
  match List.find (full_match method path) routes with
  | Some r => Found r
  | None => if existsb (partial_match path) routes then MethodNotAllowed else NotFound
  end.

Definition resolve (method : http_method) (path : string) : resolution :=
  resolve_in app_routes method (segments path).

(** ** Specification *)

(** The path of a template whose parameters are given values, from the
    left; a parameter without a value is left empty. *)
Fixpoint fill (template : list string) (args : list string) : list string :=
  match template with
  | [] => []
  | t :: template =>
      if is_param t then
        match args with
        | a :: args => a :: fill template args
        | [] => EmptyString :: fill template []
        end
      else t :: fill template args
  end.

(** The number of parameters of a template. *)
Definition arity (template : list string) : nat := length (List.filter is_param template).

(** The segments of the templates of a table that are no parameters. *)
Definition literals (routes : list Route) : list string :=
  List.filter (λ s, negb (is_param s)) (routes ≫= λ r, segments (r_path r)).

(** A value of a parameter that no template spells out: the text of an
    identifier, for one. *)
Definition plain_arg (routes : list Route) (a : string) : Prop :=
  a ≠ EmptyString ∧ ¬ In a (literals routes).

(** The first template matches every path the second does, whatever the
    values of the parameters: it has a parameter, or the same word, at
    every place. *)
Fixpoint covers (earlier later : list string) : bool :=
  match earlier, later with
  | [], [] => true
  | e :: earlier, l :: later =>
      (is_param e || (negb (is_param l) && String.eqb e l)) && covers earlier later
  | _, _ => false
  end.

(** The route that serves the paths of a route: the first of the table
    that covers it under its method. *)
Definition serving (routes : list Route) (r : Route) : option Route :=
  List.find (λ r', covers (segments (r_path r')) (segments (r_path r)) &&
                   method_eqb (r_method r') (r_method r)) routes.

(** A template with no empty word but the one before
    the first slash, which every path shares. *)
Definition well_split (r : Route) : bool :=
  match segments (r_path r) with
  | first :: rest =>
      String.eqb first EmptyString &&
      forallb (λ s, is_param s || negb (String.eqb s EmptyString)) rest
  | [] => false
  end.

(** * Theorems *)

(** ** Matching *)

Lemma find_ext_in {A} (p q : A → bool) (l : list A) :
  (∀ x, In x l → p x = q x) → List.find p l = List.find q l.
Proof.
  induction l as [|a l IH]; simpl; [done|]. intros Hpq.
  rewrite (Hpq a) by by left. destruct (q a); [done|]. apply IH. intros x Hx. apply Hpq.
  by right.
Qed.

(** On a path made of plain values, a template matches exactly when it
    covers the template of the path. *)
Lemma path_matches_fill (words : list string) earlier later args :
  Forall (λ a, a ≠ EmptyString ∧ ¬ In a words) args →
  Forall (λ s, is_param s = false → In s words) earlier →
  Forall (λ s, is_param s = false → s ≠ EmptyString) later →
  length args = arity later →
  path_matches earlier (fill later args) = covers earlier later.
Proof.
  revert later args. induction earlier as [|e earlier IH]; intros [|l later] args Hargs He Hl Hn;
    simpl; try done.
  { by destruct (is_param l), args. }
  apply Forall_cons in He as [He He']. apply Forall_cons in Hl as [Hl Hl'].
  unfold arity in *. simpl in Hn. unfold segment_matches.
  destruct (is_param l) eqn:Hpl.
  - destruct args as [|a args]; [done|]. injection Hn as Hn.
    apply Forall_cons in Hargs as [[Hne Hnew] Hargs]. simpl. rewrite IH by done.
    f_equal. destruct (is_param e) eqn:Hpe; simpl.
    + by apply negb_true_iff, String.eqb_neq.
    + apply String.eqb_neq. intros ->. by apply Hnew, He.
  - simpl. rewrite IH by done. f_equal.
    destruct (is_param e) eqn:Hpe; simpl; [|done].
    by apply negb_true_iff, String.eqb_neq, Hl.
Qed.

Lemma literals_In routes r s :
  In r routes → In s (segments (r_path r)) → is_param s = false → In s (literals routes).
Proof.
  intros Hr Hs Hp. apply List.filter_In. split; [|by rewrite Hp].
  apply list_elem_of_In, list_elem_of_bind. exists r. by rewrite !list_elem_of_In.
Qed.

(** ** The table *)

(** The templates of the application have no empty word but the one before
    the first slash. *)
Lemma app_routes_well_split : forallb well_split app_routes = true.
Proof. by vm_compute. Qed.

(** No route of the application is shadowed: the first route that covers
    a route under its method is the route itself. *)
Lemma app_routes_serving :
  forallb (λ r, bool_decide (serving app_routes r = Some r)) app_routes = true.
Proof. by vm_compute. Qed.

(** Each handler is registered once. *)
Lemma app_routes_endpoints : List.NoDup (map r_endpoint app_routes).
Proof. apply NoDup_ListNoDup. by apply (bool_decide_unpack _). Qed.

(** ** Resolution of the paths of a route *)

Section Resolution.
Variable routes : list Route.
Hypothesis Hsplit : forallb well_split routes = true.

(** On the path of a route with plain values, another route of the table
    matches exactly when its template covers the template of the route. *)
Lemma partial_match_fill r r' args :
  In r routes → In r' routes →
  length args = arity (segments (r_path r)) → Forall (plain_arg routes) args →
  partial_match (fill (segments (r_path r)) args) r' =
    covers (segments (r_path r')) (segments (r_path r)).
Proof.
  intros Hr Hr' Hn Hargs. rewrite forallb_forall in Hsplit.
  pose proof (Hsplit r Hr) as Hw. pose proof (Hsplit r' Hr') as Hw'.
  pose proof (literals_In routes r') as Hlit.
  unfold partial_match, well_split in *.
  destruct (segments (r_path r)) as [|first rest]; [done|].
  destruct (segments (r_path r')) as [|first' rest']; [done|].
  apply andb_true_iff in Hw as [->%String.eqb_eq Hrest].
  apply andb_true_iff in Hw' as [->%String.eqb_eq Hrest'].
  simpl. f_equal. apply (path_matches_fill (literals routes)); [done| | |done].
  - apply List.Forall_forall. intros s Hs Hp. apply Hlit; [done|by right|done].
  - apply List.Forall_forall. intros s Hs Hp. rewrite forallb_forall in Hrest.
    specialize (Hrest s Hs). rewrite Hp in Hrest. by apply String.eqb_neq, negb_true_iff.
Qed.

(** A path of a route with plain values is served by the first route that
    covers the route under its method. *)
Lemma resolve_in_fill r args :
  In r routes → length args = arity (segments (r_path r)) →
  Forall (plain_arg routes) args →
  List.find (full_match (r_method r) (fill (segments (r_path r)) args)) routes =
    serving routes r.
Proof.
  intros Hr Hn Hargs. apply find_ext_in. intros r' Hr'. unfold full_match.
  by rewrite partial_match_fill.
Qed.

End Resolution.

(** C28. No route of the application is shadowed by an earlier one: a
    request with the method of a route and a path made from its template,
    with values for the parameters that are not empty and are no word of a
    template (the text of an identifier, for one), is served by that
    route, whatever the values. *)
Theorem route_not_shadowed r args :
  In r app_routes → length args = arity (segments (r_path r)) →
  Forall (plain_arg app_routes) args →
  resolve_in app_routes (r_method r) (fill (segments (r_path r)) args) = Found r.
Proof.
  intros Hr Hn Hargs. unfold resolve_in.
  rewrite (resolve_in_fill app_routes app_routes_well_split) by done.
  pose proof app_routes_serving as Hs. rewrite forallb_forall in Hs.
  by rewrite (proj1 (bool_decide_eq_true _) (Hs r Hr)).
Qed.

(** The words of the templates take precedence over the parameters: the
    path of the active mode is served by [get_active_mode], though the
    template of [get_mode] matches it as well; the methods of a path that
    no route declares are answered 405, and unknown paths 404. *)
Lemma resolve_samples :
  resolve GET "/api/modes/active" = Found (route GET "/api/modes/active" 200 E_get_active_mode) ∧
  partial_match (segments "/api/modes/active")
    (route GET "/api/modes/{mode_id}" 200 E_get_mode) = true ∧
  resolve GET "/api/modes/7" = Found (route GET "/api/modes/{mode_id}" 200 E_get_mode) ∧
  resolve POST "/api/modes/7/lock" =
    Found (route POST "/api/modes/{mode_id}/lock" 200 E_lock_session) ∧
  resolve DELETE "/api/feed" = MethodNotAllowed ∧
  resolve GET "/api/modes/7/unlock" = NotFound ∧
  resolve GET "/health" = Found (route GET "/health" 200 E_health_check).
Proof. by vm_compute. Qed.

(** ** Witnesses *)

Lemma route_not_shadowed_witness :
  resolve_in app_routes GET (segments "/api/modes/2f1c/rules") =
    Found (route GET "/api/modes/{mode_id}/rules" 200 E_list_mode_rules).
Proof.
  apply (route_not_shadowed (route GET "/api/modes/{mode_id}/rules" 200 E_list_mode_rules)
           ["2f1c"]); [|done|].
  - apply list_elem_of_In. by apply (bool_decide_unpack _).
  - repeat constructor; [done|]. intros Hin%list_elem_of_In. revert Hin.
    by apply (bool_decide_unpack _).
Defined.
