(* ===== verification/Responses.v ===== *)
(** * Responses: the response models

    The schemas a row is printed through when a handler returns it:
    [FocusModeResponse] and [FilterRuleResponse] of schemas/mode.py and
    [FeedbackResponse] of schemas/feedback.py, each built from the
    attributes of the row ([from_attributes = True]); and the two request
    bodies of schemas/video.py, [SearchRequest] and [FilterCheckRequest].
    The column [created_at] of a mode, which no handler reads, is not part
    of the row of [Models]: the response takes it from the table of the
    creation times, a parameter. *)

From Stdlib Require Import ZArith String Ascii List Floats.
From stdpp Require Import base option list strings.
From S2P Require Import Prelude Models Schemas FilterEngine Feed.

Local Open Scope string_scope.
Local Open Scope Z_scope.
Local Open Scope list_scope.

(** ** schemas/mode.py *)

(** [FocusModeResponse]. *)
Record FocusModeResponse : Type := mkFocusModeResponse {
  fmr_id : uuid;
  fmr_name : string;
  fmr_description : option string;
  fmr_is_active : bool;
  fmr_is_locked : bool;
  fmr_lock_until : option datetime;
  fmr_allowed_categories : list string;
  fmr_blocked_categories : list string;
  fmr_min_duration_seconds : Z;
  fmr_allowed_languages : list string;
  fmr_max_clickbait_score : float;
  fmr_max_entertainment_score : float;
  fmr_block_shorts : bool;
  fmr_block_trending : bool;
  fmr_daily_time_limit_minutes : option Z;
  fmr_blocked_keywords : list string;
  fmr_created_at : datetime;
}.

(** [FocusModeResponse.model_validate(mode)]: the attributes of the row
    under the names of the schema; the owner is not among them. *)
Definition mode_response (created_at : uuid → datetime) (mode : FocusMode) :
    FocusModeResponse :=
  {| fmr_id := id mode; fmr_name := name mode; fmr_description := description mode;
     fmr_is_active := is_active mode; fmr_is_locked := is_locked mode;
     fmr_lock_until := lock_until mode;
     fmr_allowed_categories := allowed_categories mode;
     fmr_blocked_categories := blocked_categories mode;
     fmr_min_duration_seconds := min_duration_seconds mode;
     fmr_allowed_languages := allowed_languages mode;
     fmr_max_clickbait_score := max_clickbait_score mode;
     fmr_max_entertainment_score := max_entertainment_score mode;
     fmr_block_shorts := block_shorts mode; fmr_block_trending := block_trending mode;
     fmr_daily_time_limit_minutes := daily_time_limit_minutes mode;
     fmr_blocked_keywords := blocked_keywords mode;
     fmr_created_at := created_at (id mode) |}.

(** [FilterRuleResponse]. *)
Record FilterRuleResponse : Type := mkFilterRuleResponse {
  frr_id : uuid;
  frr_rule_type : string;
  frr_condition : string;
  frr_action : string;
  frr_priority : Z;
  frr_is_active : bool;
}.

(** [FilterRuleResponse.model_validate(rule)]: the mode of the rule is not
    printed. *)
Definition rule_response (rule : FilterRule) : FilterRuleResponse :=
  {| frr_id := fr_id rule; frr_rule_type := fr_rule_type rule;
     frr_condition := fr_condition rule; frr_action := fr_action rule;
     frr_priority := fr_priority rule; frr_is_active := fr_is_active rule |}.

(** ** schemas/feedback.py *)

(** [FeedbackResponse]. *)
Record FeedbackResponse : Type := mkFeedbackResponse {
  fbr_id : uuid;
  fbr_video_id : string;
  fbr_feedback_type : string;
  fbr_reason : option string;
  fbr_created_at : datetime;
}.

(** [FeedbackResponse.model_validate(feedback)]: the user and the
    suggested category are not printed. *)
Definition feedback_response (feedback : UserFeedback) : FeedbackResponse :=
  {| fbr_id := fb_id feedback; fbr_video_id := fb_video_id feedback;
     fbr_feedback_type := fb_feedback_type feedback; fbr_reason := fb_reason feedback;
     fbr_created_at := fb_created_at feedback |}.

(** ** schemas/video.py *)

(** [SearchRequest]. *)
Record SearchRequest : Type := mkSearchRequest {
  sr_query : string;
  sr_max_results : Z;
  sr_page_token : option string;
}.

(** [SearchRequest(query=q)]: the defaults of the other fields. *)
Definition SearchRequest_default (query : string) : SearchRequest :=
  {| sr_query := query; sr_max_results := 20; sr_page_token := None |}.

(** The constraints of the fields of [SearchRequest]. *)
Definition search_request_valid (r : SearchRequest) : bool :=
  length_between 1 500 (sr_query r) &&
  ((1 <=? sr_max_results r) && (sr_max_results r <=? 50)).

(** [FilterCheckRequest]. *)
Record FilterCheckRequest : Type := mkFilterCheckRequest {
  fcr_video_id : string;
}.

(** ** Specification *)

(** The row a response was printed from, given its owner. *)
Definition mode_of_response (user : uuid) (r : FocusModeResponse) : FocusMode :=
  {| id := fmr_id r; user_id := user; name := fmr_name r; description := fmr_description r;
     is_active := fmr_is_active r; is_locked := fmr_is_locked r;
     lock_until := fmr_lock_until r;
     allowed_categories := fmr_allowed_categories r;
     blocked_categories := fmr_blocked_categories r;
     min_duration_seconds := fmr_min_duration_seconds r;
     allowed_languages := fmr_allowed_languages r;
     max_clickbait_score := fmr_max_clickbait_score r;
     max_entertainment_score := fmr_max_entertainment_score r;
     block_shorts := fmr_block_shorts r; block_trending := fmr_block_trending r;
     daily_time_limit_minutes := fmr_daily_time_limit_minutes r;
     blocked_keywords := fmr_blocked_keywords r |}.

(** * Theorems *)

(** The response of a mode holds the whole row but its owner. *)
Lemma mode_of_response_response created_at mode :
  mode_of_response (user_id mode) (mode_response created_at mode) = mode.
Proof. by destruct mode. Qed.

(** The filter does not read the owner of the mode. *)
Lemma check_video_owner u1 u2 r video classification :
  check_video (mode_of_response u1 r) video classification =
    check_video (mode_of_response u2 r) video classification.
Proof. reflexivity. Qed.

(** What the client is shown of a mode decides what the filter does
    with it: two modes printed as the same [FocusModeResponse] give the
    same verdict on every video and classification, and the same summary
    of filters; they differ by their owner at most. *)
Theorem response_decides_filter c1 c2 m1 m2 :
  mode_response c1 m1 = mode_response c2 m2 →
  (∀ video classification,
     check_video m1 video classification = check_video m2 video classification) ∧
  get_filter_summary m1 = get_filter_summary m2 ∧
  (user_id m1 = user_id m2 → m1 = m2).
Proof.
  intros Hr.
  rewrite <- (mode_of_response_response c1 m1), <- (mode_of_response_response c2 m2), Hr.
  split_and!; [intros; apply check_video_owner|done|].
  rewrite !mode_of_response_response. intros Hu.
  rewrite <- (mode_of_response_response c1 m1), <- (mode_of_response_response c2 m2).
  by rewrite Hr, Hu.
Qed.

(** The schema [SearchRequest], which no route takes as its body, states
    the constraints the route /search declares on its query parameters. *)
Lemma search_request_valid_query r :
  search_request_valid r = search_valid (sr_query r, sr_max_results r).
Proof. done. Qed.

(** ** Witnesses *)

Lemma response_decides_filter_witness :
  (∀ video classification,
     check_video (FocusMode_default 10 1 "Study") video classification =
       check_video (FocusMode_default 10 2 "Study") video classification) ∧
  get_filter_summary (FocusMode_default 10 1 "Study") =
    get_filter_summary (FocusMode_default 10 2 "Study") ∧
  (user_id (FocusMode_default 10 1 "Study") = user_id (FocusMode_default 10 2 "Study") →
   FocusMode_default 10 1 "Study" = FocusMode_default 10 2 "Study").
Proof.
  by apply (response_decides_filter (λ _, 0) (λ _, 0) (FocusMode_default 10 1 "Study")
              (FocusMode_default 10 2 "Study")).
Defined.
