(* ===== verification/App.v ===== *)
(** * App: main.py, the application

    The routers of the application behind their common dependency.  Every
    route of the modes, feed, filter, analytics and suggestions routers, and
    the routes /refresh and /me of the authentication router, declare
    [user: User = Depends(get_current_user)]: FastAPI runs the dependency
    first and calls the handler with the user it returns, or answers with
    the exception it raises.  The health check, the redirection to Google,
    the two logins and the logout run without it.

    The state of the application is the [World]: the table of users, the
    tables of the modes router, the tables of the analytics router and the
    cache of classifications.  [dispatch] serves one request at one instant
    and returns the answer with the world as committed.  The answers are
    the values the handlers return, printed through the response model of
    the route ([Responses]).  The cache is the table of [Cache]; the
    libraries and the platform are the parameters of the sections of
    [Auth], [Feed] and [FeedDemo].  The route of a request is its
    [endpoint] in the table of [Routes]. *)

From Stdlib Require Import ZArith String Ascii List Floats.
From stdpp Require Import base option list strings gmap relations.
From S2P Require Import Prelude Models Presets Schemas FilterEngine Classifier Cache.
From S2P Require Import FocusEngine ModesRouter YouTube Platform Pipeline Feed.
From S2P Require Import Analytics Suggestions DemoData FeedDemo Auth Isolation.
From S2P Require Import Routes Responses.

Set Warnings "-inexact-float".
Local Open Scope string_scope.
Local Open Scope Z_scope.
Local Open Scope list_scope.

(** ** The state *)

(** The tables of the database. *)
Record World : Type := mkWorld {
  w_users : list User;
  w_db : Db;
  w_tables : Tables;
  w_cache : gmap string ContentCache;
}.

(** [init_db] at startup: the tables are created empty. *)
Definition init_world : World := mkWorld [] (mkDb [] []) no_tables ∅.

(** ** The requests *)

(** The routes behind [get_current_user], with the parameters of each and
    the identifiers the database hands out while it serves them. *)
Inductive api_call : Type :=
| RefreshToken
| GetMe
| ModesWrite (r : Router.request)
| GetActiveMode
| GetMode (mode_id : uuid)
| ListModeRules (mode_id : uuid)
| GetFeed (max_results : Z) (page_token : option string)
| SearchFeed (query : string) (max_results : Z) (page_token : option string)
| GetVideo (video_id : string)
| CheckFilter (request : FilterCheckRequest)
| PostWatch (fresh : uuid) (event : WatchEvent)
| GetHistory (page per_page : Z)
| PostFeedback (fresh : uuid) (feedback_data : FeedbackCreate)
| GetAnalyticsSummary (days : Z)
| GetDailyStats
| GetSuggestions (query : string).

(** The requests of the application: the public routes, and a call with
    the bearer token of the request, if it has one. *)
Inductive api_request : Type :=
| HealthCheck
| GoogleAuthRedirect
| Login (fresh : uuid) (l : login)
| Logout
| Authenticated (token : option string) (c : api_call).

(** ** The answers *)

Inductive answer : Type :=
| AHealth (body : list (string * string))
| ARedirect (url : string)
| AToken (token : TokenResponse)
| AMessage (message : string)
| AUser (user : UserResponse)
| AModes (modes : list FocusModeResponse)
| AMode (mode : FocusModeResponse)
| ANoContent
| ARules (rules : list FilterRuleResponse)
| ARule (rule : FilterRuleResponse)
| AFeed (feed : FeedResponse)
| AVideo (video : VideoResponse)
| ACheck (check : FilterCheckResponse)
| ATracked (status : string)
| AHistory (history : WatchHistoryResponse)
| AFeedback (feedback : FeedbackResponse)
| ASummary (summary : AnalyticsSummary)
| ADaily (stats : DailyStats)
| ASuggestions (suggestions : list string).

(** [health_check]. *)
Definition health_check : list (string * string) :=
  [("status", "healthy"); ("version", "1.0.0")].

(** The answer of a handler that writes to one table, in the world. *)
Definition on_users {A} (wrap : A → answer) (w : World) (r : result A * list User) :
    result answer * World :=
  (wrap <$> r.1, mkWorld r.2 (w_db w) (w_tables w) (w_cache w)).

Definition on_db {A} (wrap : A → answer) (w : World) (r : result A * Db) :
    result answer * World :=
  (wrap <$> r.1, mkWorld (w_users w) r.2 (w_tables w) (w_cache w)).

Definition on_tables {A} (wrap : A → answer) (w : World) (r : result A * Tables) :
    result answer * World :=
  (wrap <$> r.1, mkWorld (w_users w) (w_db w) r.2 (w_cache w)).

Definition on_cache {A} (wrap : A → answer) (w : World)
    (r : result A * gmap string ContentCache) : result answer * World :=
  (wrap <$> r.1, mkWorld (w_users w) (w_db w) (w_tables w) r.2).

(** The answer of a handler that reads. *)
Definition reading {A} (wrap : A → answer) (w : World) (r : result A) :
    result answer * World :=
  (wrap <$> r, w).

(** The routes of the modes router that write. *)
Definition modes_write (created_at : uuid → datetime) (user : uuid) (now : datetime)
    (r : Router.request) (w : World) : result answer * World :=
  let printed := AMode ∘ mode_response created_at in
  let listed := AModes ∘ map (mode_response created_at) in
  match r with
  | Router.ListModes fresh => on_db listed w (Router.list_modes user fresh (w_db w))
  | Router.ResetModes fresh => on_db listed w (Router.reset_modes user fresh (w_db w))
  | Router.CreateMode fresh mode_data =>
      on_db printed w (Router.create_mode user fresh mode_data (w_db w))
  | Router.UpdateMode mode_id mode_data =>
      on_db printed w (Router.update_mode user mode_id mode_data (w_db w) now)
  | Router.DeleteMode mode_id =>
      on_db (λ _, ANoContent) w (Router.delete_mode user mode_id (w_db w))
  | Router.ActivateMode mode_id =>
      on_db printed w (Router.activate_mode user mode_id (w_db w) now)
  | Router.LockSession mode_id duration_minutes =>
      on_db printed w (Router.lock_session user mode_id duration_minutes (w_db w) now)
  | Router.CreateRule mode_id fresh rule_data =>
      on_db (ARule ∘ rule_response) w
        (Router.create_rule user mode_id fresh rule_data (w_db w))
  end.

Section Application.
Context `{Jwt} `{Uuids} `{Random}.

(** The settings, the two requests of the OAuth exchange, the platform,
    the readers of Python and the state of the generator of random
    numbers. *)
Variable settings : Settings.
Variable token_endpoint : string → Response (field string).
Variable userinfo_endpoint : option string → Response UserInfo.
Variable fromisoformat : string → option datetime.
Variable search_endpoint : Params → result (Answer SearchItem).
Variable videos_endpoint : Params → result (Answer VideoItem).
Variable int_of_str : string → option Z.
Variable exn_text : exn → string.
Variable entropy : Z.

(** The creation times of the modes. *)
Variable created_at : uuid → datetime.

(** A handler called with the user [get_current_user] returned. *)
Definition serve_call (user : User) (now : datetime) (c : api_call) (w : World) :
    result answer * World :=
  let modes := focus_modes (w_db w) in
  match c with
  | RefreshToken => reading AToken w (Ok (refresh_token settings user now))
  | GetMe => reading AUser w (Ok (get_me user))
  | ModesWrite r => modes_write created_at (u_id user) now r w
  | GetActiveMode =>
      reading (AMode ∘ mode_response created_at) w
        (Router.get_active_mode (u_id user) (w_db w))
  | GetMode mode_id =>
      reading (AMode ∘ mode_response created_at) w
        (Router.get_mode (u_id user) mode_id (w_db w))
  | ListModeRules mode_id =>
      reading (ARules ∘ map rule_response) w
        (Router.list_mode_rules (u_id user) mode_id (w_db w))
  | GetFeed max_results page_token =>
      on_cache AFeed w
        (served_feed fromisoformat search_endpoint videos_endpoint int_of_str entropy
           max_results page_token (u_id user) modes (w_cache w) now)
  | SearchFeed query max_results page_token =>
      on_cache AFeed w
        (search_feed fromisoformat search_endpoint videos_endpoint exn_text query
           max_results page_token (u_id user) modes (w_cache w) now)
  | GetVideo video_id =>
      on_cache AVideo w
        (get_video fromisoformat videos_endpoint video_id (u_id user) modes (w_cache w) now)
  | CheckFilter request =>
      let video_id := fcr_video_id request in
      on_cache ACheck w
        (check_filter (u_id user) video_id
           (get_video_details fromisoformat videos_endpoint video_id) modes (w_cache w) now)
  | PostWatch fresh event =>
      on_tables ATracked w (track_watch fresh (u_id user) event (w_tables w) now)
  | GetHistory page per_page =>
      reading AHistory w (get_history (u_id user) page per_page (w_tables w))
  | PostFeedback fresh feedback_data =>
      on_tables (AFeedback ∘ feedback_response) w
        (submit_feedback fresh (u_id user) feedback_data (w_tables w) now)
  | GetAnalyticsSummary days =>
      reading ASummary w (get_analytics_summary (u_id user) days (w_tables w) now)
  | GetDailyStats =>
      reading ADaily w (get_daily_stats (u_id user) modes (w_tables w) now)
  | GetSuggestions query => reading ASuggestions w (get_suggestions query)
  end.

(** The application: the public routes, and the routes of the routers
    behind [get_current_user]. *)
Definition dispatch (now : datetime) (r : api_request) (w : World) :
    result answer * World :=
  match r with
  | HealthCheck => (Ok (AHealth health_check), w)
  | GoogleAuthRedirect => (Ok (ARedirect (google_auth_redirect settings)), w)
  | Login fresh l =>
      on_users ARedirect w
        (serve_login settings token_endpoint userinfo_endpoint fresh now l (w_users w))
  | Logout => (Ok (AMessage logout), w)
  | Authenticated token c =>
      match get_current_user settings token (w_users w) now with
      | Raise e => (Raise e, w)
      | Ok user => serve_call user now c w
      end
  end.

(** ** The application as a state machine *)

(** What the database and the clock give a request: identifiers no row
    has, and an instant not before the rows recorded. *)
Definition request_ok (now : datetime) (r : api_request) (w : World) : Prop :=
  match r with
  | Authenticated _ (ModesWrite r) => Router.request_fresh r (w_db w)
  | Authenticated _ (PostWatch fresh _) | Authenticated _ (PostFeedback fresh _) =>
      fresh_key fresh (w_tables w) ∧
      Forall (λ row, wh_watched_at row ≤ now) (watch_history (w_tables w))
  | _ => True
  end.

(** One request served. *)
Inductive api_step : World → World → Prop :=
| api_step_request now r w : request_ok now r w → api_step w (dispatch now r w).2.

End Application.

(** The request a call makes of the modes router, when it writes there. *)
Definition modes_request (c : api_call) : option Router.request :=
  match c with ModesWrite r => Some r | _ => None end.

(** The request a call of a user makes of the analytics router, when it
    writes there, with the key of the new row. *)
Definition analytics_write (user : uuid) (c : api_call) : option (uuid * analytics_request) :=
  match c with
  | PostWatch fresh event => Some (fresh, TrackWatch user event)
  | PostFeedback fresh feedback_data => Some (fresh, SubmitFeedback user feedback_data)
  | _ => None
  end.

(** ** The invariant *)

(** Every row that names a user names a row of the table of users. *)
Definition owner_known (users : list User) (user : uuid) : Prop := In user (map u_id users).

(** The tables are well formed, each as its router keeps it, and the
    foreign keys on the table of users hold. *)
Record world_ok (w : World) : Prop := mkWorldOk {
  ok_users : users_ok (w_users w);
  ok_db : db_ok (w_db w);
  ok_tables : tables_ok (w_tables w);
  ok_cache : cache_ok (w_cache w);
  ok_mode_owners : Forall (λ m, owner_known (w_users w) (user_id m)) (focus_modes (w_db w));
  ok_watch_owners :
    Forall (λ row, owner_known (w_users w) (wh_user_id row)) (watch_history (w_tables w));
  ok_feedback_owners :
    Forall (λ f, owner_known (w_users w) (fb_user_id f)) (user_feedback (w_tables w));
}.

(** What a user can reach of the world: the row of the user, the modes
    and their rules, the history and the feedback. *)
Definition world_view (user : uuid) (w : World) :
    list User * (list FocusMode * list FilterRule) * (list WatchHistory * list UserFeedback) :=
  (with_id user (w_users w), modes_view user (w_db w), analytics_view user (w_tables w)).

(** ** Samples *)

(** Ann and Bob of [Auth.sample_users] with the modes, the rules and the
    history of the samples of the routers: users 1 and 2 own rows in
    each. *)
Definition sample_world : World := mkWorld sample_users sample_db sample_tables ∅.

(** The creation time of the sample modes. *)
Definition at_nine : uuid → datetime := λ _, nine_am.

(** The application with the default settings, the unsigned tokens, the
    generator of first draws, a Google that knows Ann, a platform that
    is down and modes created at nine. *)
Definition sample_dispatch : datetime → api_request → World → result answer * World :=
  dispatch default_settings sample_token_endpoint sample_userinfo no_dates failing_search
    feed_videos small_int no_text 7 at_nine.

(** The token of Ann, issued at nine. *)
Definition ann_token : string :=
  issued default_settings (mkUser 1 "ann@example.org" "g-1" (Some "Ann") None 100 200) nine_am.

(** A first visit: the demo login, then with its token the listing that
    seeds the presets, the activation of the first and a watch. *)
Definition first_visit : list (datetime * api_request) :=
  let token := Some (issued default_settings
                       (mkUser 1 demo_email "demo-user-001" (Some "Demo User") None nine_am
                          nine_am) nine_am) in
  [(nine_am, Login 1 DemoLogin);
   (nine_am + 1, Authenticated token (ModesWrite (Router.ListModes fresh_from_1000)));
   (nine_am + 2, Authenticated token (ModesWrite (Router.ActivateMode 1000)));
   (nine_am + 3, Authenticated token (PostWatch 50 (sample_event 600)))].

(** The world after a sequence of requests. *)
Definition run (requests : list (datetime * api_request)) (w : World) : World :=
  foldl (λ w r, (sample_dispatch r.1 r.2 w).2) w requests.

(** * Theorems *)

(** [check_filter] keeps the table of the cache well formed. *)
Lemma check_filter_cache_ok user video_id fetched modes (cache : gmap string ContentCache)
    now :
  cache_ok cache → cache_ok (check_filter user video_id fetched modes cache now).2.
Proof.
  intros Hok. unfold check_filter.
  destruct (get_active_mode user modes) as [[mode|]|]; [|done..].
  destruct fetched as [[video|]|]; [|done..].
  destruct (classify_video _ _ _ _ _ _) as [[c cache']|] eqn:Hc; [|done].
  apply classify_video_cache_ok in Hc; [|done]. by destruct (check_video _ _ _).
Qed.

Section AppTheorems.
Context `{Jwt} `{Uuids} `{Random}.
Variable settings : Settings.
Variable token_endpoint : string → Response (field string).
Variable userinfo_endpoint : option string → Response UserInfo.
Variable fromisoformat : string → option datetime.
Variable search_endpoint : Params → result (Answer SearchItem).
Variable videos_endpoint : Params → result (Answer VideoItem).
Variable int_of_str : string → option Z.
Variable exn_text : exn → string.
Variable entropy : Z.
Variable created_at : uuid → datetime.

Local Abbreviation serve_call :=
  (serve_call settings fromisoformat search_endpoint videos_endpoint int_of_str exn_text
     entropy created_at) (only parsing).
Local Abbreviation dispatch :=
  (dispatch settings token_endpoint userinfo_endpoint fromisoformat search_endpoint
     videos_endpoint int_of_str exn_text entropy created_at) (only parsing).
Local Abbreviation api_step :=
  (api_step settings token_endpoint userinfo_endpoint fromisoformat search_endpoint
     videos_endpoint int_of_str exn_text entropy created_at) (only parsing).
Local Abbreviation get_current_user := (get_current_user settings) (only parsing).

(** ** What a call writes *)

Lemma serve_call_users user now c w : w_users (serve_call user now c w).2 = w_users w.
Proof. by destruct c as [| |[]| | | | | | | | | | | | |]. Qed.

(** The modes router sees the request of the call, if it has one. *)
Lemma serve_call_db user now c w :
  w_db (serve_call user now c w).2 =
    from_option (λ r, Router.handle (u_id user) now r (w_db w)) (w_db w) (modes_request c).
Proof. by destruct c as [| |[]| | | | | | | | | | | | |]. Qed.

(** And so does the analytics router. *)
Lemma serve_call_tables user now c w :
  w_tables (serve_call user now c w).2 =
    from_option (λ fr, serve fr.1 now fr.2 (w_tables w)) (w_tables w)
      (analytics_write (u_id user) c).
Proof. by destruct c as [| |[]| | | | | | | | | | | | |]. Qed.

Lemma serve_call_cache_ok user now c w :
  cache_ok (w_cache w) → cache_ok (w_cache (serve_call user now c w).2).
Proof.
  intros Hok.
  destruct c as [| |[]| | | | max_results page_token|query max_results page_token
                |video_id|video_id| | | | | |]; simpl; try done.
  - by apply (feed_cache_ok _ _ _ _ _ _ _ exn_text EmptyString EmptyString).
  - by apply (feed_cache_ok _ _ _ (λ _ _, []) (λ _ _ _, []) (λ _ l, l) int_of_str _ query
                EmptyString).
  - by apply (feed_cache_ok _ search_endpoint _ (λ _ _, []) (λ _ _ _, []) (λ _ l, l)
                int_of_str exn_text EmptyString video_id 0 None).
  - by apply check_filter_cache_ok.
Qed.

(** ** The invariant *)

Lemma init_world_ok : world_ok init_world.
Proof. split; try done; [by repeat constructor..|apply no_tables_ok]. Qed.

Lemma analytics_write_user user c fresh r :
  analytics_write user c = Some (fresh, r) → request_user r = user.
Proof. destruct c; try done; by intros [= <- <-]. Qed.

(** The rows a call records belong to its user. *)
Lemma serve_call_owners (P : uuid → Prop) user now c w :
  P (u_id user) →
  Forall (λ row, P (wh_user_id row)) (watch_history (w_tables w)) →
  Forall (λ f, P (fb_user_id f)) (user_feedback (w_tables w)) →
  Forall (λ row, P (wh_user_id row)) (watch_history (w_tables (serve_call user now c w).2)) ∧
  Forall (λ f, P (fb_user_id f)) (user_feedback (w_tables (serve_call user now c w).2)).
Proof.
  intros Hu Hw Hf. rewrite serve_call_tables.
  destruct (analytics_write _ c) as [[fresh r]|] eqn:Ha; simpl; [|done].
  apply serve_owners; [|done]. by rewrite (analytics_write_user _ _ _ _ Ha).
Qed.

(** A handler called with a user of the table keeps the world well
    formed. *)
Lemma serve_call_ok token user now c w :
  world_ok w → In user (w_users w) → request_ok now (Authenticated token c) w →
  world_ok (serve_call user now c w).2.
Proof.
  intros [Hu Hd Ht Hc Hmo Hwo Hfo] Hin Hreq.
  assert (owner_known (w_users w) (u_id user)) as Hknown by by apply in_map.
  destruct (serve_call_owners (owner_known (w_users w)) user now c w) as [Hwo' Hfo'];
    [done..|].
  split; rewrite ?serve_call_users; try done; rewrite ?serve_call_db, ?serve_call_tables.
  - destruct c; simpl; try done. by apply handle_db_ok.
  - destruct c; simpl in *; try done; destruct Hreq.
    + by apply track_watch_ok.
    + by apply submit_feedback_ok.
  - by apply serve_call_cache_ok.
  - destruct (modes_request c); simpl; [by apply handle_owners|done].
Qed.

(** Every request keeps the world well formed. *)
Lemma dispatch_ok now r w :
  world_ok w → request_ok now r w → world_ok (dispatch now r w).2.
Proof.
  intros Hok Hreq. destruct r as [| |fresh l| |token c]; simpl; try done.
  - destruct Hok as [Hu Hd Ht Hc Hmo Hwo Hfo].
    pose proof (after_login_ok settings token_endpoint userinfo_endpoint fresh now l _ Hu).
    pose proof (after_login_incl settings token_endpoint userinfo_endpoint fresh now l _ Hu)
      as Hincl.
    split; simpl; try done; (eapply Forall_impl; [done|]); intros x Hx; by apply Hincl.
  - destruct (get_current_user token (w_users w) now) as [user|e] eqn:Hg; [|done].
    apply get_current_user_inv in Hg as (_ & _ & _ & _ & _ & _ & _ & Hin).
    by apply (serve_call_ok token).
Qed.

(** C15. The application keeps its database consistent: from the empty
    tables of startup, or from any well-formed world, whatever the
    requests, the tokens they carry and the answers of Google and of the
    platform, every world reached is well formed.  The tables of users, of
    modes and rules, of history and feedback and of the cache keep their
    own invariants, and every mode, watch and feedback belongs to a user of
    the table of users. *)
Theorem reachable_world_ok init w :
  world_ok init → rtc api_step init w → world_ok w.
Proof.
  intros Hinit Hreach. induction Hreach as [|w w' w'' Hstep _ IH]; [done|].
  apply IH. destruct Hstep. by apply dispatch_ok.
Qed.

(** ** Authentication *)

(** C26. No route behind the dependency is served without a user: on a
    call, either the answer is the 401 of [get_current_user] and the world
    is untouched, or the token decodes under the key of the settings to the
    identifier of a user of the table, and the request is served by the
    handler of the route called with that user. *)
Theorem dispatch_guarded token now c w :
  users_ok (w_users w) →
  dispatch now (Authenticated token c) w = (Raise credentials_exception, w) ∨
  ∃ user text payload subject,
    token = Some text ∧
    jwt_decode text (jwt_secret_key settings) (jwt_algorithm settings) now = Some payload ∧
    sub payload = Some subject ∧ uuid_parse subject = Some (u_id user) ∧
    In user (w_users w) ∧
    dispatch now (Authenticated token c) w = serve_call user now c w.
Proof.
  intros Hok. simpl.
  destruct (get_current_user token (w_users w) now) as [user|e] eqn:Hg.
  - right. apply get_current_user_inv in Hg as (text & payload & subject & -> & ? & ? & ? & ?).
    by exists user, text, payload, subject.
  - left. by rewrite (get_current_user_raises settings token (w_users w) now e).
Qed.

(** C16. A login opens every route: when a login answers on a well-formed
    world, the token in its redirection belongs to a user of the table, and
    for the lifetime of the token every call that carries it is served by
    the handler of its route called with that user. *)
Theorem login_then_call fresh l now w url w' later c :
  world_ok w → dispatch now (Login fresh l) w = (Ok (ARedirect url), w') →
  later ≤ now + timedelta_minutes (jwt_expire_minutes settings) →
  ∃ user, In user (w_users w') ∧
    url = frontend_url settings +:+ "/auth/callback?token=" +:+ issued settings user now ∧
    dispatch later (Authenticated (Some (issued settings user now)) c) w' =
      serve_call user later c w'.
Proof.
  intros [Hu _ _ _ _ _ _] Hd Hle. simpl in Hd. unfold on_users in Hd.
  destruct (serve_login _ _ _ _ _ _ _) as [[url'|e] users'] eqn:Hs; [|done].
  injection Hd as <- <-.
  destruct (serve_login_inv _ _ _ _ _ _ _ _ _ Hu Hs) as (user & Hok' & Hin & _ & ->).
  exists user. split_and!; [done..|]. unfold App.dispatch. by rewrite issued_accepted.
Qed.

(** ** Isolation *)

(** A handler called with one user leaves the view of every other as it
    was. *)
Lemma serve_call_view user now c w other :
  world_ok w → other ≠ u_id user → world_view other (serve_call user now c w).2 = world_view other w.
Proof.
  intros Hok Hne. unfold world_view.
  rewrite serve_call_users, serve_call_db, serve_call_tables. f_equal; [f_equal|].
  - destruct (modes_request c); simpl; [|done]. apply (handle_view (u_id user)); [done|].
    apply Hok.
  - destruct (analytics_write _ c) as [[fresh r]|] eqn:Ha; simpl; [|done].
    apply serve_view. by rewrite (analytics_write_user _ _ _ _ Ha).
Qed.

(** C12. The application keeps the users apart: a call served with the
    token of one user, whatever the route and whether it answers or raises,
    leaves to every other user the same row, the same modes and rules, the
    same history and the same feedback. *)
Theorem dispatch_isolated token now c w user other :
  world_ok w → get_current_user token (w_users w) now = Ok user → other ≠ u_id user →
  world_view other (dispatch now (Authenticated token c) w).2 = world_view other w.
Proof. intros Hok Hg Hne. simpl. rewrite Hg. by apply serve_call_view. Qed.

End AppTheorems.

(** ** Witnesses *)

Lemma sample_world_ok : world_ok sample_world.
Proof.
  split; [apply sample_users_ok|apply sample_db_ok|apply sample_tables_ok|apply cache_ok_empty|..];
    repeat constructor; vm_compute; tauto.
Qed.

Lemma reachable_world_ok_witness : world_ok (run first_visit init_world).
Proof.
  apply (reachable_world_ok default_settings sample_token_endpoint sample_userinfo no_dates
           failing_search feed_videos small_int no_text 7 at_nine init_world);
    [apply init_world_ok|].
  unfold run, first_visit. cbn [foldl fst snd].
  eapply rtc_r; [|apply api_step_request].
  2:{ unfold request_ok.
      match goal with |- context [w_tables ?w] =>
        replace (w_tables w) with no_tables by (vm_compute; reflexivity) end.
      split; [split; simpl; tauto|constructor]. }
  eapply rtc_r; [|apply api_step_request; exact I].
  eapply rtc_r; [|apply api_step_request].
  2:{ unfold request_ok.
      match goal with |- context [w_db ?w] =>
        replace (w_db w) with (mkDb [] []) by (vm_compute; reflexivity) end.
      split; [intros a b ?; unfold fresh_from_1000 in *; lia|intros k; simpl; tauto]. }
  apply rtc_once, api_step_request. exact I.
Defined.

Lemma dispatch_guarded_witness :
  sample_dispatch nine_am (Authenticated None GetDailyStats) sample_world =
    (Raise credentials_exception, sample_world) ∨
  ∃ user text payload subject,
    None = Some text ∧
    jwt_decode text (jwt_secret_key default_settings) (jwt_algorithm default_settings)
      nine_am = Some payload ∧
    sub payload = Some subject ∧ uuid_parse subject = Some (u_id user) ∧
    In user (w_users sample_world) ∧
    sample_dispatch nine_am (Authenticated None GetDailyStats) sample_world =
      serve_call default_settings no_dates failing_search feed_videos small_int no_text 7
        at_nine user nine_am GetDailyStats sample_world.
Proof.
  exact (dispatch_guarded default_settings sample_token_endpoint sample_userinfo no_dates
           failing_search feed_videos small_int no_text 7 at_nine None nine_am
           GetDailyStats sample_world sample_users_ok).
Defined.

Lemma login_then_call_witness :
  ∃ url w',
    sample_dispatch nine_am (Login 3 DemoLogin) sample_world = (Ok (ARedirect url), w') ∧
    ∃ user, In user (w_users w') ∧
      url = frontend_url default_settings +:+ "/auth/callback?token=" +:+
            issued default_settings user nine_am ∧
      sample_dispatch (nine_am + timedelta_days 1)
        (Authenticated (Some (issued default_settings user nine_am)) GetMe) w' =
        serve_call default_settings no_dates failing_search feed_videos small_int no_text 7
          at_nine user (nine_am + timedelta_days 1) GetMe w'.
Proof.
  destruct (sample_dispatch nine_am (Login 3 DemoLogin) sample_world) as [[[]|e] w'] eqn:Hd;
    try by vm_compute in Hd.
  exists url, w'. split; [done|].
  exact (login_then_call default_settings sample_token_endpoint sample_userinfo no_dates
           failing_search feed_videos small_int no_text 7 at_nine 3 DemoLogin nine_am
           sample_world url w' (nine_am + timedelta_days 1) GetMe sample_world_ok Hd
           ltac:(by vm_compute)).
Defined.

Lemma dispatch_isolated_witness :
  world_view 2
    (sample_dispatch nine_am
       (Authenticated (Some ann_token) (ModesWrite (Router.ResetModes fresh_from_1000)))
       sample_world).2 = world_view 2 sample_world.
Proof.
  apply (dispatch_isolated default_settings sample_token_endpoint sample_userinfo no_dates
           failing_search feed_videos small_int no_text 7 at_nine (Some ann_token)
           nine_am _ sample_world (mkUser 1 "ann@example.org" "g-1" (Some "Ann") None 100 200) 2
           sample_world_ok); [by vm_compute|done].
Defined.
