(* ===== verification/Noninterference.v ===== *)
(** * Noninterference: what a user is answered depends on that user alone

    [Isolation] shows that a request of one user leaves what the others
    can reach as it was; [Confinement] that a handler reads and writes the
    rows of its user only.  Here the two are put together for the whole
    application of [App].  What a user observes of a world is the view of
    [App.world_view] (the row of the user, the modes and their rules, the
    history and the feedback) and the cache of classifications, which the
    users share.  Two worlds a user observes alike answer every request of
    that user alike, and are observed alike afterwards; and over two runs
    in which the user makes the same calls, whatever the others ask and
    whether they ask at all, the user reaches the same rows. *)

From Stdlib Require Import ZArith String List Morphisms.
From stdpp Require Import base option list strings gmap relations.
From S2P Require Import Prelude Models Presets Schemas FilterEngine Classifier Cache.
From S2P Require Import FocusEngine ModesRouter YouTube Platform Pipeline Feed Analytics.
From S2P Require Import Suggestions DemoData FeedDemo Auth Isolation Confinement Responses App.

Local Open Scope string_scope.
Local Open Scope Z_scope.
Local Open Scope list_scope.

(** ** What a user observes *)

(** The view of the user, and the cache. *)
Definition observed (user : uuid) (w : World) :
    list User * (list FocusMode * list FilterRule) * (list WatchHistory * list UserFeedback) *
    gmap string ContentCache :=
  (world_view user w, w_cache w).

(** Two worlds the user cannot tell apart. *)
Definition same_world (user : uuid) : relation World :=
  λ w1 w2, observed user w1 = observed user w2.

(** Two worlds in which the user reaches the same rows. *)
Definition same_view (user : uuid) : relation World :=
  λ w1 w2, world_view user w1 = world_view user w2.

(** ** Two runs side by side *)

Section Sessions.
Context `{Jwt} `{Uuids} `{Random}.
Variable settings : Settings.
Variable token_endpoint : string → Response (field string).
Variable userinfo_endpoint : option string → Response UserInfo.
Variable fromisoformat : string → option datetime.
Variable search_endpoint : Params → result (Answer SearchItem).
Variable videos_endpoint : Params → result (Answer VideoItem).
Variable int_of_str : string → option Z.
Variable exn_text : exn → string.
Variable entropy : Z.
Variable created_at : uuid → datetime.

Local Abbreviation dispatch :=
  (dispatch settings token_endpoint userinfo_endpoint fromisoformat search_endpoint
     videos_endpoint int_of_str exn_text entropy created_at) (only parsing).

(** The token is not one of the user: it is refused, or it belongs to
    another. *)
Definition of_another (user : uuid) (token : option string) (now : datetime) (w : World) :
    Prop :=
  ∀ who, get_current_user settings token (w_users w) now = Ok who → u_id who ≠ user.

(** The login is not one of the user: it raises, or it redirects with
    the token of another. *)
Definition login_of_another (user : uuid) (fresh : uuid) (now : datetime) (l : login)
    (w : World) : Prop :=
  ∀ who, u_id who = user →
    (dispatch now (Login fresh l) w).1 ≠
      Ok (ARedirect (frontend_url settings +:+ "/auth/callback?token=" +:+
                     issued settings who now)).

(** Two runs of the application in which a user makes the same calls at
    the same instants, and the others call and log in as they please: a
    step is a call of the user served in both worlds, or a call with the
    token of another or a login of another served in one of them. *)
Inductive session_step (user : uuid) : relation (World * World) :=
| step_own token now c w1 w2 who :
    get_current_user settings token (w_users w1) now = Ok who → u_id who = user →
    request_ok now (Authenticated token c) w1 → request_ok now (Authenticated token c) w2 →
    session_step user (w1, w2)
      ((dispatch now (Authenticated token c) w1).2, (dispatch now (Authenticated token c) w2).2)
| step_left token now c w1 w2 :
    of_another user token now w1 → request_ok now (Authenticated token c) w1 →
    session_step user (w1, w2) ((dispatch now (Authenticated token c) w1).2, w2)
| step_right token now c w1 w2 :
    of_another user token now w2 → request_ok now (Authenticated token c) w2 →
    session_step user (w1, w2) (w1, (dispatch now (Authenticated token c) w2).2)
| step_login_left fresh now l w1 w2 :
    login_of_another user fresh now l w1 →
    session_step user (w1, w2) ((dispatch now (Login fresh l) w1).2, w2)
| step_login_right fresh now l w1 w2 :
    login_of_another user fresh now l w2 →
    session_step user (w1, w2) (w1, (dispatch now (Login fresh l) w2).2).

End Sessions.

(** ** Samples *)

(** The world of [App.sample_world] in which Bob has watched nothing. *)
Definition quiet_world : World :=
  mkWorld sample_users sample_db (own_tables 1 sample_tables) ∅.

(** The token of Bob, issued at nine. *)
Definition bob_token : string :=
  issued default_settings (mkUser 2 "bob@example.org" "g-2" None None 150 150) nine_am.

(** Two runs: in the first Bob records a watch, the demo account logs in
    and then Ann activates her second mode; in the second Ann does the
    same in the quiet world. *)
Definition busy_run : World :=
  run [(nine_am, Authenticated (Some bob_token) (PostWatch 50 (sample_event 600)));
       (nine_am, Login 3 DemoLogin);
       (nine_am + 1, Authenticated (Some ann_token) (ModesWrite (Router.ActivateMode 11)))]
    sample_world.

Definition quiet_run : World :=
  run [(nine_am + 1, Authenticated (Some ann_token) (ModesWrite (Router.ActivateMode 11)))]
    quiet_world.

(** * Theorems *)

#[export] Instance same_world_equivalence user : Equivalence (same_world user).
Proof. unfold same_world. split; [done|by intros ?? ->|by intros ??? -> ->]. Qed.

#[export] Instance same_view_equivalence user : Equivalence (same_view user).
Proof. unfold same_view. split; [done|by intros ?? ->|by intros ??? -> ->]. Qed.

#[export] Instance same_world_view user : subrelation (same_world user) (same_view user).
Proof. intros w1 w2 Hw. by apply (f_equal fst) in Hw. Qed.

(** The tables of two worlds with the same view have the same slices. *)
Lemma same_view_inv user w1 w2 :
  same_view user w1 w2 ↔
  with_id user (w_users w1) = with_id user (w_users w2) ∧
  same_db user (w_db w1) (w_db w2) ∧ same_tables user (w_tables w1) (w_tables w2).
Proof.
  unfold same_view, world_view. split.
  - intros [= Hu Hm Hr Hw Hf]. split_and!; [done|..].
    + apply same_db_view. unfold modes_view. by rewrite Hm, Hr.
    + apply same_tables_view. unfold analytics_view. by rewrite Hw, Hf.
  - intros (Hu & Hd%same_db_view & Ht%same_tables_view). by rewrite Hu, Hd, Ht.
Qed.

#[export] Instance w_db_proper user : Proper (same_view user ==> same_db user) w_db.
Proof. intros w1 w2 Hw. by apply same_view_inv in Hw as (_ & ? & _). Qed.

#[export] Instance w_tables_proper user : Proper (same_view user ==> same_tables user) w_tables.
Proof. intros w1 w2 Hw. by apply same_view_inv in Hw as (_ & _ & ?). Qed.

(** The active mode is the same in both. *)
Lemma same_db_active user db1 db2 :
  same_db user db1 db2 →
  get_active_mode user (focus_modes db1) = get_active_mode user (focus_modes db2).
Proof.
  intros [= Hm _]. by rewrite <- (get_active_mode_own user (focus_modes db1)), Hm,
    get_active_mode_own.
Qed.

(** ** The handlers of the feed read the active mode only *)

Section Feed.
Context `{Random}.
Variable fromisoformat : string → option datetime.
Variable search_endpoint : Params → result (Answer SearchItem).
Variable videos_endpoint : Params → result (Answer VideoItem).
Variable int_of_str : string → option Z.
Variable exn_text : exn → string.
Variable entropy : Z.
Variables (user : uuid) (modes1 modes2 : list FocusMode) (cache : gmap string ContentCache).
Variable now : datetime.
Hypothesis same_active : get_active_mode user modes1 = get_active_mode user modes2.

Lemma served_feed_active max_results page_token :
  served_feed fromisoformat search_endpoint videos_endpoint int_of_str entropy max_results
    page_token user modes1 cache now =
  served_feed fromisoformat search_endpoint videos_endpoint int_of_str entropy max_results
    page_token user modes2 cache now.
Proof. unfold served_feed, get_feed. by rewrite same_active. Qed.

Lemma search_feed_active query max_results page_token :
  search_feed fromisoformat search_endpoint videos_endpoint exn_text query max_results
    page_token user modes1 cache now =
  search_feed fromisoformat search_endpoint videos_endpoint exn_text query max_results
    page_token user modes2 cache now.
Proof. unfold search_feed. by rewrite same_active. Qed.

Lemma get_video_active video_id :
  get_video fromisoformat videos_endpoint video_id user modes1 cache now =
  get_video fromisoformat videos_endpoint video_id user modes2 cache now.
Proof. unfold get_video. by rewrite same_active. Qed.

Lemma check_filter_active video_id fetched :
  check_filter user video_id fetched modes1 cache now =
  check_filter user video_id fetched modes2 cache now.
Proof. unfold check_filter. by rewrite same_active. Qed.

End Feed.

(** ** One call in two worlds *)

Lemma same_world_inv user w1 w2 :
  same_world user w1 w2 ↔ same_view user w1 w2 ∧ w_cache w1 = w_cache w2.
Proof.
  unfold same_world, same_view, observed. split; [|by intros [-> ->]].
  intros Hw. split; [by apply (f_equal fst) in Hw|by apply (f_equal snd) in Hw].
Qed.

(** A confined handler of the modes router answers alike. *)
Lemma on_db_alike {A} (wrap : A → answer) user (handler : Db → result A * Db) w1 w2 :
  confined (own_db user) handler (w_db w1) → confined (own_db user) handler (w_db w2) →
  same_db user (w_db w1) (w_db w2) →
  (on_db wrap w1 (handler (w_db w1))).1 = (on_db wrap w2 (handler (w_db w2))).1.
Proof. intros H1 H2 Hdb. simpl. f_equal. by apply (confined_same (own_db user) handler). Qed.

Lemma on_tables_alike {A} (wrap : A → answer) user (handler : Tables → result A * Tables)
    w1 w2 :
  confined (own_tables user) handler (w_tables w1) →
  confined (own_tables user) handler (w_tables w2) →
  same_tables user (w_tables w1) (w_tables w2) →
  (on_tables wrap w1 (handler (w_tables w1))).1 = (on_tables wrap w2 (handler (w_tables w2))).1.
Proof. intros H1 H2 Hdb. simpl. f_equal. by apply (confined_same (own_tables user) handler). Qed.

(** The routes of the modes router that write answer alike. *)
Lemma modes_write_alike created_at user now r w1 w2 :
  db_ok (w_db w1) → db_ok (w_db w2) →
  Router.request_fresh r (w_db w1) → Router.request_fresh r (w_db w2) →
  same_db user (w_db w1) (w_db w2) →
  (modes_write created_at user now r w1).1 = (modes_write created_at user now r w2).1.
Proof.
  intros Hok1 Hok2 Hf1 Hf2 Hdb. destruct r; simpl in Hf1, Hf2; unfold modes_write.
  - by apply (on_db_alike _ user (Router.list_modes user fresh));
      [apply list_modes_confined..|].
  - by apply (on_db_alike _ user (Router.reset_modes user fresh));
      [apply reset_modes_confined..|].
  - by apply (on_db_alike _ user (Router.create_mode user fresh mode_data));
      [apply create_mode_confined..|].
  - by apply (on_db_alike _ user (λ db, Router.update_mode user mode_id mode_data db now));
      [apply update_mode_confined..|].
  - by apply (on_db_alike _ user (Router.delete_mode user mode_id));
      [apply delete_mode_confined..|].
  - by apply (on_db_alike _ user (λ db, Router.activate_mode user mode_id db now));
      [apply activate_mode_confined..|].
  - by apply (on_db_alike _ user
                (λ db, Router.lock_session user mode_id duration_minutes db now));
      [apply lock_session_confined..|].
  - by apply (on_db_alike _ user (Router.create_rule user mode_id fresh rule_data));
      [apply create_rule_confined..|].
Qed.

Section Calls.
Context `{Jwt} `{Uuids} `{Random}.
Variable settings : Settings.
Variable token_endpoint : string → Response (field string).
Variable userinfo_endpoint : option string → Response UserInfo.
Variable fromisoformat : string → option datetime.
Variable search_endpoint : Params → result (Answer SearchItem).
Variable videos_endpoint : Params → result (Answer VideoItem).
Variable int_of_str : string → option Z.
Variable exn_text : exn → string.
Variable entropy : Z.
Variable created_at : uuid → datetime.

Local Abbreviation serve_call :=
  (serve_call settings fromisoformat search_endpoint videos_endpoint int_of_str exn_text
     entropy created_at) (only parsing).
Local Abbreviation dispatch :=
  (dispatch settings token_endpoint userinfo_endpoint fromisoformat search_endpoint
     videos_endpoint int_of_str exn_text entropy created_at) (only parsing).
Local Abbreviation session_step :=
  (session_step settings token_endpoint userinfo_endpoint fromisoformat search_endpoint
     videos_endpoint int_of_str exn_text entropy created_at) (only parsing).
Local Abbreviation get_current_user := (get_current_user settings) (only parsing).

(** The view of the user after a call is decided by the view before. *)
Lemma serve_call_same_view token user now c w1 w2 :
  world_ok w1 → world_ok w2 →
  request_ok now (Authenticated token c) w1 → request_ok now (Authenticated token c) w2 →
  same_view (u_id user) w1 w2 →
  same_view (u_id user) (serve_call user now c w1).2 (serve_call user now c w2).2.
Proof.
  intros Hok1 Hok2 Hr1 Hr2 (Hu & Hdb & Ht)%same_view_inv. apply same_view_inv.
  rewrite !serve_call_users, !serve_call_db, !serve_call_tables. split_and!; [done|..].
  - destruct c; simpl; try done. unfold same_db.
    rewrite !handle_confined; [by rewrite Hdb|apply Hok2|done|apply Hok1|done].
  - destruct (analytics_write _ c) as [[fresh r]|] eqn:Ha; simpl; [|done].
    unfold same_tables. rewrite <- (analytics_write_user _ _ _ _ Ha), !serve_confined.
    by rewrite (analytics_write_user _ _ _ _ Ha), Ht.
Qed.

(** The answer of a call and the cache it leaves are decided by what the
    user observes. *)
Lemma serve_call_answer token user now c w1 w2 :
  world_ok w1 → world_ok w2 →
  request_ok now (Authenticated token c) w1 → request_ok now (Authenticated token c) w2 →
  same_world (u_id user) w1 w2 →
  (serve_call user now c w1).1 = (serve_call user now c w2).1 ∧
  w_cache (serve_call user now c w1).2 = w_cache (serve_call user now c w2).2.
Proof.
  intros Hok1 Hok2 Hr1 Hr2 [(Hu & Hdb & Ht)%same_view_inv Hc]%same_world_inv.
  pose proof (same_db_active _ _ _ Hdb) as Ha.
  destruct c; cbn [App.serve_call]; rewrite <- ?Hc; try done.
  - split; [|destruct r; by simpl]. apply modes_write_alike; [apply Hok1|apply Hok2|done..].
  - by rewrite Hdb.
  - by rewrite Hdb.
  - by rewrite Hdb.
  - by rewrite (served_feed_active _ _ _ _ _ _ _ _ _ _ Ha).
  - by rewrite (search_feed_active _ _ _ _ _ _ _ _ _ Ha).
  - by rewrite (get_video_active _ _ _ _ _ _ _ Ha).
  - by rewrite (check_filter_active _ _ _ _ _ Ha).
  - split; [|done].
    by apply (on_tables_alike _ (u_id user) (λ db, track_watch fresh (u_id user) event db now));
      [apply track_watch_confined..|].
  - by rewrite Ht.
  - split; [|done].
    by apply (on_tables_alike _ (u_id user)
                (λ db, submit_feedback fresh (u_id user) feedback_data db now));
      [apply submit_feedback_confined..|].
  - by rewrite Ht.
  - by rewrite (get_daily_stats_proper (u_id user) (w_db w1) (w_db w2) Hdb (w_tables w1)
                  (w_tables w2) Ht now now eq_refl).
Qed.

(** ** One request in two worlds *)

(** The dependency reads the row of the user only. *)
Lemma get_current_user_same token users1 users2 now user :
  get_current_user token users1 now = Ok user →
  with_id (u_id user) users1 = with_id (u_id user) users2 →
  get_current_user token users2 now = Ok user.
Proof.
  intros Hg Hu.
  pose proof Hg as (text & payload & subject & -> & Hd & Hs & Hp & _)%get_current_user_inv.
  unfold Auth.get_current_user in *. rewrite Hd, Hs, Hp in *. by rewrite <- Hu.
Qed.

(** C13. What a user is answered is decided by what that user observes.
    Take two well-formed worlds in which a user has the same row, the same
    modes and rules, the same history and feedback, and which share the
    cache of classifications, whatever the rows of the other users are.
    A call with the token of the user, on any route, is answered alike in
    both, with the same response or the same exception, and leaves two
    worlds the user still observes alike. *)
Theorem dispatch_noninterference token now c w1 w2 user :
  world_ok w1 → world_ok w2 →
  request_ok now (Authenticated token c) w1 → request_ok now (Authenticated token c) w2 →
  get_current_user token (w_users w1) now = Ok user →
  same_world (u_id user) w1 w2 →
  (dispatch now (Authenticated token c) w1).1 = (dispatch now (Authenticated token c) w2).1 ∧
  same_world (u_id user) (dispatch now (Authenticated token c) w1).2
    (dispatch now (Authenticated token c) w2).2.
Proof.
  intros Hok1 Hok2 Hr1 Hr2 Hg Hw. pose proof Hw as [Hv Hc]%same_world_inv.
  pose proof Hv as (Hu & _)%same_view_inv. cbn [App.dispatch].
  rewrite Hg, (get_current_user_same _ _ _ _ _ Hg Hu).
  destruct (serve_call_answer token user now c w1 w2) as [Ha Hc']; [done..|].
  split; [done|]. apply same_world_inv. split; [|done]. by apply (serve_call_same_view token).
Qed.

(** ** Two runs side by side *)

(** A call with the token of another, or with a token that is refused,
    leaves the view of the user as it was, and the world well formed. *)
Lemma dispatch_of_another user token now c w :
  world_ok w → of_another settings user token now w →
  request_ok now (Authenticated token c) w →
  world_ok (dispatch now (Authenticated token c) w).2 ∧
  same_view user (dispatch now (Authenticated token c) w).2 w.
Proof.
  intros Hok Ho Hr. split; [by apply dispatch_ok|]. unfold same_view. cbn [App.dispatch].
  destruct (get_current_user token (w_users w) now) as [who|e] eqn:Hg; [|done].
  apply serve_call_view; [done|]. intros ->. by apply (Ho who).
Qed.

(** A login of another leaves the view of the user as it was, and the
    world well formed. *)
Lemma dispatch_login_of_another user fresh now l w :
  world_ok w → login_of_another settings token_endpoint userinfo_endpoint fromisoformat
                 search_endpoint videos_endpoint int_of_str exn_text entropy created_at
                 user fresh now l w →
  world_ok (dispatch now (Login fresh l) w).2 ∧
  same_view user (dispatch now (Login fresh l) w).2 w.
Proof.
  intros Hok Ho. split; [by apply dispatch_ok|]. unfold same_view, world_view.
  unfold login_of_another in Ho. cbn [App.dispatch] in *. unfold on_users in *. cbn [fst snd] in *.
  destruct (serve_login _ _ _ _ _ _ _) as [[url|e] users'] eqn:Hs;
    cbn [fst snd w_users w_db w_tables].
  - destruct (serve_login_frame _ _ _ _ _ _ _ _ _ (ok_users _ Hok) Hs) as (who & _ & -> & Hf).
    rewrite Hf; [done|]. intros Hu. by apply (Ho who).
  - by rewrite (serve_login_raise _ _ _ _ _ _ _ _ _ Hs).
Qed.

(** A step of two runs keeps the worlds well formed and the views of the
    user equal. *)
Lemma session_step_same_view user ww ww' :
  session_step user ww ww' →
  world_ok ww.1 → world_ok ww.2 → same_view user ww.1 ww.2 →
  world_ok ww'.1 ∧ world_ok ww'.2 ∧ same_view user ww'.1 ww'.2.
Proof.
  intros [token now c w1 w2 who Hg <- Hr1 Hr2|token now c w1 w2 Ho Hr|token now c w1 w2 Ho Hr
         |fresh now l w1 w2 Ho|fresh now l w1 w2 Ho] Hok1 Hok2 Hv; cbn [fst snd] in *.
  - split_and!; [by apply dispatch_ok..|]. pose proof Hv as (Hu & _)%same_view_inv.
    cbn [App.dispatch]. rewrite Hg, (get_current_user_same _ _ _ _ _ Hg Hu).
    by apply (serve_call_same_view token).
  - destruct (dispatch_of_another user token now c w1) as [Hok' Hv']; [done..|].
    split_and!; [done..|]. by rewrite Hv'.
  - destruct (dispatch_of_another user token now c w2) as [Hok' Hv']; [done..|].
    split_and!; [done..|]. by rewrite Hv'.
  - destruct (dispatch_login_of_another user fresh now l w1) as [Hok' Hv']; [done..|].
    split_and!; [done..|]. by rewrite Hv'.
  - destruct (dispatch_login_of_another user fresh now l w2) as [Hok' Hv']; [done..|].
    split_and!; [done..|]. by rewrite Hv'.
Qed.

Lemma sessions_same_view user ww ww' :
  rtc (session_step user) ww ww' →
  world_ok ww.1 → world_ok ww.2 → same_view user ww.1 ww.2 → same_view user ww'.1 ww'.2.
Proof.
  induction 1 as [ww|ww ww' ww'' Hstep _ IH]; [done|]. intros Hok1 Hok2 Hv.
  destruct (session_step_same_view user ww ww' Hstep) as (? & ? & ?); [done..|]. by apply IH.
Qed.

(** C14. The users do not interfere.  Take two runs of the application
    from two well-formed worlds in which a user reaches the same rows.  In
    both the user makes the same calls at the same instants; between them
    the others call whatever routes they please, with their own tokens or
    with tokens that are refused, and log in, in one run and not in the
    other.  At the end the user reaches the same row, the same modes and rules, the same
    history and the same feedback in both: nothing another user does
    shows in them. *)
Theorem sessions_noninterfere user w1 w2 w1' w2' :
  world_ok w1 → world_ok w2 → same_view user w1 w2 →
  rtc (session_step user) (w1, w2) (w1', w2') → same_view user w1' w2'.
Proof.
  intros Hok1 Hok2 Hv Hrun. by apply (sessions_same_view user (w1, w2) (w1', w2')).
Qed.

End Calls.

(** ** Witnesses *)

Lemma quiet_world_ok : world_ok quiet_world.
Proof.
  split; [apply sample_users_ok|apply sample_db_ok| |apply cache_ok_empty|..];
    [|repeat constructor; vm_compute; tauto..].
  split; simpl; repeat constructor; try done; simpl; try lia; intros H; simpl in H; lia.
Qed.

Lemma dispatch_noninterference_witness :
  (sample_dispatch nine_am (Authenticated (Some ann_token) GetDailyStats) sample_world).1 =
    (sample_dispatch nine_am (Authenticated (Some ann_token) GetDailyStats) quiet_world).1 ∧
  same_world 1
    (sample_dispatch nine_am (Authenticated (Some ann_token) GetDailyStats) sample_world).2
    (sample_dispatch nine_am (Authenticated (Some ann_token) GetDailyStats) quiet_world).2.
Proof.
  apply (dispatch_noninterference default_settings sample_token_endpoint sample_userinfo
           no_dates failing_search feed_videos small_int no_text 7 at_nine (Some ann_token)
           nine_am GetDailyStats sample_world quiet_world
           (mkUser 1 "ann@example.org" "g-1" (Some "Ann") None 100 200)
           sample_world_ok quiet_world_ok I I); by vm_compute.
Defined.

Lemma sessions_noninterfere_witness : same_view 1 busy_run quiet_run.
Proof.
  apply (sessions_noninterfere default_settings sample_token_endpoint sample_userinfo
           no_dates failing_search feed_videos small_int no_text 7 at_nine 1 sample_world
           quiet_world busy_run quiet_run sample_world_ok quiet_world_ok); [by vm_compute|].
  eapply rtc_l.
  { apply (step_left _ _ _ _ _ _ _ _ _ _ 1 (Some bob_token) nine_am
             (PostWatch 50 (sample_event 600))).
    - intros who Hg. vm_compute in Hg. by injection Hg as <-.
    - split; [split; simpl; intros ?; lia|repeat constructor; vm_compute; discriminate]. }
  eapply rtc_l.
  { apply (step_login_left _ _ _ _ _ _ _ _ _ _ 1 3 nine_am DemoLogin).
    intros [i ? ? ? ? ? ?] Hu Heq. simpl in Hu. subst i. by vm_compute in Heq. }
  apply rtc_once.
  apply (step_own _ _ _ _ _ _ _ _ _ _ 1 (Some ann_token) (nine_am + 1)
           (ModesWrite (Router.ActivateMode 11)) _ quiet_world
           (mkUser 1 "ann@example.org" "g-1" (Some "Ann") None 100 200)); by vm_compute.
Defined.
